(** * Bug Notes Assistant: document model and transformation engine

    A shallow embedding of the text engine of [src/testv021.py] (and of the
    older [src/test.py] where the two differ), together with the properties
    of the specification that concern it.

    Python strings are sequences of Unicode code points; they are modelled
    as lists of code points so that [str.splitlines], [str.strip] and the
    [\s] class of the [re] module keep their Unicode meaning. *)

From Stdlib Require Import String Ascii DecimalString.
From Stdlib Require Import List NArith Arith Lia Bool.
Import ListNotations.

Set Implicit Arguments.
Set Warnings "-notation-for-abbreviation".

(** ** Python strings *)

Module Py.

Notation char := N (only parsing).
Notation pystr := (list N) (only parsing).

(** An ASCII literal of the source, as a list of code points. *)
Definition py (s : string) : pystr := map N_of_ascii (list_ascii_of_string s).
Arguments py s%_string.

Definition LF : char := 10%N.
Definition CR : char := 13%N.

Definition mem (c : char) (l : list char) : bool := existsb (N.eqb c) l.

(** [str.isspace] for one code point (the table of CPython's
    [_PyUnicode_IsWhitespace]); [str.strip()] and the [\s] class of [re]
    use the same set. *)
Definition is_space (c : char) : bool :=
  mem c [0x09; 0x0A; 0x0B; 0x0C; 0x0D; 0x1C; 0x1D; 0x1E; 0x1F; 0x20; 0x85;
         0xA0; 0x1680; 0x2000; 0x2001; 0x2002; 0x2003; 0x2004; 0x2005;
         0x2006; 0x2007; 0x2008; 0x2009; 0x200A; 0x2028; 0x2029; 0x202F;
         0x205F; 0x3000]%N.

(** The line boundaries of [str.splitlines] ([_PyUnicode_IsLinebreak]). *)
Definition is_linebreak (c : char) : bool :=
  mem c [0x0A; 0x0B; 0x0C; 0x0D; 0x1C; 0x1D; 0x1E; 0x85; 0x2028; 0x2029]%N.

Fixpoint str_eqb (a b : pystr) : bool :=
  match a, b with
  | [], [] => true
  | x :: a', y :: b' => N.eqb x y && str_eqb a' b'
  | _, _ => false
  end.

Fixpoint startswith (s p : pystr) {struct p} : bool :=
  match p, s with
  | [], _ => true
  | x :: p', y :: s' => N.eqb x y && startswith s' p'
  | _ :: _, [] => false
  end.

Definition endswith (s p : pystr) : bool := startswith (rev s) (rev p).

(** [p in s] *)
Fixpoint contains (s p : pystr) : bool :=
  startswith s p || match s with [] => false | _ :: s' => contains s' p end.

Fixpoint lstrip (s : pystr) : pystr :=
  match s with
  | [] => []
  | c :: s' => if is_space c then lstrip s' else s
  end.

Definition rstrip (s : pystr) : pystr := rev (lstrip (rev s)).

(** [s.strip()] *)
Definition strip (s : pystr) : pystr := rstrip (lstrip s).

(** [sep.join(ls)] *)
Fixpoint join (sep : pystr) (ls : list pystr) : pystr :=
  match ls with
  | [] => []
  | [l] => l
  | l :: r => l ++ sep ++ join sep r
  end.

Definition cons_first (c : char) (ls : list pystr) : list pystr :=
  match ls with
  | [] => [[c]]
  | l :: r => (c :: l) :: r
  end.

(** [s.splitlines()]: the text is cut at every line boundary, a CR LF pair
    counting as one, and a final boundary opens no empty last line. *)
Fixpoint splitlines (s : pystr) : list pystr :=
  match s with
  | [] => []
  | c :: s' =>
      if is_linebreak c then
        [] :: (if N.eqb c CR then
                 match s' with
                 | d :: s'' => if N.eqb d LF then splitlines s'' else splitlines s'
                 | [] => []
                 end
               else splitlines s')
      else cons_first c (splitlines s')
  end.

(** [ls[i:i] = block] *)
Definition insert_at (A : Type) (i : nat) (block ls : list A) : list A :=
  firstn i ls ++ block ++ skipn i ls.

(** [del ls[i]] for an index in range *)
Definition delete_at (A : Type) (i : nat) (ls : list A) : list A :=
  firstn i ls ++ skipn (S i) ls.

(** The closing idiom of every operation:
    [out = "\n".join(lines); if not out.endswith("\n"): out += "\n"]. *)
Definition join_lines (ls : list pystr) : pystr :=
  let out := join [LF] ls in
  if endswith out [LF] then out else out ++ [LF].

Definition break_free (s : pystr) : Prop := forall c, In c s -> is_linebreak c = false.

End Py.
Export Py.

(** ** The fragment of Python's [re] the engine uses

    A backtracking matcher with the priorities of CPython's [sre]: greedy
    repetition tries the longest first, alternation tries left to right.
    Patterns of the source are transcribed as values of [regex]. *)

Module Re.

Inductive regex : Type :=
| Eps
| Chr (p : char -> bool)
| Cat (a b : regex)
| Alt (a b : regex)
| Star (a : regex)
| Group (n : nat) (a : regex)
| Bol (multiline : bool)
| Eol (multiline : bool).

(** A position in the subject: the code point before it, the text after it,
    and the groups captured so far. *)
Record state : Type := mkState {
  prev : option char;
  rest : pystr;
  caps : list (nat * pystr)
}.

Definition at_bol (multiline : bool) (st : state) : bool :=
  match prev st with
  | None => true
  | Some c => multiline && N.eqb c LF
  end.

Definition at_eol (multiline : bool) (st : state) : bool :=
  match rest st with
  | [] => true
  | c :: s' => N.eqb c LF && (multiline || match s' with [] => true | _ => false end)
  end.

Definition set_cap (n : nat) (from to : state) : state :=
  mkState (prev to) (rest to)
          ((n, firstn (length (rest from) - length (rest to)) (rest from)) :: caps to).

Fixpoint run (r : regex) (st : state) (k : state -> option state) {struct r}
  : option state :=
  match r with
  | Eps => k st
  | Chr p =>
      match rest st with
      | c :: s' => if p c then k (mkState (Some c) s' (caps st)) else None
      | [] => None
      end
  | Cat a b => run a st (fun st' => run b st' k)
  | Alt a b =>
      match run a st k with
      | Some m => Some m
      | None => run b st k
      end
  | Star a =>
      (fix loop (fuel : nat) (st : state) {struct fuel} : option state :=
         match fuel with
         | O => k st
         | S fuel' =>
             match run a st (fun st' =>
                     if length (rest st') <? length (rest st)
                     then loop fuel' st' else None) with
             | Some m => Some m
             | None => k st
             end
         end) (S (length (rest st))) st
  | Group n a => run a st (fun st' => k (set_cap n st st'))
  | Bol m => if at_bol m st then k st else None
  | Eol m => if at_eol m st then k st else None
  end.

Fixpoint cats (rs : list regex) : regex :=
  match rs with
  | [] => Eps
  | [r] => r
  | r :: rs' => Cat r (cats rs')
  end.

Definition Plus (a : regex) : regex := Cat a (Star a).
Definition Opt (a : regex) : regex := Alt a Eps.

(** A literal, as [re.escape] and the compiler produce it. *)
Definition lit (s : pystr) : regex := cats (map (fun c => Chr (N.eqb c)) s).

Definition is_upper_ascii (c : char) : bool := (65 <=? c)%N && (c <=? 90)%N.
Definition is_lower_ascii (c : char) : bool := (97 <=? c)%N && (c <=? 122)%N.
Definition is_digit_ascii (c : char) : bool := (48 <=? c)%N && (c <=? 57)%N.
Definition lower_ascii (c : char) : char := if is_upper_ascii c then (c + 32)%N else c.
Definition upper_ascii (c : char) : char := if is_lower_ascii c then (c - 32)%N else c.

(** A literal code point [p] of a pattern compiled with [re.IGNORECASE].
    The patterns of the source hold ASCII characters and uncased symbols
    only; for an ASCII letter [sre] accepts both cases and the letters that
    fold to it: U+0130 and U+0131 for i, U+017F for s, U+212A for k. *)
Definition ci_eq (p c : char) : bool :=
  if is_upper_ascii p || is_lower_ascii p then
    let lo := lower_ascii p in
    N.eqb c lo || N.eqb c (upper_ascii lo)
    || (N.eqb lo 105 && (N.eqb c 0x130 || N.eqb c 0x131))
    || (N.eqb lo 115 && N.eqb c 0x17F)
    || (N.eqb lo 107 && N.eqb c 0x212A)
  else N.eqb c p.

Definition lit_i (s : pystr) : regex := cats (map (fun c => Chr (ci_eq c)) s).

(** [\s] *)
Definition ws : regex := Chr is_space.

(** [[a-z0-9]] under [re.IGNORECASE] *)
Definition alnum_i (c : char) : bool :=
  is_lower_ascii c || is_upper_ascii c || is_digit_ascii c
  || mem c [0x130; 0x131; 0x17F; 0x212A]%N.

Definition start_state (s : pystr) : state := mkState None s [].

(** [re.match(r, s)] *)
Definition re_match (r : regex) (s : pystr) : option state :=
  run r (start_state s) Some.

(** [re.fullmatch(r, s)] *)
Definition re_fullmatch (r : regex) (s : pystr) : option state :=
  run r (start_state s)
      (fun st => match rest st with [] => Some st | _ => None end).

Definition matches (r : regex) (s : pystr) : bool :=
  match re_match r s with Some _ => true | None => false end.

(** [m.group(n)]; [None] when the group took no part in the match. *)
Fixpoint group (n : nat) (cs : list (nat * pystr)) : option pystr :=
  match cs with
  | [] => None
  | (i, v) :: cs' => if Nat.eqb i n then Some v else group n cs'
  end.

(** [re.finditer(r, text)]: the matches from left to right, each search
    resuming where the previous match ended. [skip] counts the code points
    still covered by the last match. *)
Fixpoint finditer_aux (r : regex) (skip : nat) (pv : option char) (s : pystr)
  : list state :=
  match skip with
  | S n =>
      match s with
      | [] => []
      | c :: s' => finditer_aux r n (Some c) s'
      end
  | O =>
      match run r (mkState pv s []) Some with
      | Some m =>
          m :: match s with
               | [] => []
               | c :: s' =>
                   finditer_aux r (pred (length s - length (rest m))) (Some c) s'
               end
      | None =>
          match s with
          | [] => []
          | c :: s' => finditer_aux r 0 (Some c) s'
          end
      end
  end.

Definition finditer (r : regex) (text : pystr) : list state :=
  finditer_aux r 0 None text.

End Re.
Export Re.

(** ** Exceptions *)

Inductive exn : Type := TypeError | IndexError | UnicodeEncodeError.

Inductive result (A : Type) : Type :=
| Ok (a : A)
| Raise (e : exn).
Arguments Ok {A} a.
Arguments Raise {A} e.

Definition bind (A B : Type) (m : result A) (f : A -> result B) : result B :=
  match m with
  | Ok a => f a
  | Raise e => Raise e
  end.

Notation "x <- m ;; f" := (bind m (fun x => f))
  (at level 61, m at next level, right associativity).
Notation "' pat <- m ;; f" := (bind m (fun x => match x with pat => f end))
  (at level 61, pat pattern, m at next level, right associativity).

(** ** [hashlib.sha1] and [str.encode("utf-8")] *)

Module Sha1.

Definition w32 (x : N) : N := N.land x 0xFFFFFFFF.
Definition rotl (n x : N) : N := w32 (N.lor (N.shiftl x n) (N.shiftr x (32 - n))).
Definition not32 (x : N) : N := N.lxor x 0xFFFFFFFF.

Definition be_bytes (n : nat) (x : N) : list N :=
  map (fun i => N.land (N.shiftr x (8 * N.of_nat i)) 0xFF) (rev (seq 0 n)).

Definition pad (msg : list N) : list N :=
  let len := length msg in
  msg ++ [0x80%N] ++ repeat 0%N ((119 - len mod 64) mod 64)
      ++ be_bytes 8 (8 * N.of_nat len).

Fixpoint be_words (bs : list N) : list N :=
  match bs with
  | a :: b :: c :: d :: bs' =>
      (N.shiftl a 24 + N.shiftl b 16 + N.shiftl c 8 + d)%N :: be_words bs'
  | _ => []
  end.

(** The message schedule, most recent word first. *)
Fixpoint extend (n : nat) (wrev : list N) : list N :=
  match n with
  | O => wrev
  | S n' =>
      let x := N.lxor (N.lxor (nth 2 wrev 0%N) (nth 7 wrev 0%N))
                      (N.lxor (nth 13 wrev 0%N) (nth 15 wrev 0%N)) in
      extend n' (rotl 1 x :: wrev)
  end.

Definition hstate : Type := (N * N * N * N * N)%type.

Definition round (st : hstate) (tw : nat * N) : hstate :=
  let '(a, b, c, d, e) := st in
  let '(t, w) := tw in
  let '(f, k) :=
    if t <? 20 then (N.lor (N.land b c) (N.land (not32 b) d), 0x5A827999%N)
    else if t <? 40 then (N.lxor (N.lxor b c) d, 0x6ED9EBA1%N)
    else if t <? 60 then
      (N.lor (N.lor (N.land b c) (N.land b d)) (N.land c d), 0x8F1BBCDC%N)
    else (N.lxor (N.lxor b c) d, 0xCA62C1D6%N) in
  (w32 (rotl 5 a + f + e + k + w), a, rotl 30 b, c, d)%N.

Definition compress (h : hstate) (block : list N) : hstate :=
  let w := rev (extend 64 (rev (be_words block))) in
  let '(a, b, c, d, e) := fold_left round (combine (seq 0 80) w) h in
  let '(h0, h1, h2, h3, h4) := h in
  (w32 (h0 + a), w32 (h1 + b), w32 (h2 + c), w32 (h3 + d), w32 (h4 + e))%N.

Fixpoint blocks (fuel : nat) (bs : list N) : list (list N) :=
  match fuel, bs with
  | S fuel', _ :: _ => firstn 64 bs :: blocks fuel' (skipn 64 bs)
  | _, _ => []
  end.

Definition hex_digit (d : N) : char := if (d <? 10)%N then (48 + d)%N else (87 + d)%N.

Definition hex32 (x : N) : pystr :=
  map (fun i => hex_digit (N.land (N.shiftr x (4 * N.of_nat i)) 0xF)) (rev (seq 0 8)).

(** [hashlib.sha1(bytes).hexdigest()] *)
Definition hexdigest (msg : list N) : pystr :=
  let p := pad msg in
  let '(h0, h1, h2, h3, h4) :=
    fold_left compress (blocks (length p) p)
      (0x67452301, 0xEFCDAB89, 0x98BADCFE, 0x10325476, 0xC3D2E1F0)%N in
  hex32 h0 ++ hex32 h1 ++ hex32 h2 ++ hex32 h3 ++ hex32 h4.

Definition utf8_char (c : char) : option (list N) :=
  if (c <? 0x80)%N then Some [c]
  else if (c <? 0x800)%N then
    Some [N.lor 0xC0 (N.shiftr c 6); N.lor 0x80 (N.land c 0x3F)]
  else if (c <? 0x10000)%N then
    if (0xD800 <=? c)%N && (c <=? 0xDFFF)%N then None
    else Some [N.lor 0xE0 (N.shiftr c 12);
               N.lor 0x80 (N.land (N.shiftr c 6) 0x3F);
               N.lor 0x80 (N.land c 0x3F)]
  else if (c <? 0x110000)%N then
    Some [N.lor 0xF0 (N.shiftr c 18);
          N.lor 0x80 (N.land (N.shiftr c 12) 0x3F);
          N.lor 0x80 (N.land (N.shiftr c 6) 0x3F);
          N.lor 0x80 (N.land c 0x3F)]
  else None.

(** [s.encode("utf-8")]; a surrogate code point cannot be encoded. *)
Fixpoint encode_utf8 (s : pystr) : result (list N) :=
  match s with
  | [] => Ok []
  | c :: s' =>
      match utf8_char c with
      | None => Raise UnicodeEncodeError
      | Some bs => r <- encode_utf8 s' ;; Ok (bs ++ r)
      end
  end.

End Sha1.

(** ** What the engine takes from the interpreter and the clock

    The Unicode database behind [str.lower], [str.isdigit], [int] and the
    [\d] class, and the wall clock read by [datetime.now()], are not part
    of the repository; the engine is read relative to them. *)

Class PyEnv : Type := {
  (** [datetime.now().strftime("%I:%M %p")] *)
  now_12h : pystr;
  (** [str.lower] *)
  str_lower : pystr -> pystr;
  (** the class [\d] of a Unicode pattern *)
  uni_decimal : char -> bool;
  (** the code points [str.isdigit] accepts *)
  uni_isdigit : char -> bool;
  (** the value [int] gives a decimal digit *)
  uni_digit_value : char -> N
}.

(** The database restricted to ASCII, for running the engine on ASCII
    documents. *)
Definition ascii_env (now : pystr) : PyEnv := {|
  now_12h := now;
  str_lower := map lower_ascii;
  uni_decimal := is_digit_ascii;
  uni_isdigit := is_digit_ascii;
  uni_digit_value := fun c => (c - 48)%N
|}.

(** ** The engine of [src/testv021.py] *)

Module Engine.

Section WithEnv.
Context {E : PyEnv}.

(** *** Config *)

Definition GEN4_PLATFORMS : list pystr := [py "nx1"; py "ps4"; py "xb1"].
Definition GEN5_PLATFORMS : list pystr :=
  [py "nx2"; py "pc"; py "xbx"; py "ps5"; py "steamdeck"; py "laptop"].

Fixpoint str_ltb (a b : pystr) : bool :=
  match a, b with
  | _, [] => false
  | [], _ :: _ => true
  | x :: a', y :: b' => (x <? y)%N || (N.eqb x y && str_ltb a' b')
  end.

Fixpoint insert_sorted (x : pystr) (l : list pystr) : list pystr :=
  match l with
  | [] => [x]
  | y :: l' => if str_ltb y x then y :: insert_sorted x l' else x :: l
  end.

Definition sorted (l : list pystr) : list pystr := fold_right insert_sorted [] l.

Definition ALL_PLATFORMS : list pystr := sorted (GEN4_PLATFORMS ++ GEN5_PLATFORMS).

Definition str_in (x : pystr) (l : list pystr) : bool := existsb (str_eqb x) l.

(** [#\s*bugs\s*$] and the like, compiled with [re.IGNORECASE] *)
Definition hash : regex := Chr (N.eqb 35).

Definition BUGS_HEADERS : list regex :=
  [cats [hash; Star ws; lit_i (py "bugs"); Star ws; Eol false];
   cats [hash; Star ws; lit_i (py "bugs"); Star ws; lit [0x1F41B%N]; Star ws; Eol false]].

Definition REPORTS_HEADERS : list regex :=
  [cats [hash; Star ws; lit_i (py "reports"); Plus ws; lit_i (py "written"); Star ws;
         lit [0x1F4DD%N]; Star ws; Eol false];
   cats [hash; Star ws; lit_i (py "reports"); Plus ws; lit_i (py "written"); Star ws;
         Eol false]].

Definition detective : pystr := [0x1F575; 0xFE0F; 0x200D; 0x2642; 0xFE0F]%N.
Definition dividers : pystr := [0x1F5C2; 0xFE0F]%N.

Definition ISSUES_HEADERS : list regex :=
  [cats [hash; Star ws; lit_i (py "issues"); Plus ws; lit_i (py "found"); Star ws;
         lit detective; Star ws; Eol false];
   cats [hash; Star ws; lit_i (py "issues"); Plus ws; lit_i (py "found"); Star ws;
         Eol false]].

Definition FOUND_HEADERS : list regex :=
  [cats [hash; Star ws; lit_i (py "found"); Star ws; lit (py "/"); Star ws;
         lit_i (py "invalid"); Star ws; lit dividers; Star ws; Eol false];
   cats [hash; Star ws; lit_i (py "found"); Star ws; lit (py "/"); Star ws;
         lit_i (py "invalid"); Star ws; Eol false];
   cats [hash; Star ws; lit_i (py "found"); Star ws; lit dividers; Star ws; Eol false];
   cats [hash; Star ws; lit_i (py "found"); Star ws; Eol false]].

Definition ISSUES_TITLE : pystr := py "# issues found " ++ detective.
Definition FOUND_TITLE : pystr := py "# Found / Invalid " ++ dividers.
Definition REPORTS_TITLE : pystr := py "# reports written " ++ [0x1F4DD%N].
Definition BUGS_TITLE : pystr := py "# bugs " ++ [0x1F41B%N].
Definition DIVIDER : pystr := py "---".

(** *** Helpers *)

Definition classify_platform (p : pystr) : option pystr :=
  let p := str_lower p in
  if str_in p GEN4_PLATFORMS then Some (py "gen4")
  else if str_in p GEN5_PLATFORMS then Some (py "gen5")
  else None.

Fixpoint find_index (A : Type) (P : A -> bool) (l : list A) : option nat :=
  match l with
  | [] => None
  | x :: l' => if P x then Some 0 else option_map S (find_index P l')
  end.

(** [any(re.match(pat, line.strip(), re.IGNORECASE) for pat in header_patterns)] *)
Definition header_match (header_patterns : list regex) (line : pystr) : bool :=
  existsb (fun pat => matches pat (strip line)) header_patterns.

Definition _find_section_start (lines : list pystr) (header_patterns : list regex)
  : option nat :=
  find_index (header_match header_patterns) lines.

(** [re.match(r"^#\s+", line)] *)
Definition is_heading (line : pystr) : bool :=
  matches (cats [Bol false; hash; Plus ws]) line.

Definition is_divider (lines : list pystr) (i : nat) : bool :=
  (i <? length lines) && str_eqb (strip (nth i lines [])) DIVIDER.

Definition _section_bounds (lines : list pystr) (header_patterns : list regex)
  : option (nat * nat) :=
  match _find_section_start lines header_patterns with
  | None => None
  | Some idx =>
      let start := idx + 1 in
      let start := if is_divider lines start then start + 1 else start in
      let end_ :=
        match find_index is_heading (skipn start lines) with
        | Some j => start + j
        | None => length lines
        end in
      Some (start, end_)
  end.

Definition ensure_section (lines : list pystr) (header_patterns : list regex)
    (insert_after_patterns : option (list regex)) (title_line : option pystr)
  : list pystr * option (nat * nat) :=
  match _section_bounds lines header_patterns with
  | Some b => (lines, Some b)
  | None =>
      let insert_at_ :=
        match insert_after_patterns with
        | Some pats =>
            match _section_bounds lines pats with
            | Some after => snd after
            | None => length lines
            end
        | None => length lines
        end in
      let block :=
        [match title_line with Some t => t | None => py "## section" end;
         DIVIDER; []] in
      let lines := insert_at insert_at_ block lines in
      (lines, _section_bounds lines header_patterns)
  end.

Definition is_blank (line : pystr) : bool := str_eqb (strip line) [].

(** [while idx < len(lines) and lines[idx].strip() != "": idx += 1],
    counted on the lines from [idx] on. *)
Fixpoint count_nonblank (ls : list pystr) : nat :=
  match ls with
  | [] => 0
  | l :: ls' => if is_blank l then 0 else S (count_nonblank ls')
  end.

(** The end of the header block: the date line, an optional divider, the
    lines up to the first blank one, and that blank line. *)
Definition header_end (lines : list pystr) : nat :=
  let idx := 1 in
  let idx := if is_divider lines idx then idx + 1 else idx in
  let idx := idx + count_nonblank (skipn idx lines) in
  if (idx <? length lines) && is_blank (nth idx lines []) then idx + 1 else idx.

Definition find_or_create_sections (text : pystr) : pystr :=
  let lines := splitlines text in
  let changed := false in
  let '(lines, changed) :=
    match _section_bounds lines ISSUES_HEADERS with
    | None =>
        let insert_at_ :=
          match lines with
          | l0 :: _ => if startswith l0 (py "# ") then header_end lines else length lines
          | [] => length lines
          end in
        (insert_at insert_at_ [ISSUES_TITLE; DIVIDER; []] lines, true)
    | Some _ => (lines, changed)
    end in
  let '(lines, changed) :=
    match _section_bounds lines FOUND_HEADERS with
    | None =>
        let insert_at_ :=
          match _section_bounds lines ISSUES_HEADERS with
          | Some ib => snd ib
          | None => length lines
          end in
        (insert_at insert_at_ [FOUND_TITLE; DIVIDER; []] lines, true)
    | Some _ => (lines, changed)
    end in
  let '(lines, changed) :=
    match _section_bounds lines REPORTS_HEADERS with
    | None =>
        let insert_at_ :=
          match _section_bounds lines FOUND_HEADERS with
          | Some fb => snd fb
          | None => length lines
          end in
        (insert_at insert_at_ [REPORTS_TITLE; DIVIDER; []] lines, true)
    | Some _ => (lines, changed)
    end in
  let '(lines, changed) :=
    match _section_bounds lines BUGS_HEADERS with
    | None =>
        let insert_at_ :=
          match _section_bounds lines REPORTS_HEADERS with
          | Some rb => snd rb
          | None => length lines
          end in
        (insert_at insert_at_ [BUGS_TITLE; DIVIDER; []] lines, true)
    | Some _ => (lines, changed)
    end in
  let out := join [LF] lines in
  let out := if changed && negb (endswith out [LF]) then out ++ [LF] else out in
  if changed then out else text.

(** *** Time, header codec *)

(** [str(n)] for a natural number *)
Definition dec (n : N) : pystr := py (NilZero.string_of_uint (N.to_uint n)).

(** [f"{n:02d}"] *)
Definition fmt_02d (n : N) : pystr :=
  let s := dec n in if length s <? 2 then py "0" ++ s else s.

(** [int(s)] for a string of decimal digits *)
Definition int_of (s : pystr) : N :=
  fold_left (fun acc c => (10 * acc + uni_digit_value c)%N) s 0%N.

Definition digit : regex := Chr uni_decimal.

Definition grp (n : nat) (m : state) : pystr :=
  match group n (caps m) with Some v => v | None => [] end.

(** [\s*(\d{1,2}):(\d{2})\s*([AaPp][Mm])?\s*] *)
Definition TIME_RE : regex :=
  cats [Star ws; Group 1 (Cat digit (Opt digit)); lit (py ":");
        Group 2 (Cat digit digit); Star ws;
        Opt (Group 3 (Cat (Chr (fun c => mem c (py "AaPp")))
                          (Chr (fun c => mem c (py "Mm")))));
        Star ws].

Definition normalize_time_12h (t : pystr) : pystr :=
  let t := strip t in
  match t with
  | [] => now_12h
  | _ :: _ =>
      match re_fullmatch TIME_RE t with
      | Some m =>
          let hh := grp 1 m in
          let mm := grp 2 m in
          match group 3 (caps m) with
          | Some ((_ :: _) as ampm) =>
              fmt_02d (int_of hh) ++ py ":" ++ mm ++ py " " ++ map upper_ascii ampm
          | _ => fmt_02d (int_of hh) ++ py ":" ++ mm
          end
      | None => now_12h
      end
  end.

(** A Python [dict] from strings to strings, in insertion order. *)
Definition dict : Type := list (pystr * pystr).

Fixpoint dict_get (d : dict) (k : pystr) : option pystr :=
  match d with
  | [] => None
  | (k', v) :: d' => if str_eqb k' k then Some v else dict_get d' k
  end.

Fixpoint dict_set (k v : pystr) (d : dict) : dict :=
  match d with
  | [] => [(k, v)]
  | (k', v') :: d' => if str_eqb k' k then (k, v) :: d' else (k', v') :: dict_set k v d'
  end.

(** [^- \[([a-z0-9]+)\]\[([^\]]+)\]\s*$] with [re.MULTILINE | re.IGNORECASE] *)
Definition USERNAME_RE : regex :=
  cats [Bol true; lit_i (py "- ["); Group 1 (Plus (Chr alnum_i)); lit_i (py "][");
        Group 2 (Plus (Chr (fun c => negb (N.eqb c 93)))); lit_i (py "]");
        Star ws; Eol true].

Definition is_number (s : pystr) : bool :=
  match re_fullmatch (Plus digit) s with Some _ => true | None => false end.

Definition parse_usernames (text : pystr) : dict :=
  fold_left
    (fun usernames m =>
       let key := str_lower (grp 1 m) in
       let val := strip (grp 2 m) in
       if str_in key [py "gen4"; py "gen5"] && is_number val then usernames
       else if str_in key ALL_PLATFORMS then dict_set key val usernames
       else usernames)
    (finditer USERNAME_RE text) [].

(** [^- \[(gen4|gen5)\]\[(\d+)\]\s*-->\s*build number\s*$] with
    [re.IGNORECASE | re.MULTILINE] *)
Definition BUILD_RE : regex :=
  cats [Bol true; lit_i (py "- [");
        Group 1 (Alt (lit_i (py "gen4")) (lit_i (py "gen5")));
        lit_i (py "]["); Group 2 (Plus digit); lit_i (py "]"); Star ws;
        lit_i (py "-->"); Star ws; lit_i (py "build number"); Star ws; Eol true].

Definition parse_builds (text : pystr) : pystr * pystr :=
  fold_left
    (fun '(gen4, gen5) m =>
       if str_eqb (str_lower (grp 1 m)) (py "gen4") then (grp 2 m, gen5)
       else (gen4, grp 2 m))
    (finditer BUILD_RE text) ([], []).

(** [s.isdigit()] *)
Definition isdigit (s : pystr) : bool :=
  match s with
  | [] => false
  | _ :: _ => forallb uni_isdigit s
  end.

Definition header_only_block (date_str : pystr) (usernames : dict)
    (gen4_build gen5_build : pystr) : pystr :=
  let lines := [py "# " ++ date_str ++ py " notes"; DIVIDER] in
  let lines :=
    fold_left
      (fun lines p =>
         match dict_get usernames p with
         | Some ((_ :: _) as u) => lines ++ [py "- [" ++ p ++ py "][" ++ u ++ py "]"]
         | _ => lines
         end)
      (sorted ALL_PLATFORMS) lines in
  let lines :=
    if isdigit (strip gen4_build)
    then lines ++ [py "- [gen4][" ++ strip gen4_build ++ py "] --> build number"]
    else lines in
  let lines :=
    if isdigit (strip gen5_build)
    then lines ++ [py "- [gen5][" ++ strip gen5_build ++ py "] --> build number"]
    else lines in
  let lines := lines ++ [[]] in
  join_lines lines.

(** [s.replace(old, new)] for a non-empty [old]; [skip] counts the code
    points of the occurrence being replaced that are still to be dropped. *)
Fixpoint replace_aux (old new : pystr) (skip : nat) (s : pystr) : pystr :=
  match s with
  | [] => []
  | c :: s' =>
      match skip with
      | S n => replace_aux old new n s'
      | O =>
          if startswith s old
          then new ++ replace_aux old new (pred (length old)) s'
          else c :: replace_aux old new 0 s'
      end
  end.

Definition replace (s old new : pystr) : pystr := replace_aux old new 0 s.

Definition parse_date_and_header_end (text : pystr) : pystr * nat :=
  let lines := splitlines text in
  let date_str :=
    match lines with
    | l0 :: _ =>
        if startswith l0 (py "# ")
        then replace (strip (skipn 2 l0)) (py " notes") []
        else []
    | [] => []
    end in
  (date_str, header_end lines).

(** *** Issue ledger and Found / Invalid *)

Record event : Type := mkEvent {
  time : pystr;
  platform : pystr;
  desc : pystr
}.

Definition unpack (b : option (nat * nat)) : result (nat * nat) :=
  match b with
  | Some p => Ok p
  | None => Raise TypeError
  end.

Definition add_issue_line (text time_str platform_ desc_ : pystr) : result pystr :=
  let text := find_or_create_sections text in
  let lines := splitlines text in
  let ib := _section_bounds lines ISSUES_HEADERS in
  let '(text, lines, ib) :=
    match ib with
    | Some _ => (text, lines, ib)
    | None =>
        let text := find_or_create_sections text in
        let lines := splitlines text in
        (text, lines, _section_bounds lines ISSUES_HEADERS)
    end in
  '(_, end_) <- unpack ib ;;
  let newline :=
    py "- [" ++ normalize_time_12h time_str ++ py "][" ++ str_lower platform_
       ++ py "] " ++ strip desc_ in
  let lines := insert_at end_ [newline] lines in
  Ok (join_lines lines).

(** [f"- [{ev['time']}][{ev['platform']}] {ev['desc']}"] *)
Definition issue_text (ev : event) : pystr :=
  py "- [" ++ time ev ++ py "][" ++ platform ev ++ py "] " ++ desc ev.

(** [^- \[{re.escape(time)}\]\[{re.escape(platform)}\]\s+] *)
Definition issue_pref (ev : event) : regex :=
  cats [Bol false; lit (py "- [" ++ time ev ++ py "][" ++ platform ev ++ py "]"); Plus ws].

(** [for i in range(i, i + n): if P(lines[i]): ... break] : the index the
    loop stops at, if any. *)
Fixpoint search_range (P : pystr -> bool) (lines : list pystr) (i n : nat)
  : result (option nat) :=
  match n with
  | O => Ok None
  | S n' =>
      match nth_error lines i with
      | None => Raise IndexError
      | Some l => if P l then Ok (Some i) else search_range P lines (S i) n'
      end
  end.

(** The two removal loops shared by deletion, triage and promotion: the
    first line of [lines[istart:iend]] whose stripped text is the issue
    text, else the first one matching the time and platform prefix. *)
Definition remove_issue (lines : list pystr) (ev : event) (istart iend : nat)
  : result (list pystr) :=
  exact <- search_range (fun l => str_eqb (strip l) (issue_text ev)) lines
                        istart (iend - istart) ;;
  match exact with
  | Some i => Ok (delete_at i lines)
  | None =>
      loose <- search_range (fun l => matches (issue_pref ev) l) lines
                            istart (iend - istart) ;;
      match loose with
      | Some i => Ok (delete_at i lines)
      | None => Ok lines
      end
  end.

Definition delete_issue_line (text : pystr) (ev : event) : result pystr :=
  let lines := splitlines text in
  match _section_bounds lines ISSUES_HEADERS with
  | None => Ok text
  | Some (start, end_) =>
      lines <- remove_issue lines ev start end_ ;;
      Ok (join_lines lines)
  end.

(** The entry written to Found / Invalid: the issue text, with the bug
    number tag in front when [bugnum.strip()] is not empty. *)
Definition found_text (ev : event) (bugnum : pystr) : pystr :=
  match strip bugnum with
  | _ :: _ => py "- [" ++ strip bugnum ++ py "] [" ++ time ev ++ py "][" ++ platform ev
               ++ py "] " ++ desc ev
  | [] => issue_text ev
  end.

Definition move_issue_to_found (text : pystr) (ev : event) (bugnum : pystr)
  : result pystr :=
  let text := find_or_create_sections text in
  let lines := splitlines text in
  let ib := _section_bounds lines ISSUES_HEADERS in
  let '(lines, fb) :=
    ensure_section lines FOUND_HEADERS (Some ISSUES_HEADERS) (Some FOUND_TITLE) in
  match ib, fb with
  | Some (istart, iend), Some _ =>
      lines <- remove_issue lines ev istart iend ;;
      let fend :=
        match _section_bounds lines FOUND_HEADERS with
        | Some fb2 => snd fb2
        | None => length lines
        end in
      let new_line := found_text ev bugnum in
      let lines := insert_at fend [new_line] lines in
      Ok (join_lines lines)
  | _, _ =>
      Ok (join [LF] lines ++ (if negb (endswith text [LF]) then [LF] else []))
  end.

(** *** Bug codec and promotion *)

Definition default_plain_steps_lines (platform_ : pystr) : list pystr :=
  let key := match classify_platform platform_ with Some k => k | None => py "gen5" end in
  let base2 :=
    if str_eqb key (py "gen5") then py "Enter the City."
    else py "Enter the Neighborhood." in
  [py "Launch the title > create or select build / save."; base2].

(** [for ln in plain_lines: ln = ln.strip(); if ln: lines.append(f"{n}. {ln}"); n += 1];
    the numbered lines and the final [n]. *)
Fixpoint number_lines (n : N) (plain_lines : list pystr) : list pystr * N :=
  match plain_lines with
  | [] => ([], n)
  | ln :: rest_ =>
      match strip ln with
      | [] => number_lines n rest_
      | (_ :: _) as ln' =>
          let '(ls, n') := number_lines (n + 1) rest_ in
          ((dec n ++ py ". " ++ ln') :: ls, n')
      end
  end.

Definition build_steps_block_numbered (template_key mode : pystr)
    (plain_lines : list pystr) : pystr :=
  if str_eqb mode (py "default") then
    let base2 :=
      if str_eqb template_key (py "gen5") then py "Enter the City."
      else py "Enter the Neighborhood." in
    let lines :=
      [py "Steps to Reproduce:";
       py "1. Launch the title > create or select build / save.";
       py "2. " ++ base2] in
    let '(ls, n) := number_lines 3 plain_lines in
    let lines := lines ++ ls in
    let lines := if N.eqb n 3 then lines ++ [py "3. "] else lines in
    join [LF] lines
  else
    let lines := [py "Steps to Reproduce:"] in
    let '(ls, n) := number_lines 1 plain_lines in
    let lines := lines ++ ls in
    let lines := if N.eqb n 1 then lines ++ [py "1. "] else lines in
    join [LF] lines.

Definition make_bug_block (summary platform_ username steps_block observed
    expected build_num : pystr) : pystr :=
  let bugnum := py "null" in
  let build_line :=
    match build_num with _ :: _ => py "Build: " ++ build_num | [] => [] end in
  py "## [" ++ bugnum ++ py "]" ++ [LF]
  ++ py "---" ++ [LF]
  ++ py "**summary:** " ++ summary ++ [LF]
  ++ [LF]
  ++ py "**Platform:** " ++ platform_ ++ [LF]
  ++ py "**Username:** " ++ username ++ [LF]
  ++ [LF]
  ++ steps_block ++ [LF]
  ++ [LF]
  ++ py "Observed Results:" ++ [LF]
  ++ observed ++ [LF]
  ++ [LF]
  ++ py "Expected Results:" ++ [LF]
  ++ expected ++ [LF]
  ++ build_line ++ [LF].

Definition generate_event_id (ev : event) : result pystr :=
  raw <- Sha1.encode_utf8 (time ev ++ py "|" ++ platform ev ++ py "|" ++ desc ev) ;;
  Ok (firstn 12 (Sha1.hexdigest raw)).

(** [f"<!-- bug-id:{ev_id}"] *)
Definition bug_marker (ev_id : pystr) : pystr := py "<!-- bug-id:" ++ ev_id.

(** The steps block of a promoted issue (the three statements before
    [make_bug_block] is called). *)
Definition promotion_steps_block (ev : event) (steps_mode : pystr)
    (plain_lines : list pystr) : pystr :=
  let template_key :=
    match classify_platform (platform ev) with Some k => k | None => py "gen5" end in
  let base_lines :=
    if str_eqb steps_mode (py "default")
    then default_plain_steps_lines (platform ev) else [] in
  let merged_plain :=
    base_lines ++ filter (fun ln => negb (str_in ln base_lines)) plain_lines in
  build_steps_block_numbered template_key
    (if str_eqb steps_mode (py "default") then py "default" else py "custom")
    merged_plain.

Definition bug_meta (ev : event) (ev_id template_key : pystr) : pystr :=
  bug_marker ev_id ++ py " time=" ++ time ev ++ py " platform=" ++ platform ev
    ++ py " template=" ++ template_key ++ py " -->".

(** The rendered block of a promoted issue, before [strip()]. *)
Definition promotion_bug_block (text : pystr) (ev : event) (summary_prefix
    steps_mode : pystr) (plain_lines : list pystr) (observed expected : pystr)
  : pystr :=
  let template_key :=
    match classify_platform (platform ev) with Some k => k | None => py "gen5" end in
  let usernames := parse_usernames text in
  let username :=
    match dict_get usernames (platform ev) with Some u => u | None => [] end in
  let '(g4, g5) := parse_builds text in
  let build_found := if str_eqb template_key (py "gen4") then g4 else g5 in
  let summary :=
    match summary_prefix with
    | _ :: _ => summary_prefix ++ py ": " ++ desc ev
    | [] => desc ev
    end in
  let steps_block := promotion_steps_block ev steps_mode plain_lines in
  make_bug_block summary (platform ev) username steps_block observed expected
    build_found.

Definition append_bug_and_move_issue (text : pystr) (ev : event)
    (summary_prefix steps_mode : pystr) (plain_lines : list pystr)
    (observed expected : pystr) : result pystr :=
  let text := find_or_create_sections text in
  let lines := splitlines text in
  let ib := _section_bounds lines ISSUES_HEADERS in
  let rb := _section_bounds lines REPORTS_HEADERS in
  let bb := _section_bounds lines BUGS_HEADERS in
  let '(text, lines, ib, rb, bb) :=
    match ib, rb, bb with
    | Some _, Some _, Some _ => (text, lines, ib, rb, bb)
    | _, _, _ =>
        let text := find_or_create_sections text in
        let lines := splitlines text in
        (text, lines, _section_bounds lines ISSUES_HEADERS,
         _section_bounds lines REPORTS_HEADERS,
         _section_bounds lines BUGS_HEADERS)
    end in
  ev_id <- generate_event_id ev ;;
  if contains text (bug_marker ev_id) then Ok text
  else
    let template_key :=
      match classify_platform (platform ev) with Some k => k | None => py "gen5" end in
    let bug_block :=
      promotion_bug_block text ev summary_prefix steps_mode plain_lines
        observed expected in
    let meta := bug_meta ev ev_id template_key in
    '(_, bend) <- unpack bb ;;
    let lines := insert_at bend [[]; meta; strip bug_block; []] lines in
    '(istart, iend) <- unpack ib ;;
    let target := issue_text ev in
    lines <- remove_issue lines ev istart iend ;;
    '(_, rend) <- unpack (_section_bounds lines REPORTS_HEADERS) ;;
    let lines := insert_at rend [target] lines in
    Ok (join_lines lines).

End WithEnv.
End Engine.

(** ** The steps block of the older [src/test.py] *)

Module V1.

Section WithEnv.
Context {E : PyEnv}.

Definition GEN4_PLATFORMS : list pystr := [py "nx1"; py "ps4"; py "xb1"].
Definition GEN5_PLATFORMS : list pystr := [py "nx2"; py "pc"; py "xbx"; py "ps5"].

Definition classify_platform (p : pystr) : option pystr :=
  let p := str_lower p in
  if Engine.str_in p GEN4_PLATFORMS then Some (py "gen4")
  else if Engine.str_in p GEN5_PLATFORMS then Some (py "gen5")
  else None.

Definition build_steps_block (template_key mode : pystr) (extra_lines : list pystr)
  : pystr :=
  if str_eqb mode (py "default") then
    let base2 :=
      if str_eqb template_key (py "gen5") then py "2. Enter the City."
      else py "2. Enter the Neighborhood." in
    let lines :=
      [py "Steps to Reproduce:";
       py "1. Launch the title > create or select build / save.";
       base2] in
    let '(ls, n) := Engine.number_lines 3 extra_lines in
    let lines := lines ++ ls in
    let lines := if N.eqb n 3 then lines ++ [py "3. "] else lines in
    join [LF] lines
  else
    let lines := [py "Steps to Reproduce:"] in
    let '(ls, n) := Engine.number_lines 1 extra_lines in
    let lines := lines ++ ls in
    let lines := if N.eqb n 1 then lines ++ [py "1. "] else lines in
    join [LF] lines.

(** The steps block of a promoted issue in [src/test.py]:
    [build_steps_block(classify_platform(ev["platform"]) or "gen5", steps_mode, extra_steps)]. *)
Definition promotion_steps_block (ev : Engine.event) (steps_mode : pystr)
    (extra_steps : list pystr) : pystr :=
  let template_key :=
    match classify_platform (Engine.platform ev) with
    | Some k => k
    | None => py "gen5"
    end in
  build_steps_block template_key steps_mode extra_steps.

End WithEnv.
End V1.


(** ** Definitions used to state and prove the properties *)

Module Model.

(** The text whose lines are [ls], each closed by a line feed. *)
Definition lines_text (ls : list pystr) : pystr :=
  concat (map (fun l => l ++ [LF]) ls).

(** What [splitlines] gives back from [join_lines ls]: a final empty line is
    absorbed by the closing line feed. *)
Fixpoint drop_final_blank (ls : list pystr) : list pystr :=
  match ls with
  | [] => []
  | [l] => match l with [] => [] | _ :: _ => [l] end
  | l :: r => l :: drop_final_blank r
  end.

Definition chomp (ls : list pystr) : list pystr :=
  match drop_final_blank ls with
  | [] => [[]]
  | r => r
  end.

(** Decidable form of [break_free]. *)
Definition break_freeb (s : pystr) : bool :=
  forallb (fun c => negb (is_linebreak c)) s.

(** A line of [ls] is a header of the section [K]. *)
Definition has_section (K : list regex) (ls : list pystr) : bool :=
  existsb (Engine.header_match K) ls.

(** All four canonical sections have a header in [ls]. *)
Definition complete (ls : list pystr) : bool :=
  has_section Engine.ISSUES_HEADERS ls && has_section Engine.FOUND_HEADERS ls
  && has_section Engine.REPORTS_HEADERS ls && has_section Engine.BUGS_HEADERS ls.

(** [b[1] if b else len(lines)] for the bounds [b] of section [K] *)
Definition section_end (K : list regex) (ls : list pystr) : nat :=
  match Engine._section_bounds ls K with
  | Some b => snd b
  | None => length ls
  end.

(** Where the Issues section is created: after the header block when the
    first line is a title, else at the end. *)
Definition issues_pos (ls : list pystr) : nat :=
  match ls with
  | l0 :: _ => if startswith l0 (py "# ") then Engine.header_end ls else length ls
  | [] => length ls
  end.

(** One step of the scaffolder. *)
Definition ensure (K : list regex) (title : pystr) (pos : nat) (ls : list pystr)
  : list pystr :=
  match Engine._section_bounds ls K with
  | None => insert_at pos [title; Engine.DIVIDER; []] ls
  | Some _ => ls
  end.

(** One step of the scaffolder with its [changed] flag. *)
Definition ensure_step (K : list regex) (title : pystr) (pos : list pystr -> nat)
    (st : list pystr * bool) : list pystr * bool :=
  match Engine._section_bounds (fst st) K with
  | None => (insert_at (pos (fst st)) [title; Engine.DIVIDER; []] (fst st), true)
  | Some _ => st
  end.

(** The line buffer the scaffolder ends with. *)
Definition scaffold (ls0 : list pystr) : list pystr :=
  let ls1 := ensure Engine.ISSUES_HEADERS Engine.ISSUES_TITLE (issues_pos ls0) ls0 in
  let ls2 := ensure Engine.FOUND_HEADERS Engine.FOUND_TITLE
                    (section_end Engine.ISSUES_HEADERS ls1) ls1 in
  let ls3 := ensure Engine.REPORTS_HEADERS Engine.REPORTS_TITLE
                    (section_end Engine.FOUND_HEADERS ls2) ls2 in
  ensure Engine.BUGS_HEADERS Engine.BUGS_TITLE
         (section_end Engine.REPORTS_HEADERS ls3) ls3.

(** The section [K] as the scaffolder creates it: the line [i] is the first
    header of the family and is the title, followed by the divider and an
    empty line. *)
Definition created_at (K : list regex) (title : pystr) (i : nat)
    (ls : list pystr) : Prop :=
  Engine._find_section_start ls K = Some i
  /\ i + 2 < length ls
  /\ nth i ls [] = title
  /\ nth (i + 1) ls [] = Engine.DIVIDER
  /\ nth (i + 2) ls [] = [].

(** The section [K] was created, and its header comes after the header of
    the section [P]. *)
Definition created_after (P K : list regex) (title : pystr) (ls : list pystr)
  : Prop :=
  exists p i, Engine._find_section_start ls P = Some p /\ p < i
              /\ created_at K title i ls.

(** An index where a section may end: the length of the buffer, or the
    index of a heading. *)
Definition boundary (q : nat) (ls : list pystr) : Prop :=
  q <= length ls /\ (q < length ls -> Engine.is_heading (nth q ls []) = true).

(** The first index from [s] on whose line satisfies [P], else the length:
    the loop that looks for the end of a section. *)
Definition first_from (P : pystr -> bool) (s : nat) (ls : list pystr) : nat :=
  match Engine.find_index P (skipn s ls) with
  | Some j => s + j
  | None => length ls
  end.

(** [lines[start:end]] for the bounds of section [K]; empty when the
    section is absent. *)
Definition section_lines (K : list regex) (ls : list pystr) : list pystr :=
  match Engine._section_bounds ls K with
  | Some (s, e) => skipn s (firstn e ls)
  | None => []
  end.

(** The number of positions of [s] at which [p] occurs. *)
Fixpoint count_sub (p s : pystr) : nat :=
  (if startswith s p then 1 else 0)
  + match s with
    | [] => 0
    | _ :: s' => count_sub p s'
    end.

(** The buffer holds a header of section [K] that is free of line breaks. *)
Definition has_line (K : list regex) (ls : list pystr) : Prop :=
  exists l, In l ls /\ break_free l /\ Engine.header_match K l = true.

(** All four canonical sections have such a header. *)
Definition complete_lines (ls : list pystr) : Prop :=
  has_line Engine.ISSUES_HEADERS ls /\ has_line Engine.FOUND_HEADERS ls
  /\ has_line Engine.REPORTS_HEADERS ls /\ has_line Engine.BUGS_HEADERS ls.

(** A line that neither opens a section nor is a divider. *)
Definition plain_line (l : pystr) : Prop :=
  Engine.is_heading l = false /\ str_eqb (strip l) Engine.DIVIDER = false.

(** Every pattern of the family begins with the literal [#]. *)
Definition hash_led (K : list regex) : Prop :=
  Forall (fun r => exists r', r = Cat Engine.hash r') K.

(** A line the removal loops may delete: its stripped text is the issue
    text, or it matches the time and platform prefix. *)
Definition issue_like (ev : Engine.event) (l : pystr) : bool :=
  str_eqb (strip l) (Engine.issue_text ev) || matches (Engine.issue_pref ev) l.

(** Issues Found, if the text has one, holds no line matching the issue,
    exactly or by its time and platform prefix. *)
Definition no_issue_match (ev : Engine.event) (text : pystr) : Prop :=
  let ls := splitlines text in
  match Engine._section_bounds ls Engine.ISSUES_HEADERS with
  | None => True
  | Some (istart, iend) =>
      forall j, istart <= j < iend -> issue_like ev (nth j ls []) = false
  end.

End Model.
Export Model.

(** ** What a match is

    The matcher of [Re] searches; the relation [path] says what it searches
    for: the ways a pattern can lead from one position to another. *)

Module Matching.

Section StarLoop.
Variable a : regex.
Variable k : state -> option state.

(** The loop [run] goes through for [Star a]. *)
Fixpoint star_loop (fuel : nat) (st : state) {struct fuel} : option state :=
  match fuel with
  | O => k st
  | S fuel' =>
      match run a st (fun st' =>
              if length (rest st') <? length (rest st)
              then star_loop fuel' st' else None) with
      | Some m => Some m
      | None => k st
      end
  end.

End StarLoop.

Inductive path : regex -> state -> state -> Prop :=
| path_eps st : path Eps st st
| path_chr p st c s :
    rest st = c :: s -> p c = true ->
    path (Chr p) st (mkState (Some c) s (caps st))
| path_cat a b st1 st2 st3 :
    path a st1 st2 -> path b st2 st3 -> path (Cat a b) st1 st3
| path_alt_l a b st st' : path a st st' -> path (Alt a b) st st'
| path_alt_r a b st st' : path b st st' -> path (Alt a b) st st'
| path_star_nil a st : path (Star a) st st
| path_star_cons a st1 st2 st3 :
    path a st1 st2 -> length (rest st2) < length (rest st1) ->
    path (Star a) st2 st3 -> path (Star a) st1 st3
| path_group n a st st' : path a st st' -> path (Group n a) st (set_cap n st st')
| path_bol m st : at_bol m st = true -> path (Bol m) st st
| path_eol m st : at_eol m st = true -> path (Eol m) st st.

(** The code point before the position reached by reading [w]. *)
Definition adv (pv : option char) (w : pystr) : option char :=
  fold_left (fun _ c => Some c) w pv.

(** A search may begin a line here: at the start of the text or after a
    line feed. *)
Definition line_start (pv : option char) : bool :=
  match pv with
  | None => true
  | Some c => N.eqb c LF
  end.

(** The literal holds no ASCII letter, so that [re.IGNORECASE] does not
    bear on it. *)
Definition caseless (s : pystr) : bool :=
  forallb (fun c => negb (is_upper_ascii c || is_lower_ascii c)) s.

End Matching.
Export Matching.

(** ** The fields of a header

    What the header codec is read against: the fields a header can carry,
    the lines they are rendered as, and an interpreter whose tables agree
    with ASCII on the ASCII characters. *)

Module Header.

Section WithEnv.
Context {E : PyEnv}.

(** [str.lower] leaves lower case ASCII letters and digits alone; [\d] is
    [0-9] on the ASCII range; [str.isdigit] accepts [0-9]. *)
Class AsciiSound : Prop := {
  lower_fixes : forall s,
    forallb (fun c => is_lower_ascii c || is_digit_ascii c) s = true ->
    str_lower s = s;
  decimal_ascii : forall c, (c < 128)%N -> uni_decimal c = is_digit_ascii c;
  isdigit_ascii : forall c, is_digit_ascii c = true -> uni_isdigit c = true
}.

(** A date: not empty, trimmed, on one line, without the word the header
    line ends with. *)
Definition date_token (d : pystr) : Prop :=
  d <> [] /\ strip d = d /\ break_free d /\ contains d (py " notes") = false.

(** A user name: not empty, trimmed, without the closing bracket. *)
Definition username_ok (u : pystr) : Prop :=
  u <> [] /\ strip u = u /\ ~ In 93%N u.

(** A map from recognized platforms to user names. *)
Definition usernames_ok (us : Engine.dict) : Prop :=
  forall p u, Engine.dict_get us p = Some u ->
              In p Engine.ALL_PLATFORMS /\ username_ok u.

(** A build number: decimal digits, or nothing. *)
Definition digits (s : pystr) : Prop := forallb is_digit_ascii s = true.

Definition user_line (p u : pystr) : pystr :=
  py "- [" ++ p ++ py "][" ++ u ++ py "]".

Definition build_line (g b : pystr) : pystr :=
  py "- [" ++ g ++ py "][" ++ b ++ py "] --> build number".

(** The user name lines of a header, for the platforms [ps]. *)
Definition user_lines (us : Engine.dict) (ps : list pystr) : list pystr :=
  flat_map (fun p =>
              match Engine.dict_get us p with
              | Some ((_ :: _) as u) => [user_line p u]
              | _ => []
              end) ps.

(** The build number line of a generation, if there is one. *)
Definition build_lines (g b : pystr) : list pystr :=
  if Engine.isdigit (strip b) then [build_line g (strip b)] else [].

(** The bindings a header shows, for the platforms [ps]. *)
Definition bound (us : Engine.dict) (ps : list pystr) : list (pystr * pystr) :=
  flat_map (fun p =>
              match Engine.dict_get us p with
              | Some ((_ :: _) as u) => [(p, u)]
              | _ => []
              end) ps.

(** A binding that is rendered and read back. *)
Definition pair_ok (pu : pystr * pystr) : Prop :=
  In (fst pu) Engine.ALL_PLATFORMS /\ snd pu <> [] /\ ~ In 93%N (snd pu).

(** The class [[^\]]] of the user name pattern. *)
Definition not_rb (c : char) : bool := negb (N.eqb c 93).

(** What [gen4|gen5] matches under [re.IGNORECASE]. *)
Definition gen_like (g : pystr) : Prop :=
  Forall2 (fun p c => ci_eq p c = true) (py "gen4") g
  \/ Forall2 (fun p c => ci_eq p c = true) (py "gen5") g.

(** What may follow a line of the header: nothing, or a line that does not
    begin with white space. *)
Definition tail_ok (t : pystr) : Prop :=
  t = [] \/ exists c t', t = c :: t' /\ is_space c = false.

End WithEnv.

End Header.
Export Header.

(** ** Sample inputs *)

Module Samples.

(** An ASCII interpreter environment with the clock at 09:30 AM. *)
Definition env : PyEnv := ascii_env (py "09:30 AM").

Definition crash : Engine.event :=
  Engine.mkEvent (py "09:05 PM") (py "ps5") (py "Crash on load").

(** A scaffolded document holding the issue [crash]. *)
Definition notes : pystr :=
  join [LF]
    [py "# 01-02-2025 notes"; py "---"; py "- [ps5][alice]";
     py "- [gen5][123] --> build number"; [];
     py "# issues found"; py "---"; py "- [09:05 PM][ps5] Crash on load";
     py "# Found / Invalid"; py "---";
     py "# reports written"; py "---";
     py "# bugs"; py "---"; []].

(** The same document followed by one empty line. *)
Definition notes_blank : pystr := notes ++ [LF].

(** A scaffolded document whose Bugs section already holds two records of
    the issue [crash], as a user who copied a record by hand leaves it. *)
Definition notes_copied : pystr :=
  join [LF]
    [py "# 01-02-2025 notes"; py "---"; [];
     py "# issues found"; py "---";
     py "# Found / Invalid"; py "---";
     py "# reports written"; py "---"; py "- [09:05 PM][ps5] Crash on load";
     py "# bugs"; py "---";
     py "<!-- bug-id:afa3ad5f3a96 time=09:05 PM platform=ps5 template=gen5 -->";
     py "first copy";
     py "<!-- bug-id:afa3ad5f3a96 time=09:05 PM platform=ps5 template=gen5 -->";
     py "second copy"; []].

(** A document holding the four sections with Bugs first, and the issue
    [crash] in Issues Found. *)
Definition notes_bugs_first : pystr :=
  join [LF]
    [py "# bugs"; py "---";
     py "# issues found"; py "---"; py "- [09:05 PM][ps5] Crash on load";
     py "# Found / Invalid"; py "---";
     py "# reports written"; py "---"; []].

(** A document holding the four sections with Bugs first, then Reports
    Written with the report of another issue, then Issues Found with the
    issue [crash]. *)
Definition notes_report_before : pystr :=
  join [LF]
    [py "# bugs"; py "---";
     py "# reports written"; py "---"; py "- [09:05 PM][ps5] Freeze in menu"; [];
     py "# issues found"; py "---"; py "- [09:05 PM][ps5] Crash on load";
     py "# Found / Invalid"; py "---"; []].

(** Two lines, the second one a Found header. *)
Definition notes_found_only : pystr := py "x" ++ [LF] ++ py "# found".

(** Two user names of a header. *)
Definition users : Engine.dict := [(py "ps5", py "alice"); (py "pc", py "bob")].

End Samples.

(** ** More of the engine of [src/testv021.py]

    The functions that build and replace the header of a document, and
    the list of the issues of the ledger. *)

Module EngineMore.

Import Engine.

Section WithEnv.
Context {E : PyEnv}.

(** [header_block]: the text of a new document. *)
Definition header_block (date_str : pystr) (usernames : dict)
    (gen4_build gen5_build : pystr) : pystr :=
  let lines := [py "# " ++ date_str ++ py " notes"; DIVIDER] in
  let lines :=
    fold_left
      (fun lines p =>
         match dict_get usernames p with
         | Some ((_ :: _) as u) => lines ++ [py "- [" ++ p ++ py "][" ++ u ++ py "]"]
         | _ => lines
         end)
      (sorted ALL_PLATFORMS) lines in
  let lines :=
    if isdigit (strip gen4_build)
    then lines ++ [py "- [gen4][" ++ strip gen4_build ++ py "] --> build number"]
    else lines in
  let lines :=
    if isdigit (strip gen5_build)
    then lines ++ [py "- [gen5][" ++ strip gen5_build ++ py "] --> build number"]
    else lines in
  let lines :=
    lines ++ [[]; ISSUES_TITLE; DIVIDER; []; FOUND_TITLE; DIVIDER; [];
              REPORTS_TITLE; DIVIDER; []; BUGS_TITLE; DIVIDER; []] in
  join_lines lines.

(** [replace_header]; [today] is [datetime.now().strftime("%m-%d-%Y")], the
    date used when the text has none. *)
Definition replace_header (today text : pystr) (usernames : dict)
    (gen4_build gen5_build : pystr) : pystr :=
  let '(date_str, hdr_end) := parse_date_and_header_end text in
  let new_header :=
    header_only_block (match date_str with _ :: _ => date_str | [] => today end)
      usernames gen4_build gen5_build in
  let rest_ := join [LF] (skipn hdr_end (splitlines text)) in
  let out := new_header ++ rest_ in
  find_or_create_sections out.

Definition extract_issues_region (text : pystr) : pystr :=
  let lines := splitlines text in
  match _section_bounds lines ISSUES_HEADERS with
  | None => []
  | Some (start, end_) => join [LF] (skipn start (firstn end_ lines))
  end.

(** [\d{1,2}:\d{2}(?:\s?[AaPp][Mm])?] *)
Definition CLOCK : regex :=
  cats [digit; Opt digit; lit (py ":"); digit; digit;
        Opt (cats [Opt ws; Chr (fun c => mem c (py "AaPp"));
                   Chr (fun c => mem c (py "Mm"))])].

(** [.] without [re.DOTALL] *)
Definition dot : regex := Chr (fun c => negb (N.eqb c LF)).

(** [[a-z0-9]] *)
Definition alnum (c : char) : bool := is_lower_ascii c || is_digit_ascii c.

(** The pattern of [issues_list], compiled with [re.MULTILINE]:
    [^- \[], the clock as group 1, [\]\[([a-z0-9]+)\]\s+], the rest of the
    line as group 3, and [$]. *)
Definition ISSUE_RE : regex :=
  cats [Bol true; lit (py "- ["); Group 1 CLOCK; lit (py "][");
        Group 2 (Plus (Chr alnum)); lit (py "]"); Plus ws;
        Group 3 (Star dot); Eol true].

Definition issues_list (text : pystr) : list event :=
  let region := extract_issues_region text in
  map (fun m => mkEvent (strip (grp 1 m)) (str_lower (grp 2 m)) (strip (grp 3 m)))
      (finditer ISSUE_RE region).

End WithEnv.
End EngineMore.

(** ** Notions for the further properties

    The shapes of lines and documents that the properties of the header
    functions and of the ledger are stated with. *)

Module Views.

Import Engine EngineMore.

(** The lines of the four empty sections of a new document. *)
Definition skeleton : list pystr :=
  [[]; ISSUES_TITLE; DIVIDER; []; FOUND_TITLE; DIVIDER; [];
   REPORTS_TITLE; DIVIDER; []; BUGS_TITLE; DIVIDER].

(** [grown P old new]: the list [new] is [old] with elements satisfying [P]
    added; nothing is removed and the order is kept. *)
Inductive grown (A : Type) (P : A -> Prop) : list A -> list A -> Prop :=
| grown_nil : grown P [] []
| grown_add (x : A) (l1 l2 : list A) : P x -> grown P l1 l2 -> grown P l1 (x :: l2)
| grown_keep (x : A) (l1 l2 : list A) : grown P l1 l2 -> grown P (x :: l1) (x :: l2).

(** The lines the scaffolder writes. *)
Definition scaffold_line (l : pystr) : Prop :=
  In l [ISSUES_TITLE; FOUND_TITLE; REPORTS_TITLE; BUGS_TITLE; DIVIDER; []].

(** What may follow the last line of the header: what may follow any of its
    lines, or an empty line and then a line that does not begin with white
    space. *)
Definition tail_blank (t : pystr) : Prop :=
  Header.tail_ok t \/ exists c t', t = LF :: c :: t' /\ is_space c = false.

(** A header line: free of line breaks, and led by a dash. *)
Definition entry_line (l : pystr) : Prop :=
  break_free l /\ exists t, l = 45%N :: t.

(** [plain Q r]: the pattern [r] captures nothing and reads code points of
    the class [Q] only. *)
Fixpoint plain (Q : char -> bool) (r : regex) : Prop :=
  match r with
  | Eps => True
  | Chr p => forall c, p c = true -> Q c = true
  | Cat a b => plain Q a /\ plain Q b
  | Alt a b => plain Q a /\ plain Q b
  | Star a => plain Q a
  | Group _ _ => False
  | Bol _ => True
  | Eol _ => True
  end.

Section WithEnv.
Context {E : PyEnv}.

(** The code points a clock time is written with. *)
Definition clock_char (c : char) : bool :=
  uni_decimal c || N.eqb 58 c || is_space c || mem c (py "AaPp") || mem c (py "Mm").

(** A time as the normaliser writes it: two digits, a colon, two digits
    and, after one space, [AM] or [PM] or nothing. *)
Definition clock_normal (t : pystr) : Prop :=
  exists a b d1 d2 suf,
    t = [a; b] ++ py ":" ++ [d1; d2] ++ suf
    /\ forallb is_digit_ascii [a; b; d1; d2] = true
    /\ (suf = [] \/ suf = py " AM" \/ suf = py " PM").

(** An issue as the ledger holds it: a normal time, a platform name of
    lower case letters and digits, a description that is not empty and
    trimmed. *)
Definition issue_ok (ev : event) : Prop :=
  clock_normal (time ev)
  /\ platform ev <> [] /\ forallb alnum (platform ev) = true
  /\ desc ev <> [] /\ strip (desc ev) = desc ev.

End WithEnv.

End Views.

(** * Properties *)

Unset Implicit Arguments.

#[global] Arguments N.eqb : simpl never.
#[global] Arguments N.leb : simpl never.
#[global] Arguments N.ltb : simpl never.

(** ** Facts about Python strings *)

Module PyFacts.

Lemma str_eqb_refl (a : pystr) : str_eqb a a = true.
Proof.
  induction a as [|x a IH]; simpl; [reflexivity|].
  rewrite N.eqb_refl, IH. reflexivity.
Qed.

Lemma str_eqb_eq (a b : pystr) : str_eqb a b = true <-> a = b.
Proof.
  split.
  - revert b. induction a as [|x a IH]; intros [|y b] H; simpl in H;
      try discriminate; [reflexivity|].
    apply andb_true_iff in H. destruct H as [H1 H2].
    apply N.eqb_eq in H1. subst y. f_equal. now apply IH.
  - intros ->. apply str_eqb_refl.
Qed.

Lemma str_eqb_neq (a b : pystr) : str_eqb a b = false <-> a <> b.
Proof.
  split.
  - intros H ->. rewrite str_eqb_refl in H. discriminate.
  - intros H. destruct (str_eqb a b) eqn:Hab; [|reflexivity].
    apply str_eqb_eq in Hab. contradiction.
Qed.

Lemma startswith_app (p s : pystr) : startswith (p ++ s) p = true.
Proof.
  induction p as [|x p IH]; simpl; [reflexivity|].
  rewrite N.eqb_refl, IH. reflexivity.
Qed.

Lemma startswith_prefix (s p : pystr) :
  startswith s p = true -> exists t, s = p ++ t.
Proof.
  revert s. induction p as [|x p IH]; intros s H.
  - exists s. reflexivity.
  - destruct s as [|y s]; simpl in H; [discriminate|].
    apply andb_true_iff in H. destruct H as [H1 H2].
    apply N.eqb_eq in H1. subst y.
    destruct (IH _ H2) as [t ->]. exists t. reflexivity.
Qed.

Lemma endswith_snoc (u : pystr) (c : char) :
  endswith (u ++ [c]) [LF] = N.eqb LF c.
Proof.
  unfold endswith. rewrite rev_app_distr. simpl.
  now rewrite andb_true_r.
Qed.

Lemma endswith_nil : endswith [] [LF] = false.
Proof. reflexivity. Qed.

Lemma endswith_inv (s : pystr) :
  endswith s [LF] = true -> exists u, s = u ++ [LF].
Proof.
  destruct (rev s) as [|c r] eqn:Hr; unfold endswith; rewrite Hr; simpl.
  - discriminate.
  - rewrite andb_true_r. intros H. apply N.eqb_eq in H. subst c.
    exists (rev r). rewrite <- (rev_involutive s), Hr. reflexivity.
Qed.

Lemma join_lines_endswith (ls : list pystr) : endswith (join_lines ls) [LF] = true.
Proof.
  unfold join_lines.
  destruct (endswith (join [LF] ls) [LF]) eqn:H; [exact H|].
  rewrite endswith_snoc. reflexivity.
Qed.

(** *** [splitlines] *)

Lemma cons_first_app (c : char) (xs ys : list pystr) :
  xs <> [] -> cons_first c (xs ++ ys) = cons_first c xs ++ ys.
Proof. destruct xs; [contradiction|reflexivity]. Qed.

Lemma cons_first_nonempty (c : char) (xs : list pystr) : cons_first c xs <> [].
Proof. destruct xs; discriminate. Qed.

Lemma splitlines_nl_nonempty (u : pystr) : splitlines (u ++ [LF]) <> [].
Proof.
  destruct u as [|c u]; simpl; [discriminate|].
  destruct (is_linebreak c); [discriminate|apply cons_first_nonempty].
Qed.

Lemma splitlines_app_nl (u s : pystr) :
  splitlines (u ++ LF :: s) = splitlines (u ++ [LF]) ++ splitlines s.
Proof.
  remember (length u) as n eqn:Hn.
  revert u Hn. induction n as [n IH] using lt_wf_ind. intros u Hn.
  destruct u as [|c u]; [reflexivity|].
  simpl. destruct (is_linebreak c) eqn:Hc.
  - destruct (N.eqb c CR) eqn:Hcr.
    + destruct u as [|d u]; [reflexivity|].
      simpl. destruct (N.eqb d LF) eqn:Hd.
      * simpl. f_equal. apply (IH (length u)); [simpl in Hn; lia|reflexivity].
      * simpl. f_equal.
        apply (IH (length (d :: u)) ltac:(simpl in *; lia) (d :: u) eq_refl).
    + simpl. f_equal. apply (IH (length u)); [simpl in Hn; lia|reflexivity].
  - rewrite (IH (length u) ltac:(simpl in Hn; lia) u eq_refl).
    apply cons_first_app, splitlines_nl_nonempty.
Qed.

Lemma break_free_nil : break_free [].
Proof. intros c []. Qed.

Lemma break_free_cons (c : char) (l : pystr) :
  break_free (c :: l) <-> is_linebreak c = false /\ break_free l.
Proof.
  split.
  - intros H. split; [apply H; now left|intros d Hd; apply H; now right].
  - intros [H1 H2] d [<-|Hd]; auto.
Qed.

Lemma break_free_app (a b : pystr) :
  break_free (a ++ b) <-> break_free a /\ break_free b.
Proof.
  split.
  - intros H. split; intros c Hc; apply H, in_or_app; auto.
  - intros [Ha Hb] c Hc. apply in_app_or in Hc. destruct Hc; auto.
Qed.

Lemma splitlines_line_nl (l : pystr) :
  break_free l -> splitlines (l ++ [LF]) = [l].
Proof.
  induction l as [|c l IH]; intros H; [reflexivity|].
  apply break_free_cons in H. destruct H as [Hc Hl].
  simpl. rewrite Hc, (IH Hl). reflexivity.
Qed.

Lemma splitlines_bf_nl (l s : pystr) :
  break_free l -> splitlines (l ++ LF :: s) = l :: splitlines s.
Proof.
  intros H. rewrite splitlines_app_nl, (splitlines_line_nl _ H). reflexivity.
Qed.

Lemma splitlines_bf (l : pystr) :
  break_free l -> l <> [] -> splitlines l = [l].
Proof.
  induction l as [|c l IH]; intros H Hne; [contradiction|].
  apply break_free_cons in H. destruct H as [Hc Hl].
  simpl. rewrite Hc. destruct l as [|d l]; [reflexivity|].
  rewrite (IH Hl); [reflexivity|discriminate].
Qed.

Lemma cons_first_break_free (c : char) (ls : list pystr) :
  is_linebreak c = false -> Forall break_free ls ->
  Forall break_free (cons_first c ls).
Proof.
  intros Hc H. destruct ls as [|l ls]; simpl.
  - constructor; [|constructor]. apply break_free_cons. split; [exact Hc|apply break_free_nil].
  - inversion H; subst. constructor; [|assumption].
    apply break_free_cons. split; assumption.
Qed.

Lemma splitlines_break_free (s : pystr) : Forall break_free (splitlines s).
Proof.
  remember (length s) as n eqn:Hn.
  revert s Hn. induction n as [n IH] using lt_wf_ind. intros s Hn.
  destruct s as [|c s]; [constructor|].
  simpl. destruct (is_linebreak c) eqn:Hc.
  - constructor; [apply break_free_nil|].
    destruct (N.eqb c CR).
    + destruct s as [|d s]; [constructor|].
      destruct (N.eqb d LF).
      * apply (IH (length s)); [simpl in Hn; lia|reflexivity].
      * apply (IH (length (d :: s))); [simpl in *; lia|reflexivity].
    + apply (IH (length s)); [simpl in Hn; lia|reflexivity].
  - apply cons_first_break_free; [exact Hc|].
    apply (IH (length s)); [simpl in Hn; lia|reflexivity].
Qed.

(** *** [strip] *)

Lemma lstrip_snoc_nonspace (a : pystr) (c : char) :
  is_space c = false -> exists u, lstrip (a ++ [c]) = u ++ [c].
Proof.
  intros Hc. induction a as [|x a IH]; simpl.
  - rewrite Hc. now exists [].
  - destruct (is_space x); [exact IH|]. now exists (x :: a).
Qed.

Lemma strip_cons_nonspace (c : char) (t : pystr) :
  is_space c = false -> exists t', strip (c :: t) = c :: t'.
Proof.
  intros Hc. unfold strip, rstrip. simpl lstrip. rewrite Hc. simpl rev.
  destruct (lstrip_snoc_nonspace (rev t) c Hc) as [u ->].
  rewrite rev_app_distr. simpl. now exists (rev u).
Qed.

Lemma In_lstrip (c : char) (l : pystr) :
  In c l -> is_space c = false -> In c (lstrip l).
Proof.
  intros Hin Hc. induction l as [|x l IH]; [destruct Hin|].
  simpl. destruct (is_space x) eqn:Hx; [|exact Hin].
  destruct Hin as [->|Hin]; [congruence|now apply IH].
Qed.

(** [strip] removes white space only. *)
Lemma In_strip (c : char) (l : pystr) :
  In c l -> is_space c = false -> In c (strip l).
Proof.
  intros Hin Hc. unfold strip, rstrip. apply in_rev.
  rewrite rev_involutive. apply In_lstrip; [|exact Hc].
  apply -> in_rev. now apply In_lstrip.
Qed.

Lemma strip_nil : strip [] = [].
Proof. reflexivity. Qed.

(** *** [join] and the closing idiom *)

Lemma lines_text_cons (l : pystr) (ls : list pystr) :
  lines_text (l :: ls) = l ++ LF :: lines_text ls.
Proof. unfold lines_text. simpl. now rewrite <- app_assoc. Qed.

Lemma lines_text_app (a b : list pystr) :
  lines_text (a ++ b) = lines_text a ++ lines_text b.
Proof. unfold lines_text. now rewrite map_app, concat_app. Qed.

Lemma join_cons (l : pystr) (ls : list pystr) :
  ls <> [] -> join [LF] (l :: ls) = l ++ LF :: join [LF] ls.
Proof. destruct ls; [contradiction|reflexivity]. Qed.

Lemma join_app (a b : list pystr) :
  b <> [] -> join [LF] (a ++ b) = lines_text a ++ join [LF] b.
Proof.
  intros Hb. induction a as [|l a IH]; [reflexivity|].
  rewrite lines_text_cons. simpl app at 1.
  rewrite join_cons; [|destruct a; [assumption|discriminate]].
  rewrite IH, <- app_assoc. reflexivity.
Qed.

Lemma join_snoc_nl (ls : list pystr) :
  ls <> [] -> join [LF] ls ++ [LF] = lines_text ls.
Proof.
  induction ls as [|l ls IH]; [contradiction|]. intros _.
  rewrite lines_text_cons. destruct ls as [|l' ls]; [reflexivity|].
  rewrite join_cons by discriminate.
  rewrite <- IH by discriminate. rewrite <- app_assoc. reflexivity.
Qed.

Lemma splitlines_lines_text_app (ls : list pystr) (s : pystr) :
  splitlines (lines_text ls ++ s) = splitlines (lines_text ls) ++ splitlines s.
Proof.
  induction ls as [|l ls IH]; [reflexivity|].
  rewrite lines_text_cons, <- app_assoc. simpl app.
  rewrite splitlines_app_nl, IH, (splitlines_app_nl l (lines_text ls)).
  now rewrite app_assoc.
Qed.

Lemma splitlines_lines_text (ls : list pystr) :
  Forall break_free ls -> splitlines (lines_text ls) = ls.
Proof.
  induction 1 as [|l ls Hl _ IH]; [reflexivity|].
  rewrite lines_text_cons, splitlines_bf_nl by assumption. now rewrite IH.
Qed.

Lemma break_free_last_not_lf (u : pystr) (c : char) :
  break_free (u ++ [c]) -> N.eqb LF c = false.
Proof.
  intros H. apply N.eqb_neq. intros <-.
  assert (Hc : is_linebreak LF = false) by (apply H, in_or_app; right; now left).
  discriminate.
Qed.

(** A break-free line that is not empty does not end the text with a line
    feed. *)
Lemma endswith_app_line (a h : pystr) :
  break_free h -> h <> [] -> endswith (a ++ h) [LF] = false.
Proof.
  intros Hh Hne. destruct (exists_last Hne) as [u [c ->]].
  rewrite app_assoc, endswith_snoc. eapply break_free_last_not_lf; eassumption.
Qed.

Lemma endswith_app_nonempty (a s : pystr) :
  s <> [] -> endswith (a ++ s) [LF] = endswith s [LF].
Proof.
  intros Hne. destruct (exists_last Hne) as [u [z ->]].
  now rewrite app_assoc, !endswith_snoc.
Qed.

Lemma drop_final_blank_cons (l : pystr) (r : list pystr) :
  r <> [] -> drop_final_blank (l :: r) = l :: drop_final_blank r.
Proof. destruct r; [contradiction|reflexivity]. Qed.

Lemma drop_final_blank_incl (ls : list pystr) (x : pystr) :
  In x (drop_final_blank ls) -> In x ls.
Proof.
  induction ls as [|l r IH]; [intros []|].
  destruct r as [|l' r].
  - destruct l; [intros []|intros H; exact H].
  - rewrite drop_final_blank_cons by discriminate.
    intros [<-|H]; [now left|right; now apply IH].
Qed.

Lemma chomp_break_free (ls : list pystr) :
  Forall break_free ls -> Forall break_free (chomp ls).
Proof.
  intros H. unfold chomp.
  destruct (drop_final_blank ls) as [|x r] eqn:Hd.
  - constructor; [apply break_free_nil|constructor].
  - rewrite <- Hd. apply Forall_forall. intros y Hy.
    rewrite Forall_forall in H. apply H. now apply drop_final_blank_incl.
Qed.

Lemma join_nil_inv (ls : list pystr) :
  join [LF] ls = [] -> ls = [] \/ ls = [[]].
Proof.
  destruct ls as [|l [|l' r]]; [now left| |].
  - simpl. intros ->. now right.
  - rewrite join_cons by discriminate. intros H.
    apply app_eq_nil in H. destruct H as [_ H]. discriminate.
Qed.

(** The closing idiom on break-free lines, a final empty line apart. *)
Lemma join_lines_drop (ls : list pystr) :
  Forall break_free ls -> ls <> [] -> ls <> [[]] ->
  join_lines ls = lines_text (drop_final_blank ls).
Proof.
  induction ls as [|l r IH]; [contradiction|].
  intros H _ Hne. inversion H as [|? ? Hl Hr]; subst.
  destruct r as [|l' r].
  - destruct l as [|c l]; [contradiction|].
    unfold join_lines. cbn [join].
    pose proof (endswith_app_line [] (c :: l) Hl ltac:(discriminate)) as He.
    cbn [app] in He. rewrite He.
    cbn [drop_final_blank]. unfold lines_text. simpl. now rewrite app_nil_r.
  - rewrite drop_final_blank_cons, lines_text_cons by discriminate.
    unfold join_lines. rewrite join_cons by discriminate.
    destruct (join [LF] (l' :: r)) as [|c j] eqn:Hj.
    + apply join_nil_inv in Hj. destruct Hj as [Hj|Hj]; [discriminate|].
      injection Hj as -> ->.
      rewrite endswith_snoc, N.eqb_refl. reflexivity.
    + change (l ++ LF :: c :: j) with (l ++ [LF] ++ c :: j).
      rewrite app_assoc, endswith_app_nonempty by discriminate.
      assert (Hne' : l' :: r <> [[]]).
      { intros E. rewrite E in Hj. discriminate. }
      specialize (IH Hr ltac:(discriminate) Hne').
      unfold join_lines in IH. rewrite Hj in IH.
      destruct (endswith (c :: j) [LF]).
      * rewrite <- app_assoc. simpl. now rewrite IH.
      * rewrite <- IH, <- !app_assoc. reflexivity.
Qed.

Lemma join_lines_text (ls : list pystr) :
  Forall break_free ls -> join_lines ls = lines_text (chomp ls).
Proof.
  intros H. destruct ls as [|l [|l' r]].
  - reflexivity.
  - destruct l as [|c l]; [reflexivity|].
    rewrite join_lines_drop by (assumption || discriminate). reflexivity.
  - rewrite join_lines_drop by (assumption || discriminate).
    unfold chomp. rewrite drop_final_blank_cons by discriminate. reflexivity.
Qed.

Lemma splitlines_join_lines (ls : list pystr) :
  Forall break_free ls -> splitlines (join_lines ls) = chomp ls.
Proof.
  intros H. rewrite join_lines_text by assumption.
  apply splitlines_lines_text, chomp_break_free, H.
Qed.

(** Whatever else the buffer holds, a break-free, non-empty element of it
    is a line of the returned text. *)
Lemma line_survives (ls : list pystr) (h : pystr) :
  In h ls -> break_free h -> h <> [] -> In h (splitlines (join_lines ls)).
Proof.
  intros Hin Hh Hne. apply in_split in Hin. destruct Hin as [pre [post ->]].
  unfold join_lines. rewrite join_app by discriminate.
  destruct post as [|p post].
  - simpl join. rewrite endswith_app_line by assumption.
    rewrite <- app_assoc, splitlines_lines_text_app, splitlines_line_nl by assumption.
    apply in_or_app. right. now left.
  - rewrite join_cons by discriminate.
    match goal with |- In h (splitlines (if ?b then _ else _)) => destruct b end.
    + rewrite splitlines_lines_text_app, splitlines_bf_nl by assumption.
      apply in_or_app. right. now left.
    + rewrite <- !app_assoc, splitlines_lines_text_app. simpl app.
      rewrite splitlines_bf_nl by assumption.
      apply in_or_app. right. now left.
Qed.

End PyFacts.

(** ** Facts about the section index and the scaffolder *)

Module EngineFacts.
Import PyFacts Engine.

Lemma find_index_none (A : Type) (P : A -> bool) (l : list A) :
  find_index P l = None <-> existsb P l = false.
Proof.
  induction l as [|x l IH]; simpl; [tauto|].
  destruct (P x); simpl.
  - split; discriminate.
  - destruct (find_index P l); simpl.
    + split; [discriminate|]. intros H. apply IH in H. discriminate.
    + tauto.
Qed.

Lemma find_index_some (A : Type) (P : A -> bool) (l : list A) (i : nat) (d : A) :
  find_index P l = Some i ->
  i < length l /\ P (nth i l d) = true /\ forall j, j < i -> P (nth j l d) = false.
Proof.
  revert i. induction l as [|x l IH]; intros i; simpl; [discriminate|].
  destruct (P x) eqn:Hx.
  - intros [= <-]. repeat split; [lia|exact Hx|intros j Hj; lia].
  - destruct (find_index P l) as [k|]; simpl; [|discriminate].
    intros [= <-]. destruct (IH k eq_refl) as [H1 [H2 H3]].
    repeat split; [lia|exact H2|].
    intros [|j] Hj; [exact Hx|apply H3; lia].
Qed.

Lemma find_index_first (A : Type) (P : A -> bool) (l : list A) (i : nat) (d : A) :
  i < length l -> P (nth i l d) = true ->
  (forall j, j < i -> P (nth j l d) = false) ->
  find_index P l = Some i.
Proof.
  revert i. induction l as [|x l IH]; intros i Hi Hp Hlt; simpl in *; [lia|].
  destruct i as [|i].
  - now rewrite Hp.
  - rewrite (Hlt 0 ltac:(lia)). rewrite (IH i); [reflexivity|lia|exact Hp|].
    intros j Hj. apply (Hlt (S j)). lia.
Qed.

Lemma section_bounds_none (ls : list pystr) (K : list regex) :
  _section_bounds ls K = None <-> has_section K ls = false.
Proof.
  unfold _section_bounds, _find_section_start, has_section.
  rewrite <- find_index_none.
  destruct (find_index (header_match K) ls); split; intros H;
    try discriminate; reflexivity.
Qed.

Lemma section_bounds_some (ls : list pystr) (K : list regex) :
  has_section K ls = true -> exists b, _section_bounds ls K = Some b.
Proof.
  intros H. destruct (_section_bounds ls K) as [b|] eqn:Hb; [now exists b|].
  apply section_bounds_none in Hb. congruence.
Qed.

Lemma has_section_in (K : list regex) (ls : list pystr) :
  has_section K ls = true <-> exists l, In l ls /\ header_match K l = true.
Proof. apply existsb_exists. Qed.

Lemma has_section_insert (K : list regex) (i : nat) (block ls : list pystr) :
  has_section K ls = true -> has_section K (insert_at i block ls) = true.
Proof.
  rewrite !has_section_in. intros [l [Hin Hm]]. exists l. split; [|exact Hm].
  unfold insert_at. rewrite <- (firstn_skipn i ls) in Hin.
  apply in_app_or in Hin. apply in_or_app.
  destruct Hin; [now left|right; apply in_or_app; now right].
Qed.

Lemma has_section_insert_title (K : list regex) (i : nat) (title : pystr)
    (block ls : list pystr) :
  header_match K title = true ->
  has_section K (insert_at i (title :: block) ls) = true.
Proof.
  intros H. apply has_section_in. exists title. split; [|exact H].
  unfold insert_at. apply in_or_app. right. now left.
Qed.

Lemma ensure_has (K : list regex) (title : pystr) (pos : nat) (ls : list pystr) :
  header_match K title = true -> has_section K (ensure K title pos ls) = true.
Proof.
  intros H. unfold ensure. destruct (_section_bounds ls K) eqn:Hb.
  - destruct (has_section K ls) eqn:Hs; [reflexivity|].
    apply section_bounds_none in Hs. congruence.
  - now apply has_section_insert_title.
Qed.

Lemma ensure_keeps (K K' : list regex) (title : pystr) (pos : nat) (ls : list pystr) :
  has_section K' ls = true -> has_section K' (ensure K title pos ls) = true.
Proof.
  intros H. unfold ensure. destruct (_section_bounds ls K); [exact H|].
  now apply has_section_insert.
Qed.

Lemma issues_title_ok : header_match ISSUES_HEADERS ISSUES_TITLE = true.
Proof. vm_compute. reflexivity. Qed.
Lemma found_title_ok : header_match FOUND_HEADERS FOUND_TITLE = true.
Proof. vm_compute. reflexivity. Qed.
Lemma reports_title_ok : header_match REPORTS_HEADERS REPORTS_TITLE = true.
Proof. vm_compute. reflexivity. Qed.
Lemma bugs_title_ok : header_match BUGS_HEADERS BUGS_TITLE = true.
Proof. vm_compute. reflexivity. Qed.

(** After the four steps every canonical section has a header. *)
Lemma scaffold_complete (ls : list pystr) : complete (scaffold ls) = true.
Proof.
  unfold complete, scaffold.
  rewrite !andb_true_iff. repeat split.
  - do 3 apply ensure_keeps. apply ensure_has, issues_title_ok.
  - do 2 apply ensure_keeps. apply ensure_has, found_title_ok.
  - apply ensure_keeps. apply ensure_has, reports_title_ok.
  - apply ensure_has, bugs_title_ok.
Qed.

Lemma ensure_id (K : list regex) (title : pystr) (pos : nat) (ls : list pystr) :
  has_section K ls = true -> ensure K title pos ls = ls.
Proof.
  intros H. unfold ensure. destruct (section_bounds_some _ _ H) as [b ->].
  reflexivity.
Qed.

Lemma scaffold_id (ls : list pystr) : complete ls = true -> scaffold ls = ls.
Proof.
  unfold complete, scaffold. rewrite !andb_true_iff.
  intros [[[HI HF] HR] HB].
  rewrite (@ensure_id _ _ _ _ HI), (@ensure_id _ _ _ _ HF), (@ensure_id _ _ _ _ HR).
  apply (@ensure_id _ _ _ _ HB).
Qed.

Lemma has_section_bounds (K : list regex) (ls : list pystr) :
  has_section K ls = match _section_bounds ls K with Some _ => true | None => false end.
Proof.
  destruct (_section_bounds ls K) eqn:Hb.
  - destruct (has_section K ls) eqn:Hs; [reflexivity|].
    apply section_bounds_none in Hs. congruence.
  - now apply section_bounds_none.
Qed.

Lemma ensure_step_eq (K : list regex) (title : pystr) (pos : list pystr -> nat)
    (ls : list pystr) (ch : bool) :
  ensure_step K title pos (ls, ch)
  = (ensure K title (pos ls) ls, ch || negb (has_section K ls)).
Proof.
  unfold ensure_step, ensure. rewrite has_section_bounds. simpl.
  destruct (_section_bounds ls K); simpl.
  - now rewrite orb_false_r.
  - now rewrite orb_true_r.
Qed.

(** The scaffolder as four steps on the line buffer. *)
Lemma find_or_create_sections_steps (text : pystr) :
  find_or_create_sections text
  = let '(ls, changed) :=
      ensure_step BUGS_HEADERS BUGS_TITLE (section_end REPORTS_HEADERS)
        (ensure_step REPORTS_HEADERS REPORTS_TITLE (section_end FOUND_HEADERS)
          (ensure_step FOUND_HEADERS FOUND_TITLE (section_end ISSUES_HEADERS)
            (ensure_step ISSUES_HEADERS ISSUES_TITLE issues_pos
               (splitlines text, false)))) in
    if changed then join_lines ls else text.
Proof.
  unfold find_or_create_sections, ensure_step, section_end, issues_pos, join_lines.
  cbn [fst snd].
  repeat match goal with
         | |- context [match _section_bounds ?l ?K with _ => _ end] =>
             destruct (_section_bounds l K); cbn [fst snd]
         end;
    try reflexivity;
    cbn [andb negb]; destruct (endswith _ [LF]); reflexivity.
Qed.

(** The scaffolder, read off its source: the input when nothing is missing,
    else the closing idiom on the scaffolded buffer. *)
Lemma find_or_create_sections_unfold (text : pystr) :
  find_or_create_sections text
  = if complete (splitlines text) then text
    else join_lines (scaffold (splitlines text)).
Proof.
  rewrite find_or_create_sections_steps, !ensure_step_eq.
  fold (scaffold (splitlines text)). cbn [orb].
  set (ls0 := splitlines text).
  destruct (complete ls0) eqn:Hc.
  - pose proof Hc as Hc'. unfold complete in Hc'. rewrite !andb_true_iff in Hc'.
    destruct Hc' as [[[HI HF] HR] HB].
    rewrite !(@ensure_id _ _ _ _ HI), !(@ensure_id _ _ _ _ HF),
      !(@ensure_id _ _ _ _ HR), HI, HF, HR, HB. reflexivity.
  - match goal with |- (if ?c then _ else _) = _ => assert (Hch : c = true) end.
    { unfold complete in Hc.
      destruct (has_section ISSUES_HEADERS ls0) eqn:HI; [|reflexivity].
      rewrite !(@ensure_id _ _ _ _ HI).
      destruct (has_section FOUND_HEADERS ls0) eqn:HF; [|reflexivity].
      rewrite !(@ensure_id _ _ _ _ HF).
      destruct (has_section REPORTS_HEADERS ls0) eqn:HR; [|reflexivity].
      rewrite !(@ensure_id _ _ _ _ HR).
      destruct (has_section BUGS_HEADERS ls0) eqn:HB; [discriminate|reflexivity]. }
    rewrite Hch. reflexivity.
Qed.

Lemma break_freeb_ok (s : pystr) : break_freeb s = true -> break_free s.
Proof.
  unfold break_freeb, break_free. rewrite forallb_forall.
  intros H c Hc. apply H in Hc. now destruct (is_linebreak c).
Qed.

Lemma Forall_insert_at (A : Type) (P : A -> Prop) (i : nat) (block ls : list A) :
  Forall P block -> Forall P ls -> Forall P (insert_at i block ls).
Proof.
  intros Hb Hl. unfold insert_at. rewrite !Forall_app. repeat split.
  - apply Forall_forall. intros x Hx. rewrite Forall_forall in Hl.
    apply Hl. eapply In_nth_error in Hx. destruct Hx as [n Hn].
    apply nth_error_In with n. rewrite nth_error_firstn in Hn.
    destruct (n <? i); [exact Hn|discriminate].
  - exact Hb.
  - apply Forall_forall. intros x Hx. rewrite Forall_forall in Hl.
    apply Hl. rewrite <- (firstn_skipn i ls). apply in_or_app. now right.
Qed.

Lemma ensure_break_free (K : list regex) (title : pystr) (pos : nat) (ls : list pystr) :
  break_freeb title = true -> Forall break_free ls ->
  Forall break_free (ensure K title pos ls).
Proof.
  intros Ht Hl. unfold ensure. destruct (_section_bounds ls K); [exact Hl|].
  apply Forall_insert_at; [|exact Hl].
  repeat constructor; apply break_freeb_ok; [exact Ht|reflexivity|reflexivity].
Qed.

Lemma scaffold_break_free (ls : list pystr) :
  Forall break_free ls -> Forall break_free (scaffold ls).
Proof.
  intros H. unfold scaffold.
  repeat (apply ensure_break_free; [reflexivity|]). exact H.
Qed.

(** *** Header lines begin with [#] *)

Lemma matches_cat_chr (p : char -> bool) (r : regex) (s : pystr) :
  matches (Cat (Chr p) r) s = true -> exists c t, s = c :: t /\ p c = true.
Proof.
  unfold matches, re_match. cbn [run start_state rest].
  destruct s as [|c t]; [discriminate|].
  destruct (p c) eqn:Hp; [|discriminate].
  intros _. now exists c, t.
Qed.

Lemma issues_hash_led : hash_led ISSUES_HEADERS.
Proof. repeat constructor; eexists; reflexivity. Qed.
Lemma found_hash_led : hash_led FOUND_HEADERS.
Proof. repeat constructor; eexists; reflexivity. Qed.
Lemma reports_hash_led : hash_led REPORTS_HEADERS.
Proof. repeat constructor; eexists; reflexivity. Qed.
Lemma bugs_hash_led : hash_led BUGS_HEADERS.
Proof. repeat constructor; eexists; reflexivity. Qed.

Lemma header_match_hash (K : list regex) (l : pystr) :
  hash_led K -> header_match K l = true -> exists t, strip l = 35%N :: t.
Proof.
  intros HK H. unfold header_match in H. apply existsb_exists in H.
  destruct H as [r [Hr Hm]]. unfold hash_led in HK. rewrite Forall_forall in HK.
  destruct (HK r Hr) as [r' ->]. apply matches_cat_chr in Hm.
  destruct Hm as [c [t [-> Hc]]]. apply N.eqb_eq in Hc. subst c. now exists t.
Qed.

Lemma header_match_nonempty (K : list regex) (l : pystr) :
  hash_led K -> header_match K l = true -> l <> [].
Proof.
  intros HK H ->. destruct (header_match_hash _ _ HK H) as [t Ht]. discriminate.
Qed.

(** A section found in the line buffer is found in the returned text. *)
Lemma has_section_survives (K : list regex) (ls : list pystr) :
  hash_led K -> Forall break_free ls ->
  has_section K ls = true -> has_section K (splitlines (join_lines ls)) = true.
Proof.
  intros HK Hbf H. apply has_section_in in H. destruct H as [l [Hin Hm]].
  apply has_section_in. exists l. split; [|exact Hm].
  apply line_survives; [exact Hin| |eapply header_match_nonempty; eassumption].
  rewrite Forall_forall in Hbf. now apply Hbf.
Qed.

Lemma complete_survives (ls : list pystr) :
  Forall break_free ls ->
  complete ls = true -> complete (splitlines (join_lines ls)) = true.
Proof.
  unfold complete. rewrite !andb_true_iff. intros Hbf [[[HI HF] HR] HB].
  repeat split; apply has_section_survives;
    auto using issues_hash_led, found_hash_led, reports_hash_led, bugs_hash_led.
Qed.

(** The text the scaffolder returns has all four sections. *)
Lemma scaffolded_complete (text : pystr) :
  complete (splitlines (find_or_create_sections text)) = true.
Proof.
  rewrite find_or_create_sections_unfold.
  destruct (complete (splitlines text)) eqn:Hc; [exact Hc|].
  apply complete_survives; [|apply scaffold_complete].
  apply scaffold_break_free, splitlines_break_free.
Qed.

Lemma scaffolder_fixpoint (text : pystr) :
  complete (splitlines text) = true -> find_or_create_sections text = text.
Proof. intros H. now rewrite find_or_create_sections_unfold, H. Qed.

End EngineFacts.

(** ** The operations on a scaffolded document *)

Module OpFacts.
Import PyFacts EngineFacts Engine.

Section WithEnv.
Context {E : PyEnv}.

Lemma complete_bounds (ls : list pystr) :
  complete ls = true ->
  (exists b, _section_bounds ls ISSUES_HEADERS = Some b)
  /\ (exists b, _section_bounds ls FOUND_HEADERS = Some b)
  /\ (exists b, _section_bounds ls REPORTS_HEADERS = Some b)
  /\ (exists b, _section_bounds ls BUGS_HEADERS = Some b).
Proof.
  unfold complete. rewrite !andb_true_iff. intros [[[HI HF] HR] HB].
  repeat split; now apply section_bounds_some.
Qed.

Lemma section_end_some (K : list regex) (ls : list pystr) (b : nat * nat) :
  _section_bounds ls K = Some b -> section_end K ls = snd b.
Proof. intros H. unfold section_end. now rewrite H. Qed.

(** Appending an issue: the scaffolded buffer with the new line spliced in
    at the end of Issues Found. *)
Lemma add_issue_line_eq (text time_str platform_ desc_ : pystr) :
  add_issue_line text time_str platform_ desc_
  = let ls := splitlines (find_or_create_sections text) in
    Ok (join_lines
          (insert_at (section_end ISSUES_HEADERS ls)
             [py "- [" ++ normalize_time_12h time_str ++ py "][" ++ str_lower platform_
                 ++ py "] " ++ strip desc_] ls)).
Proof.
  unfold add_issue_line. cbv zeta.
  destruct (complete_bounds _ (scaffolded_complete text)) as [[[s e] HI] _].
  rewrite HI. cbn [unpack bind]. rewrite (section_end_some _ _ _ HI). reflexivity.
Qed.

(** *** Section bounds *)

Lemma find_index_lt (A : Type) (P : A -> bool) (l : list A) (i : nat) :
  find_index P l = Some i -> i < length l.
Proof.
  revert i. induction l as [|x l IH]; simpl; [discriminate|].
  intros i. destruct (P x); [intros [= <-]; lia|].
  destruct (find_index P l) as [k|]; simpl; [|discriminate].
  intros [= <-]. specialize (IH k eq_refl). lia.
Qed.

Lemma section_bounds_range (ls : list pystr) (K : list regex) (s e : nat) :
  _section_bounds ls K = Some (s, e) ->
  exists idx, _find_section_start ls K = Some idx
              /\ idx < s /\ s <= e /\ e <= length ls.
Proof.
  unfold _section_bounds.
  destruct (_find_section_start ls K) as [idx|] eqn:Hidx; [|discriminate].
  pose proof (find_index_lt _ _ _ _ Hidx) as Hlt.
  intros [= <- <-]. exists idx. split; [reflexivity|].
  unfold is_divider.
  destruct ((idx + 1 <? length ls) && str_eqb (strip (nth (idx + 1) ls [])) DIVIDER)
    eqn:Hd.
  - apply andb_true_iff in Hd. destruct Hd as [Hd _]. apply Nat.ltb_lt in Hd.
    destruct (find_index is_heading (skipn (idx + 1 + 1) ls)) as [j|] eqn:Hj.
    + apply find_index_lt in Hj. rewrite length_skipn in Hj. lia.
    + lia.
  - destruct (find_index is_heading (skipn (idx + 1) ls)) as [j|] eqn:Hj.
    + apply find_index_lt in Hj. rewrite length_skipn in Hj. lia.
    + lia.
Qed.

Lemma nth_skipn (A : Type) (s j : nat) (l : list A) (d : A) :
  nth j (skipn s l) d = nth (s + j) l d.
Proof.
  revert l. induction s as [|s IH]; intros l; [reflexivity|].
  destruct l as [|x l]; simpl; [now destruct j|apply IH].
Qed.

Lemma first_from_spec (P : pystr -> bool) (s : nat) (ls : list pystr) :
  s <= length ls ->
  s <= first_from P s ls <= length ls
  /\ (forall j, s <= j < first_from P s ls -> P (nth j ls []) = false)
  /\ (first_from P s ls < length ls -> P (nth (first_from P s ls) ls []) = true).
Proof.
  intros Hs. unfold first_from.
  destruct (find_index P (skipn s ls)) as [j|] eqn:Hj.
  - destruct (find_index_some _ _ _ _ [] Hj) as [Hlt [Hp Hbefore]].
    rewrite length_skipn in Hlt. rewrite nth_skipn in Hp.
    split; [lia|]. split; [|intros _; exact Hp].
    intros k Hk. specialize (Hbefore (k - s) ltac:(lia)).
    rewrite nth_skipn in Hbefore. now replace (s + (k - s)) with k in Hbefore by lia.
  - split; [lia|]. split; [|lia].
    intros k Hk. apply find_index_none in Hj.
    destruct (P (nth k ls [])) eqn:Hp; [|reflexivity].
    assert (Hex : existsb P (skipn s ls) = true).
    { apply existsb_exists. exists (nth k ls []). split; [|exact Hp].
      replace k with (s + (k - s)) by lia. rewrite <- nth_skipn.
      apply nth_In. rewrite length_skipn. lia. }
    congruence.
Qed.

Lemma first_from_unique (P : pystr -> bool) (s e : nat) (ls : list pystr) :
  s <= e <= length ls ->
  (forall j, s <= j < e -> P (nth j ls []) = false) ->
  (e < length ls -> P (nth e ls []) = true) ->
  first_from P s ls = e.
Proof.
  intros Hse Hbefore Hat.
  destruct (first_from_spec P s ls ltac:(lia)) as [Hr [Hb Ha]].
  destruct (Nat.lt_trichotomy (first_from P s ls) e) as [Hlt|[Heq|Hgt]];
    [|exact Heq|].
  - specialize (Hbefore _ (conj (proj1 Hr) Hlt)).
    rewrite Ha in Hbefore by lia. discriminate.
  - specialize (Hb e ltac:(lia)). rewrite Hat in Hb by lia. discriminate.
Qed.

(** The bounds of a section, spelled out. *)
Lemma section_bounds_unfold (ls : list pystr) (K : list regex) :
  _section_bounds ls K
  = match _find_section_start ls K with
    | None => None
    | Some idx =>
        let s := if is_divider ls (idx + 1) then idx + 1 + 1 else idx + 1 in
        Some (s, first_from is_heading s ls)
    end.
Proof. reflexivity. Qed.

Lemma section_bounds_intro (ls : list pystr) (K : list regex) (idx s e : nat) :
  idx < length ls ->
  header_match K (nth idx ls []) = true ->
  (forall j, j < idx -> header_match K (nth j ls []) = false) ->
  s = (if is_divider ls (idx + 1) then idx + 1 + 1 else idx + 1) ->
  s <= e <= length ls ->
  (forall j, s <= j < e -> is_heading (nth j ls []) = false) ->
  (e < length ls -> is_heading (nth e ls []) = true) ->
  _section_bounds ls K = Some (s, e).
Proof.
  intros Hlt Hm Hfirst Hs Hse Hb Ha.
  rewrite section_bounds_unfold. unfold _find_section_start.
  rewrite (find_index_first pystr (header_match K) ls idx [] Hlt Hm Hfirst). cbv zeta.
  rewrite <- Hs. now rewrite (first_from_unique is_heading s e ls Hse Hb Ha).
Qed.

Lemma section_bounds_elim (ls : list pystr) (K : list regex) (s e : nat) :
  _section_bounds ls K = Some (s, e) ->
  exists idx,
    idx < length ls
    /\ header_match K (nth idx ls []) = true
    /\ (forall j, j < idx -> header_match K (nth j ls []) = false)
    /\ s = (if is_divider ls (idx + 1) then idx + 1 + 1 else idx + 1)
    /\ s <= e <= length ls
    /\ (forall j, s <= j < e -> is_heading (nth j ls []) = false)
    /\ (e < length ls -> is_heading (nth e ls []) = true).
Proof.
  rewrite section_bounds_unfold. unfold _find_section_start.
  destruct (find_index (header_match K) ls) as [idx|] eqn:Hidx; [|discriminate].
  cbv zeta. intros [= Hs He]. exists idx.
  destruct (find_index_some _ _ _ _ [] Hidx) as [Hlt [Hm Hfirst]].
  assert (Hsl : s <= length ls).
  { subst s. unfold is_divider.
    destruct (idx + 1 <? length ls) eqn:Hd; cbn [andb].
    - apply Nat.ltb_lt in Hd. destruct (str_eqb _ _); lia.
    - lia. }
  rewrite Hs in He.
  destruct (first_from_spec is_heading s ls Hsl) as [Hr [Hb Ha]].
  rewrite He in Hr, Hb, Ha. repeat split; auto; lia.
Qed.

(** *** Splices *)

Lemma length_insert_at (A : Type) (q : nat) (block ls : list A) :
  length (insert_at q block ls) = length ls + length block.
Proof.
  unfold insert_at. rewrite !length_app, length_firstn, length_skipn. lia.
Qed.

Lemma nth_insert_at (A : Type) (q j : nat) (block ls : list A) (d : A) :
  q <= length ls ->
  nth j (insert_at q block ls) d
  = if j <? q then nth j ls d
    else if j <? q + length block then nth (j - q) block d
    else nth (j - length block) ls d.
Proof.
  intros Hq. unfold insert_at.
  destruct (j <? q) eqn:H1.
  - apply Nat.ltb_lt in H1. rewrite app_nth1 by (rewrite length_firstn; lia).
    rewrite nth_firstn. apply Nat.ltb_lt in H1. now rewrite H1.
  - apply Nat.ltb_ge in H1. rewrite app_nth2 by (rewrite length_firstn; lia).
    rewrite length_firstn, Nat.min_l by lia.
    destruct (j <? q + length block) eqn:H2.
    + apply Nat.ltb_lt in H2. now rewrite app_nth1 by lia.
    + apply Nat.ltb_ge in H2. rewrite app_nth2 by lia.
      rewrite nth_skipn. f_equal. lia.
Qed.

Lemma length_delete_at (A : Type) (k : nat) (ls : list A) :
  k < length ls -> length (delete_at k ls) = length ls - 1.
Proof.
  intros Hk. unfold delete_at. rewrite length_app, length_firstn, length_skipn. lia.
Qed.

Lemma nth_delete_at (A : Type) (k j : nat) (ls : list A) (d : A) :
  k < length ls ->
  nth j (delete_at k ls) d = if j <? k then nth j ls d else nth (S j) ls d.
Proof.
  intros Hk. unfold delete_at.
  destruct (j <? k) eqn:H1.
  - apply Nat.ltb_lt in H1. rewrite app_nth1 by (rewrite length_firstn; lia).
    rewrite nth_firstn. apply Nat.ltb_lt in H1. now rewrite H1.
  - apply Nat.ltb_ge in H1. rewrite app_nth2 by (rewrite length_firstn; lia).
    rewrite length_firstn, Nat.min_l by lia. rewrite nth_skipn. f_equal. lia.
Qed.

(** *** A line inserted at the end of a section *)

Lemma is_divider_insert_end (ls : list pystr) (idx e : nat) (nl : pystr) :
  idx + 1 <= e <= length ls ->
  (idx + 1 = e -> is_divider ls (idx + 1) = false) ->
  str_eqb (strip nl) DIVIDER = false ->
  is_divider (insert_at e [nl] ls) (idx + 1) = is_divider ls (idx + 1).
Proof.
  intros Hr Heq Hnl. unfold is_divider.
  rewrite length_insert_at, nth_insert_at by lia. cbn [length].
  destruct (idx + 1 <? e) eqn:H1.
  - apply Nat.ltb_lt in H1.
    replace (idx + 1 <? length ls + 1) with true by (symmetry; apply Nat.ltb_lt; lia).
    replace (idx + 1 <? length ls) with true by (symmetry; apply Nat.ltb_lt; lia).
    reflexivity.
  - apply Nat.ltb_ge in H1. assert (He : idx + 1 = e) by lia.
    specialize (Heq He). unfold is_divider in Heq. rewrite Heq.
    replace (idx + 1 <? e + 1) with true by (symmetry; apply Nat.ltb_lt; lia).
    replace (idx + 1 - e) with 0 by lia. cbn [nth]. rewrite Hnl.
    apply andb_false_r.
Qed.

Lemma section_bounds_insert_end (ls : list pystr) (K : list regex) (s e : nat)
    (nl : pystr) :
  _section_bounds ls K = Some (s, e) -> plain_line nl ->
  _section_bounds (insert_at e [nl] ls) K = Some (s, e + 1).
Proof.
  intros Hb [Hh Hd].
  destruct (section_bounds_elim _ _ _ _ Hb)
    as [idx [Hlt [Hm [Hfirst [Hs [Hse [Hbefore Hat]]]]]]].
  assert (Hidx : idx + 1 <= s) by (destruct (is_divider ls (idx + 1)); lia).
  apply section_bounds_intro with (idx := idx).
  - rewrite length_insert_at. lia.
  - rewrite nth_insert_at by lia.
    replace (idx <? e) with true by (symmetry; apply Nat.ltb_lt; lia). exact Hm.
  - intros j Hj. rewrite nth_insert_at by lia.
    replace (j <? e) with true by (symmetry; apply Nat.ltb_lt; lia). now apply Hfirst.
  - rewrite is_divider_insert_end; [exact Hs|lia| |exact Hd].
    intros Heq. destruct (is_divider ls (idx + 1)); [lia|reflexivity].
  - rewrite length_insert_at. cbn [length]. lia.
  - intros j Hj. rewrite nth_insert_at by lia. cbn [length].
    destruct (j <? e) eqn:H1.
    + apply Nat.ltb_lt in H1. apply Hbefore. lia.
    + apply Nat.ltb_ge in H1. assert (j = e) as -> by lia.
      replace (e <? e + 1) with true by (symmetry; apply Nat.ltb_lt; lia).
      replace (e - e) with 0 by lia. exact Hh.
  - rewrite length_insert_at. cbn [length]. intros Hlt2.
    rewrite nth_insert_at by lia. cbn [length].
    replace (e + 1 <? e) with false by (symmetry; apply Nat.ltb_ge; lia).
    replace (e + 1 <? e + 1) with false by (symmetry; apply Nat.ltb_ge; lia).
    replace (e + 1 - 1) with e by lia. apply Hat. lia.
Qed.

Lemma slice_insert_end (A : Type) (s e : nat) (x : A) (ls : list A) :
  s <= e <= length ls ->
  skipn s (firstn (e + 1) (insert_at e [x] ls)) = skipn s (firstn e ls) ++ [x].
Proof.
  intros Hse. unfold insert_at.
  rewrite firstn_app, length_firstn, Nat.min_l by lia.
  rewrite firstn_all2 by (rewrite length_firstn; lia).
  replace (e + 1 - e) with 1 by lia. cbn [firstn app].
  rewrite skipn_app, length_firstn, Nat.min_l by lia.
  replace (s - e) with 0 by lia. reflexivity.
Qed.

Lemma section_lines_insert_end (ls : list pystr) (K : list regex) (s e : nat)
    (nl : pystr) :
  _section_bounds ls K = Some (s, e) -> plain_line nl ->
  section_lines K (insert_at e [nl] ls) = section_lines K ls ++ [nl].
Proof.
  intros Hb Hp. unfold section_lines.
  rewrite (section_bounds_insert_end _ _ _ _ _ Hb Hp), Hb.
  destruct (section_bounds_range _ _ _ _ Hb) as [_ [_ [_ [Hse Hel]]]].
  apply slice_insert_end. lia.
Qed.

(** *** The final empty line *)

Lemma drop_final_blank_cases (X : list pystr) :
  drop_final_blank X = X \/ exists Y, X = Y ++ [[]] /\ drop_final_blank X = Y.
Proof.
  induction X as [|l r IH]; [now left|].
  destruct r as [|l' r].
  - destruct l; [right; now exists []|now left].
  - rewrite drop_final_blank_cons by discriminate.
    destruct IH as [IH|[Y [HY IH]]].
    + left. now rewrite IH.
    + right. exists (l :: Y). rewrite IH, HY. split; reflexivity.
Qed.

Lemma chomp_cases (X : list pystr) :
  chomp X = X \/ X = [] \/ exists Y, Y <> [] /\ X = Y ++ [[]] /\ chomp X = Y.
Proof.
  unfold chomp. destruct (drop_final_blank_cases X) as [H|[Y [HY H]]]; rewrite H.
  - destruct X; [right; now left|now left].
  - destruct Y as [|y Y]; [left; now rewrite HY|].
    right. right. exists (y :: Y). repeat split; [discriminate|exact HY].
Qed.

Lemma header_match_nil (K : list regex) : hash_led K -> header_match K [] = false.
Proof.
  intros HK. destruct (header_match K []) eqn:H; [|reflexivity].
  now apply header_match_nonempty in H.
Qed.

Lemma section_bounds_drop_blank (Y : list pystr) (K : list regex) (s e : nat) :
  hash_led K -> _section_bounds (Y ++ [[]]) K = Some (s, e) -> e <= length Y ->
  _section_bounds Y K = Some (s, e).
Proof.
  intros HK Hb He.
  destruct (section_bounds_elim _ _ _ _ Hb)
    as [idx [Hlt [Hm [Hfirst [Hs [Hse [Hbefore Hat]]]]]]].
  rewrite length_app in Hlt, Hse, Hat. cbn [length] in Hlt, Hse, Hat.
  assert (Hidx : idx < length Y).
  { destruct (Nat.eq_dec idx (length Y)) as [->|Hne]; [|lia].
    rewrite app_nth2, Nat.sub_diag in Hm by lia. cbn [nth] in Hm.
    rewrite header_match_nil in Hm by assumption. discriminate. }
  apply section_bounds_intro with (idx := idx).
  - exact Hidx.
  - now rewrite app_nth1 in Hm by lia.
  - intros j Hj. specialize (Hfirst j Hj). now rewrite app_nth1 in Hfirst by lia.
  - rewrite Hs. unfold is_divider. rewrite length_app. cbn [length].
    destruct (idx + 1 <? length Y) eqn:H1.
    + apply Nat.ltb_lt in H1.
      replace (idx + 1 <? length Y + 1) with true by (symmetry; apply Nat.ltb_lt; lia).
      now rewrite app_nth1 by lia.
    + apply Nat.ltb_ge in H1. assert (Heq : idx + 1 = length Y) by lia.
      rewrite app_nth2, Heq, Nat.sub_diag by lia. cbn [nth andb].
      now rewrite andb_false_r.
  - lia.
  - intros j Hj. specialize (Hbefore j Hj). now rewrite app_nth1 in Hbefore by lia.
  - intros Hlt2. specialize (Hat ltac:(lia)). now rewrite app_nth1 in Hat by lia.
Qed.

Lemma section_bounds_nil (K : list regex) : _section_bounds [] K = None.
Proof. reflexivity. Qed.

Lemma section_chomp (X : list pystr) (K : list regex) (s e : nat) :
  hash_led K -> _section_bounds X K = Some (s, e) ->
  (e = length X -> last X [] <> []) ->
  _section_bounds (chomp X) K = Some (s, e)
  /\ section_lines K (chomp X) = section_lines K X.
Proof.
  intros HK Hb Hlast.
  destruct (chomp_cases X) as [->|[->|[Y [HY [HX ->]]]]].
  - now split.
  - rewrite section_bounds_nil in Hb. discriminate.
  - subst X. rewrite last_last in Hlast.
    destruct (section_bounds_range _ _ _ _ Hb) as [_ [_ [_ [_ Hle]]]].
    rewrite length_app in Hle, Hlast. cbn [length] in Hle, Hlast.
    assert (He : e <= length Y).
    { destruct (Nat.eq_dec e (length Y + 1)) as [Heq|Hne]; [|lia].
      now specialize (Hlast Heq). }
    pose proof (section_bounds_drop_blank _ _ _ _ HK Hb He) as HbY.
    split; [exact HbY|].
    unfold section_lines. rewrite Hb, HbY.
    rewrite firstn_app. replace (e - length Y) with 0 by lia.
    cbn [firstn]. now rewrite app_nil_r.
Qed.

(** An issue line opens no section and is no divider. *)
Lemma dash_bracket_plain (t : pystr) : plain_line (py "- [" ++ t).
Proof.
  split; [reflexivity|].
  apply str_eqb_neq. intros H.
  assert (Hin : In 91%N (strip (py "- [" ++ t))).
  { apply In_strip; [|reflexivity]. cbn. auto. }
  rewrite H in Hin. cbn in Hin. intuition discriminate.
Qed.

(** *** The removal loops *)

Lemma search_range_spec (P : pystr -> bool) (ls : list pystr) (n i : nat) :
  i + n <= length ls ->
  (exists k, search_range P ls i n = Ok (Some k)
             /\ i <= k < i + n /\ P (nth k ls []) = true
             /\ forall j, i <= j < k -> P (nth j ls []) = false)
  \/ (search_range P ls i n = Ok None
      /\ forall j, i <= j < i + n -> P (nth j ls []) = false).
Proof.
  revert i. induction n as [|n IH]; intros i Hle.
  - right. split; [reflexivity|intros j Hj; lia].
  - simpl. destruct (nth_error ls i) as [l|] eqn:Hl.
    2:{ apply nth_error_None in Hl. lia. }
    pose proof (nth_error_nth ls i [] Hl) as Hnth.
    destruct (P l) eqn:Hp.
    + left. exists i. repeat split; try lia. now rewrite Hnth.
    + destruct (IH (S i) ltac:(lia)) as [[k [Hk [Hr [Hpk Hbefore]]]]|[Hn Hall]].
      * left. exists k. split; [exact Hk|]. split; [lia|]. split; [exact Hpk|].
        intros j Hj. destruct (Nat.eq_dec j i) as [->|Hne]; [now rewrite Hnth|].
        apply Hbefore. lia.
      * right. split; [exact Hn|]. intros j Hj.
        destruct (Nat.eq_dec j i) as [->|Hne]; [now rewrite Hnth|].
        apply Hall. lia.
Qed.

Lemma run_lit_cons (c : char) (s : pystr) (r : regex) (st : state)
    (k : state -> option state) (m : state) :
  run (Cat (lit (c :: s)) r) st k = Some m -> exists t, rest st = c :: t.
Proof.
  unfold lit. cbn [map cats].
  destruct (map (fun c0 : N => Chr (N.eqb c0)) s); cbn [run];
    (destruct (rest st) as [|d t]; [discriminate|]);
    (destruct (N.eqb c d) eqn:Hc; [|discriminate]);
    apply N.eqb_eq in Hc; subst d; intros _; now exists t.
Qed.

Lemma issue_pref_dash (ev : event) (l : pystr) :
  matches (issue_pref ev) l = true -> exists t, l = 45%N :: t.
Proof.
  unfold matches, re_match, issue_pref.
  change (py "- [" ++ time ev ++ py "][" ++ platform ev ++ py "]")
    with (45%N :: (32%N :: 91%N :: time ev ++ py "][" ++ platform ev ++ py "]")).
  cbn [cats]. cbn [run]. cbn [at_bol start_state prev].
  destruct (run _ _ _) as [m|] eqn:Hr; [|discriminate]. intros _.
  apply run_lit_cons in Hr. exact Hr.
Qed.

Lemma issue_like_dash (ev : event) (l : pystr) :
  issue_like ev l = true -> exists t, strip l = 45%N :: t.
Proof.
  unfold issue_like. intros H. apply orb_true_iff in H. destruct H as [H|H].
  - apply str_eqb_eq in H. rewrite H. eexists. reflexivity.
  - apply issue_pref_dash in H. destruct H as [t ->].
    apply strip_cons_nonspace. reflexivity.
Qed.

Lemma issue_like_not_header (K : list regex) (ev : event) (l : pystr) :
  hash_led K -> issue_like ev l = true -> header_match K l = false.
Proof.
  intros HK H. destruct (header_match K l) eqn:Hm; [|reflexivity].
  destruct (header_match_hash _ _ HK Hm) as [t Ht].
  destruct (issue_like_dash _ _ H) as [t' Ht']. congruence.
Qed.

(** What the two loops do: nothing, or the deletion of one issue-like line
    of the searched range. *)
Lemma remove_issue_spec (ls : list pystr) (ev : event) (istart iend : nat) :
  istart <= iend -> iend <= length ls ->
  (remove_issue ls ev istart iend = Ok ls
   /\ forall j, istart <= j < iend -> issue_like ev (nth j ls []) = false)
  \/ (exists k, remove_issue ls ev istart iend = Ok (delete_at k ls)
                /\ istart <= k < iend /\ issue_like ev (nth k ls []) = true).
Proof.
  intros Hse Hle. unfold remove_issue.
  destruct (search_range_spec (fun l => str_eqb (strip l) (issue_text ev)) ls
              (iend - istart) istart ltac:(lia))
    as [[k [Hk [Hr [Hp _]]]]|[Hn Hall]].
  - right. exists k. rewrite Hk. cbn [bind]. repeat split; try lia.
    unfold issue_like. now rewrite Hp.
  - rewrite Hn. cbn [bind].
    destruct (search_range_spec (fun l => matches (issue_pref ev) l) ls
                (iend - istart) istart ltac:(lia))
      as [[k [Hk [Hr [Hp _]]]]|[Hn2 Hall2]].
    + right. exists k. rewrite Hk. cbn [bind]. repeat split; try lia.
      unfold issue_like. rewrite Hp. apply orb_true_r.
    + left. rewrite Hn2. cbn [bind]. split; [reflexivity|].
      intros j Hj. unfold issue_like.
      rewrite (Hall j ltac:(lia)), (Hall2 j ltac:(lia)). reflexivity.
Qed.

(** *** Headers that survive the splices *)

Lemma has_line_of_section (K : list regex) (ls : list pystr) :
  Forall break_free ls -> has_section K ls = true -> has_line K ls.
Proof.
  intros Hbf H. apply has_section_in in H. destruct H as [l [Hin Hm]].
  exists l. repeat split; auto. rewrite Forall_forall in Hbf. now apply Hbf.
Qed.

Lemma has_line_section (K : list regex) (ls : list pystr) :
  has_line K ls -> has_section K ls = true.
Proof.
  intros [l [Hin [_ Hm]]]. apply has_section_in. now exists l.
Qed.

Lemma In_insert_at (A : Type) (x : A) (i : nat) (block ls : list A) :
  In x ls -> In x (insert_at i block ls).
Proof.
  intros Hin. unfold insert_at. rewrite <- (firstn_skipn i ls) in Hin.
  apply in_app_or in Hin. apply in_or_app.
  destruct Hin; [now left|right; apply in_or_app; now right].
Qed.

Lemma has_line_insert (K : list regex) (i : nat) (block ls : list pystr) :
  has_line K ls -> has_line K (insert_at i block ls).
Proof.
  intros [l [Hin H]]. exists l. split; [now apply In_insert_at|exact H].
Qed.

Lemma delete_at_split (A : Type) (k : nat) (ls : list A) (d : A) :
  k < length ls -> ls = firstn k ls ++ nth k ls d :: skipn (S k) ls.
Proof.
  revert k. induction ls as [|x ls IH]; intros k Hk; simpl in Hk; [lia|].
  destruct k as [|k]; [reflexivity|].
  cbn [firstn nth skipn app]. f_equal. apply IH. lia.
Qed.

Lemma In_delete_at (A : Type) (x : A) (k : nat) (ls : list A) (d : A) :
  k < length ls -> In x ls -> x <> nth k ls d -> In x (delete_at k ls).
Proof.
  intros Hk Hin Hne. rewrite (delete_at_split _ k ls d Hk) in Hin.
  unfold delete_at. apply in_app_or in Hin. apply in_or_app.
  destruct Hin as [H|[H|H]]; [now left|congruence|now right].
Qed.

Lemma has_line_delete (K : list regex) (k : nat) (ls : list pystr) :
  k < length ls -> header_match K (nth k ls []) = false ->
  has_line K ls -> has_line K (delete_at k ls).
Proof.
  intros Hk Hnot [l [Hin [Hbf Hm]]]. exists l. repeat split; auto.
  apply In_delete_at with (d := []); auto. intros ->. congruence.
Qed.

Lemma has_line_survives (K : list regex) (ls : list pystr) :
  hash_led K -> has_line K ls -> has_section K (splitlines (join_lines ls)) = true.
Proof.
  intros HK [l [Hin [Hbf Hm]]]. apply has_section_in. exists l. split; [|exact Hm].
  apply line_survives; auto. eapply header_match_nonempty; eassumption.
Qed.

Lemma complete_lines_survives (ls : list pystr) :
  complete_lines ls -> complete (splitlines (join_lines ls)) = true.
Proof.
  intros [HI [HF [HR HB]]]. unfold complete. rewrite !andb_true_iff.
  repeat split; apply has_line_survives;
    auto using issues_hash_led, found_hash_led, reports_hash_led, bugs_hash_led.
Qed.

Lemma complete_lines_of (ls : list pystr) :
  Forall break_free ls -> complete ls = true -> complete_lines ls.
Proof.
  unfold complete. rewrite !andb_true_iff. intros Hbf [[[HI HF] HR] HB].
  repeat split; now apply has_line_of_section.
Qed.

Lemma complete_lines_insert (i : nat) (block ls : list pystr) :
  complete_lines ls -> complete_lines (insert_at i block ls).
Proof.
  intros [HI [HF [HR HB]]]. repeat split; now apply has_line_insert.
Qed.

Lemma complete_lines_remove (ls : list pystr) (ev : event) (istart iend : nat) :
  istart <= iend -> iend <= length ls ->
  complete_lines ls ->
  exists ls', remove_issue ls ev istart iend = Ok ls' /\ complete_lines ls'
              /\ forall x, In x ls -> issue_like ev x = false -> In x ls'.
Proof.
  intros Hse Hle Hc.
  destruct (remove_issue_spec ls ev istart iend Hse Hle)
    as [[Hr _]|[k [Hr [Hk Hlike]]]].
  - exists ls. split; [exact Hr|]. split; [exact Hc|]. auto.
  - exists (delete_at k ls). split; [exact Hr|]. split.
    + destruct Hc as [HI [HF [HR HB]]].
      repeat split; apply has_line_delete; auto; try lia;
        eapply issue_like_not_header; eauto
          using issues_hash_led, found_hash_led, reports_hash_led, bugs_hash_led.
    + intros x Hin Hx. apply In_delete_at with (d := []); auto; try lia.
      intros ->. congruence.
Qed.

(** *** [in] *)

Lemma startswith_app_l (a b p : pystr) :
  startswith a p = true -> startswith (a ++ b) p = true.
Proof.
  revert a. induction p as [|x p IH]; intros a H; [reflexivity|].
  destruct a as [|y a]; simpl in *; [discriminate|].
  apply andb_true_iff in H. destruct H as [H1 H2].
  rewrite H1. simpl. now apply IH.
Qed.

Lemma contains_startswith (s p : pystr) : startswith s p = true -> contains s p = true.
Proof. intros H. destruct s; simpl; now rewrite H. Qed.

Lemma contains_app_r (a b p : pystr) :
  contains b p = true -> contains (a ++ b) p = true.
Proof.
  intros H. induction a as [|x a IH]; [exact H|].
  simpl. rewrite IH. apply orb_true_r.
Qed.

Lemma contains_app_l (a b p : pystr) :
  contains a p = true -> contains (a ++ b) p = true.
Proof.
  induction a as [|x a IH]; intros H.
  - simpl in H. rewrite orb_false_r in H.
    apply contains_startswith. now apply (startswith_app_l [] b p).
  - simpl in H. simpl. apply orb_true_iff in H. destruct H as [H|H].
    + pose proof (startswith_app_l (x :: a) b p H) as H'. cbn [app] in H'.
      rewrite H'. reflexivity.
    + rewrite (IH H). apply orb_true_r.
Qed.

Lemma contains_join (ls : list pystr) (m p : pystr) :
  In m ls -> startswith m p = true -> contains (join [LF] ls) p = true.
Proof.
  intros Hin Hp. apply in_split in Hin. destruct Hin as [pre [post ->]].
  rewrite join_app by discriminate. apply contains_app_r.
  destruct post as [|q post].
  - now apply contains_startswith.
  - rewrite join_cons by discriminate. now apply contains_app_l, contains_startswith.
Qed.

Lemma contains_join_lines (ls : list pystr) (m p : pystr) :
  In m ls -> startswith m p = true -> contains (join_lines ls) p = true.
Proof.
  intros Hin Hp. unfold join_lines.
  destruct (endswith _ _); [|apply contains_app_l]; now apply contains_join with m.
Qed.

(** *** Triage and promotion on the scaffolded buffer *)

Lemma move_issue_to_found_eq (text : pystr) (ev : event) (bugnum : pystr) :
  let ls := splitlines (find_or_create_sections text) in
  exists istart iend,
    _section_bounds ls ISSUES_HEADERS = Some (istart, iend)
    /\ move_issue_to_found text ev bugnum
       = (ls' <- remove_issue ls ev istart iend ;;
          Ok (join_lines
                (insert_at (section_end FOUND_HEADERS ls') [found_text ev bugnum] ls'))).
Proof.
  intros ls.
  destruct (complete_bounds _ (scaffolded_complete text))
    as [[[s e] HI] [[bf HF] _]].
  exists s, e. split; [exact HI|].
  unfold move_issue_to_found, ensure_section. cbv zeta. fold ls.
  subst ls. rewrite HI, HF. reflexivity.
Qed.

Lemma append_bug_and_move_issue_eq (text : pystr) (ev : event)
    (summary_prefix steps_mode : pystr) (plain_lines : list pystr)
    (observed expected : pystr) :
  let text' := find_or_create_sections text in
  let ls := splitlines text' in
  exists istart iend bstart bend,
    _section_bounds ls ISSUES_HEADERS = Some (istart, iend)
    /\ _section_bounds ls BUGS_HEADERS = Some (bstart, bend)
    /\ append_bug_and_move_issue text ev summary_prefix steps_mode plain_lines
         observed expected
       = (ev_id <- generate_event_id ev ;;
          if contains text' (bug_marker ev_id) then Ok text'
          else
            let template_key :=
              match classify_platform (platform ev) with
              | Some k => k
              | None => py "gen5"
              end in
            let block :=
              promotion_bug_block text' ev summary_prefix steps_mode plain_lines
                observed expected in
            let ls1 :=
              insert_at bend [[]; bug_meta ev ev_id template_key; strip block; []] ls in
            ls2 <- remove_issue ls1 ev istart iend ;;
            '(_, rend) <- unpack (_section_bounds ls2 REPORTS_HEADERS) ;;
            Ok (join_lines (insert_at rend [issue_text ev] ls2))).
Proof.
  intros text' ls.
  destruct (complete_bounds _ (scaffolded_complete text))
    as [[[s e] HI] [_ [[br HR] [[bs be] HB]]]].
  exists s, e, bs, be. split; [exact HI|]. split; [exact HB|].
  unfold append_bug_and_move_issue. cbv zeta. fold text'. fold ls.
  subst ls text'. rewrite HI, HR, HB. reflexivity.
Qed.

Lemma marker_not_issue_like (ev : event) (t : pystr) :
  issue_like ev (py "<!-- bug-id:" ++ t) = false.
Proof.
  destruct (issue_like ev (py "<!-- bug-id:" ++ t)) eqn:H; [|reflexivity].
  apply issue_like_dash in H. destruct H as [u Hu].
  destruct (strip_cons_nonspace 60%N (py "!-- bug-id:" ++ t) eq_refl) as [u' Hu'].
  change (60%N :: py "!-- bug-id:" ++ t) with (py "<!-- bug-id:" ++ t) in Hu'.
  congruence.
Qed.

(** A promotion that is not short-circuited runs to its end: the four
    lines of the record are spliced in, at most one issue-like line is
    deleted, and the issue text is spliced in; every canonical header is
    still there. *)
Lemma append_bug_fresh_buffer (text : pystr) (ev : event)
    (summary_prefix steps_mode : pystr) (plain_lines : list pystr)
    (observed expected ev_id : pystr) :
  generate_event_id ev = Ok ev_id ->
  contains (find_or_create_sections text) (bug_marker ev_id) = false ->
  let text' := find_or_create_sections text in
  let template_key :=
    match classify_platform (platform ev) with Some k => k | None => py "gen5" end in
  let block :=
    promotion_bug_block text' ev summary_prefix steps_mode plain_lines
      observed expected in
  exists bend ls2 rend,
    let ls1 :=
      insert_at bend [[]; bug_meta ev ev_id template_key; strip block; []]
        (splitlines text') in
    (ls2 = ls1
     \/ exists k, k < length ls1 /\ issue_like ev (nth k ls1 []) = true
                  /\ ls2 = delete_at k ls1)
    /\ complete_lines ls2
    /\ append_bug_and_move_issue text ev summary_prefix steps_mode plain_lines
         observed expected = Ok (join_lines (insert_at rend [issue_text ev] ls2)).
Proof.
  intros Hid Hfresh text' tk block.
  destruct (append_bug_and_move_issue_eq text ev summary_prefix steps_mode
              plain_lines observed expected)
    as [s [e [bs [be [HI [HB Heq]]]]]].
  rewrite Heq, Hid. cbn [bind]. rewrite Hfresh. cbv zeta.
  fold text'. fold tk. fold block.
  set (ls := splitlines text') in *.
  set (ls1 := insert_at be [[]; bug_meta ev ev_id tk; strip block; []] ls).
  assert (Hc : complete_lines ls1).
  { apply complete_lines_insert, complete_lines_of;
      [apply splitlines_break_free|apply scaffolded_complete]. }
  destruct (section_bounds_range _ _ _ _ HI) as [_ [_ [_ [Hse Hel]]]].
  fold text' in Hel. fold ls in Hel.
  assert (Hel1 : e <= length ls1).
  { unfold ls1. rewrite length_insert_at. lia. }
  assert (Hrun : exists ls2,
             remove_issue ls1 ev s e = Ok ls2
             /\ (ls2 = ls1
                 \/ exists k, k < length ls1 /\ issue_like ev (nth k ls1 []) = true
                              /\ ls2 = delete_at k ls1)).
  { destruct (remove_issue_spec ls1 ev s e Hse Hel1) as [[Hr _]|[k [Hr [Hk Hlike]]]].
    - exists ls1. split; [exact Hr|now left].
    - exists (delete_at k ls1). split; [exact Hr|].
      right. exists k. split; [lia|]. split; [exact Hlike|reflexivity]. }
  destruct Hrun as [ls2 [Hr Hshape]].
  destruct (complete_lines_remove ls1 ev s e Hse Hel1 Hc) as [ls2' [Hr' [Hc2 _]]].
  rewrite Hr in Hr'. injection Hr' as <-.
  rewrite Hr. cbn [bind].
  destruct Hc2 as [HI2 [HF2 [HR2 HB2]]].
  destruct (section_bounds_some _ _ (has_line_section _ _ HR2)) as [[rs re] HRb].
  rewrite HRb. cbn [unpack bind].
  exists be, ls2, re. split; [exact Hshape|]. split; [now repeat split|reflexivity].
Qed.

Lemma append_bug_fresh (text : pystr) (ev : event)
    (summary_prefix steps_mode : pystr) (plain_lines : list pystr)
    (observed expected ev_id : pystr) :
  generate_event_id ev = Ok ev_id ->
  contains (find_or_create_sections text) (bug_marker ev_id) = false ->
  exists ls3 template_key,
    append_bug_and_move_issue text ev summary_prefix steps_mode plain_lines
      observed expected = Ok (join_lines ls3)
    /\ complete_lines ls3
    /\ In (bug_meta ev ev_id template_key) ls3.
Proof.
  intros Hid Hfresh.
  destruct (append_bug_fresh_buffer text ev summary_prefix steps_mode plain_lines
              observed expected ev_id Hid Hfresh)
    as [be [ls2 [re [Hshape [Hc Heq]]]]].
  eexists. eexists. split; [exact Heq|]. split.
  - now apply complete_lines_insert.
  - apply In_insert_at.
    assert (Hin : forall l, In (bug_meta ev ev_id
                                  match classify_platform (platform ev) with
                                  | Some k => k
                                  | None => py "gen5"
                                  end)
                              (insert_at be [[]; bug_meta ev ev_id
                                  match classify_platform (platform ev) with
                                  | Some k => k
                                  | None => py "gen5"
                                  end; l; []]
                                 (splitlines (find_or_create_sections text)))).
    { intros l. unfold insert_at. apply in_or_app. right. right. now left. }
    destruct Hshape as [->|[k [Hk [Hlike ->]]]]; [apply Hin|].
    apply In_delete_at with (d := []); [exact Hk|apply Hin|].
    intros Heq'. rewrite <- Heq' in Hlike.
    unfold bug_meta, bug_marker in Hlike.
    rewrite <- !app_assoc, marker_not_issue_like in Hlike. discriminate.
Qed.

End WithEnv.
End OpFacts.

(** ** Counting the occurrences of a marker *)

Module CountFacts.
Import PyFacts EngineFacts OpFacts Engine.

#[local] Arguments count_sub : simpl never.

Lemma count_cons (p s : pystr) (c : char) :
  count_sub p (c :: s)
  = (if startswith (c :: s) p then 1 else 0) + count_sub p s.
Proof. reflexivity. Qed.

Lemma count_nil_eq (p : pystr) :
  count_sub p [] = (if startswith [] p then 1 else 0) + 0.
Proof. reflexivity. Qed.

Lemma contains_count (s p : pystr) : contains s p = false <-> count_sub p s = 0.
Proof.
  induction s as [|c s IH].
  - rewrite count_nil_eq. simpl.
    destruct (startswith [] p); simpl; split; intros H; try discriminate; reflexivity.
  - rewrite count_cons. simpl contains. destruct (startswith (c :: s) p); simpl.
    + split; discriminate.
    + exact IH.
Qed.

Lemma startswith_app_other (a b p : pystr) (c : char) :
  ~ In c p -> startswith (a ++ c :: b) p = startswith a p.
Proof.
  revert a. induction p as [|x p IH]; intros a Hc; [reflexivity|].
  destruct a as [|y a]; simpl.
  - destruct (N.eqb x c) eqn:Hx; [|reflexivity].
    apply N.eqb_eq in Hx. subst x. exfalso. apply Hc. now left.
  - rewrite IH; [reflexivity|]. intros H. apply Hc. now right.
Qed.

(** An occurrence does not straddle a code point foreign to the marker. *)
Lemma count_app_other (a b p : pystr) (c : char) :
  p <> [] -> ~ In c p -> count_sub p (a ++ c :: b) = count_sub p a + count_sub p b.
Proof.
  intros Hp Hc. induction a as [|y a IH].
  - cbn [app]. rewrite count_cons.
    pose proof (startswith_app_other [] b p c Hc) as Hs. cbn [app] in Hs.
    rewrite Hs. destruct p; [contradiction|]. reflexivity.
  - cbn [app]. rewrite !count_cons.
    pose proof (startswith_app_other (y :: a) b p c Hc) as Hs. cbn [app] in Hs.
    rewrite Hs, IH. lia.
Qed.

Lemma count_nil (p : pystr) : p <> [] -> count_sub p [] = 0.
Proof. destruct p; [contradiction|reflexivity]. Qed.

Lemma break_free_not_in (p : pystr) (c : char) :
  break_free p -> is_linebreak c = true -> ~ In c p.
Proof. intros Hp Hc Hin. apply Hp in Hin. congruence. Qed.

Lemma count_join (p : pystr) (ls : list pystr) :
  p <> [] -> break_free p ->
  count_sub p (join [LF] ls) = list_sum (map (count_sub p) ls).
Proof.
  intros Hp Hbf. induction ls as [|l ls IH]; [now apply count_nil|].
  destruct ls as [|l' ls]; [simpl; lia|].
  rewrite join_cons by discriminate. simpl map in *. simpl list_sum in *.
  rewrite count_app_other, IH; [reflexivity|exact Hp|].
  now apply break_free_not_in.
Qed.

Lemma count_join_lines (p : pystr) (ls : list pystr) :
  p <> [] -> break_free p ->
  count_sub p (join_lines ls) = list_sum (map (count_sub p) ls).
Proof.
  intros Hp Hbf. unfold join_lines. destruct (endswith _ _).
  - now apply count_join.
  - rewrite count_app_other, count_join, count_nil by
      (auto; now apply break_free_not_in).
    lia.
Qed.

(** The first line of a text is the text up to its first line boundary. *)
Lemma first_line_prefix (s l0 : pystr) (rest_ : list pystr) :
  splitlines s = l0 :: rest_ ->
  s = l0 \/ exists b t, is_linebreak b = true /\ s = l0 ++ b :: t.
Proof.
  revert l0 rest_. induction s as [|c s IH]; intros l0 rest_ H; [discriminate|].
  simpl in H. destruct (is_linebreak c) eqn:Hc.
  - injection H as <- _. right. now exists c, s.
  - destruct (splitlines s) as [|l1 r1] eqn:Hs.
    + simpl in H. injection H as <- _.
      destruct s as [|d s]; [now left|].
      simpl in Hs. destruct (is_linebreak d); [discriminate|].
      destruct (splitlines s); discriminate.
    + simpl in H. injection H as <- _.
      destruct (IH l1 r1 eq_refl) as [->|[b [t [Hb ->]]]]; [now left|].
      right. now exists b, t.
Qed.

Lemma count_splitlines (p s : pystr) :
  p <> [] -> break_free p ->
  list_sum (map (count_sub p) (splitlines s)) = count_sub p s.
Proof.
  intros Hp Hbf. remember (length s) as n eqn:Hn.
  revert s Hn. induction n as [n IH] using lt_wf_ind. intros s Hn.
  destruct s as [|c s]; [simpl; now rewrite count_nil|].
  destruct (is_linebreak c) eqn:Hc.
  - pose proof (count_app_other [] s p c Hp (break_free_not_in p c Hbf Hc)) as Hcs.
    cbn [app] in Hcs. rewrite Hcs, count_nil by assumption.
    simpl splitlines. rewrite Hc. simpl map. simpl list_sum. rewrite count_nil by assumption.
    destruct (N.eqb c CR).
    + destruct s as [|d s]; [simpl; now rewrite count_nil|].
      destruct (N.eqb d LF) eqn:Hd.
      * apply N.eqb_eq in Hd. subst d.
        pose proof (count_app_other [] s p LF Hp
                      (break_free_not_in p LF Hbf eq_refl)) as Hl.
        cbn [app] in Hl. rewrite Hl, count_nil by assumption.
        rewrite (IH (length s)); [reflexivity|simpl in Hn; lia|reflexivity].
      * rewrite (IH (length (d :: s))); [reflexivity|simpl in *; lia|reflexivity].
    + rewrite (IH (length s)); [reflexivity|simpl in Hn; lia|reflexivity].
  - simpl splitlines. rewrite Hc.
    pose proof (IH (length s) ltac:(simpl in Hn; lia) s eq_refl) as IHs.
    destruct (splitlines s) as [|l0 r0] eqn:Hs.
    + assert (s = []) as ->.
      { destruct s as [|d s]; [reflexivity|]. simpl in Hs.
        destruct (is_linebreak d); [discriminate|].
        destruct (splitlines s); discriminate. }
      simpl. rewrite count_cons, count_nil by assumption. lia.
    + simpl in IHs. simpl.
      rewrite !count_cons.
      assert (Hst : startswith (c :: l0) p = startswith (c :: s) p).
      { destruct (first_line_prefix s l0 r0 Hs) as [->|[b [t [Hb ->]]]];
          [reflexivity|].
        symmetry.
        apply (startswith_app_other (c :: l0) t p b (break_free_not_in p b Hbf Hb)). }
      rewrite Hst. lia.
Qed.

Lemma list_sum_insert_at (f : pystr -> nat) (i : nat) (block ls : list pystr) :
  list_sum (map f (insert_at i block ls))
  = list_sum (map f ls) + list_sum (map f block).
Proof.
  unfold insert_at. rewrite !map_app, !list_sum_app.
  rewrite <- (firstn_skipn i ls) at 3. rewrite map_app, list_sum_app. lia.
Qed.

Lemma list_sum_delete_at (f : pystr -> nat) (k : nat) (ls : list pystr) :
  k < length ls ->
  list_sum (map f (delete_at k ls)) + f (nth k ls []) = list_sum (map f ls).
Proof.
  intros Hk. rewrite (delete_at_split _ k ls [] Hk) at 3.
  unfold delete_at. rewrite !map_app, !list_sum_app. simpl. lia.
Qed.

(** *** The marker of a bug record *)

Lemma hex_digit_plain (d : N) : (d < 16)%N -> is_linebreak (Sha1.hex_digit d) = false.
Proof.
  intros Hd. destruct (is_linebreak (Sha1.hex_digit d)) eqn:H; [|reflexivity].
  unfold is_linebreak, mem in H. apply existsb_exists in H.
  destruct H as [x [Hin Hx]]. apply N.eqb_eq in Hx. subst x.
  unfold Sha1.hex_digit in Hin.
  destruct (d <? 10)%N; cbn [In] in Hin; intuition lia.
Qed.

Lemma hex32_plain (x : N) : break_free (Sha1.hex32 x).
Proof.
  intros c Hin. unfold Sha1.hex32 in Hin. apply in_map_iff in Hin.
  destruct Hin as [i [<- _]]. apply hex_digit_plain.
  change 15%N with (N.ones 4). rewrite N.land_ones.
  apply N.mod_lt. discriminate.
Qed.

Lemma hexdigest_plain (msg : list N) : break_free (Sha1.hexdigest msg).
Proof.
  unfold Sha1.hexdigest.
  destruct (fold_left Sha1.compress _ _) as [[[[h0 h1] h2] h3] h4].
  repeat (apply break_free_app; split); apply hex32_plain.
Qed.

Lemma event_id_plain (ev : event) (ev_id : pystr) :
  generate_event_id ev = Ok ev_id -> break_free ev_id.
Proof.
  unfold generate_event_id.
  destruct (Sha1.encode_utf8 _) as [raw|x]; cbn [bind]; [|discriminate].
  intros [= <-] c Hin. apply (hexdigest_plain raw).
  rewrite <- (firstn_skipn 12 (Sha1.hexdigest raw)). apply in_or_app. now left.
Qed.

Lemma bug_marker_plain (ev : event) (ev_id : pystr) :
  generate_event_id ev = Ok ev_id ->
  bug_marker ev_id <> [] /\ break_free (bug_marker ev_id).
Proof.
  intros H. split; [discriminate|].
  unfold bug_marker. apply break_free_app. split.
  - apply break_freeb_ok. reflexivity.
  - eapply event_id_plain, H.
Qed.

Lemma list_sum_zero (f : pystr -> nat) (ls : list pystr) :
  list_sum (map f ls) = 0 -> Forall (fun y => f y = 0) ls.
Proof.
  induction ls as [|l ls IH]; [constructor|].
  simpl. intros H. constructor; [lia|apply IH; lia].
Qed.

(** A fresh promotion writes the marker once. *)
Lemma append_bug_one_marker {E : PyEnv} (text : pystr) (ev : event)
    (summary_prefix steps_mode : pystr) (plain_lines : list pystr)
    (observed expected ev_id out : pystr) :
  generate_event_id ev = Ok ev_id ->
  append_bug_and_move_issue text ev summary_prefix steps_mode plain_lines
    observed expected = Ok out ->
  let text' := find_or_create_sections text in
  let template_key :=
    match classify_platform (platform ev) with Some k => k | None => py "gen5" end in
  let block :=
    promotion_bug_block text' ev summary_prefix steps_mode plain_lines
      observed expected in
  contains text' (bug_marker ev_id) = false ->
  count_sub (bug_marker ev_id) (bug_meta ev ev_id template_key) = 1 ->
  contains (strip block) (bug_marker ev_id) = false ->
  contains (issue_text ev) (bug_marker ev_id) = false ->
  count_sub (bug_marker ev_id) out = 1.
Proof.
  intros Hid Hout text' tk block Hfresh Hmeta Hblock Hissue.
  destruct (bug_marker_plain ev ev_id Hid) as [Hne Hbf].
  destruct (append_bug_fresh_buffer text ev summary_prefix steps_mode plain_lines
              observed expected ev_id Hid Hfresh)
    as [be [ls2 [re [Hshape [_ Heq]]]]].
  rewrite Heq in Hout. injection Hout as <-.
  fold text' in Hshape. fold tk in Hshape. fold block in Hshape.
  set (f := count_sub (bug_marker ev_id)) in *.
  set (ls := splitlines text') in *.
  set (ls1 := insert_at be [[]; bug_meta ev ev_id tk; strip block; []] ls) in *.
  cbv zeta in Hshape.
  apply contains_count in Hfresh, Hblock, Hissue.
  fold f in Hfresh, Hblock, Hissue.
  assert (Hls : list_sum (map f ls) = 0).
  { unfold ls, f. now rewrite count_splitlines. }
  assert (Hnil : f [] = 0) by (unfold f; now apply count_nil).
  assert (H1 : list_sum (map f ls1) = 1).
  { unfold ls1. rewrite list_sum_insert_at, Hls. simpl. lia. }
  unfold f at 1. rewrite count_join_lines by assumption. fold f.
  rewrite list_sum_insert_at. simpl. rewrite Hissue.
  destruct Hshape as [->|[k [Hk [Hlike ->]]]]; [lia|].
  pose proof (list_sum_delete_at f k ls1 Hk) as Hdel.
  assert (Hk0 : f (nth k ls1 []) = 0).
  { assert (Hall : Forall (fun y => f y = 0 \/ issue_like ev y = false) ls1).
    { unfold ls1. apply Forall_insert_at.
      - constructor; [now left|]. constructor; [right|].
        + unfold bug_meta, bug_marker. rewrite <- !app_assoc.
          apply marker_not_issue_like.
        + constructor; [now left|]. constructor; [now left|constructor].
      - eapply Forall_impl; [|apply (list_sum_zero f ls Hls)].
        intros y Hy. now left. }
    rewrite Forall_forall in Hall.
    destruct (Hall (nth k ls1 []) (nth_In _ _ Hk)) as [H|H]; [exact H|congruence]. }
  lia.
Qed.

End CountFacts.

(** ** The splices of a promotion *)

Module PromoteFacts.

Import PyFacts EngineFacts OpFacts Engine.

Lemma insert_at_app (A : Type) (P Q block : list A) :
  insert_at (length P) block (P ++ Q) = P ++ block ++ Q.
Proof.
  unfold insert_at.
  rewrite firstn_app, Nat.sub_diag, firstn_all, firstn_O, app_nil_r.
  rewrite skipn_app, Nat.sub_diag, skipn_all. reflexivity.
Qed.

Lemma delete_at_app (A : Type) (P Q : list A) (x : A) :
  delete_at (length P) (P ++ x :: Q) = P ++ Q.
Proof.
  unfold delete_at.
  rewrite firstn_app, Nat.sub_diag, firstn_all, firstn_O, app_nil_r.
  change (x :: Q) with ([x] ++ Q). rewrite app_assoc.
  replace (S (length P)) with (length (P ++ [x]))
    by (rewrite length_app; simpl; lia).
  rewrite skipn_app, Nat.sub_diag, skipn_all. reflexivity.
Qed.

(** The three splices of a promotion, when the issue lies before the end of
    Reports Written and that one before the end of Bugs. *)
Lemma splices_shape (A : Type) (i r b : nat) (t : A) (block ls : list A) :
  i < r -> r <= b -> b <= length ls ->
  insert_at (r - 1) [t] (delete_at i (insert_at b block ls))
  = firstn i ls ++ skipn (S i) (firstn r ls) ++ [t]
    ++ skipn r (firstn b ls) ++ block ++ skipn b ls.
Proof.
  intros Hir Hrb Hb.
  assert (Hlr : length (firstn r ls) = r) by (rewrite length_firstn; lia).
  assert (Hb1 : firstn b ls = firstn r ls ++ skipn r (firstn b ls)).
  { rewrite <- (firstn_skipn r (firstn b ls)) at 1.
    rewrite firstn_firstn. now replace (Nat.min r b) with r by lia. }
  destruct (nth_split (firstn r ls) (nth i ls t) (n := i) ltac:(lia))
    as [P [Q [HPQ HP]]].
  remember (nth i (firstn r ls) (nth i ls t)) as x eqn:Hx. clear Hx.
  assert (HPi : firstn i ls = P).
  { replace i with (Nat.min i r) at 1 by lia.
    rewrite <- firstn_firstn, HPQ, <- HP, firstn_app, Nat.sub_diag, firstn_all.
    rewrite firstn_O. apply app_nil_r. }
  assert (HQ : skipn (S i) (firstn r ls) = Q).
  { rewrite HPQ. change (x :: Q) with ([x] ++ Q). rewrite app_assoc.
    replace (S i) with (length (P ++ [x]))
      by (rewrite length_app; simpl; lia).
    now rewrite skipn_app, Nat.sub_diag, skipn_all. }
  rewrite HQ, HPi. set (C := skipn r (firstn b ls)) in *.
  unfold insert_at at 2. rewrite Hb1, HPQ.
  rewrite <- !app_assoc. cbn [app].
  rewrite <- HP at 1. rewrite delete_at_app.
  assert (Hlen : r - 1 = length (P ++ Q)).
  { assert (H := f_equal (@length A) HPQ). rewrite Hlr, !length_app in H.
    simpl in H. rewrite length_app. lia. }
  rewrite Hlen, app_assoc, insert_at_app, <- !app_assoc. reflexivity.
Qed.

Section WithEnv.
Context {E : PyEnv}.

(** The first loop of the removal deletes the first line of the range
    whose stripped text is the issue text. *)
Lemma remove_issue_exact (ls : list pystr) (ev : event) (istart iend i : nat) :
  istart <= i < iend -> iend <= length ls ->
  str_eqb (strip (nth i ls [])) (issue_text ev) = true ->
  (forall j, istart <= j < i ->
             str_eqb (strip (nth j ls [])) (issue_text ev) = false) ->
  remove_issue ls ev istart iend = Ok (delete_at i ls).
Proof.
  intros Hi Hle Hm Hfirst. unfold remove_issue.
  destruct (search_range_spec (fun l => str_eqb (strip l) (issue_text ev)) ls
              (iend - istart) istart ltac:(lia))
    as [[k [Hk [Hr [Hp Hbefore]]]]|[Hn Hall]].
  - rewrite Hk. cbn [bind].
    assert (k = i); [|now subst].
    destruct (Nat.lt_trichotomy k i) as [Hlt|[Heq|Hgt]]; [|exact Heq|].
    + rewrite (Hfirst k ltac:(lia)) in Hp. discriminate.
    + rewrite (Hbefore i ltac:(lia)) in Hm. discriminate.
  - rewrite (Hall i ltac:(lia)) in Hm. discriminate.
Qed.

(** The bounds of a section whose header lies after a deleted line [i] and
    whose end lies before a block spliced in at [b]. *)
Lemma section_bounds_after_splices (K : list regex) (ls block : list pystr)
    (i b s e : nat) :
  _section_bounds ls K = Some (s, e) ->
  S i < s -> header_match K (nth i ls []) = false ->
  e < b -> b <= length ls ->
  _section_bounds (delete_at i (insert_at b block ls)) K = Some (s - 1, e - 1).
Proof.
  intros HK His Hnot Heb Hb.
  destruct (section_bounds_elim _ _ _ _ HK)
    as [idx [Hidx [Hm [Hfirst [Hs [Hse [Hbody Hend]]]]]]].
  assert (Hs' : idx + 1 <= s <= idx + 2)
    by (rewrite Hs; destruct (is_divider ls (idx + 1)); lia).
  set (ls1 := insert_at b block ls).
  assert (Hlen1 : length ls1 = length ls + length block)
    by (unfold ls1; rewrite length_insert_at; lia).
  assert (Hi1 : i < length ls1) by lia.
  assert (Hlen2 : length (delete_at i ls1) = length ls1 - 1)
    by (rewrite length_delete_at; lia).
  assert (Hn1 : forall j, j < b -> nth j ls1 [] = nth j ls []).
  { intros j Hj. unfold ls1. rewrite nth_insert_at by lia.
    destruct (Nat.ltb_spec j b); [reflexivity|lia]. }
  assert (Hn2 : forall j, j < i -> nth j (delete_at i ls1) [] = nth j ls []).
  { intros j Hj. rewrite nth_delete_at by lia.
    destruct (Nat.ltb_spec j i); [|lia]. apply Hn1. lia. }
  assert (Hn3 : forall j, i <= j -> S j < b ->
                          nth j (delete_at i ls1) [] = nth (S j) ls []).
  { intros j Hj Hjb. rewrite nth_delete_at by lia.
    destruct (Nat.ltb_spec j i); [lia|]. apply Hn1. lia. }
  assert (Hdiv : is_divider ls (idx + 1) = true -> idx + 1 < length ls).
  { unfold is_divider. intros H. apply andb_true_iff in H.
    destruct H as [H _]. now apply Nat.ltb_lt in H. }
  assert (Hii : i < idx).
  { destruct (Nat.eq_dec i idx) as [->|Hne]; [congruence|lia]. }
  apply (section_bounds_intro _ K (idx - 1)).
  - lia.
  - rewrite Hn3 by lia. replace (S (idx - 1)) with idx by lia. exact Hm.
  - intros j Hj. destruct (Nat.lt_ge_cases j i) as [Hlt|Hge].
    + rewrite Hn2 by lia. apply Hfirst. lia.
    + rewrite Hn3 by lia. apply Hfirst. lia.
  - replace (idx - 1 + 1) with idx by lia.
    assert (Hd : is_divider (delete_at i ls1) idx = is_divider ls (idx + 1)).
    { unfold is_divider. rewrite Hlen2, Hlen1.
      destruct (Nat.ltb_spec (idx + 1) (length ls)) as [Hin|Hout].
      - rewrite Hn3 by lia. replace (S idx) with (idx + 1) by lia.
        destruct (Nat.ltb_spec idx (length ls + length block - 1)); [reflexivity|lia].
      - assert (idx + 1 = length ls) by lia. lia. }
    rewrite Hd, Hs. destruct (is_divider ls (idx + 1)); lia.
  - lia.
  - intros j Hj. rewrite Hn3 by lia. apply Hbody. lia.
  - intros _. rewrite Hn3 by lia. replace (S (e - 1)) with e by lia.
    apply Hend. lia.
Qed.

End WithEnv.

End PromoteFacts.

(** ** The sections the scaffolder creates *)

Module ScaffoldFacts.

Import PyFacts EngineFacts OpFacts Engine.

Lemma existsb_nth_false (A : Type) (P : A -> bool) (l : list A) (d : A) (j : nat) :
  existsb P l = false -> j < length l -> P (nth j l d) = false.
Proof.
  intros H Hj. destruct (P (nth j l d)) eqn:HP; [|reflexivity].
  assert (Hex : existsb P l = true).
  { apply existsb_exists. exists (nth j l d). split; [now apply nth_In|exact HP]. }
  congruence.
Qed.

Lemma has_section_insert_other (K : list regex) (q : nat) (block ls : list pystr) :
  has_section K ls = false -> existsb (header_match K) block = false ->
  has_section K (insert_at q block ls) = false.
Proof.
  unfold has_section, insert_at. intros H Hb.
  rewrite <- (firstn_skipn q ls), existsb_app in H.
  apply orb_false_iff in H. destruct H as [H1 H2].
  now rewrite !existsb_app, H1, Hb, H2.
Qed.

Lemma ensure_missing (K : list regex) (title : pystr) (pos : nat) (ls : list pystr) :
  has_section K ls = false ->
  ensure K title pos ls = insert_at pos [title; DIVIDER; []] ls.
Proof.
  intros H. unfold ensure. apply section_bounds_none in H. now rewrite H.
Qed.

(** A created section has its header where the block is spliced in. *)
Lemma created_at_new (K : list regex) (title : pystr) (q : nat) (ls : list pystr) :
  has_section K ls = false -> header_match K title = true -> q <= length ls ->
  created_at K title q (insert_at q [title; DIVIDER; []] ls).
Proof.
  intros Hno Ht Hq. unfold created_at.
  assert (Hn : forall k, k < 3 ->
             nth (q + k) (insert_at q [title; DIVIDER; []] ls) []
             = nth k [title; DIVIDER; []] []).
  { intros k Hk. rewrite nth_insert_at by lia.
    destruct (Nat.ltb_spec (q + k) q); [lia|].
    destruct (Nat.ltb_spec (q + k) (q + length [title; DIVIDER; @nil N]));
      [|simpl in *; lia].
    f_equal. lia. }
  pose proof (Hn 0 ltac:(lia)) as H0. rewrite Nat.add_0_r in H0.
  split; [|split; [|split; [|split]]].
  - unfold _find_section_start.
    apply (find_index_first pystr (header_match K) _ q []).
    + rewrite length_insert_at. simpl. lia.
    + rewrite H0. exact Ht.
    + intros j Hj. rewrite nth_insert_at by lia.
      destruct (Nat.ltb_spec j q); [|lia].
      apply existsb_nth_false; [exact Hno|lia].
  - rewrite length_insert_at. simpl. lia.
  - exact H0.
  - apply (Hn 1). lia.
  - apply (Hn 2). lia.
Qed.

(** The first header of a family after a block holding none of its headers
    is spliced in. *)
Lemma find_start_insert_other (K : list regex) (q i : nat) (block ls : list pystr) :
  _find_section_start ls K = Some i -> q <= length ls ->
  existsb (header_match K) block = false ->
  _find_section_start (insert_at q block ls) K
  = Some (if q <=? i then i + length block else i).
Proof.
  intros Hi Hq Hb. unfold _find_section_start in *.
  destruct (find_index_some _ _ _ _ [] Hi) as [Hlt [Hm Hfirst]].
  apply (find_index_first pystr (header_match K) _ _ []).
  - rewrite length_insert_at. destruct (Nat.leb_spec q i); lia.
  - rewrite nth_insert_at by lia.
    destruct (Nat.leb_spec q i).
    + destruct (Nat.ltb_spec (i + length block) q); [lia|].
      destruct (Nat.ltb_spec (i + length block) (q + length block)); [lia|].
      now replace (i + length block - length block) with i by lia.
    + destruct (Nat.ltb_spec i q); [exact Hm|lia].
  - intros j Hj. rewrite nth_insert_at by lia.
    destruct (Nat.ltb_spec j q) as [Hjq|Hjq].
    + apply Hfirst. destruct (Nat.leb_spec q i); lia.
    + destruct (Nat.ltb_spec j (q + length block)).
      * apply existsb_nth_false; [exact Hb|lia].
      * apply Hfirst. destruct (Nat.leb_spec q i); lia.
Qed.

Lemma divider_not_heading : is_heading DIVIDER = false.
Proof. reflexivity. Qed.

Lemma empty_not_heading : is_heading [] = false.
Proof. reflexivity. Qed.

(** A block spliced in at the end of a section does not cut a created
    section, and moves it as a whole. *)
Lemma created_at_insert_other (K : list regex) (title : pystr) (q i : nat)
    (block ls : list pystr) :
  created_at K title i ls -> boundary q ls ->
  existsb (header_match K) block = false ->
  created_at K title (if q <=? i then i + length block else i)
    (insert_at q block ls).
Proof.
  intros [Hi [Hlen [H0 [H1 H2]]]] [Hq Hhead] Hb.
  assert (Hcut : q <= i \/ i + 2 < q).
  { destruct (Nat.le_gt_cases q i) as [Hle|Hgt]; [now left|right].
    destruct (Nat.eq_dec q (i + 1)) as [->|Hn1].
    { specialize (Hhead ltac:(lia)). rewrite H1, divider_not_heading in Hhead.
      discriminate. }
    destruct (Nat.eq_dec q (i + 2)) as [->|Hn2].
    { specialize (Hhead ltac:(lia)). rewrite H2, empty_not_heading in Hhead.
      discriminate. }
    lia. }
  split; [now apply find_start_insert_other|].
  rewrite length_insert_at.
  destruct (Nat.leb_spec q i) as [Hle|Hgt].
  - split; [lia|].
    assert (Hn : forall k, nth (i + length block + k) (insert_at q block ls) []
                           = nth (i + k) ls []).
    { intros k. rewrite nth_insert_at by lia.
      destruct (Nat.ltb_spec (i + length block + k) q); [lia|].
      destruct (Nat.ltb_spec (i + length block + k) (q + length block)); [lia|].
      f_equal. lia. }
    pose proof (Hn 0) as Hn0. rewrite !Nat.add_0_r in Hn0.
    rewrite Hn0, (Hn 1), (Hn 2). auto.
  - split; [lia|].
    assert (Hn : forall k, k < 3 -> nth (i + k) (insert_at q block ls) []
                                    = nth (i + k) ls []).
    { intros k Hk. rewrite nth_insert_at by lia.
      destruct (Nat.ltb_spec (i + k) q); [reflexivity|lia]. }
    pose proof (Hn 0 ltac:(lia)) as Hn0. rewrite !Nat.add_0_r in Hn0.
    rewrite Hn0, (Hn 1) by lia. rewrite (Hn 2) by lia. auto.
Qed.

Lemma created_after_insert_other (P K : list regex) (title : pystr) (q : nat)
    (block ls : list pystr) :
  created_after P K title ls -> boundary q ls ->
  existsb (header_match P) block = false ->
  existsb (header_match K) block = false ->
  created_after P K title (insert_at q block ls).
Proof.
  intros [p [i [Hp [Hlt Hc]]]] Hq HbP HbK.
  exists (if q <=? p then p + length block else p),
         (if q <=? i then i + length block else i).
  split; [apply find_start_insert_other; [exact Hp|apply Hq|exact HbP]|].
  split; [|now apply created_at_insert_other].
  destruct (Nat.leb_spec q p), (Nat.leb_spec q i); lia.
Qed.

Lemma section_end_boundary (K : list regex) (ls : list pystr) :
  boundary (section_end K ls) ls.
Proof.
  unfold section_end, boundary.
  destruct (_section_bounds ls K) as [[s e]|] eqn:HK.
  - destruct (section_bounds_elim _ _ _ _ HK)
      as [idx [_ [_ [_ [_ [Hse [_ Hend]]]]]]]. simpl. split; [lia|exact Hend].
  - split; [lia|]. intros H. lia.
Qed.

(** A section created at the end of the section [P] comes after the header
    of [P]. *)
Lemma created_after_new (P K : list regex) (title : pystr) (ls : list pystr) :
  has_section P ls = true -> has_section K ls = false ->
  header_match K title = true ->
  existsb (header_match P) [title; DIVIDER; []] = false ->
  created_after P K title (insert_at (section_end P ls) [title; DIVIDER; []] ls).
Proof.
  intros HP HK Ht HtP.
  destruct (section_bounds_some _ _ HP) as [[s e] Hb].
  destruct (section_bounds_range _ _ _ _ Hb) as [p [Hp [Hps [Hse Hel]]]].
  rewrite (section_end_some _ _ _ Hb). simpl snd.
  exists p, e. split; [|split; [lia|now apply created_at_new]].
  rewrite (find_start_insert_other P e p _ ls Hp Hel HtP).
  destruct (Nat.leb_spec e p); [lia|reflexivity].
Qed.

Lemma ensure_still_missing (K K' : list regex) (title' : pystr) (pos : nat)
    (ls : list pystr) :
  has_section K ls = false ->
  existsb (header_match K) [title'; DIVIDER; []] = false ->
  has_section K (ensure K' title' pos ls) = false.
Proof.
  intros H Hb. unfold ensure. destruct (_section_bounds ls K'); [exact H|].
  now apply has_section_insert_other.
Qed.

Lemma created_at_ensure (K K' K'' : list regex) (title title' : pystr) (i : nat)
    (ls : list pystr) :
  created_at K title i ls ->
  existsb (header_match K) [title'; DIVIDER; []] = false ->
  exists i', created_at K title i' (ensure K' title' (section_end K'' ls) ls).
Proof.
  intros Hc Hb. unfold ensure. destruct (_section_bounds ls K').
  - now exists i.
  - eexists. apply created_at_insert_other;
      [exact Hc|apply section_end_boundary|exact Hb].
Qed.

Lemma created_after_ensure (P K K' K'' : list regex) (title title' : pystr)
    (ls : list pystr) :
  created_after P K title ls ->
  existsb (header_match P) [title'; DIVIDER; []] = false ->
  existsb (header_match K) [title'; DIVIDER; []] = false ->
  created_after P K title (ensure K' title' (section_end K'' ls) ls).
Proof.
  intros Hc HbP HbK. unfold ensure. destruct (_section_bounds ls K').
  - exact Hc.
  - apply created_after_insert_other;
      [exact Hc|apply section_end_boundary|exact HbP|exact HbK].
Qed.

Lemma count_nonblank_le (ls : list pystr) : count_nonblank ls <= length ls.
Proof.
  induction ls as [|l ls IH]; simpl; [lia|]. destruct (is_blank l); lia.
Qed.

Lemma issues_pos_le (ls : list pystr) : issues_pos ls <= length ls.
Proof.
  unfold issues_pos. destruct ls as [|l0 ls']; [simpl; lia|].
  destruct (startswith l0 (py "# ")); [|lia].
  set (ls := l0 :: ls'). unfold header_end.
  assert (H1 : 1 <= length ls) by (simpl; lia).
  assert (Hd : (if is_divider ls 1 then 1 + 1 else 1) <= length ls).
  { unfold is_divider. destruct (Nat.ltb_spec 1 (length ls)); cbn [andb]; [|lia].
    destruct (str_eqb _ _); lia. }
  set (idx := if is_divider ls 1 then 1 + 1 else 1) in *.
  pose proof (count_nonblank_le (skipn idx ls)) as Hc.
  rewrite length_skipn in Hc.
  destruct (Nat.ltb_spec (idx + count_nonblank (skipn idx ls)) (length ls));
    cbn [andb]; [|lia].
  destruct (is_blank _); lia.
Qed.

(** The sections missing from a buffer, in the buffer the scaffolder ends
    with. *)
Lemma scaffold_created (ls : list pystr) :
  (has_section ISSUES_HEADERS ls = false ->
   exists i, created_at ISSUES_HEADERS ISSUES_TITLE i (scaffold ls))
  /\ (has_section FOUND_HEADERS ls = false ->
      created_after ISSUES_HEADERS FOUND_HEADERS FOUND_TITLE (scaffold ls))
  /\ (has_section REPORTS_HEADERS ls = false ->
      created_after FOUND_HEADERS REPORTS_HEADERS REPORTS_TITLE (scaffold ls))
  /\ (has_section BUGS_HEADERS ls = false ->
      created_after REPORTS_HEADERS BUGS_HEADERS BUGS_TITLE (scaffold ls)).
Proof.
  unfold scaffold.
  set (ls1 := ensure ISSUES_HEADERS ISSUES_TITLE (issues_pos ls) ls).
  set (ls2 := ensure FOUND_HEADERS FOUND_TITLE (section_end ISSUES_HEADERS ls1) ls1).
  set (ls3 := ensure REPORTS_HEADERS REPORTS_TITLE (section_end FOUND_HEADERS ls2) ls2).
  assert (HI1 : has_section ISSUES_HEADERS ls1 = true)
    by (apply ensure_has, issues_title_ok).
  assert (HF2 : has_section FOUND_HEADERS ls2 = true)
    by (apply ensure_has, found_title_ok).
  assert (HR3 : has_section REPORTS_HEADERS ls3 = true)
    by (apply ensure_has, reports_title_ok).
  split; [|split; [|split]].
  - intros H.
    assert (H1 : created_at ISSUES_HEADERS ISSUES_TITLE (issues_pos ls) ls1).
    { unfold ls1. rewrite (ensure_missing _ _ _ _ H).
      apply created_at_new; [exact H|apply issues_title_ok|apply issues_pos_le]. }
    destruct (created_at_ensure ISSUES_HEADERS FOUND_HEADERS ISSUES_HEADERS
                ISSUES_TITLE FOUND_TITLE _ ls1 H1 eq_refl) as [i2 H2].
    fold ls2 in H2.
    destruct (created_at_ensure ISSUES_HEADERS REPORTS_HEADERS FOUND_HEADERS
                ISSUES_TITLE REPORTS_TITLE _ ls2 H2 eq_refl) as [i3 H3].
    fold ls3 in H3.
    exact (created_at_ensure ISSUES_HEADERS BUGS_HEADERS REPORTS_HEADERS
             ISSUES_TITLE BUGS_TITLE _ ls3 H3 eq_refl).
  - intros H.
    assert (H1 : has_section FOUND_HEADERS ls1 = false)
      by (apply ensure_still_missing; [exact H|reflexivity]).
    assert (H2 : created_after ISSUES_HEADERS FOUND_HEADERS FOUND_TITLE ls2).
    { unfold ls2. rewrite (ensure_missing _ _ _ _ H1).
      apply created_after_new;
        [exact HI1|exact H1|apply found_title_ok|reflexivity]. }
    assert (H3 : created_after ISSUES_HEADERS FOUND_HEADERS FOUND_TITLE ls3)
      by (apply created_after_ensure; [exact H2|reflexivity|reflexivity]).
    apply created_after_ensure; [exact H3|reflexivity|reflexivity].
  - intros H.
    assert (H1 : has_section REPORTS_HEADERS ls1 = false)
      by (apply ensure_still_missing; [exact H|reflexivity]).
    assert (H2 : has_section REPORTS_HEADERS ls2 = false)
      by (apply ensure_still_missing; [exact H1|reflexivity]).
    assert (H3 : created_after FOUND_HEADERS REPORTS_HEADERS REPORTS_TITLE ls3).
    { unfold ls3. rewrite (ensure_missing _ _ _ _ H2).
      apply created_after_new;
        [exact HF2|exact H2|apply reports_title_ok|reflexivity]. }
    apply created_after_ensure; [exact H3|reflexivity|reflexivity].
  - intros H.
    assert (H1 : has_section BUGS_HEADERS ls1 = false)
      by (apply ensure_still_missing; [exact H|reflexivity]).
    assert (H2 : has_section BUGS_HEADERS ls2 = false)
      by (apply ensure_still_missing; [exact H1|reflexivity]).
    assert (H3 : has_section BUGS_HEADERS ls3 = false)
      by (apply ensure_still_missing; [exact H2|reflexivity]).
    rewrite (ensure_missing _ _ _ _ H3).
    apply created_after_new;
      [exact HR3|exact H3|apply bugs_title_ok|reflexivity].
Qed.

End ScaffoldFacts.

(** ** The matcher finds what there is to find *)

Module ReFacts.

Import PyFacts EngineFacts OpFacts Engine.

Lemma run_star (a : regex) (st : state) (k : state -> option state) :
  run (Star a) st k = star_loop a k (S (length (rest st))) st.
Proof. reflexivity. Qed.

(** Every result of the search is a match. *)
Lemma run_sound (r : regex) :
  forall st k m, run r st k = Some m -> exists st', path r st st' /\ k st' = Some m.
Proof.
  induction r as [|p|a IHa b IHb|a IHa b IHb|a IHa|n a IHa|ml|ml]; intros st k m H.
  - exists st. split; [constructor|exact H].
  - simpl in H. destruct (rest st) as [|c s] eqn:Hr; [discriminate|].
    destruct (p c) eqn:Hp; [|discriminate].
    eexists. split; [eapply path_chr; eassumption|exact H].
  - simpl in H. destruct (IHa _ _ _ H) as [st1 [H1 H2]].
    destruct (IHb _ _ _ H2) as [st2 [H3 H4]].
    exists st2. split; [econstructor; eassumption|exact H4].
  - simpl in H. destruct (run a st k) as [m'|] eqn:Ha.
    + injection H as <-. destruct (IHa _ _ _ Ha) as [st1 [H1 H2]].
      exists st1. split; [now apply path_alt_l|exact H2].
    + destruct (IHb _ _ _ H) as [st1 [H1 H2]].
      exists st1. split; [now apply path_alt_r|exact H2].
  - rewrite run_star in H.
    remember (S (length (rest st))) as fuel eqn:Hf. clear Hf. revert st H.
    induction fuel as [|fuel IH]; intros st H; simpl in H.
    + exists st. split; [constructor|exact H].
    + destruct (run a st _) as [m'|] eqn:Ha.
      * injection H as <-. destruct (IHa _ _ _ Ha) as [st1 [H1 H2]].
        destruct (Nat.ltb_spec (length (rest st1)) (length (rest st))); [|discriminate].
        destruct (IH _ H2) as [st2 [H3 H4]].
        exists st2. split; [|exact H4]. eapply path_star_cons; eassumption.
      * exists st. split; [constructor|exact H].
  - simpl in H. destruct (IHa _ _ _ H) as [st1 [H1 H2]].
    exists (set_cap n st st1). split; [now constructor|exact H2].
  - simpl in H. destruct (at_bol ml st) eqn:Hb; [|discriminate].
    exists st. split; [now constructor|exact H].
  - simpl in H. destruct (at_eol ml st) eqn:Hb; [|discriminate].
    exists st. split; [now constructor|exact H].
Qed.

(** Where there is a match the search finds one. *)
Lemma run_complete (r : regex) :
  forall st st' k m, path r st st' -> k st' = Some m -> exists m', run r st k = Some m'.
Proof.
  induction r as [|p|a IHa b IHb|a IHa b IHb|a IHa|n a IHa|ml|ml];
    intros st st' k m Hp Hk.
  - inversion Hp; subst. exists m. exact Hk.
  - inversion Hp as [|p' st0 c s Hr Hc| | | | | | | |]; subst.
    exists m. simpl. now rewrite Hr, Hc.
  - inversion Hp as [| |a' b' st1 st2 st3 H1 H2| | | | | | |]; subst.
    destruct (IHb _ _ _ _ H2 Hk) as [m1 Hm1].
    exact (IHa _ _ (fun st' => run b st' k) _ H1 Hm1).
  - simpl. inversion Hp; subst.
    + destruct (IHa _ _ _ _ H3 Hk) as [m1 Hm1]. exists m1. now rewrite Hm1.
    + destruct (run a st k) as [m1|]; [now exists m1|].
      exact (IHb _ _ _ _ H3 Hk).
  - rewrite run_star.
    assert (Hfuel : length (rest st) < S (length (rest st))) by lia.
    remember (S (length (rest st))) as fuel eqn:Hf. clear Hf. revert st Hp Hfuel.
    induction fuel as [|fuel IH]; intros st Hp Hfuel; [lia|].
    simpl. inversion Hp as [| | | | |a' st0|a' st1 st2 st3 H1 Hlt H2| | |]; subst.
    + destruct (run a st' _) as [m1|]; [now exists m1|]. now exists m.
    + destruct (IH st2 H2 ltac:(lia)) as [m1 Hm1].
      assert (Hc : (fun st'0 => if length (rest st'0) <? length (rest st)
                                then star_loop a k fuel st'0 else None) st2 = Some m1).
      { cbv beta. destruct (Nat.ltb_spec (length (rest st2)) (length (rest st))); [exact Hm1|lia]. }
      destruct (IHa _ _ _ _ H1 Hc) as [m2 Hm2]. exists m2. now rewrite Hm2.
  - inversion Hp; subst. simpl. exact (IHa _ _ _ _ H3 Hk).
  - inversion Hp; subst. simpl. rewrite H0. now exists m.
  - inversion Hp; subst. simpl. rewrite H0. now exists m.
Qed.

(** *** Reading a match backwards *)

Lemma path_chr_inv (p : char -> bool) (st st' : state) :
  path (Chr p) st st' ->
  exists c, rest st = c :: rest st' /\ p c = true /\ caps st' = caps st.
Proof.
  intros H. inversion H; subst. exists c. simpl. auto.
Qed.

Lemma path_cat_inv (a b : regex) (st st' : state) :
  path (Cat a b) st st' -> exists mid, path a st mid /\ path b mid st'.
Proof.
  intros H. inversion H; subst. eauto.
Qed.

Lemma path_group_inv (n : nat) (a : regex) (st st'' : state) :
  path (Group n a) st st'' -> exists st', path a st st' /\ st'' = set_cap n st st'.
Proof.
  intros H. inversion H; subst. eauto.
Qed.

Lemma path_bol_inv (ml : bool) (st st' : state) :
  path (Bol ml) st st' -> st' = st /\ at_bol ml st = true.
Proof.
  intros H. inversion H; subst. auto.
Qed.

Lemma path_eol_inv (ml : bool) (st st' : state) :
  path (Eol ml) st st' -> st' = st /\ at_eol ml st = true.
Proof.
  intros H. inversion H; subst. auto.
Qed.

Lemma path_alt_inv (a b : regex) (st st' : state) :
  path (Alt a b) st st' -> path a st st' \/ path b st st'.
Proof.
  intros H. inversion H; subst; auto.
Qed.

Lemma path_chars_inv (ps : list (char -> bool)) (st st' : state) :
  path (cats (map Chr ps)) st st' ->
  exists w, rest st = w ++ rest st' /\ Forall2 (fun p c => p c = true) ps w
            /\ caps st' = caps st.
Proof.
  revert st. induction ps as [|p ps IH]; intros st H.
  - inversion H; subst. exists []. auto.
  - destruct ps as [|p' ps].
    + simpl in H. destruct (path_chr_inv _ _ _ H) as [c [Hr [Hp Hc]]].
      exists [c]. split; [exact Hr|]. split; [|exact Hc]. repeat constructor. exact Hp.
    + change (cats (map Chr (p :: p' :: ps)))
        with (Cat (Chr p) (cats (map Chr (p' :: ps)))) in H.
      destruct (path_cat_inv _ _ _ _ H) as [mid [H1 H2]].
      destruct (path_chr_inv _ _ _ H1) as [c [Hr [Hp Hc]]].
      destruct (IH _ H2) as [w [Hw [Hf Hc']]].
      exists (c :: w). split; [rewrite Hr, Hw; reflexivity|].
      split; [now constructor|congruence].
Qed.

Lemma path_lit_i_inv (s : pystr) (st st' : state) :
  path (lit_i s) st st' ->
  exists w, rest st = w ++ rest st' /\ Forall2 (fun p c => ci_eq p c = true) s w
            /\ caps st' = caps st.
Proof.
  unfold lit_i. intros H.
  rewrite <- (map_map ci_eq Chr) in H.
  destruct (path_chars_inv _ _ _ H) as [w [Hw [Hf Hc]]].
  exists w. split; [exact Hw|]. split; [|exact Hc].
  clear - Hf. revert w Hf. induction s as [|c s IH]; intros w Hf; inversion Hf; subst.
  - constructor.
  - constructor; [assumption|]. now apply IH.
Qed.

Lemma ci_eq_caseless (s w : pystr) :
  Forall2 (fun p c => ci_eq p c = true) s w -> caseless s = true -> w = s.
Proof.
  induction 1 as [|p c s w Hpc _ IH]; intros Hs; [reflexivity|].
  simpl in Hs. apply andb_true_iff in Hs. destruct Hs as [Hp Hs].
  f_equal; [|now apply IH].
  unfold ci_eq in Hpc. apply negb_true_iff in Hp. rewrite Hp in Hpc.
  now apply N.eqb_eq in Hpc.
Qed.

Lemma path_star_chr_inv (p : char -> bool) (st st' : state) :
  path (Star (Chr p)) st st' ->
  exists w, rest st = w ++ rest st' /\ forallb p w = true /\ caps st' = caps st.
Proof.
  intros H. remember (Star (Chr p)) as r eqn:Hr.
  induction H as [| | | | |a st|a st1 st2 st3 H1 _ Hlt H2 IH| | |]; try discriminate.
  - exists []. auto.
  - injection Hr as ->.
    destruct (path_chr_inv _ _ _ H1) as [c [Hc [Hp Hcaps]]].
    destruct (IH eq_refl) as [w [Hw [Hf Hcaps']]].
    exists (c :: w). split; [rewrite Hc, Hw; reflexivity|].
    split; [simpl; now rewrite Hp|congruence].
Qed.

Lemma path_plus_chr_inv (p : char -> bool) (st st' : state) :
  path (Plus (Chr p)) st st' ->
  exists w, w <> [] /\ rest st = w ++ rest st' /\ forallb p w = true
            /\ caps st' = caps st.
Proof.
  unfold Plus. intros H.
  destruct (path_cat_inv _ _ _ _ H) as [mid [H1 H2]].
  destruct (path_chr_inv _ _ _ H1) as [c [Hc [Hp Hcaps]]].
  destruct (path_star_chr_inv _ _ _ H2) as [w [Hw [Hf Hcaps']]].
  exists (c :: w). split; [discriminate|].
  split; [rewrite Hc, Hw; reflexivity|].
  split; [simpl; now rewrite Hp|congruence].
Qed.

Lemma set_cap_reads (n : nat) (from to : state) (w : pystr) :
  rest from = w ++ rest to ->
  set_cap n from to = mkState (prev to) (rest to) ((n, w) :: caps to).
Proof.
  intros H. unfold set_cap. rewrite H, length_app.
  replace (length w + length (rest to) - length (rest to)) with (length w) by lia.
  rewrite firstn_app, Nat.sub_diag, firstn_all, firstn_O, app_nil_r. reflexivity.
Qed.

(** *** Building a match *)

Lemma adv_snoc (pv : option char) (w : pystr) (c : char) :
  adv pv (w ++ [c]) = Some c.
Proof. unfold adv. now rewrite fold_left_app. Qed.

Lemma adv_cons (pv : option char) (w : pystr) (c : char) :
  adv pv (c :: w) = adv (Some c) w.
Proof. reflexivity. Qed.

Lemma adv_app (pv : option char) (a b : pystr) :
  adv pv (a ++ b) = adv (adv pv a) b.
Proof. unfold adv. apply fold_left_app. Qed.

Lemma path_chars_intro (ps : list (char -> bool)) (w t : pystr)
    (pv : option char) (cs : list (nat * pystr)) :
  Forall2 (fun p c => p c = true) ps w ->
  path (cats (map Chr ps)) (mkState pv (w ++ t) cs) (mkState (adv pv w) t cs).
Proof.
  intros H. revert pv. induction H as [|p c ps w Hpc Hf IH]; intros pv.
  - constructor.
  - destruct ps as [|p' ps].
    + inversion Hf; subst. simpl.
      exact (path_chr p (mkState pv (c :: t) cs) (s := t) eq_refl Hpc).
    + change (cats (map Chr (p :: p' :: ps)))
        with (Cat (Chr p) (cats (map Chr (p' :: ps)))).
      eapply path_cat; [|apply (IH (Some c))].
      exact (path_chr p (mkState pv ((c :: w) ++ t) cs) (s := w ++ t) eq_refl Hpc).
Qed.

Lemma ci_eq_refl (c : char) : ci_eq c c = true.
Proof.
  unfold ci_eq. destruct (is_upper_ascii c || is_lower_ascii c) eqn:Hl.
  - apply orb_true_iff in Hl. destruct Hl as [Hu|Hlo].
    + unfold lower_ascii. rewrite Hu.
      assert (Hup : upper_ascii (c + 32) = c).
      { unfold upper_ascii, is_lower_ascii, is_upper_ascii in *.
        apply andb_true_iff in Hu. destruct Hu as [H1 H2].
        apply N.leb_le in H1, H2.
        destruct (N.leb_spec 97 (c + 32)), (N.leb_spec (c + 32) 122); simpl; lia. }
      rewrite Hup, N.eqb_refl. now rewrite orb_true_r.
    + unfold lower_ascii.
      destruct (is_upper_ascii c) eqn:Hu.
      * unfold is_lower_ascii, is_upper_ascii in *.
        apply andb_true_iff in Hu, Hlo. destruct Hu as [H1 H2], Hlo as [H3 H4].
        apply N.leb_le in H1, H2, H3, H4. lia.
      * now rewrite N.eqb_refl.
  - apply N.eqb_refl.
Qed.

Lemma path_lit_i_intro (s t : pystr) (pv : option char) (cs : list (nat * pystr)) :
  path (lit_i s) (mkState pv (s ++ t) cs) (mkState (adv pv s) t cs).
Proof.
  unfold lit_i. rewrite <- (map_map ci_eq Chr).
  apply path_chars_intro. induction s as [|c s IH]; simpl; constructor.
  - apply ci_eq_refl.
  - exact IH.
Qed.

Lemma path_star_chr_intro (p : char -> bool) (w t : pystr) (pv : option char)
    (cs : list (nat * pystr)) :
  forallb p w = true ->
  path (Star (Chr p)) (mkState pv (w ++ t) cs) (mkState (adv pv w) t cs).
Proof.
  revert pv. induction w as [|c w IH]; intros pv H.
  - constructor.
  - simpl in H. apply andb_true_iff in H. destruct H as [Hc Hw].
    eapply path_star_cons; [| |apply (IH (Some c) Hw)].
    + exact (path_chr p (mkState pv ((c :: w) ++ t) cs) (s := w ++ t) eq_refl Hc).
    + simpl. lia.
Qed.

Lemma path_plus_chr_intro (p : char -> bool) (w t : pystr) (pv : option char)
    (cs : list (nat * pystr)) :
  w <> [] -> forallb p w = true ->
  path (Plus (Chr p)) (mkState pv (w ++ t) cs) (mkState (adv pv w) t cs).
Proof.
  intros Hne H. destruct w as [|c w]; [congruence|].
  simpl in H. apply andb_true_iff in H. destruct H as [Hc Hw].
  unfold Plus. eapply path_cat; [|apply (path_star_chr_intro p w t (Some c) cs Hw)].
  exact (path_chr p (mkState pv ((c :: w) ++ t) cs) (s := w ++ t) eq_refl Hc).
Qed.

Lemma path_group_chars_intro (n : nat) (p : char -> bool) (w t : pystr)
    (pv : option char) (cs : list (nat * pystr)) :
  w <> [] -> forallb p w = true ->
  path (Group n (Plus (Chr p))) (mkState pv (w ++ t) cs)
       (mkState (adv pv w) t ((n, w) :: cs)).
Proof.
  intros Hne H.
  pose proof (path_group n (path_plus_chr_intro p w t pv cs Hne H)) as Hg.
  rewrite (set_cap_reads n (mkState pv (w ++ t) cs) (mkState (adv pv w) t cs) w eq_refl)
    in Hg. exact Hg.
Qed.

Lemma path_group_chars_inv (n : nat) (p : char -> bool) (st st' : state) :
  path (Group n (Plus (Chr p))) st st' ->
  exists w, w <> [] /\ rest st = w ++ rest st' /\ forallb p w = true
            /\ caps st' = (n, w) :: caps st.
Proof.
  intros H. destruct (path_group_inv _ _ _ _ H) as [mid [H1 ->]].
  destruct (path_plus_chr_inv _ _ _ H1) as [w [Hne [Hw [Hf Hc]]]].
  exists w. rewrite (set_cap_reads n st mid w Hw). simpl.
  repeat split; auto. now rewrite Hc.
Qed.

(** *** [finditer] *)

Lemma finditer_skip (r : regex) (a t : pystr) (pv : option char) :
  finditer_aux r (length a) pv (a ++ t) = finditer_aux r 0 (adv pv a) t.
Proof.
  revert pv. induction a as [|c a IH]; intros pv; [reflexivity|].
  simpl. apply IH.
Qed.

Lemma finditer_step (r : regex) (c : char) (s : pystr) (pv : option char) :
  run r (mkState pv (c :: s) []) Some = None ->
  finditer_aux r 0 pv (c :: s) = finditer_aux r 0 (Some c) s.
Proof.
  intros H. simpl. now rewrite H.
Qed.

Lemma finditer_nil (r : regex) (pv : option char) :
  run r (mkState pv [] []) Some = None -> finditer_aux r 0 pv [] = [].
Proof.
  intros H. simpl. now rewrite H.
Qed.

Lemma finditer_match (r : regex) (pv : option char) (a : pystr) (m : state) :
  a <> [] -> run r (mkState pv (a ++ rest m) []) Some = Some m ->
  finditer_aux r 0 pv (a ++ rest m) = m :: finditer_aux r 0 (adv pv a) (rest m).
Proof.
  intros Hne H. destruct a as [|c a]; [congruence|].
  change ((c :: a) ++ rest m) with (c :: (a ++ rest m)) in *.
  cbn [finditer_aux]. rewrite H. f_equal.
  replace (pred (length (c :: a ++ rest m) - length (rest m))) with (length a)
    by (change (length (c :: a ++ rest m)) with (S (length (a ++ rest m)));
        rewrite length_app; lia).
  rewrite adv_cons. apply finditer_skip.
Qed.

Lemma finditer_nomatch_seg (r : regex) (seg t : pystr) (pv : option char) :
  (forall a b, seg = a ++ b -> b <> [] ->
               run r (mkState (adv pv a) (b ++ t) []) Some = None) ->
  finditer_aux r 0 pv (seg ++ t) = finditer_aux r 0 (adv pv seg) t.
Proof.
  revert pv. induction seg as [|c seg IH]; intros pv H; [reflexivity|].
  change ((c :: seg) ++ t) with (c :: (seg ++ t)).
  rewrite finditer_step by (apply (H [] (c :: seg) eq_refl); discriminate).
  rewrite IH; [reflexivity|].
  intros a b -> Hb. apply (H (c :: a) b eq_refl Hb).
Qed.

(** *** Patterns that begin with [^- \[] *)

Section DashLed.
Variable r' : regex.
Local Notation R := (Cat (Bol true) (Cat (lit_i (py "- [")) r')).

Lemma dash_led_inv (st st' : state) :
  path R st st' ->
  at_bol true st = true
  /\ exists mid, rest st = py "- [" ++ rest mid /\ caps mid = caps st
                 /\ path r' mid st'.
Proof.
  intros H. destruct (path_cat_inv _ _ _ _ H) as [m1 [H1 H2]].
  destruct (path_bol_inv _ _ _ H1) as [-> Hb]. split; [exact Hb|].
  destruct (path_cat_inv _ _ _ _ H2) as [m2 [H3 H4]].
  destruct (path_lit_i_inv _ _ _ H3) as [w [Hw [Hf Hc]]].
  apply ci_eq_caseless in Hf; [|reflexivity]. subst w.
  exists m2. auto.
Qed.

Lemma at_bol_line_start (pv : option char) (s : pystr) (cs : list (nat * pystr)) :
  at_bol true (mkState pv s cs) = line_start pv.
Proof. destruct pv; reflexivity. Qed.

Lemma no_match_inside (pv : option char) (s : pystr) :
  line_start pv = false -> run R (mkState pv s []) Some = None.
Proof.
  intros Hl. destruct (run R (mkState pv s []) Some) as [m|] eqn:Hr; [|reflexivity].
  destruct (run_sound _ _ _ _ Hr) as [st' [Hp _]].
  destruct (dash_led_inv _ _ Hp) as [Hb _].
  rewrite at_bol_line_start in Hb. congruence.
Qed.

Lemma no_match_other (pv : option char) (s : pystr) :
  startswith s (py "- [") = false -> run R (mkState pv s []) Some = None.
Proof.
  intros Hs. destruct (run R (mkState pv s []) Some) as [m|] eqn:Hr; [|reflexivity].
  destruct (run_sound _ _ _ _ Hr) as [st' [Hp _]].
  destruct (dash_led_inv _ _ Hp) as [_ [mid [Hrest _]]].
  simpl rest in Hrest. rewrite Hrest, startswith_app in Hs. discriminate.
Qed.

Lemma line_start_adv (pv : option char) (w : pystr) :
  line_start pv = false -> ~ In LF w -> line_start (adv pv w) = false.
Proof.
  revert pv. induction w as [|c w IH]; intros pv Hl Hin; [exact Hl|].
  rewrite adv_cons. apply IH.
  - simpl. apply N.eqb_neq. intros ->. apply Hin. now left.
  - intros H. apply Hin. now right.
Qed.

(** Inside a line no search succeeds. *)
Lemma finditer_inside (seg t : pystr) (pv : option char) :
  line_start pv = false -> ~ In LF seg ->
  finditer_aux R 0 pv (seg ++ t) = finditer_aux R 0 (adv pv seg) t.
Proof.
  intros Hl Hin. apply finditer_nomatch_seg. intros a b -> Hb.
  apply no_match_inside. apply line_start_adv; [exact Hl|].
  intros H. apply Hin. apply in_or_app. now left.
Qed.

(** A line at whose start the search fails is passed over. *)
Lemma finditer_line (l t : pystr) (pv : option char) :
  ~ In LF l ->
  run R (mkState pv (l ++ LF :: t) []) Some = None ->
  finditer_aux R 0 pv (l ++ LF :: t) = finditer_aux R 0 (Some LF) t.
Proof.
  intros Hin Hno. destruct l as [|c l].
  - simpl app in *. now rewrite finditer_step.
  - change ((c :: l) ++ LF :: t) with (c :: (l ++ LF :: t)) in *.
    rewrite finditer_step by exact Hno.
    assert (Hc : line_start (Some c) = false).
    { simpl. apply N.eqb_neq. intros ->. apply Hin. now left. }
    rewrite finditer_inside; [|exact Hc|intros H; apply Hin; now right].
    rewrite finditer_step; [reflexivity|].
    apply no_match_inside. apply line_start_adv; [exact Hc|].
    intros H. apply Hin. now right.
Qed.

(** A line the pattern matches from its start to its end. *)
Lemma finditer_match_line (body t : pystr) (pv : option char)
    (C : list (nat * pystr)) :
  line_start (adv pv body) = false -> body <> [] ->
  (t = [] \/ exists c t', t = c :: t' /\ is_space c = false) ->
  (exists st', path R (mkState pv (body ++ LF :: t) []) st') ->
  (forall st', path R (mkState pv (body ++ LF :: t) []) st' ->
               caps st' = C
               /\ exists w, w ++ rest st' = LF :: t /\ forallb is_space w = true
                            /\ at_eol true st' = true) ->
  exists m, caps m = C
            /\ finditer_aux R 0 pv (body ++ LF :: t) = m :: finditer_aux R 0 (Some LF) t.
Proof.
  intros Hlast Hne Ht [st0 Hex] Hall.
  destruct (run_complete _ _ _ Some st0 Hex eq_refl) as [m Hm].
  destruct (run_sound _ _ _ _ Hm) as [st' [Hp Hst']]. injection Hst' as ->.
  destruct (Hall _ Hp) as [HC [w [Hw [Hws Heol]]]].
  exists m. split; [exact HC|].
  destruct w as [|c w].
  - simpl in Hw. rewrite <- Hw in *.
    rewrite finditer_match by assumption. f_equal.
    rewrite Hw. rewrite finditer_step; [reflexivity|].
    now apply no_match_inside.
  - injection Hw as -> Hw.
    assert (Hw' : w = [] /\ rest m = t).
    { destruct Ht as [->|[c [t' [-> Hc]]]].
      - apply app_eq_nil in Hw. exact Hw.
      - destruct w as [|c' w].
        + simpl in Hw. split; [reflexivity|exact Hw].
        + injection Hw as -> _. cbn [forallb] in Hws.
          rewrite !andb_true_iff in Hws. destruct Hws as [_ [Hws _]]. congruence. }
    destruct Hw' as [-> Hrest].
    replace (body ++ LF :: t) with ((body ++ [LF]) ++ rest m) in *
      by (rewrite <- app_assoc, Hrest; reflexivity).
    rewrite finditer_match; [|now destruct body|exact Hm].
    rewrite adv_snoc, Hrest. reflexivity.
Qed.

End DashLed.

End ReFacts.

(** ** The text of a header *)

Module HeaderText.

Import PyFacts EngineFacts OpFacts Engine.

Section WithEnv.
Context {E : PyEnv}.

Lemma fold_append (A B : Type) (f : B -> list A) (ps : list B) (init : list A) :
  fold_left (fun acc p => acc ++ f p) ps init = init ++ flat_map f ps.
Proof.
  revert init. induction ps as [|p ps IH]; intros init; simpl.
  - now rewrite app_nil_r.
  - rewrite IH. now rewrite app_assoc.
Qed.

Lemma lines_text_endswith (ls : list pystr) :
  ls <> [] -> endswith (lines_text ls) [LF] = true.
Proof.
  intros H. destruct (exists_last H) as [ls' [l ->]].
  rewrite lines_text_app. unfold lines_text at 2. simpl. rewrite app_nil_r.
  rewrite app_assoc, endswith_snoc. apply N.eqb_refl.
Qed.

(** The rendered header is its lines, each closed by a line feed. *)
Lemma header_only_block_text (date : pystr) (us : dict) (g4 g5 : pystr) :
  header_only_block date us g4 g5
  = lines_text ([py "# " ++ date ++ py " notes"; DIVIDER]
                ++ user_lines us (sorted ALL_PLATFORMS)
                ++ build_lines (py "gen4") g4 ++ build_lines (py "gen5") g5).
Proof.
  unfold header_only_block.
  set (l0 := py "# " ++ date ++ py " notes").
  assert (Hfold : fold_left
            (fun lines p =>
               match dict_get us p with
               | Some ((_ :: _) as u) => lines ++ [py "- [" ++ p ++ py "][" ++ u ++ py "]"]
               | _ => lines
               end) (sorted ALL_PLATFORMS) [l0; DIVIDER]
          = [l0; DIVIDER] ++ user_lines us (sorted ALL_PLATFORMS)).
  { unfold user_lines. rewrite <- fold_append.
    generalize (sorted ALL_PLATFORMS) as ps. generalize [l0; DIVIDER] as init.
    intros init ps. revert init. induction ps as [|p ps IH]; intros init; [reflexivity|].
    simpl. rewrite <- IH. f_equal.
    destruct (dict_get us p) as [[|c u]|]; try now rewrite app_nil_r.
    reflexivity. }
  cbv zeta. rewrite Hfold.
  set (L := [l0; DIVIDER] ++ user_lines us (sorted ALL_PLATFORMS)).
  assert (Hb : forall (g b : pystr) (X : list pystr),
             (if isdigit (strip b)
              then X ++ [py "- [" ++ g ++ py "][" ++ strip b ++ py "] --> build number"]
              else X) = X ++ build_lines g b).
  { intros g b X. unfold build_lines. destruct (isdigit (strip b)); [reflexivity|].
    now rewrite app_nil_r. }
  change (py "- [gen4][") with (py "- [" ++ py "gen4" ++ py "][").
  change (py "- [gen5][") with (py "- [" ++ py "gen5" ++ py "][").
  rewrite <- !app_assoc.
  rewrite (Hb (py "gen4") g4 L), (Hb (py "gen5") g5).
  unfold join_lines. rewrite join_app by discriminate. simpl join. rewrite app_nil_r.
  rewrite lines_text_endswith; [|unfold L; discriminate].
  unfold L. now rewrite <- !app_assoc.
Qed.

(** *** The date *)

Lemma lstrip_length (s : pystr) : length (lstrip s) <= length s.
Proof.
  induction s as [|c s IH]; simpl; [lia|]. destruct (is_space c); simpl; lia.
Qed.

Lemma rstrip_length (s : pystr) : length (rstrip s) <= length s.
Proof.
  unfold rstrip. rewrite length_rev.
  etransitivity; [apply lstrip_length|]. now rewrite length_rev.
Qed.

Lemma strip_fixed_hd (d : pystr) :
  strip d = d -> d <> [] -> exists c d', d = c :: d' /\ is_space c = false.
Proof.
  intros Hs Hne. destruct d as [|c d']; [congruence|].
  exists c, d'. split; [reflexivity|].
  destruct (is_space c) eqn:Hc; [|reflexivity].
  assert (Hlen : length (strip (c :: d')) <= length d').
  { unfold strip. etransitivity; [apply rstrip_length|].
    simpl. rewrite Hc. apply lstrip_length. }
  rewrite Hs in Hlen. simpl in Hlen. lia.
Qed.

Lemma strip_keep (c z : char) (s : pystr) :
  is_space c = false -> is_space z = false ->
  strip (c :: s ++ [z]) = c :: s ++ [z].
Proof.
  intros Hc Hz. unfold strip. simpl lstrip. rewrite Hc.
  unfold rstrip. change (c :: s ++ [z]) with ((c :: s) ++ [z]).
  rewrite rev_app_distr. cbn [rev app lstrip]. rewrite Hz.
  cbn [rev]. rewrite rev_app_distr, rev_involutive. reflexivity.
Qed.

Lemma strip_date_notes (d : pystr) :
  strip d = d -> d <> [] -> strip (d ++ py " notes") = d ++ py " notes".
Proof.
  intros Hs Hne. destruct (strip_fixed_hd d Hs Hne) as [c [d' [-> Hc]]].
  change (py " notes") with (py " note" ++ [115%N]).
  rewrite app_assoc. change ((c :: d') ++ py " note") with (c :: (d' ++ py " note")).
  apply strip_keep; [exact Hc|reflexivity].
Qed.

Lemma notes_overlap (d : pystr) :
  startswith (d ++ py " notes") (py " notes") = true ->
  d = [] \/ startswith d (py " notes") = true.
Proof.
  change (py " notes") with [32; 110; 111; 116; 101; 115]%N.
  destruct d as [|c1 [|c2 [|c3 [|c4 [|c5 [|c6 d]]]]]]; [now left|..];
    cbn [startswith app]; intros H; right;
    rewrite ?andb_true_iff, ?N.eqb_eq in H;
    try (exfalso; intuition congruence).
  rewrite ?andb_true_iff, ?N.eqb_eq. intuition.
Qed.

Lemma replace_date_notes (d : pystr) :
  contains d (py " notes") = false ->
  replace (d ++ py " notes") (py " notes") [] = d.
Proof.
  unfold replace. induction d as [|c d IH]; intros Hc; [reflexivity|].
  cbn [contains] in Hc. apply orb_false_iff in Hc. destruct Hc as [Hs Hc].
  change ((c :: d) ++ py " notes") with (c :: (d ++ py " notes")).
  cbn [replace_aux].
  destruct (startswith (c :: d ++ py " notes") (py " notes")) eqn:Hst.
  - destruct (notes_overlap (c :: d) Hst) as [H|H]; [discriminate|congruence].
  - f_equal. now apply IH.
Qed.

Lemma parse_date_of_header (date : pystr) (rest : list pystr) :
  date_token date ->
  fst (parse_date_and_header_end
         (lines_text ((py "# " ++ date ++ py " notes") :: rest))) = date.
Proof.
  intros [Hne [Hs [Hbf Hc]]]. unfold parse_date_and_header_end.
  rewrite lines_text_cons, splitlines_bf_nl.
  - cbn [fst]. rewrite startswith_app.
    change (skipn 2 (py "# " ++ date ++ py " notes")) with (date ++ py " notes").
    rewrite strip_date_notes by assumption. now apply replace_date_notes.
  - apply break_free_app. split; [apply break_freeb_ok; reflexivity|].
    apply break_free_app. split; [exact Hbf|apply break_freeb_ok; reflexivity].
Qed.

End WithEnv.
End HeaderText.

(** ** The patterns of the header, line by line *)

Module HeaderScan.

Import PyFacts EngineFacts OpFacts Engine ReFacts HeaderText.

Section WithEnv.
Context {E : PyEnv}.

Lemma first_rb_split (a b x y : pystr) :
  a ++ 93%N :: x = b ++ 93%N :: y -> ~ In 93%N a -> ~ In 93%N b -> a = b /\ x = y.
Proof.
  revert b. induction a as [|c a IH]; intros [|d b] H Ha Hb.
  - injection H as ->. auto.
  - injection H as <- _. exfalso. apply Hb. now left.
  - injection H as -> _. exfalso. apply Ha. now left.
  - injection H as -> H.
    destruct (IH b H) as [-> ->].
    + intros Hin. apply Ha. now right.
    + intros Hin. apply Hb. now right.
    + auto.
Qed.

Lemma forallb_not_in (p : char -> bool) (w : pystr) (c : char) :
  forallb p w = true -> p c = false -> ~ In c w.
Proof.
  intros Hf Hc Hin. rewrite forallb_forall in Hf. specialize (Hf c Hin). congruence.
Qed.

Lemma ci_not_in (s g : pystr) (c : char) :
  Forall2 (fun p x => ci_eq p x = true) s g ->
  forallb (fun p => negb (ci_eq p c)) s = true -> ~ In c g.
Proof.
  induction 1 as [|p x s g Hpx _ IH]; intros Hs Hin; [exact Hin|].
  simpl in Hs. apply andb_true_iff in Hs. destruct Hs as [Hp Hs].
  destruct Hin as [->|Hin]; [|now apply IH].
  rewrite Hpx in Hp. discriminate.
Qed.

(** *** The pattern of the user name lines *)

Lemma username_re_shape :
  USERNAME_RE
  = Cat (Bol true) (Cat (lit_i (py "- ["))
      (Cat (Group 1 (Plus (Chr alnum_i))) (Cat (lit_i (py "]["))
        (Cat (Group 2 (Plus (Chr not_rb))) (Cat (lit_i (py "]"))
          (Cat (Star ws) (Eol true))))))).
Proof. reflexivity. Qed.

Lemma username_inv (pv : option char) (s : pystr) (st' : state) :
  path USERNAME_RE (mkState pv s []) st' ->
  exists w1 w2 w4,
    s = py "- [" ++ w1 ++ py "][" ++ w2 ++ py "]" ++ w4 ++ rest st'
    /\ w1 <> [] /\ forallb alnum_i w1 = true
    /\ w2 <> [] /\ forallb not_rb w2 = true
    /\ forallb is_space w4 = true /\ at_eol true st' = true
    /\ caps st' = [(2, w2); (1, w1)].
Proof.
  rewrite username_re_shape. intros H.
  destruct (dash_led_inv _ _ _ H) as [_ [m1 [Hr1 [Hc1 H1]]]].
  simpl rest in Hr1. simpl caps in Hc1.
  destruct (path_cat_inv _ _ _ _ H1) as [m2 [Hg1 H2]].
  destruct (path_group_chars_inv _ _ _ _ Hg1) as [w1 [Hne1 [Hr2 [Hf1 Hc2]]]].
  destruct (path_cat_inv _ _ _ _ H2) as [m3 [Hl1 H3]].
  destruct (path_lit_i_inv _ _ _ Hl1) as [x1 [Hr3 [Hx1 Hc3]]].
  apply ci_eq_caseless in Hx1; [|reflexivity]. subst x1.
  destruct (path_cat_inv _ _ _ _ H3) as [m4 [Hg2 H4]].
  destruct (path_group_chars_inv _ _ _ _ Hg2) as [w2 [Hne2 [Hr4 [Hf2 Hc4]]]].
  destruct (path_cat_inv _ _ _ _ H4) as [m5 [Hl2 H5]].
  destruct (path_lit_i_inv _ _ _ Hl2) as [x2 [Hr5 [Hx2 Hc5]]].
  apply ci_eq_caseless in Hx2; [|reflexivity]. subst x2.
  destruct (path_cat_inv _ _ _ _ H5) as [m6 [Hs H6]].
  destruct (path_star_chr_inv _ _ _ Hs) as [w4 [Hr6 [Hf4 Hc6]]].
  destruct (path_eol_inv _ _ _ H6) as [-> Heol].
  exists w1, w2, w4.
  split; [rewrite Hr1, Hr2, Hr3, Hr4, Hr5, Hr6; reflexivity|].
  repeat (split; [assumption|]).
  rewrite Hc6, Hc5, Hc4, Hc3, Hc2, Hc1. reflexivity.
Qed.

Lemma alnum_not_rb (w : pystr) : forallb alnum_i w = true -> ~ In 93%N w.
Proof. intros H. apply (forallb_not_in alnum_i w); [exact H|reflexivity]. Qed.

Lemma not_rb_not_in (w : pystr) : forallb not_rb w = true <-> ~ In 93%N w.
Proof.
  split.
  - intros H. apply (forallb_not_in not_rb w); [exact H|reflexivity].
  - intros H. apply forallb_forall. intros c Hc. unfold not_rb.
    apply negb_true_iff, N.eqb_neq. intros ->. contradiction.
Qed.

(** The pattern reads a user name line in one way. *)
Lemma username_line_unique (pv : option char) (p u x : pystr) (st' : state) :
  ~ In 93%N p -> ~ In 93%N u ->
  path USERNAME_RE (mkState pv (py "- [" ++ p ++ py "][" ++ u ++ py "]" ++ x) []) st' ->
  caps st' = [(2, u); (1, p)]
  /\ exists w, w ++ rest st' = x /\ forallb is_space w = true
               /\ at_eol true st' = true.
Proof.
  intros Hp Hu H.
  destruct (username_inv _ _ _ H)
    as [w1 [w2 [w4 [Hs [_ [Hf1 [_ [Hf2 [Hf4 [Heol Hc]]]]]]]]]].
  apply app_inv_head in Hs.
  change (py "][" ++ u ++ py "]" ++ x) with (93%N :: 91%N :: u ++ 93%N :: x) in Hs.
  change (py "][" ++ w2 ++ py "]" ++ w4 ++ rest st')
    with (93%N :: 91%N :: w2 ++ 93%N :: w4 ++ rest st') in Hs.
  destruct (first_rb_split _ _ _ _ Hs Hp (alnum_not_rb _ Hf1)) as [-> Hs'].
  injection Hs' as Hs'.
  destruct (first_rb_split _ _ _ _ Hs' Hu (proj1 (not_rb_not_in _) Hf2)) as [-> Hx].
  split; [exact Hc|]. exists w4. auto.
Qed.

Lemma username_line_path (pv : option char) (p u t : pystr) :
  line_start pv = true -> p <> [] -> forallb alnum_i p = true ->
  u <> [] -> ~ In 93%N u ->
  exists st',
    path USERNAME_RE
      (mkState pv (py "- [" ++ p ++ py "][" ++ u ++ py "]" ++ LF :: t) []) st'.
Proof.
  intros Hl Hp Hpa Hu Hurb. rewrite username_re_shape. eexists.
  eapply path_cat; [apply path_bol; now rewrite at_bol_line_start|].
  eapply path_cat; [apply path_lit_i_intro|].
  eapply path_cat; [apply path_group_chars_intro; assumption|].
  eapply path_cat; [apply path_lit_i_intro|].
  eapply path_cat;
    [apply path_group_chars_intro; [exact Hu|now apply not_rb_not_in]|].
  eapply path_cat; [apply path_lit_i_intro|].
  eapply path_cat; [apply path_star_nil|].
  apply path_eol. reflexivity.
Qed.

(** *** The pattern of the build number lines *)

Lemma build_re_shape :
  BUILD_RE
  = Cat (Bol true) (Cat (lit_i (py "- ["))
      (Cat (Group 1 (Alt (lit_i (py "gen4")) (lit_i (py "gen5"))))
        (Cat (lit_i (py "]["))
          (Cat (Group 2 (Plus digit)) (Cat (lit_i (py "]"))
            (Cat (Star ws) (Cat (lit_i (py "-->"))
              (Cat (Star ws) (Cat (lit_i (py "build number"))
                (Cat (Star ws) (Eol true))))))))))).
Proof. reflexivity. Qed.

Lemma gen_like_no_rb (g : pystr) : gen_like g -> ~ In 93%N g.
Proof.
  intros [H|H]; apply (ci_not_in _ _ _ H); reflexivity.
Qed.

Lemma build_inv (pv : option char) (s : pystr) (st' : state) :
  path BUILD_RE (mkState pv s []) st' ->
  exists g d w1 w2 bn w3,
    s = py "- [" ++ g ++ py "][" ++ d ++ py "]" ++ w1 ++ py "-->" ++ w2
        ++ bn ++ w3 ++ rest st'
    /\ gen_like g /\ d <> [] /\ forallb uni_decimal d = true
    /\ forallb is_space w1 = true /\ forallb is_space w2 = true
    /\ Forall2 (fun p c => ci_eq p c = true) (py "build number") bn
    /\ forallb is_space w3 = true /\ at_eol true st' = true
    /\ caps st' = [(2, d); (1, g)].
Proof.
  rewrite build_re_shape. intros H.
  destruct (dash_led_inv _ _ _ H) as [_ [m1 [Hr1 [Hc1 H1]]]].
  simpl rest in Hr1. simpl caps in Hc1.
  destruct (path_cat_inv _ _ _ _ H1) as [m2 [Hg1 H2]].
  destruct (path_group_inv _ _ _ _ Hg1) as [m2' [Ha Hm2]].
  assert (Hg : exists g, rest m1 = g ++ rest m2' /\ gen_like g /\ caps m2' = caps m1).
  { destruct (path_alt_inv _ _ _ _ Ha) as [Hl|Hl];
      destruct (path_lit_i_inv _ _ _ Hl) as [g [Hr [Hf Hc]]];
      exists g; (split; [exact Hr|split; [|exact Hc]]); [now left|now right]. }
  destruct Hg as [g [Hr2 [Hgl Hc2]]].
  rewrite (set_cap_reads 1 m1 m2' g Hr2) in Hm2. subst m2.
  destruct (path_cat_inv _ _ _ _ H2) as [m3 [Hl1 H3]].
  destruct (path_lit_i_inv _ _ _ Hl1) as [x1 [Hr3 [Hx1 Hc3]]].
  apply ci_eq_caseless in Hx1; [|reflexivity]. subst x1.
  simpl rest in Hr3. simpl caps in Hc3.
  destruct (path_cat_inv _ _ _ _ H3) as [m4 [Hg2 H4]].
  destruct (path_group_chars_inv _ _ _ _ Hg2) as [d [Hne2 [Hr4 [Hf2 Hc4]]]].
  destruct (path_cat_inv _ _ _ _ H4) as [m5 [Hl2 H5]].
  destruct (path_lit_i_inv _ _ _ Hl2) as [x2 [Hr5 [Hx2 Hc5]]].
  apply ci_eq_caseless in Hx2; [|reflexivity]. subst x2.
  destruct (path_cat_inv _ _ _ _ H5) as [m6 [Hs1 H6]].
  destruct (path_star_chr_inv _ _ _ Hs1) as [w1 [Hr6 [Hf4 Hc6]]].
  destruct (path_cat_inv _ _ _ _ H6) as [m7 [Hl3 H7]].
  destruct (path_lit_i_inv _ _ _ Hl3) as [x3 [Hr7 [Hx3 Hc7]]].
  apply ci_eq_caseless in Hx3; [|reflexivity]. subst x3.
  destruct (path_cat_inv _ _ _ _ H7) as [m8 [Hs2 H8]].
  destruct (path_star_chr_inv _ _ _ Hs2) as [w2 [Hr8 [Hf5 Hc8]]].
  destruct (path_cat_inv _ _ _ _ H8) as [m9 [Hl4 H9]].
  destruct (path_lit_i_inv _ _ _ Hl4) as [bn [Hr9 [Hbn Hc9]]].
  destruct (path_cat_inv _ _ _ _ H9) as [m10 [Hs3 H10]].
  destruct (path_star_chr_inv _ _ _ Hs3) as [w3 [Hr10 [Hf6 Hc10]]].
  destruct (path_eol_inv _ _ _ H10) as [-> Heol].
  exists g, d, w1, w2, bn, w3.
  split; [rewrite Hr1, Hr2, Hr3, Hr4, Hr5, Hr6, Hr7, Hr8, Hr9, Hr10; reflexivity|].
  repeat (split; [assumption|]).
  rewrite Hc10, Hc9, Hc8, Hc7, Hc6, Hc5, Hc4, Hc3, Hc2, Hc1. reflexivity.
Qed.

(** A match of the build pattern begins with [- \[], four characters and
    [\]\[]. *)
Lemma build_prefix (pv : option char) (s : pystr) (st' : state) :
  path BUILD_RE (mkState pv s []) st' ->
  exists g y, s = py "- [" ++ g ++ 93%N :: 91%N :: y /\ gen_like g.
Proof.
  intros H.
  destruct (build_inv _ _ _ H) as [g [d [w1 [w2 [bn [w3 [Hs [Hg _]]]]]]]].
  exists g. eexists. split; [exact Hs|exact Hg].
Qed.

(** *** Line by line *)

Lemma user_line_assoc (p u x : pystr) :
  user_line p u ++ x = py "- [" ++ p ++ py "][" ++ u ++ py "]" ++ x.
Proof. unfold user_line. now rewrite <- !app_assoc. Qed.

Lemma build_line_assoc (g b x : pystr) :
  build_line g b ++ x
  = py "- [" ++ g ++ py "][" ++ b ++ py "]" ++ py " --> build number" ++ x.
Proof. unfold build_line. now rewrite <- !app_assoc. Qed.

(** A line that does not begin with [- \[] is passed over by both
    patterns. *)
Lemma scan_plain_line (r' : regex) (l t : pystr) (pv : option char) :
  ~ In LF l -> startswith (l ++ LF :: t) (py "- [") = false ->
  finditer_aux (Cat (Bol true) (Cat (lit_i (py "- [")) r')) 0 pv (l ++ LF :: t)
  = finditer_aux (Cat (Bol true) (Cat (lit_i (py "- [")) r')) 0 (Some LF) t.
Proof.
  intros Hl Hs. apply finditer_line; [exact Hl|]. now apply no_match_other.
Qed.

Lemma scan_user_line_U (pv : option char) (p u t : pystr) :
  line_start pv = true -> p <> [] -> forallb alnum_i p = true ->
  u <> [] -> ~ In 93%N u -> tail_ok t ->
  exists m, caps m = [(2, u); (1, p)]
            /\ finditer_aux USERNAME_RE 0 pv (user_line p u ++ LF :: t)
               = m :: finditer_aux USERNAME_RE 0 (Some LF) t.
Proof.
  intros Hl Hp Hpa Hu Hurb Ht. rewrite username_re_shape.
  apply finditer_match_line.
  - unfold user_line. change (py "]") with [93%N].
    rewrite !app_assoc, adv_snoc. reflexivity.
  - discriminate.
  - exact Ht.
  - rewrite <- username_re_shape, user_line_assoc.
    now apply username_line_path.
  - intros st' H. rewrite <- username_re_shape, user_line_assoc in H.
    apply (username_line_unique pv p u (LF :: t) st'); [|exact Hurb|exact H].
    now apply alnum_not_rb.
Qed.

Lemma ws_dash_arrow (w r x : pystr) :
  forallb is_space w = true -> w ++ r = py " -" ++ x ->
  (w = [] /\ r = py " -" ++ x) \/ (w = py " " /\ r = py "-" ++ x).
Proof.
  intros Hw H. destruct w as [|c w]; [now left|right].
  injection H as -> H. destruct w as [|c w].
  - simpl in H. now split.
  - injection H as -> _. cbn [forallb] in Hw.
    rewrite !andb_true_iff in Hw. destruct Hw as [_ [Hw _]]. discriminate.
Qed.

Lemma scan_build_line_U (g b t : pystr) :
  ~ In 93%N g -> ~ In LF g -> ~ In 93%N b -> ~ In LF b ->
  finditer_aux USERNAME_RE 0 (Some LF) (build_line g b ++ LF :: t)
  = finditer_aux USERNAME_RE 0 (Some LF) t.
Proof.
  intros Hg Hgl Hb Hbl. rewrite username_re_shape. apply finditer_line.
  - unfold build_line. rewrite !in_app_iff. cbn [In py map list_ascii_of_string].
    intros H. repeat destruct H as [H|H]; try contradiction; try discriminate.
  - rewrite <- username_re_shape.
    destruct (run USERNAME_RE _ Some) as [m|] eqn:Hr; [|reflexivity].
    destruct (run_sound _ _ _ _ Hr) as [st' [Hp _]].
    rewrite build_line_assoc in Hp.
    destruct (username_line_unique _ _ _ _ _ Hg Hb Hp) as [_ [w [Hw [Hws Heol]]]].
    change (py " --> build number" ++ LF :: t)
      with (py " -" ++ (py "-> build number" ++ LF :: t)) in Hw.
    destruct (ws_dash_arrow _ _ _ Hws Hw) as [[_ Hrest]|[_ Hrest]];
      unfold at_eol in Heol; rewrite Hrest in Heol; discriminate.
Qed.

Lemma platform_facts (p : pystr) :
  In p ALL_PLATFORMS ->
  p <> [] /\ forallb alnum_i p = true /\ ~ In LF p /\ ~ In 93%N p /\ ~ gen_like p
  /\ str_in p [py "gen4"; py "gen5"] = false /\ str_in p ALL_PLATFORMS = true
  /\ forallb (fun c => is_lower_ascii c || is_digit_ascii c) p = true.
Proof.
  intros Hin. vm_compute in Hin.
  repeat destruct Hin as [<-|Hin]; try contradiction;
    (split; [discriminate|]); (split; [reflexivity|]);
    (split; [cbn [In]; intros H; repeat destruct H as [H|H];
             try contradiction; discriminate|]);
    (split; [cbn [In]; intros H; repeat destruct H as [H|H];
             try contradiction; discriminate|]);
    (split; [intros [H|H]; apply Forall2_length in H; discriminate|]);
    repeat split; reflexivity.
Qed.

Lemma scan_user_line_B (pv : option char) (p u t : pystr) :
  In p ALL_PLATFORMS -> ~ In 93%N u ->
  finditer_aux BUILD_RE 0 pv (user_line p u ++ LF :: t)
  = finditer_aux BUILD_RE 0 (Some LF) t.
Proof.
  intros Hp Hu.
  destruct (platform_facts p Hp) as [_ [_ [Hpl [Hprb [Hpg _]]]]].
  rewrite user_line_assoc.
  assert (Hno : forall pv' b x y,
             ~ In 93%N b -> x <> 91%N ->
             run BUILD_RE (mkState pv' (b ++ 93%N :: x :: y) []) Some = None).
  { intros pv' b x y Hb Hx.
    destruct (run BUILD_RE _ Some) as [m|] eqn:Hr; [|reflexivity].
    destruct (run_sound _ _ _ _ Hr) as [st' [Hpath _]].
    destruct (build_prefix _ _ _ Hpath) as [g [z [Hs Hg]]].
    change (py "- [" ++ g ++ 93%N :: 91%N :: z)
      with ((py "- [" ++ g) ++ 93%N :: 91%N :: z) in Hs.
    destruct (first_rb_split _ _ _ _ Hs Hb) as [_ Hxy].
    - rewrite in_app_iff. intros [H|H]; [|now apply (gen_like_no_rb g)].
      cbn [In py map list_ascii_of_string] in H.
      repeat destruct H as [H|H]; try contradiction; discriminate.
    - congruence. }
  (* the start of the line *)
  assert (H0 : run BUILD_RE
                 (mkState pv (py "- [" ++ p ++ py "][" ++ u ++ py "]" ++ LF :: t) [])
                 Some = None).
  { destruct (run BUILD_RE _ Some) as [m|] eqn:Hr; [|reflexivity].
    destruct (run_sound _ _ _ _ Hr) as [st' [Hpath _]].
    destruct (build_prefix _ _ _ Hpath) as [g [z [Hs Hg]]].
    apply app_inv_head in Hs.
    change (py "][" ++ u ++ py "]" ++ LF :: t)
      with (93%N :: 91%N :: u ++ py "]" ++ LF :: t) in Hs.
    destruct (first_rb_split _ _ _ _ Hs Hprb (gen_like_no_rb g Hg)) as [-> _].
    contradiction. }
  rewrite build_re_shape in *.
  change (py "- [" ++ p ++ py "][" ++ u ++ py "]" ++ LF :: t)
    with (45%N :: (py " [" ++ p ++ py "][" ++ u ++ py "]" ++ LF :: t)) in *.
  rewrite finditer_step by exact H0.
  replace (py " [" ++ p ++ py "][" ++ u ++ py "]" ++ LF :: t)
    with ((py " [" ++ p ++ py "][") ++ (u ++ (93%N :: LF :: t)))
    by (now rewrite <- !app_assoc).
  rewrite finditer_inside.
  - rewrite finditer_nomatch_seg.
    + rewrite finditer_step.
      * rewrite finditer_step; [reflexivity|]. now apply no_match_inside.
      * now apply no_match_other.
    + intros a b -> Hb. rewrite <- build_re_shape.
      apply Hno; [|discriminate].
      intros H. apply Hu. apply in_or_app. now right.
  - reflexivity.
  - rewrite !in_app_iff. cbn [In py map list_ascii_of_string].
    intros H. repeat destruct H as [H|H]; try contradiction; discriminate.
Qed.

Context {A : AsciiSound}.

Lemma digits_facts (b : pystr) :
  digits b ->
  forallb uni_decimal b = true /\ forallb uni_isdigit b = true
  /\ ~ In 93%N b /\ ~ In LF b /\ forallb (fun c => negb (is_space c)) b = true.
Proof.
  unfold digits. intros H.
  assert (Hall : forall c, In c b -> is_digit_ascii c = true)
    by (now apply forallb_forall).
  assert (Hlt : forall c, is_digit_ascii c = true -> (48 <= c <= 57)%N).
  { intros c Hc. unfold is_digit_ascii in Hc. apply andb_true_iff in Hc.
    destruct Hc as [H1 H2]. apply N.leb_le in H1, H2. lia. }
  split; [|split; [|split; [|split]]].
  - apply forallb_forall. intros c Hc. rewrite decimal_ascii.
    + now apply Hall.
    + specialize (Hlt c (Hall c Hc)). lia.
  - apply forallb_forall. intros c Hc. apply isdigit_ascii. now apply Hall.
  - intros Hin. specialize (Hlt _ (Hall _ Hin)). lia.
  - intros Hin. specialize (Hlt _ (Hall _ Hin)). unfold LF in Hlt. lia.
  - apply forallb_forall. intros c Hc. specialize (Hlt _ (Hall _ Hc)).
    apply negb_true_iff. destruct (is_space c) eqn:Hs; [|reflexivity].
    unfold is_space, mem in Hs. apply existsb_exists in Hs.
    destruct Hs as [x [Hin Hx]]. apply N.eqb_eq in Hx. subst x.
    cbn [In] in Hin. exfalso. intuition lia.
Qed.

Lemma decimal_no_rb (d : pystr) : forallb uni_decimal d = true -> ~ In 93%N d.
Proof.
  intros H. apply (forallb_not_in uni_decimal d); [exact H|].
  rewrite decimal_ascii; [reflexivity|lia].
Qed.

Lemma app_same_length (X : Type) (a b x y : list X) :
  a ++ x = b ++ y -> length a = length b -> a = b /\ x = y.
Proof.
  revert b. induction a as [|c a IH]; intros [|d b] H Hl; try discriminate.
  - auto.
  - injection H as -> H. injection Hl as Hl.
    destruct (IH b H Hl) as [-> ->]. auto.
Qed.

Lemma is_gen (g : pystr) : g = py "gen4" \/ g = py "gen5" ->
  gen_like g /\ ~ In 93%N g /\ ~ In LF g.
Proof.
  intros [-> | ->]; (split; [|split]).
  - left. repeat constructor.
  - cbn [In py map list_ascii_of_string]. intros H.
    repeat destruct H as [H|H]; try contradiction; discriminate.
  - cbn [In py map list_ascii_of_string]. intros H.
    repeat destruct H as [H|H]; try contradiction; discriminate.
  - right. repeat constructor.
  - cbn [In py map list_ascii_of_string]. intros H.
    repeat destruct H as [H|H]; try contradiction; discriminate.
  - cbn [In py map list_ascii_of_string]. intros H.
    repeat destruct H as [H|H]; try contradiction; discriminate.
Qed.

Lemma path_group_gen (g t : pystr) (pv : option char) (cs : list (nat * pystr)) :
  g = py "gen4" \/ g = py "gen5" ->
  path (Group 1 (Alt (lit_i (py "gen4")) (lit_i (py "gen5"))))
       (mkState pv (g ++ t) cs) (mkState (adv pv g) t ((1, g) :: cs)).
Proof.
  intros Hg.
  assert (Ha : path (Alt (lit_i (py "gen4")) (lit_i (py "gen5")))
                    (mkState pv (g ++ t) cs) (mkState (adv pv g) t cs)).
  { destruct Hg as [-> | ->];
      [apply path_alt_l|apply path_alt_r]; apply path_lit_i_intro. }
  pose proof (path_group 1 Ha) as H.
  rewrite (set_cap_reads 1 (mkState pv (g ++ t) cs) (mkState (adv pv g) t cs) g eq_refl)
    in H. exact H.
Qed.

Lemma build_tail_unique (w1 w2 bn w3 r t : pystr) :
  forallb is_space w1 = true -> forallb is_space w2 = true ->
  Forall2 (fun p c => ci_eq p c = true) (py "build number") bn ->
  w1 ++ py "-->" ++ w2 ++ bn ++ w3 ++ r = py " --> build number" ++ LF :: t ->
  w3 ++ r = LF :: t.
Proof.
  intros H1 H2 Hbn H.
  change (py " --> build number" ++ LF :: t)
    with (py " -" ++ (py "-> build number" ++ LF :: t)) in H.
  destruct (ws_dash_arrow _ _ _ H1 H) as [[_ Hr]|[_ Hr]]; [discriminate|].
  injection Hr as Hr.
  (* the blank before the words *)
  destruct w2 as [|c w2].
  - inversion Hbn as [|p0 b0 ps bs Hb0 _ Hp Hb]. subst bn.
    injection Hr as -> _. discriminate.
  - injection Hr as -> Hr. destruct w2 as [|c w2].
    + destruct (app_same_length _ bn (py "build number") (w3 ++ r) (LF :: t) Hr)
        as [_ Hx]; [|exact Hx].
      apply Forall2_length in Hbn. now rewrite <- Hbn.
    + injection Hr as -> _. cbn [forallb] in H2.
      rewrite !andb_true_iff in H2. destruct H2 as [_ [H2 _]]. discriminate.
Qed.

Lemma scan_build_line_B (pv : option char) (g b t : pystr) :
  line_start pv = true -> g = py "gen4" \/ g = py "gen5" ->
  b <> [] -> digits b -> tail_ok t ->
  exists m, caps m = [(2, b); (1, g)]
            /\ finditer_aux BUILD_RE 0 pv (build_line g b ++ LF :: t)
               = m :: finditer_aux BUILD_RE 0 (Some LF) t.
Proof.
  intros Hl Hg Hne Hb Ht.
  destruct (digits_facts b Hb) as [Hdec [_ [Hbrb _]]].
  destruct (is_gen g Hg) as [Hgl [Hgrb _]].
  rewrite build_re_shape. apply finditer_match_line.
  - unfold build_line.
    change (py "] --> build number") with (py "] --> build numbe" ++ [114%N]).
    rewrite !app_assoc, adv_snoc. reflexivity.
  - discriminate.
  - exact Ht.
  - rewrite build_line_assoc.
    change (py " --> build number" ++ LF :: t)
      with (py " " ++ py "-->" ++ py " " ++ py "build number" ++ LF :: t).
    eexists.
    eapply path_cat; [apply path_bol; now rewrite at_bol_line_start|].
    eapply path_cat; [apply path_lit_i_intro|].
    eapply path_cat; [apply path_group_gen; exact Hg|].
    eapply path_cat; [apply path_lit_i_intro|].
    eapply path_cat; [apply path_group_chars_intro; assumption|].
    eapply path_cat; [apply path_lit_i_intro|].
    eapply path_cat; [apply path_star_chr_intro; reflexivity|].
    eapply path_cat; [apply path_lit_i_intro|].
    eapply path_cat; [apply path_star_chr_intro; reflexivity|].
    eapply path_cat; [apply path_lit_i_intro|].
    eapply path_cat; [apply path_star_nil|].
    apply path_eol. reflexivity.
  - intros st' H. rewrite <- build_re_shape, build_line_assoc in H.
    destruct (build_inv _ _ _ H)
      as [g' [d [w1 [w2 [bn [w3 [Hs [Hg' [_ [Hd [H1 [H2 [Hbn [H3 [Heol Hc]]]]]]]]]]]]]]].
    apply app_inv_head in Hs.
    change (py "][" ++ b ++ py "]" ++ py " --> build number" ++ LF :: t)
      with (93%N :: 91%N :: b ++ 93%N :: py " --> build number" ++ LF :: t) in Hs.
    change (py "][" ++ d ++ py "]" ++ w1 ++ py "-->" ++ w2 ++ bn ++ w3 ++ rest st')
      with (93%N :: 91%N :: d ++ 93%N :: w1 ++ py "-->" ++ w2 ++ bn ++ w3 ++ rest st')
      in Hs.
    destruct (first_rb_split _ _ _ _ Hs Hgrb (gen_like_no_rb _ Hg')) as [<- Hs'].
    injection Hs' as Hs'.
    destruct (first_rb_split _ _ _ _ Hs' Hbrb (decimal_no_rb _ Hd)) as [<- Hx].
    split; [exact Hc|]. exists w3. split; [|split; assumption].
    symmetry in Hx. exact (build_tail_unique _ _ _ _ _ _ H1 H2 Hbn Hx).
Qed.

End WithEnv.
End HeaderScan.

(** ** The header read back *)

Module HeaderCodec.

Import PyFacts EngineFacts OpFacts Engine ReFacts HeaderText HeaderScan.

Section WithEnv.
Context {E : PyEnv} {A : AsciiSound}.

Lemma user_lines_bound (us : dict) (ps : list pystr) :
  user_lines us ps = map (fun pu => user_line (fst pu) (snd pu)) (bound us ps).
Proof.
  unfold user_lines, bound. induction ps as [|p ps IH]; [reflexivity|].
  cbn [flat_map]. rewrite map_app, <- IH. f_equal.
  destruct (dict_get us p) as [[|c u]|]; reflexivity.
Qed.

Lemma bound_in (us : dict) (ps : list pystr) (p u : pystr) :
  In (p, u) (bound us ps) -> In p ps /\ dict_get us p = Some u /\ u <> [].
Proof.
  unfold bound. rewrite in_flat_map. intros [q [Hq Hin]].
  destruct (dict_get us q) as [[|c v]|] eqn:Hg; try contradiction.
  destruct Hin as [Heq|[]]. injection Heq as <- <-.
  repeat split; [exact Hq|exact Hg|discriminate].
Qed.

Lemma all_platforms_sorted : sorted ALL_PLATFORMS = ALL_PLATFORMS.
Proof. reflexivity. Qed.

(** *** The tail of the header *)

Lemma tail_ok_nil : tail_ok [].
Proof. now left. Qed.

Lemma tail_ok_dash (t : pystr) : tail_ok (45%N :: t).
Proof. right. exists 45%N, t. split; reflexivity. Qed.

Lemma tail_ok_user_lines (pairs : list (pystr * pystr)) (t : pystr) :
  tail_ok t ->
  tail_ok (lines_text (map (fun pu => user_line (fst pu) (snd pu)) pairs) ++ t).
Proof.
  intros Ht. destruct pairs as [|[p u] pairs]; [exact Ht|].
  cbn [map]. rewrite lines_text_cons. apply tail_ok_dash.
Qed.

Lemma lstrip_nonspace (s : pystr) :
  forallb (fun c => negb (is_space c)) s = true -> lstrip s = s.
Proof.
  destruct s as [|c s]; [reflexivity|]. simpl. intros H.
  apply andb_true_iff in H. destruct H as [H _].
  apply negb_true_iff in H. now rewrite H.
Qed.

Lemma strip_nonspace (s : pystr) :
  forallb (fun c => negb (is_space c)) s = true -> strip s = s.
Proof.
  intros H. unfold strip, rstrip. rewrite (lstrip_nonspace s H).
  rewrite lstrip_nonspace; [apply rev_involutive|].
  apply forallb_forall. intros c Hc. apply in_rev in Hc.
  rewrite forallb_forall in H. now apply H.
Qed.

Lemma build_lines_digits (g b : pystr) :
  digits b ->
  build_lines g b = match b with [] => [] | _ :: _ => [build_line g b] end.
Proof.
  intros Hb. destruct (digits_facts b Hb) as [_ [Hd [_ [_ Hs]]]].
  unfold build_lines. rewrite (strip_nonspace b Hs).
  destruct b as [|c b]; [reflexivity|]. unfold isdigit. now rewrite Hd.
Qed.

Lemma tail_ok_build_lines (g b : pystr) (t : pystr) :
  digits b -> tail_ok t -> tail_ok (lines_text (build_lines g b) ++ t).
Proof.
  intros Hb Ht. rewrite (build_lines_digits g b Hb).
  destruct b as [|c b]; [exact Ht|].
  rewrite lines_text_cons. apply tail_ok_dash.
Qed.

(** *** The user names *)

Lemma scan_users_U (pairs : list (pystr * pystr)) (t : pystr) :
  Forall pair_ok pairs -> tail_ok t ->
  exists ms,
    Forall2 (fun m pu => caps m = [(2, snd pu); (1, fst pu)]) ms pairs
    /\ finditer_aux USERNAME_RE 0 (Some LF)
         (lines_text (map (fun pu => user_line (fst pu) (snd pu)) pairs) ++ t)
       = ms ++ finditer_aux USERNAME_RE 0 (Some LF) t.
Proof.
  intros Hok Ht. induction Hok as [|[p u] pairs [Hp [Hu Hrb]] _ IH].
  - exists []. split; [constructor|reflexivity].
  - destruct IH as [ms [Hms Heq]].
    destruct (platform_facts p Hp) as [Hpne [Hpa _]].
    cbn [map fst snd]. rewrite lines_text_cons, <- app_assoc.
    change ((LF :: lines_text (map (fun pu => user_line (fst pu) (snd pu)) pairs)) ++ t)
      with (LF :: (lines_text (map (fun pu => user_line (fst pu) (snd pu)) pairs) ++ t)).
    destruct (scan_user_line_U (Some LF) p u
                (lines_text (map (fun pu => user_line (fst pu) (snd pu)) pairs) ++ t)
                eq_refl Hpne Hpa Hu Hrb (tail_ok_user_lines pairs t Ht))
      as [m [Hm Hscan]].
    exists (m :: ms). split; [now constructor|].
    rewrite Hscan, Heq. reflexivity.
Qed.

Lemma scan_users_B (pairs : list (pystr * pystr)) (t : pystr) :
  Forall pair_ok pairs ->
  finditer_aux BUILD_RE 0 (Some LF)
    (lines_text (map (fun pu => user_line (fst pu) (snd pu)) pairs) ++ t)
  = finditer_aux BUILD_RE 0 (Some LF) t.
Proof.
  intros Hok. induction Hok as [|[p u] pairs [Hp [Hu Hrb]] _ IH]; [reflexivity|].
  cbn [map fst snd]. rewrite lines_text_cons, <- app_assoc.
  change ((LF :: lines_text (map (fun pu => user_line (fst pu) (snd pu)) pairs)) ++ t)
    with (LF :: (lines_text (map (fun pu => user_line (fst pu) (snd pu)) pairs) ++ t)).
  rewrite scan_user_line_B by assumption. exact IH.
Qed.

(** The date line and the divider hold no match of either pattern. *)
Lemma scan_head (r' : regex) (date t : pystr) :
  break_free date ->
  finditer_aux (Cat (Bol true) (Cat (lit_i (py "- [")) r')) 0 None
    (lines_text [py "# " ++ date ++ py " notes"; DIVIDER] ++ t)
  = finditer_aux (Cat (Bol true) (Cat (lit_i (py "- [")) r')) 0 (Some LF) t.
Proof.
  intros Hbf. rewrite !lines_text_cons. unfold lines_text at 1. cbn [map concat].
  rewrite <- app_assoc.
  change ((LF :: DIVIDER ++ [LF]) ++ t) with (LF :: (DIVIDER ++ LF :: t)).
  rewrite scan_plain_line.
  - apply scan_plain_line; [|reflexivity].
    cbn. intros H. repeat destruct H as [H|H]; try contradiction; discriminate.
  - rewrite !in_app_iff. intros [H|[H|H]].
    + cbn in H. repeat destruct H as [H|H]; try contradiction; discriminate.
    + apply Hbf in H. discriminate.
    + cbn in H. repeat destruct H as [H|H]; try contradiction; discriminate.
  - reflexivity.
Qed.

Lemma scan_end (r' : regex) :
  finditer_aux (Cat (Bol true) (Cat (lit_i (py "- [")) r')) 0 (Some LF) [] = [].
Proof. apply finditer_nil. now apply no_match_other. Qed.

Lemma scan_builds_U (g4 g5 : pystr) :
  digits g4 -> digits g5 ->
  finditer_aux USERNAME_RE 0 (Some LF)
    (lines_text (build_lines (py "gen4") g4 ++ build_lines (py "gen5") g5)) = [].
Proof.
  intros H4 H5. rewrite !build_lines_digits by assumption.
  destruct (digits_facts g4 H4) as [_ [_ [H4rb [H4l _]]]].
  destruct (digits_facts g5 H5) as [_ [_ [H5rb [H5l _]]]].
  destruct (is_gen (py "gen4") (or_introl eq_refl)) as [_ [Hg4 Hg4l]].
  destruct (is_gen (py "gen5") (or_intror eq_refl)) as [_ [Hg5 Hg5l]].
  destruct g4 as [|c4 g4], g5 as [|c5 g5]; cbn [app];
    rewrite ?lines_text_cons, ?scan_build_line_U by assumption;
    unfold lines_text; cbn [map concat]; rewrite username_re_shape; apply scan_end.
Qed.

(** The matches of the user name pattern in a header are its user name
    lines. *)
Lemma finditer_usernames (date : pystr) (us : dict) (g4 g5 : pystr) :
  break_free date -> usernames_ok us -> digits g4 -> digits g5 ->
  exists ms,
    Forall2 (fun m pu => caps m = [(2, snd pu); (1, fst pu)]) ms
            (bound us ALL_PLATFORMS)
    /\ finditer USERNAME_RE (header_only_block date us g4 g5) = ms.
Proof.
  intros Hd Hus H4 H5. rewrite header_only_block_text, all_platforms_sorted.
  rewrite user_lines_bound.
  assert (Hok : Forall pair_ok (bound us ALL_PLATFORMS)).
  { apply Forall_forall. intros [p u] Hin.
    destruct (bound_in _ _ _ _ Hin) as [Hp [Hg Hne]].
    destruct (Hus p u Hg) as [_ [_ [_ Hrb]]].
    repeat split; assumption. }
  destruct (scan_users_U (bound us ALL_PLATFORMS)
              (lines_text (build_lines (py "gen4") g4 ++ build_lines (py "gen5") g5))
              Hok) as [ms [Hms Heq]].
  { rewrite lines_text_app. apply tail_ok_build_lines; [exact H4|].
    rewrite <- (app_nil_r (lines_text _)).
    apply tail_ok_build_lines; [exact H5|apply tail_ok_nil]. }
  exists ms. split; [exact Hms|].
  unfold finditer.
  rewrite (lines_text_app [py "# " ++ date ++ py " notes"; DIVIDER]).
  rewrite (lines_text_app (map _ (bound us ALL_PLATFORMS))).
  rewrite username_re_shape, scan_head by exact Hd.
  rewrite <- username_re_shape, Heq, scan_builds_U by assumption.
  apply app_nil_r.
Qed.

(** *** The dictionary the parser builds *)

Lemma dict_get_set (k v q : pystr) (d : dict) :
  dict_get (dict_set k v d) q = if str_eqb k q then Some v else dict_get d q.
Proof.
  induction d as [|[k' v'] d IH]; simpl.
  - reflexivity.
  - destruct (str_eqb k' k) eqn:Hk.
    + apply str_eqb_eq in Hk. subst k'. simpl.
      destruct (str_eqb k q); reflexivity.
    + simpl. destruct (str_eqb k' q) eqn:Hq.
      * apply str_eqb_eq in Hq. subst k'.
        destruct (str_eqb k q) eqn:Hkq; [|reflexivity].
        apply str_eqb_eq in Hkq. subst k. rewrite str_eqb_refl in Hk. discriminate.
      * exact IH.
Qed.

Lemma grp_caps (m : state) (p u : pystr) :
  caps m = [(2, u); (1, p)] -> grp 1 m = p /\ grp 2 m = u.
Proof. unfold grp. intros ->. split; reflexivity. Qed.

Lemma parse_usernames_fold (ms : list state) (pairs : list (pystr * pystr))
    (d : dict) :
  Forall2 (fun m pu => caps m = [(2, snd pu); (1, fst pu)]) ms pairs ->
  Forall (fun pu => In (fst pu) ALL_PLATFORMS /\ strip (snd pu) = snd pu) pairs ->
  fold_left
    (fun usernames m =>
       if str_in (str_lower (grp 1 m)) [py "gen4"; py "gen5"]
          && is_number (strip (grp 2 m)) then usernames
       else if str_in (str_lower (grp 1 m)) ALL_PLATFORMS
            then dict_set (str_lower (grp 1 m)) (strip (grp 2 m)) usernames
            else usernames) ms d
  = fold_left (fun d pu => dict_set (fst pu) (snd pu) d) pairs d.
Proof.
  intros H. revert d. induction H as [|m [p u] ms pairs Hm _ IH]; intros d Hok.
  - reflexivity.
  - inversion Hok as [|x y [Hp Hs] Hok']; subst.
    cbn [fold_left fst snd] in *.
    destruct (grp_caps m p u Hm) as [-> ->].
    destruct (platform_facts p Hp) as [_ [_ [_ [_ [_ [Hg [Hall Hlow]]]]]]].
    rewrite (lower_fixes p Hlow), Hg, Hall, Hs. cbn [andb].
    now apply IH.
Qed.

Lemma dict_get_bound (us : dict) (ps : list pystr) (d : dict) (q : pystr) :
  dict_get (fold_left (fun d pu => dict_set (fst pu) (snd pu) d) (bound us ps) d) q
  = match (if str_in q ps then dict_get us q else None) with
    | Some ((_ :: _) as u) => Some u
    | _ => dict_get d q
    end.
Proof.
  revert d. induction ps as [|p ps IH]; intros d; [reflexivity|].
  unfold bound. cbn [flat_map]. rewrite fold_left_app. fold (bound us ps).
  rewrite IH. cbn [str_in existsb]. fold (str_in q ps).
  destruct (str_eqb q p) eqn:Hqp.
  - apply str_eqb_eq in Hqp. subst q. cbn [orb].
    destruct (dict_get us p) as [[|c u]|] eqn:Hg; cbn [fold_left fst snd];
      try (destruct (str_in p ps); reflexivity).
    rewrite dict_get_set, str_eqb_refl. destruct (str_in p ps); reflexivity.
  - cbn [orb].
    assert (Hd : forall v, dict_get (dict_set p v d) q = dict_get d q).
    { intros v. rewrite dict_get_set.
      destruct (str_eqb p q) eqn:Hpq; [|reflexivity].
      apply str_eqb_eq in Hpq. subst q. rewrite str_eqb_refl in Hqp. discriminate. }
    destruct (dict_get us p) as [[|c u]|]; cbn [fold_left fst snd];
      rewrite ?Hd; reflexivity.
Qed.

Lemma str_in_platform (q : pystr) :
  In q ALL_PLATFORMS -> str_in q ALL_PLATFORMS = true.
Proof. intros H. now destruct (platform_facts q H) as [_ [_ [_ [_ [_ [_ [H' _]]]]]]]. Qed.

(** The parser gives back the user names that were rendered. *)
Lemma parse_usernames_of_header (date : pystr) (us : dict) (g4 g5 : pystr) :
  break_free date -> usernames_ok us -> digits g4 -> digits g5 ->
  forall q, dict_get (parse_usernames (header_only_block date us g4 g5)) q
            = dict_get us q.
Proof.
  intros Hd Hus H4 H5 q.
  destruct (finditer_usernames date us g4 g5 Hd Hus H4 H5) as [ms [Hms Hfi]].
  unfold parse_usernames. rewrite Hfi. cbv zeta.
  rewrite (parse_usernames_fold ms (bound us ALL_PLATFORMS) [] Hms).
  - rewrite dict_get_bound. cbn [dict_get].
    destruct (dict_get us q) as [u|] eqn:Hg.
    + destruct (Hus q u Hg) as [Hq [Hne _]].
      rewrite (str_in_platform q Hq). destruct u; [congruence|reflexivity].
    + destruct (str_in q ALL_PLATFORMS); reflexivity.
  - apply Forall_forall. intros [p u] Hin.
    destruct (bound_in _ _ _ _ Hin) as [Hp [Hg _]].
    destruct (Hus p u Hg) as [_ [_ [Hs _]]]. split; assumption.
Qed.

(** *** The build numbers *)

Lemma parse_builds_of_header (date : pystr) (us : dict) (g4 g5 : pystr) :
  break_free date -> usernames_ok us -> digits g4 -> digits g5 ->
  parse_builds (header_only_block date us g4 g5) = (g4, g5).
Proof.
  intros Hd Hus H4 H5. rewrite header_only_block_text, all_platforms_sorted.
  rewrite user_lines_bound.
  assert (Hok : Forall pair_ok (bound us ALL_PLATFORMS)).
  { apply Forall_forall. intros [p u] Hin.
    destruct (bound_in _ _ _ _ Hin) as [Hp [Hg Hne]].
    destruct (Hus p u Hg) as [_ [_ [_ Hrb]]].
    repeat split; assumption. }
  unfold parse_builds, finditer.
  rewrite (lines_text_app [py "# " ++ date ++ py " notes"; DIVIDER]).
  rewrite (lines_text_app (map _ (bound us ALL_PLATFORMS))).
  rewrite build_re_shape, scan_head by exact Hd.
  rewrite <- build_re_shape, scan_users_B by exact Hok.
  rewrite !build_lines_digits by assumption.
  assert (Hl4 : str_lower (py "gen4") = py "gen4") by (apply lower_fixes; reflexivity).
  assert (Hl5 : str_lower (py "gen5") = py "gen5") by (apply lower_fixes; reflexivity).
  assert (Hend : finditer_aux BUILD_RE 0 (Some LF) [] = [])
    by (rewrite build_re_shape; apply scan_end).
  destruct g4 as [|c4 g4], g5 as [|c5 g5]; cbn [app].
  - unfold lines_text. cbn [map concat]. now rewrite Hend.
  - rewrite lines_text_cons.
    destruct (scan_build_line_B (Some LF) (py "gen5") (c5 :: g5) (lines_text [])
                eq_refl (or_intror eq_refl) ltac:(discriminate) H5 tail_ok_nil)
      as [m [Hm ->]].
    unfold lines_text at 1. cbn [map concat]. rewrite Hend. cbn [fold_left].
    destruct (grp_caps m _ _ Hm) as [-> ->]. rewrite Hl5. reflexivity.
  - rewrite lines_text_cons.
    destruct (scan_build_line_B (Some LF) (py "gen4") (c4 :: g4) (lines_text [])
                eq_refl (or_introl eq_refl) ltac:(discriminate) H4 tail_ok_nil)
      as [m [Hm ->]].
    unfold lines_text at 1. cbn [map concat]. rewrite Hend. cbn [fold_left].
    destruct (grp_caps m _ _ Hm) as [-> ->]. rewrite Hl4. reflexivity.
  - rewrite lines_text_cons.
    destruct (scan_build_line_B (Some LF) (py "gen4") (c4 :: g4)
                (lines_text [build_line (py "gen5") (c5 :: g5)])
                eq_refl (or_introl eq_refl) ltac:(discriminate) H4)
      as [m4 [Hm4 ->]].
    { rewrite lines_text_cons. apply tail_ok_dash. }
    rewrite lines_text_cons.
    destruct (scan_build_line_B (Some LF) (py "gen5") (c5 :: g5) (lines_text [])
                eq_refl (or_intror eq_refl) ltac:(discriminate) H5 tail_ok_nil)
      as [m5 [Hm5 ->]].
    unfold lines_text at 1. cbn [map concat]. rewrite Hend. cbn [fold_left].
    destruct (grp_caps m4 _ _ Hm4) as [-> ->]. rewrite Hl4, str_eqb_refl.
    cbv beta iota.
    destruct (grp_caps m5 _ _ Hm5) as [-> ->]. rewrite Hl5. reflexivity.
Qed.

End WithEnv.
End HeaderCodec.

(** ** Documents that only grow *)

Module GrowFacts.

Import PyFacts EngineFacts OpFacts Engine Views.

Section Grown.
Variable A : Type.
Variable P : A -> Prop.

Lemma grown_refl (l : list A) : grown P l l.
Proof. induction l; constructor; assumption. Qed.

Lemma grown_trans (l1 l2 l3 : list A) :
  grown P l1 l2 -> grown P l2 l3 -> grown P l1 l3.
Proof.
  intros H12 H23. revert l1 H12.
  induction H23 as [|x l2 l3 Hx H IH|x l2 l3 H IH]; intros l1 H12.
  - exact H12.
  - apply grown_add; [exact Hx|]. now apply IH.
  - inversion H12 as [|y a b Hy Hab|y a b Hab]; subst.
    + apply grown_add; [exact Hy|]. now apply IH.
    + apply grown_keep. now apply IH.
Qed.

Lemma grown_app (a a' b b' : list A) :
  grown P a a' -> grown P b b' -> grown P (a ++ b) (a' ++ b').
Proof.
  intros Ha Hb. induction Ha; simpl; [exact Hb| |]; constructor; assumption.
Qed.

Lemma grown_block (block : list A) : Forall P block -> grown P [] block.
Proof. induction 1; constructor; assumption. Qed.

Lemma grown_insert_at (i : nat) (block ls : list A) :
  Forall P block -> grown P ls (insert_at i block ls).
Proof.
  intros Hb. unfold insert_at.
  rewrite <- (firstn_skipn i ls) at 1.
  apply grown_app; [apply grown_refl|].
  change (skipn i ls) with ([] ++ skipn i ls) at 1.
  apply grown_app; [now apply grown_block|apply grown_refl].
Qed.

Lemma grown_snoc_inv (Y : list A) (x : A) (l : list A) :
  grown P l (Y ++ [x]) ->
  (P x /\ grown P l Y) \/ exists l', l = l' ++ [x] /\ grown P l' Y.
Proof.
  revert l. induction Y as [|y Y IH]; intros l H; simpl in H.
  - inversion H as [|z a b Hz Hab|z a b Hab]; subst.
    + inversion Hab; subst. left. split; [exact Hz|constructor].
    + inversion Hab; subst. right. exists []. split; [reflexivity|constructor].
  - inversion H as [|z a b Hz Hab|z a b Hab]; subst.
    + destruct (IH _ Hab) as [[Hx Hl]|[l' [-> Hl]]].
      * left. split; [exact Hx|]. now apply grown_add.
      * right. exists l'. split; [reflexivity|]. now apply grown_add.
    + destruct (IH _ Hab) as [[Hx Hl]|[l' [-> Hl]]].
      * left. split; [exact Hx|]. now apply grown_keep.
      * right. exists (y :: l'). split; [reflexivity|]. now apply grown_keep.
Qed.

End Grown.

Lemma drop_final_blank_snoc (l : list pystr) : drop_final_blank (l ++ [[]]) = l.
Proof.
  induction l as [|x l IH]; [reflexivity|].
  change ((x :: l) ++ [[]]) with (x :: (l ++ [[]])).
  rewrite drop_final_blank_cons by (destruct l; discriminate).
  now rewrite IH.
Qed.

Lemma grown_drop_final_blank (P : pystr -> Prop) (l : list pystr) :
  P [] -> grown P (drop_final_blank l) l.
Proof.
  intros HP. destruct (drop_final_blank_cases l) as [->|[Y [-> ->]]].
  - apply grown_refl.
  - rewrite <- (app_nil_r Y) at 1. apply grown_app; [apply grown_refl|].
    apply grown_add; [exact HP|constructor].
Qed.

(** What [splitlines] reads back from the closing idiom still holds the
    lines of the text, an empty last one apart. *)
Lemma grown_chomp (P : pystr -> Prop) (l X : list pystr) :
  P [] -> grown P l X -> grown P (drop_final_blank l) (chomp X).
Proof.
  intros HP H. destruct (chomp_cases X) as [->|[->|[Y [HY [-> ->]]]]].
  - eapply grown_trans; [now apply grown_drop_final_blank|exact H].
  - inversion H; subst. cbn. apply grown_add; [exact HP|constructor].
  - destruct (grown_snoc_inv _ _ _ _ _ H) as [[_ Hl]|[l' [-> Hl]]].
    + eapply grown_trans; [now apply grown_drop_final_blank|exact Hl].
    + now rewrite drop_final_blank_snoc.
Qed.

Lemma grown_ensure (K : list regex) (title : pystr) (pos : nat) (ls : list pystr) :
  scaffold_line title -> grown scaffold_line ls (ensure K title pos ls).
Proof.
  intros Ht. unfold ensure. destruct (_section_bounds ls K).
  - apply grown_refl.
  - apply grown_insert_at.
    constructor; [exact Ht|].
    constructor; [unfold scaffold_line; cbn; auto 10|].
    constructor; [unfold scaffold_line; cbn; auto 10|constructor].
Qed.

Lemma grown_scaffold (ls : list pystr) : grown scaffold_line ls (scaffold ls).
Proof.
  unfold scaffold. cbv zeta.
  eapply grown_trans; [|apply grown_ensure; unfold scaffold_line; cbn; auto 10].
  eapply grown_trans; [|apply grown_ensure; unfold scaffold_line; cbn; auto 10].
  eapply grown_trans; [|apply grown_ensure; unfold scaffold_line; cbn; auto 10].
  apply grown_ensure; unfold scaffold_line; cbn; auto 10.
Qed.

End GrowFacts.

(** * The claims of the specification *)

Import PyFacts EngineFacts OpFacts CountFacts PromoteFacts ScaffoldFacts Engine.
Import ReFacts HeaderText HeaderScan HeaderCodec.

(** C5. The scaffolder is idempotent: applying it to its own result gives
    that result again; and on a text in which no canonical section is
    missing it returns the text itself. *)
Theorem find_or_create_sections_idempotent (text : pystr) :
  find_or_create_sections (find_or_create_sections text)
  = find_or_create_sections text
  /\ (complete (splitlines text) = true -> find_or_create_sections text = text).
Proof.
  split.
  - apply scaffolder_fixpoint, scaffolded_complete.
  - apply scaffolder_fixpoint.
Qed.

Lemma scaffolder_newline (text : pystr) :
  find_or_create_sections text <> text ->
  endswith (find_or_create_sections text) [LF] = true.
Proof.
  rewrite find_or_create_sections_unfold.
  destruct (complete (splitlines text)); [congruence|].
  intros _. apply join_lines_endswith.
Qed.

(** C10. Every engine operation that returns a document different from its
    input (scaffolding, appending an issue, deleting an issue, moving an
    issue to Found / Invalid, promoting an issue to a bug) returns a text
    that ends with a line feed. *)
Theorem changed_document_ends_with_newline {E : PyEnv} :
  (forall text,
      find_or_create_sections text <> text ->
      endswith (find_or_create_sections text) [LF] = true)
  /\ (forall text time_str platform_ desc_ out,
         add_issue_line text time_str platform_ desc_ = Ok out ->
         out <> text -> endswith out [LF] = true)
  /\ (forall text ev out,
         delete_issue_line text ev = Ok out ->
         out <> text -> endswith out [LF] = true)
  /\ (forall text ev bugnum out,
         move_issue_to_found text ev bugnum = Ok out ->
         out <> text -> endswith out [LF] = true)
  /\ (forall text ev summary_prefix steps_mode plain_lines observed expected out,
         append_bug_and_move_issue text ev summary_prefix steps_mode plain_lines
           observed expected = Ok out ->
         out <> text -> endswith out [LF] = true).
Proof.
  split; [exact scaffolder_newline|].
  split.
  { intros text t p d out H _. rewrite add_issue_line_eq in H. cbv zeta in H.
    injection H as <-. apply join_lines_endswith. }
  split.
  { intros text ev out H Hne. unfold delete_issue_line in H.
    destruct (_section_bounds (splitlines text) ISSUES_HEADERS) as [[s e]|].
    - destruct (remove_issue (splitlines text) ev s e) as [ls'|x]; cbn [bind] in H;
        [|discriminate].
      injection H as <-. apply join_lines_endswith.
    - injection H as <-. congruence. }
  split.
  { intros text ev bugnum out H _.
    destruct (move_issue_to_found_eq text ev bugnum) as [s [e [_ Heq]]].
    rewrite Heq in H.
    destruct (remove_issue _ ev s e) as [ls'|x]; cbn [bind] in H; [|discriminate].
    injection H as <-. apply join_lines_endswith. }
  intros text ev sp sm pl ob ex out H Hne.
  destruct (append_bug_and_move_issue_eq text ev sp sm pl ob ex)
    as [s [e [bs [be [_ [_ Heq]]]]]].
  rewrite Heq in H. clear Heq.
  destruct (generate_event_id ev) as [ev_id|x]; cbn [bind] in H; [|discriminate].
  destruct (contains _ (bug_marker ev_id)).
  - injection H as <-. now apply scaffolder_newline.
  - cbv zeta in H.
    destruct (remove_issue _ ev s e) as [ls2|x]; cbn [bind] in H; [|discriminate].
    destruct (_section_bounds ls2 REPORTS_HEADERS) as [[rs re]|]; cbn [bind unpack] in H;
      [|discriminate].
    injection H as <-. apply join_lines_endswith.
Qed.

(** C3 (the promotion of [src/testv021.py] departs from the claim). In
    "default" mode with no extra lines the promoted issue's steps block
    repeats the two fixed steps as steps 3 and 4 and has no placeholder
    line; the promotion of [src/test.py] gives the two fixed steps and the
    placeholder "3. ". *)
Theorem promotion_default_steps_repeated :
  @promotion_steps_block Samples.env Samples.crash (py "default") []
  = join [LF]
      [py "Steps to Reproduce:";
       py "1. Launch the title > create or select build / save.";
       py "2. Enter the City.";
       py "3. Launch the title > create or select build / save.";
       py "4. Enter the City."]
  /\ @V1.promotion_steps_block Samples.env Samples.crash (py "default") []
     = join [LF]
         [py "Steps to Reproduce:";
          py "1. Launch the title > create or select build / save.";
          py "2. Enter the City.";
          py "3. "].
Proof. split; vm_compute; reflexivity. Qed.

Lemma delete_issue_line_total (text : pystr) (ev : event) :
  exists out, delete_issue_line text ev = Ok out.
Proof.
  unfold delete_issue_line.
  destruct (_section_bounds (splitlines text) ISSUES_HEADERS) as [[s e]|] eqn:Hb.
  - destruct (section_bounds_range _ _ _ _ Hb) as [idx [_ [_ [Hse Hel]]]].
    destruct (remove_issue_spec (splitlines text) ev s e Hse Hel)
      as [[Hr _]|[k [Hr _]]]; rewrite Hr; cbn [bind]; eexists; reflexivity.
  - eexists. reflexivity.
Qed.

(** C8, as the code has it. Deletion never raises. When Issues Found holds
    no line matching the issue, no line is removed, and the text comes back
    with its lines re-joined by line feeds and closed by one (or as it is
    when it has no Issues Found section); so it comes back unchanged exactly
    when it already has that form. *)
Theorem delete_issue_line_without_match (text : pystr) (ev : event) :
  no_issue_match ev text ->
  delete_issue_line text ev
  = Ok (if has_section ISSUES_HEADERS (splitlines text)
        then join_lines (splitlines text) else text)
  /\ (join_lines (splitlines text) = text -> delete_issue_line text ev = Ok text).
Proof.
  intros Hno.
  assert (Heq : delete_issue_line text ev
                = Ok (if has_section ISSUES_HEADERS (splitlines text)
                      then join_lines (splitlines text) else text)).
  { unfold no_issue_match in Hno. cbv zeta in Hno. unfold delete_issue_line.
    rewrite has_section_bounds.
    destruct (_section_bounds (splitlines text) ISSUES_HEADERS) as [[s e]|] eqn:Hb;
      [|reflexivity].
    destruct (section_bounds_range _ _ _ _ Hb) as [idx [_ [_ [Hse Hel]]]].
    destruct (remove_issue_spec (splitlines text) ev s e Hse Hel)
      as [[Hr _]|[k [_ [Hk Hlike]]]].
    - rewrite Hr. reflexivity.
    - rewrite (Hno k Hk) in Hlike. discriminate. }
  split; [exact Heq|].
  intros Hnorm. rewrite Heq, Hnorm. now destruct (has_section _ _).
Qed.

(** The claim C8 fails on a text without a final line feed: nothing matches,
    yet the text that comes back differs from the input. *)
Lemma delete_issue_line_changes_text :
  no_issue_match Samples.crash (py "# issues found")
  /\ delete_issue_line (py "# issues found") Samples.crash
     = Ok (py "# issues found" ++ [LF])
  /\ delete_issue_line (py "# issues found") Samples.crash
     <> Ok (py "# issues found").
Proof.
  split; [|split].
  - unfold no_issue_match. cbv zeta.
    replace (_section_bounds (splitlines (py "# issues found")) ISSUES_HEADERS)
      with (Some (1, 1)) by (vm_compute; reflexivity).
    intros j Hj. lia.
  - vm_compute. reflexivity.
  - vm_compute. discriminate.
Qed.

Lemma delete_issue_line_without_match_witness :
  no_issue_match Samples.crash (py "# issues found")
  /\ delete_issue_line (py "# issues found") Samples.crash
     = Ok (py "# issues found" ++ [LF]).
Proof.
  assert (H : no_issue_match Samples.crash (py "# issues found")).
  { unfold no_issue_match. cbv zeta.
    replace (_section_bounds (splitlines (py "# issues found")) ISSUES_HEADERS)
      with (Some (1, 1)) by (vm_compute; reflexivity).
    intros j Hj. lia. }
  split; [exact H|].
  exact (proj1 (delete_issue_line_without_match (py "# issues found") Samples.crash H)).
Defined.

(** C9. When Issues Found (of the scaffolded text) holds no line matching
    the issue, triage removes nothing and still writes the entry: the
    result is the scaffolded line buffer with the entry spliced in at the
    end of Found / Invalid. The entry is the issue text, with the bug-number
    tag in front when the stripped bug number is not empty. *)
Theorem move_issue_to_found_without_match (text : pystr) (ev : event)
    (bugnum : pystr) :
  no_issue_match ev (find_or_create_sections text) ->
  let ls := splitlines (find_or_create_sections text) in
  move_issue_to_found text ev bugnum
  = Ok (join_lines (insert_at (section_end FOUND_HEADERS ls) [found_text ev bugnum] ls))
  /\ found_text ev bugnum
     = match strip bugnum with
       | [] => py "- [" ++ time ev ++ py "][" ++ platform ev ++ py "] " ++ desc ev
       | _ :: _ =>
           py "- [" ++ strip bugnum ++ py "] [" ++ time ev ++ py "][" ++ platform ev
             ++ py "] " ++ desc ev
       end.
Proof.
  intros Hno ls. split.
  - destruct (move_issue_to_found_eq text ev bugnum) as [s [e [Hb Heq]]].
    fold ls in Hb. rewrite Heq. fold ls.
    unfold no_issue_match in Hno. cbv zeta in Hno. fold ls in Hno. rewrite Hb in Hno.
    destruct (section_bounds_range _ _ _ _ Hb) as [idx [_ [_ [Hse Hel]]]].
    destruct (remove_issue_spec ls ev s e Hse Hel) as [[Hr _]|[k [_ [Hk Hlike]]]].
    + rewrite Hr. reflexivity.
    + rewrite (Hno k Hk) in Hlike. discriminate.
  - unfold found_text, issue_text. now destruct (strip bugnum).
Qed.

Lemma move_issue_to_found_without_match_witness :
  no_issue_match Samples.crash (find_or_create_sections [])
  /\ move_issue_to_found [] Samples.crash (py "BUG-42")
     = Ok (join_lines
             (insert_at (section_end FOUND_HEADERS
                           (splitlines (find_or_create_sections [])))
                [found_text Samples.crash (py "BUG-42")]
                (splitlines (find_or_create_sections [])))).
Proof.
  assert (H : no_issue_match Samples.crash (find_or_create_sections [])).
  { unfold no_issue_match. cbv zeta.
    replace (_section_bounds (splitlines (find_or_create_sections [])) ISSUES_HEADERS)
      with (Some (2, 3)) by (vm_compute; reflexivity).
    intros j Hj. assert (j = 2) as -> by lia. vm_compute. reflexivity. }
  split; [exact H|].
  exact (proj1 (move_issue_to_found_without_match [] Samples.crash (py "BUG-42") H)).
Defined.

(** C7, as the code has it. On a document holding the four canonical
    sections, with an issue line free of line breaks, [add_issue_line]
    returns the lines of the document with the new line spliced in at the end
    boundary of Issues Found, one empty final line of the document apart:
    Issues Found keeps its lines in order and gains the new one last, and
    no other line is touched. *)
Theorem add_issue_line_appends {E : PyEnv} (text time_str platform_ desc_ : pystr) :
  let ls := splitlines text in
  let nl := py "- [" ++ normalize_time_12h time_str ++ py "][" ++ str_lower platform_
              ++ py "] " ++ strip desc_ in
  complete ls = true ->
  break_free nl ->
  exists out,
    add_issue_line text time_str platform_ desc_ = Ok out
    /\ splitlines out = chomp (insert_at (section_end ISSUES_HEADERS ls) [nl] ls)
    /\ section_lines ISSUES_HEADERS (splitlines out)
       = section_lines ISSUES_HEADERS ls ++ [nl].
Proof.
  intros ls nl Hc Hbf.
  rewrite add_issue_line_eq. cbv zeta.
  rewrite (scaffolder_fixpoint text Hc). fold ls. fold nl.
  eexists. split; [reflexivity|].
  destruct (complete_bounds ls Hc) as [[[s e] HI] _].
  rewrite (section_end_some _ _ _ HI). cbn [snd].
  destruct (section_bounds_range _ _ _ _ HI) as [_ [_ [_ [Hse Hel]]]].
  assert (Hall : Forall break_free (insert_at e [nl] ls)).
  { apply Forall_insert_at; [now constructor|apply splitlines_break_free]. }
  rewrite (splitlines_join_lines _ Hall). split; [reflexivity|].
  pose proof (dash_bracket_plain
                (normalize_time_12h time_str ++ py "][" ++ str_lower platform_
                   ++ py "] " ++ strip desc_)) as Hp.
  change (plain_line nl) in Hp.
  pose proof (section_bounds_insert_end _ _ _ _ _ HI Hp) as Hb'.
  assert (Hlast : e + 1 = length (insert_at e [nl] ls) ->
                  last (insert_at e [nl] ls) [] <> []).
  { rewrite length_insert_at. cbn [length]. intros He.
    assert (Heq : e = length ls) by lia.
    unfold insert_at. rewrite Heq, firstn_all, skipn_all.
    cbn [app]. rewrite last_last. discriminate. }
  destruct (section_chomp _ _ _ _ issues_hash_led Hb' Hlast) as [_ ->].
  now apply section_lines_insert_end with (s := s).
Qed.

Lemma add_issue_line_appends_witness :
  complete (splitlines Samples.notes) = true
  /\ exists out,
       @add_issue_line Samples.env Samples.notes (py "10:00 am") (py "PS5")
         (py " Freeze ") = Ok out
       /\ section_lines ISSUES_HEADERS (splitlines out)
          = section_lines ISSUES_HEADERS (splitlines Samples.notes)
            ++ [py "- [10:00 AM][ps5] Freeze"].
Proof.
  assert (Hc : complete (splitlines Samples.notes) = true) by (vm_compute; reflexivity).
  split; [exact Hc|].
  destruct (@add_issue_line_appends Samples.env Samples.notes (py "10:00 am")
              (py "PS5") (py " Freeze ") Hc)
    as [out [H1 [_ H3]]].
  - apply break_freeb_ok. vm_compute. reflexivity.
  - exists out. split; [exact H1|]. exact H3.
Defined.

(** The claim C7 fails on a document that ends with an empty line: the
    Bugs section, which the operation does not address, loses that line. *)
Lemma add_issue_line_drops_final_blank :
  complete (splitlines Samples.notes_blank) = true
  /\ exists out,
       @add_issue_line Samples.env Samples.notes_blank (py "10:00 am") (py "PS5")
         (py " Freeze ") = Ok out
       /\ section_lines BUGS_HEADERS (splitlines Samples.notes_blank) = [[]]
       /\ section_lines BUGS_HEADERS (splitlines out) = [].
Proof.
  split; [vm_compute; reflexivity|].
  eexists. split; [vm_compute; reflexivity|].
  split; vm_compute; reflexivity.
Qed.

(** The second of two identical promotions changes nothing (first half of
    C1): whenever the issue can be hashed, the promotion returns a document
    and promoting again, on that document, returns it as it is. *)
Lemma promotion_twice {E : PyEnv} (text : pystr) (ev : event)
    (summary_prefix steps_mode : pystr) (plain_lines : list pystr)
    (observed expected ev_id : pystr) :
  generate_event_id ev = Ok ev_id ->
  exists out,
    append_bug_and_move_issue text ev summary_prefix steps_mode plain_lines
      observed expected = Ok out
    /\ append_bug_and_move_issue out ev summary_prefix steps_mode plain_lines
         observed expected = Ok out.
Proof.
  intros Hid.
  assert (Hshort : forall doc,
             find_or_create_sections doc = doc ->
             contains doc (bug_marker ev_id) = true ->
             append_bug_and_move_issue doc ev summary_prefix steps_mode plain_lines
               observed expected = Ok doc).
  { intros doc Hfix Hin.
    destruct (append_bug_and_move_issue_eq doc ev summary_prefix steps_mode
                plain_lines observed expected) as [s [e [bs [be [_ [_ Heq]]]]]].
    rewrite Heq, Hid. cbn [bind]. now rewrite Hfix, Hin. }
  destruct (contains (find_or_create_sections text) (bug_marker ev_id)) eqn:Hin.
  - exists (find_or_create_sections text). split.
    + destruct (append_bug_and_move_issue_eq text ev summary_prefix steps_mode
                  plain_lines observed expected) as [s [e [bs [be [_ [_ Heq]]]]]].
      rewrite Heq, Hid. cbn [bind]. now rewrite Hin.
    + apply Hshort; [|exact Hin].
      apply scaffolder_fixpoint, scaffolded_complete.
  - destruct (append_bug_fresh text ev summary_prefix steps_mode plain_lines
                observed expected ev_id Hid Hin) as [ls3 [tk [Heq [Hc Hmeta]]]].
    exists (join_lines ls3). split; [exact Heq|].
    apply Hshort.
    + apply scaffolder_fixpoint, complete_lines_survives, Hc.
    + apply contains_join_lines with (m := bug_meta ev ev_id tk); [exact Hmeta|].
      unfold bug_meta. apply startswith_app.
Qed.

(** C1 (amended).  Promotion is at-most-once.  Whenever the identifier of
    the issue can be computed (the triple encodes to UTF-8), the first
    promotion returns a document [out], and a second promotion with the same
    triple and the same caller parameters, applied to [out], returns [out]
    unchanged.  If moreover the scaffolded input does not hold the marker
    [<!-- bug-id:ID] yet, the rendered metadata comment holds it once, and
    neither the rendered block nor the issue line holds it, then [out]
    holds the marker exactly once.  If the scaffolded input holds the marker
    already, [out] is the scaffolded input, which is the input itself when
    that holds the four sections: what it holds of the marker, it keeps. *)
Theorem promotion_at_most_once {E : PyEnv} (text : pystr) (ev : event)
    (summary_prefix steps_mode : pystr) (plain_lines : list pystr)
    (observed expected ev_id : pystr) :
  generate_event_id ev = Ok ev_id ->
  exists out,
    append_bug_and_move_issue text ev summary_prefix steps_mode plain_lines
      observed expected = Ok out
    /\ append_bug_and_move_issue out ev summary_prefix steps_mode plain_lines
         observed expected = Ok out
    /\ (let text' := find_or_create_sections text in
        let template_key :=
          match classify_platform (platform ev) with
          | Some k => k
          | None => py "gen5"
          end in
        let block :=
          promotion_bug_block text' ev summary_prefix steps_mode plain_lines
            observed expected in
        contains text' (bug_marker ev_id) = false ->
        count_sub (bug_marker ev_id) (bug_meta ev ev_id template_key) = 1 ->
        contains (strip block) (bug_marker ev_id) = false ->
        contains (issue_text ev) (bug_marker ev_id) = false ->
        count_sub (bug_marker ev_id) out = 1)
    /\ (contains (find_or_create_sections text) (bug_marker ev_id) = true ->
        out = find_or_create_sections text)
    /\ (complete (splitlines text) = true ->
        find_or_create_sections text = text
        /\ (contains text (bug_marker ev_id) = true -> out = text)).
Proof.
  intros Hid.
  destruct (promotion_twice text ev summary_prefix steps_mode plain_lines
              observed expected ev_id Hid) as [out [H1 H2]].
  assert (Hheld : contains (find_or_create_sections text) (bug_marker ev_id) = true ->
                  out = find_or_create_sections text).
  { intros Hin.
    destruct (append_bug_and_move_issue_eq text ev summary_prefix steps_mode
                plain_lines observed expected) as [s [e [bs [be [_ [_ Heq]]]]]].
    rewrite Heq, Hid in H1. cbn [bind] in H1. rewrite Hin in H1.
    now injection H1 as <-. }
  exists out. split; [exact H1|]. split; [exact H2|]. split; [|split].
  - intros text' tk block Hfresh Hmeta Hblock Hissue.
    exact (append_bug_one_marker text ev summary_prefix steps_mode plain_lines
             observed expected ev_id out Hid H1 Hfresh Hmeta Hblock Hissue).
  - exact Hheld.
  - intros Hc. pose proof (scaffolder_fixpoint text Hc) as Hfix.
    split; [exact Hfix|]. rewrite Hfix in Hheld. exact Hheld.
Qed.

Lemma promotion_at_most_once_witness :
  generate_event_id Samples.crash = Ok (py "afa3ad5f3a96")
  /\ exists out,
       @append_bug_and_move_issue Samples.env Samples.notes Samples.crash
         (py "Crash") (py "default") [] (py "Black screen") (py "Game loads")
       = Ok out
       /\ @append_bug_and_move_issue Samples.env out Samples.crash
            (py "Crash") (py "default") [] (py "Black screen") (py "Game loads")
          = Ok out
       /\ count_sub (bug_marker (py "afa3ad5f3a96")) out = 1.
Proof.
  assert (Hid : generate_event_id Samples.crash = Ok (py "afa3ad5f3a96"))
    by (vm_compute; reflexivity).
  split; [exact Hid|].
  destruct (@promotion_at_most_once Samples.env Samples.notes Samples.crash
              (py "Crash") (py "default") [] (py "Black screen") (py "Game loads")
              (py "afa3ad5f3a96") Hid)
    as [out [H1 [H2 [H3 _]]]].
  exists out. split; [exact H1|]. split; [exact H2|].
  apply H3; vm_compute; reflexivity.
Defined.

(** The claim C1 fails as stated on a document that already holds two
    records of the issue: the first promotion returns it as it is, with two
    metadata comments carrying the identifier. *)
Lemma promotion_keeps_copied_records :
  generate_event_id Samples.crash = Ok (py "afa3ad5f3a96")
  /\ @append_bug_and_move_issue Samples.env Samples.notes_copied Samples.crash
       (py "Crash") (py "default") [] (py "Black screen") (py "Game loads")
     = Ok Samples.notes_copied
  /\ count_sub (py "<!-- bug-id:afa3ad5f3a96") Samples.notes_copied = 2.
Proof.
  split; [vm_compute; reflexivity|].
  split; vm_compute; reflexivity.
Qed.

(** X20.  Promotion on a document in canonical order is one rewrite of the
    document.  Let the document hold the four canonical sections in
    canonical order (Issues Found ends before the body of Reports Written
    begins, and Reports Written ends before the body of Bugs begins), let it
    not hold the marker of the issue yet, and let line [i] be the first line
    of Issues Found whose stripped text is the issue text.  Then one
    promotion returns the one text made of: the lines before line [i]; the
    lines after it up to the end of Reports Written; the issue text; the
    lines up to the end of Bugs; an empty line, the metadata comment, the
    stripped bug block and an empty line; and the remaining lines. *)
Theorem promotion_moves_issue {E : PyEnv} (text : pystr) (ev : event)
    (summary_prefix steps_mode : pystr) (plain_lines : list pystr)
    (observed expected ev_id : pystr) (istart iend rstart rend bstart bend i : nat) :
  let ls := splitlines text in
  let template_key :=
    match classify_platform (platform ev) with Some k => k | None => py "gen5" end in
  let block :=
    promotion_bug_block text ev summary_prefix steps_mode plain_lines
      observed expected in
  complete ls = true ->
  generate_event_id ev = Ok ev_id ->
  contains text (bug_marker ev_id) = false ->
  _section_bounds ls ISSUES_HEADERS = Some (istart, iend) ->
  _section_bounds ls REPORTS_HEADERS = Some (rstart, rend) ->
  _section_bounds ls BUGS_HEADERS = Some (bstart, bend) ->
  iend < rstart -> rend < bstart ->
  istart <= i < iend ->
  strip (nth i ls []) = issue_text ev ->
  (forall j, istart <= j < i -> strip (nth j ls []) <> issue_text ev) ->
  append_bug_and_move_issue text ev summary_prefix steps_mode plain_lines
    observed expected
  = Ok (join_lines
          (firstn i ls ++ skipn (S i) (firstn rend ls) ++ [issue_text ev]
           ++ skipn rend (firstn bend ls)
           ++ [[]; bug_meta ev ev_id template_key; strip block; []]
           ++ skipn bend ls)).
Proof.
  intros ls tk block Hc Hid Hfresh HI HR HB Hir Hrb Hi Hm Hfirst.
  pose proof (scaffolder_fixpoint text Hc) as Hfix.
  destruct (append_bug_and_move_issue_eq text ev summary_prefix steps_mode
              plain_lines observed expected) as [s [e [bs [be [HI' [HB' Heq]]]]]].
  rewrite Hfix in HI', HB', Heq. fold ls in HI', HB', Heq.
  rewrite HI in HI'. rewrite HB in HB'.
  injection HI' as <- <-. injection HB' as <- <-.
  rewrite Heq, Hid. cbn [bind]. rewrite Hfresh. cbv zeta.
  fold tk. fold block.
  set (blk := [[]; bug_meta ev ev_id tk; strip block; []]).
  destruct (section_bounds_range _ _ _ _ HI) as [_ [_ [_ [_ Hie]]]].
  destruct (section_bounds_range _ _ _ _ HR) as [_ [_ [_ [Hrse Hre]]]].
  destruct (section_bounds_range _ _ _ _ HB) as [_ [_ [_ [Hbse Hbe]]]].
  assert (Hn1 : forall j, j < bend -> nth j (insert_at bend blk ls) [] = nth j ls []).
  { intros j Hj. rewrite nth_insert_at by lia.
    destruct (Nat.ltb_spec j bend); [reflexivity|lia]. }
  rewrite (remove_issue_exact (insert_at bend blk ls) ev istart iend i Hi).
  - cbn [bind].
    assert (Hlike : issue_like ev (nth i ls []) = true).
    { unfold issue_like. rewrite Hm, str_eqb_refl. reflexivity. }
    rewrite (section_bounds_after_splices REPORTS_HEADERS ls blk i bend rstart rend HR).
    + cbn [unpack bind]. rewrite splices_shape by lia. reflexivity.
    + lia.
    + apply (issue_like_not_header _ ev); [apply reports_hash_led|exact Hlike].
    + lia.
    + lia.
  - rewrite length_insert_at. lia.
  - rewrite Hn1 by lia. rewrite Hm. apply str_eqb_refl.
  - intros j Hj. rewrite Hn1 by lia. apply str_eqb_neq. apply Hfirst. lia.
Qed.

Lemma promotion_moves_issue_witness :
  let ls := splitlines Samples.notes in
  complete ls = true
  /\ _section_bounds ls ISSUES_HEADERS = Some (7, 8)
  /\ _section_bounds ls REPORTS_HEADERS = Some (12, 12)
  /\ _section_bounds ls BUGS_HEADERS = Some (14, 14)
  /\ @append_bug_and_move_issue Samples.env Samples.notes Samples.crash
       (py "Crash") (py "default") [] (py "Black screen") (py "Game loads")
     = Ok (join_lines
             (firstn 7 ls ++ skipn 8 (firstn 12 ls)
              ++ [py "- [09:05 PM][ps5] Crash on load"]
              ++ skipn 12 (firstn 14 ls)
              ++ [[]; bug_meta Samples.crash (py "afa3ad5f3a96") (py "gen5");
                  strip (@promotion_bug_block Samples.env Samples.notes
                           Samples.crash (py "Crash") (py "default") []
                           (py "Black screen") (py "Game loads"));
                  []]
              ++ skipn 14 ls)).
Proof.
  intros ls.
  assert (Hc : complete ls = true) by (vm_compute; reflexivity).
  assert (HI : _section_bounds ls ISSUES_HEADERS = Some (7, 8))
    by (vm_compute; reflexivity).
  assert (HR : _section_bounds ls REPORTS_HEADERS = Some (12, 12))
    by (vm_compute; reflexivity).
  assert (HB : _section_bounds ls BUGS_HEADERS = Some (14, 14))
    by (vm_compute; reflexivity).
  split; [exact Hc|]. split; [exact HI|]. split; [exact HR|]. split; [exact HB|].
  apply (@promotion_moves_issue Samples.env Samples.notes Samples.crash
           (py "Crash") (py "default") [] (py "Black screen") (py "Game loads")
           (py "afa3ad5f3a96") 7 8 12 12 14 14 7 Hc).
  - vm_compute. reflexivity.
  - vm_compute. reflexivity.
  - exact HI.
  - exact HR.
  - exact HB.
  - lia.
  - lia.
  - lia.
  - vm_compute. reflexivity.
  - intros j Hj. lia.
Defined.

(** C2 (code bug).  The promotion takes the bounds of Issues Found before
    it splices the four lines of the record in at the end of Bugs, and
    removes the issue by those bounds without taking them again, whereas it
    does take the bounds of Reports Written again before it inserts the
    issue text.  Where Bugs stands before Issues Found the removal loops
    therefore read the lines four places above the ones meant.

    On [notes_bugs_first], which holds the four sections, not the marker,
    and the issue in Issues Found, the returned text holds the new record
    while the issue line is still in Issues Found, and in Reports Written
    as well.  On [notes_report_before], where Reports Written stands between
    Bugs and Issues Found, the issue line stays in Issues Found too, and the
    report of another issue is deleted from Reports Written. *)
Lemma promotion_leaves_issue_behind :
  (complete (splitlines Samples.notes_bugs_first) = true
   /\ contains Samples.notes_bugs_first (bug_marker (py "afa3ad5f3a96")) = false
   /\ In (issue_text Samples.crash)
         (section_lines ISSUES_HEADERS (splitlines Samples.notes_bugs_first))
   /\ exists out,
        @append_bug_and_move_issue Samples.env Samples.notes_bugs_first
          Samples.crash (py "Crash") (py "default") [] (py "Black screen")
          (py "Game loads") = Ok out
        /\ contains out (bug_marker (py "afa3ad5f3a96")) = true
        /\ section_lines ISSUES_HEADERS (splitlines out)
           = [issue_text Samples.crash]
        /\ section_lines REPORTS_HEADERS (splitlines out)
           = [issue_text Samples.crash])
  /\ (complete (splitlines Samples.notes_report_before) = true
      /\ contains Samples.notes_report_before (bug_marker (py "afa3ad5f3a96")) = false
      /\ section_lines ISSUES_HEADERS (splitlines Samples.notes_report_before)
         = [issue_text Samples.crash]
      /\ section_lines REPORTS_HEADERS (splitlines Samples.notes_report_before)
         = [py "- [09:05 PM][ps5] Freeze in menu"; []]
      /\ exists out,
           @append_bug_and_move_issue Samples.env Samples.notes_report_before
             Samples.crash (py "Crash") (py "default") [] (py "Black screen")
             (py "Game loads") = Ok out
           /\ contains out (bug_marker (py "afa3ad5f3a96")) = true
           /\ section_lines ISSUES_HEADERS (splitlines out)
              = [issue_text Samples.crash]
           /\ section_lines REPORTS_HEADERS (splitlines out)
              = [[]; issue_text Samples.crash]).
Proof.
  split.
  - split; [vm_compute; reflexivity|].
    split; [vm_compute; reflexivity|].
    split; [vm_compute; left; reflexivity|].
    eexists. split; [vm_compute; reflexivity|].
    split; [vm_compute; reflexivity|].
    split; vm_compute; reflexivity.
  - split; [vm_compute; reflexivity|].
    split; [vm_compute; reflexivity|].
    split; [vm_compute; reflexivity|].
    split; [vm_compute; reflexivity|].
    eexists. split; [vm_compute; reflexivity|].
    split; [vm_compute; reflexivity|].
    split; vm_compute; reflexivity.
Qed.

(** C4 (amended).  For every input text the scaffolder returns a document
    holding all four canonical sections.  The returned text is the input
    when no section is missing, and else the joined lines of a buffer.  The
    buffer is made of the lines of the input, all of them and in their
    order, with only title lines, dividers and empty lines added; in it each
    missing section is a title line, the divider [---] and an empty line; a
    created Found / Invalid comes after the header of Issues Found, a
    created Reports Written after the header of Found / Invalid, and a
    created Bugs after the header of Reports Written.  The sections stand in
    canonical order when all four are created, as for the empty document,
    whose result is the four empty sections in that order. *)
Theorem scaffolder_creates_missing_sections (text : pystr) :
  let ls := splitlines text in
  complete (splitlines (find_or_create_sections text)) = true
  /\ (exists buf,
        find_or_create_sections text
        = (if complete ls then text else join_lines buf)
        /\ Views.grown Views.scaffold_line ls buf
        /\ complete buf = true
        /\ (has_section ISSUES_HEADERS ls = false ->
            exists i, created_at ISSUES_HEADERS ISSUES_TITLE i buf)
        /\ (has_section FOUND_HEADERS ls = false ->
            created_after ISSUES_HEADERS FOUND_HEADERS FOUND_TITLE buf)
        /\ (has_section REPORTS_HEADERS ls = false ->
            created_after FOUND_HEADERS REPORTS_HEADERS REPORTS_TITLE buf)
        /\ (has_section BUGS_HEADERS ls = false ->
            created_after REPORTS_HEADERS BUGS_HEADERS BUGS_TITLE buf))
  /\ find_or_create_sections []
     = join [LF] [ISSUES_TITLE; DIVIDER; []; FOUND_TITLE; DIVIDER; [];
                  REPORTS_TITLE; DIVIDER; []; BUGS_TITLE; DIVIDER; []].
Proof.
  intros ls. split; [apply scaffolded_complete|]. split.
  - exists (scaffold ls). split; [apply find_or_create_sections_unfold|].
    split; [apply GrowFacts.grown_scaffold|].
    split; [apply scaffold_complete|]. apply scaffold_created.
  - vm_compute. reflexivity.
Qed.

(** The claim C4 fails as stated on the two lines [x] and [# found]: Issues
    Found is created at the end of the text, Reports Written and Bugs after
    the Found section that stands before it, so that the sections read
    Found, Reports Written, Bugs, Issues Found. *)
Lemma scaffolder_out_of_order :
  let out := splitlines (find_or_create_sections Samples.notes_found_only) in
  has_section ISSUES_HEADERS (splitlines Samples.notes_found_only) = false
  /\ has_section REPORTS_HEADERS (splitlines Samples.notes_found_only) = false
  /\ _find_section_start out FOUND_HEADERS = Some 1
  /\ _find_section_start out REPORTS_HEADERS = Some 2
  /\ _find_section_start out BUGS_HEADERS = Some 5
  /\ _find_section_start out ISSUES_HEADERS = Some 8.
Proof.
  repeat split; vm_compute; reflexivity.
Qed.

(** The database restricted to ASCII agrees with ASCII. *)
Lemma ascii_env_sound (now : pystr) : @AsciiSound (ascii_env now).
Proof.
  constructor.
  - intros s H. cbn [str_lower ascii_env].
    induction s as [|c s IH]; [reflexivity|].
    cbn [forallb map] in *. apply andb_true_iff in H. destruct H as [Hc Hs].
    f_equal; [|now apply IH].
    unfold lower_ascii. destruct (is_upper_ascii c) eqn:Hu; [|reflexivity].
    unfold is_upper_ascii, is_lower_ascii, is_digit_ascii in *.
    apply andb_true_iff in Hu. destruct Hu as [H1 H2]. apply N.leb_le in H1, H2.
    apply orb_true_iff in Hc. destruct Hc as [Hc|Hc];
      apply andb_true_iff in Hc; destruct Hc as [H3 H4];
      apply N.leb_le in H3, H4; lia.
  - intros c _. reflexivity.
  - intros c H. exact H.
Qed.

(** C6.  Header round trip.  Let the date be a token (not empty, trimmed,
    on one line) that does not contain [" notes"], let the map bind recognized
    platforms to user names that are not empty, trimmed and free of ["]"],
    and let each build number be a string of the digits 0 to 9, or empty.
    Then, with an interpreter whose tables agree with ASCII, parsing the
    rendered header block gives back that date
    ([parse_date_and_header_end]), that map, platform by platform
    ([parse_usernames]), and those build numbers ([parse_builds]). *)
Theorem header_round_trip {E : PyEnv} {A : AsciiSound} (date : pystr) (us : dict)
    (g4 g5 : pystr) :
  date_token date -> usernames_ok us -> digits g4 -> digits g5 ->
  let text := header_only_block date us g4 g5 in
  fst (parse_date_and_header_end text) = date
  /\ (forall p, dict_get (parse_usernames text) p = dict_get us p)
  /\ parse_builds text = (g4, g5).
Proof.
  intros Hd Hus H4 H5 text.
  assert (Hbf : break_free date) by apply Hd.
  split; [|split].
  - unfold text. rewrite header_only_block_text. cbn [app].
    now apply parse_date_of_header.
  - now apply parse_usernames_of_header.
  - now apply parse_builds_of_header.
Qed.

Lemma header_round_trip_witness :
  let text := @header_only_block Samples.env (py "01-02-2025") Samples.users []
                (py "123") in
  fst (parse_date_and_header_end text) = py "01-02-2025"
  /\ (forall p, dict_get (@parse_usernames Samples.env text) p
                = dict_get Samples.users p)
  /\ @parse_builds Samples.env text = ([], py "123").
Proof.
  apply (@header_round_trip Samples.env (ascii_env_sound _)).
  - split; [discriminate|]. split; [reflexivity|].
    split; [apply break_freeb_ok; reflexivity|reflexivity].
  - intros p u H. unfold Samples.users in H. cbn [dict_get] in H.
    destruct (str_eqb (py "ps5") p) eqn:H1.
    + apply str_eqb_eq in H1. subst p. injection H as <-.
      split; [vm_compute; tauto|].
      split; [discriminate|]. split; [reflexivity|].
      cbn. intros H. repeat destruct H as [H|H]; try contradiction; discriminate.
    + destruct (str_eqb (py "pc") p) eqn:H2; [|discriminate].
      apply str_eqb_eq in H2. subst p. injection H as <-.
      split; [vm_compute; tauto|].
      split; [discriminate|]. split; [reflexivity|].
      cbn. intros H. repeat destruct H as [H|H]; try contradiction; discriminate.
  - reflexivity.
  - reflexivity.
Defined.

(** * Further properties of the engine

    Properties of the functions the claims leave out, and of the way the
    operations compose; the lemmas first, then the properties. *)

Import EngineMore Views.

Module IdFacts.

Lemma hex_digit_range (d : N) :
  (d < 16)%N ->
  is_digit_ascii (Sha1.hex_digit d) || ((97 <=? Sha1.hex_digit d)%N && (Sha1.hex_digit d <=? 102)%N)
  = true.
Proof.
  intros Hd. unfold Sha1.hex_digit, is_digit_ascii.
  destruct (N.ltb_spec d 10).
  - apply orb_true_iff. left. apply andb_true_iff. split; apply N.leb_le; lia.
  - apply orb_true_iff. right. apply andb_true_iff. split; apply N.leb_le; lia.
Qed.

Lemma hex32_spec (x : N) :
  length (Sha1.hex32 x) = 8
  /\ forallb (fun c => is_digit_ascii c || ((97 <=? c)%N && (c <=? 102)%N))
       (Sha1.hex32 x) = true.
Proof.
  unfold Sha1.hex32. split; [reflexivity|].
  apply forallb_forall. intros c Hin. apply in_map_iff in Hin.
  destruct Hin as [i [<- _]]. apply hex_digit_range.
  change 15%N with (N.ones 4). rewrite N.land_ones. apply N.mod_lt. discriminate.
Qed.

Lemma hexdigest_spec (msg : list N) :
  length (Sha1.hexdigest msg) = 40
  /\ forallb (fun c => is_digit_ascii c || ((97 <=? c)%N && (c <=? 102)%N))
       (Sha1.hexdigest msg) = true.
Proof.
  unfold Sha1.hexdigest.
  destruct (fold_left Sha1.compress _ _) as [[[[h0 h1] h2] h3] h4].
  split.
  - rewrite !length_app. now rewrite !(proj1 (hex32_spec _)).
  - rewrite !forallb_app. now rewrite !(proj2 (hex32_spec _)).
Qed.

Lemma utf8_char_ok (c : N) :
  (c < 0x110000)%N ->
  Sha1.utf8_char c = None <-> ((0xD800 <=? c)%N && (c <=? 0xDFFF)%N = true).
Proof.
  intros Hc. unfold Sha1.utf8_char.
  destruct (N.ltb_spec c 0x80) as [L1|L1].
  { split; [discriminate|]. intros H. apply andb_true_iff in H.
    destruct H as [H1 H2]. apply N.leb_le in H1. lia. }
  destruct (N.ltb_spec c 0x800) as [L2|L2].
  { split; [discriminate|]. intros H. apply andb_true_iff in H.
    destruct H as [H1 H2]. apply N.leb_le in H1. lia. }
  destruct (N.ltb_spec c 0x10000) as [L3|L3].
  { destruct ((0xD800 <=? c)%N && (c <=? 0xDFFF)%N); split; congruence. }
  destruct (N.ltb_spec c 0x110000) as [L4|L4]; [|lia].
  split; [discriminate|]. intros H. apply andb_true_iff in H.
  destruct H as [H1 H2]. apply N.leb_le in H2. lia.
Qed.

Lemma encode_utf8_spec (s : pystr) :
  Forall (fun c => (c < 0x110000)%N) s ->
  if existsb (fun c => (0xD800 <=? c)%N && (c <=? 0xDFFF)%N) s
  then Sha1.encode_utf8 s = Raise UnicodeEncodeError
  else exists bs, Sha1.encode_utf8 s = Ok bs.
Proof.
  induction 1 as [|c s Hc _ IH]; simpl.
  - now exists [].
  - destruct ((0xD800 <=? c)%N && (c <=? 0xDFFF)%N) eqn:Hs; cbn [orb].
    + apply (utf8_char_ok c Hc) in Hs. now rewrite Hs.
    + destruct (Sha1.utf8_char c) as [bs|] eqn:Hu.
      * destruct (existsb _ s).
        -- now rewrite IH.
        -- destruct IH as [r ->]. now exists (bs ++ r).
      * apply (utf8_char_ok c Hc) in Hu. congruence.
Qed.

End IdFacts.

Import IdFacts.

Module LedgerFacts.

Section WithEnv.
Context {E : PyEnv}.

(** A promotion is skipped on a scaffolded document that holds the marker. *)
Lemma promotion_short_circuit (doc : pystr) (ev : event)
    (summary_prefix steps_mode : pystr) (plain_lines : list pystr)
    (observed expected ev_id : pystr) :
  generate_event_id ev = Ok ev_id ->
  find_or_create_sections doc = doc ->
  contains doc (bug_marker ev_id) = true ->
  append_bug_and_move_issue doc ev summary_prefix steps_mode plain_lines
    observed expected = Ok doc.
Proof.
  intros Hid Hfix Hin.
  destruct (append_bug_and_move_issue_eq doc ev summary_prefix steps_mode
              plain_lines observed expected) as [s [e [bs [be [_ [_ Heq]]]]]].
  rewrite Heq, Hid. cbn [bind]. now rewrite Hfix, Hin.
Qed.

(** A promotion returns a scaffolded document that holds the marker. *)
Lemma promotion_marks (text : pystr) (ev : event)
    (summary_prefix steps_mode : pystr) (plain_lines : list pystr)
    (observed expected ev_id : pystr) :
  generate_event_id ev = Ok ev_id ->
  exists out,
    append_bug_and_move_issue text ev summary_prefix steps_mode plain_lines
      observed expected = Ok out
    /\ complete (splitlines out) = true
    /\ contains out (bug_marker ev_id) = true.
Proof.
  intros Hid.
  destruct (contains (find_or_create_sections text) (bug_marker ev_id)) eqn:Hin.
  - exists (find_or_create_sections text). split; [|split].
    + destruct (append_bug_and_move_issue_eq text ev summary_prefix steps_mode
                  plain_lines observed expected) as [s [e [bs [be [_ [_ Heq]]]]]].
      rewrite Heq, Hid. cbn [bind]. now rewrite Hin.
    + apply scaffolded_complete.
    + exact Hin.
  - destruct (append_bug_fresh text ev summary_prefix steps_mode plain_lines
                observed expected ev_id Hid Hin) as [ls3 [tk [Heq [Hc Hmeta]]]].
    exists (join_lines ls3). split; [exact Heq|]. split.
    + now apply complete_lines_survives.
    + apply contains_join_lines with (m := bug_meta ev ev_id tk); [exact Hmeta|].
      unfold bug_meta. apply startswith_app.
Qed.

Lemma add_issue_line_complete (text time_str platform_ desc_ : pystr) :
  exists out, add_issue_line text time_str platform_ desc_ = Ok out
              /\ complete (splitlines out) = true.
Proof.
  rewrite add_issue_line_eq. cbv zeta. eexists. split; [reflexivity|].
  apply complete_lines_survives, complete_lines_insert, complete_lines_of.
  - apply splitlines_break_free.
  - apply scaffolded_complete.
Qed.

Lemma move_issue_to_found_complete (text : pystr) (ev : event) (bugnum : pystr) :
  exists out, move_issue_to_found text ev bugnum = Ok out
              /\ complete (splitlines out) = true.
Proof.
  destruct (move_issue_to_found_eq text ev bugnum) as [s [e [Hb Heq]]].
  destruct (section_bounds_range _ _ _ _ Hb) as [_ [_ [_ [Hse Hel]]]].
  destruct (complete_lines_remove _ ev s e Hse Hel
              (complete_lines_of _ (splitlines_break_free _) (scaffolded_complete text)))
    as [ls' [Hr [Hc _]]].
  rewrite Heq, Hr. cbn [bind]. eexists. split; [reflexivity|].
  now apply complete_lines_survives, complete_lines_insert.
Qed.

End WithEnv.
End LedgerFacts.

Module RemovalFacts.

Section WithEnv.
Context {E : PyEnv}.

(** The second loop of the removal deletes the first line of the range
    that matches the time and platform prefix, when no line has the issue
    text. *)
Lemma remove_issue_loose (ls : list pystr) (ev : event) (istart iend i : nat) :
  istart <= i < iend -> iend <= length ls ->
  (forall j, istart <= j < iend ->
             str_eqb (strip (nth j ls [])) (issue_text ev) = false) ->
  matches (issue_pref ev) (nth i ls []) = true ->
  (forall j, istart <= j < i -> matches (issue_pref ev) (nth j ls []) = false) ->
  remove_issue ls ev istart iend = Ok (delete_at i ls).
Proof.
  intros Hi Hle Hno Hm Hfirst. unfold remove_issue.
  destruct (search_range_spec (fun l => str_eqb (strip l) (issue_text ev)) ls
              (iend - istart) istart ltac:(lia))
    as [[k [Hk [Hr [Hp _]]]]|[Hn _]].
  - rewrite (Hno k ltac:(lia)) in Hp. discriminate.
  - rewrite Hn. cbn [bind].
    destruct (search_range_spec (fun l => matches (issue_pref ev) l) ls
                (iend - istart) istart ltac:(lia))
      as [[k [Hk [Hr [Hp Hbefore]]]]|[Hn2 Hall]].
    + rewrite Hk. cbn [bind].
      assert (k = i); [|now subst].
      destruct (Nat.lt_trichotomy k i) as [Hlt|[Heq|Hgt]]; [|exact Heq|].
      * rewrite (Hfirst k ltac:(lia)) in Hp. discriminate.
      * rewrite (Hbefore i ltac:(lia)) in Hm. discriminate.
    + rewrite (Hall i ltac:(lia)) in Hm. discriminate.
Qed.

(** The line removed by the loops: the first with the issue text, or else
    the first matching the prefix. *)
Lemma remove_issue_first (ls : list pystr) (ev : event) (istart iend k : nat) :
  istart <= k < iend -> iend <= length ls ->
  (str_eqb (strip (nth k ls [])) (issue_text ev) = true
   /\ forall j, istart <= j < k ->
                str_eqb (strip (nth j ls [])) (issue_text ev) = false)
  \/ ((forall j, istart <= j < iend ->
                 str_eqb (strip (nth j ls [])) (issue_text ev) = false)
      /\ matches (issue_pref ev) (nth k ls []) = true
      /\ forall j, istart <= j < k -> matches (issue_pref ev) (nth j ls []) = false) ->
  remove_issue ls ev istart iend = Ok (delete_at k ls).
Proof.
  intros Hk Hle [[Hm Hfirst]|[Hno [Hm Hfirst]]].
  - now apply remove_issue_exact.
  - now apply remove_issue_loose.
Qed.

End WithEnv.
End RemovalFacts.

Module StepsFacts.

(** The numbering loop keeps the stripped lines that are not empty, numbers
    them one after the other, and returns the next free number. *)
Lemma number_lines_spec (plain_lines : list pystr) (k : nat) :
  let kept := filter (fun l => negb (str_eqb l [])) (map strip plain_lines) in
  number_lines (N.of_nat k) plain_lines
  = (map (fun il => dec (N.of_nat (fst il)) ++ py ". " ++ snd il)
         (combine (seq k (length kept)) kept),
     N.of_nat (k + length kept)).
Proof.
  cbv zeta. revert k. induction plain_lines as [|ln rest_ IH]; intros k.
  - cbn. now rewrite Nat.add_0_r.
  - cbn [number_lines map filter].
    destruct (strip ln) as [|c l] eqn:Hs.
    + cbn [str_eqb negb]. apply IH.
    + cbn [str_eqb negb].
      replace (N.of_nat k + 1)%N with (N.of_nat (S k)) by lia.
      rewrite IH. cbn [length seq combine map fst snd].
      f_equal. f_equal. lia.
Qed.

End StepsFacts.

Module DictFacts.

Lemma dict_get_in (d : dict) (k v : pystr) :
  dict_get d k = Some v -> In (k, v) d.
Proof.
  induction d as [|[k' v'] d IH]; simpl; [discriminate|].
  destruct (str_eqb k' k) eqn:Hk.
  - apply str_eqb_eq in Hk. intros [= <-]. subst. now left.
  - intros H. right. now apply IH.
Qed.

Lemma dict_set_keys (P : pystr -> Prop) (k v : pystr) (d : dict) :
  P k -> Forall (fun kv => P (fst kv)) d ->
  Forall (fun kv => P (fst kv)) (dict_set k v d).
Proof.
  intros Hk. induction d as [|[k' v'] d IH]; simpl; intros H.
  - now constructor.
  - inversion H as [|? ? Hh Ht]; subst.
    destruct (str_eqb k' k); constructor; auto.
Qed.

End DictFacts.

Module FreshFacts.

Import Header HeaderText EngineMore.

Section WithEnv.
Context {E : PyEnv}.

(** The text of a new document is its lines, each closed by a line feed. *)
Lemma header_block_text (date : pystr) (us : dict) (g4 g5 : pystr) :
  header_block date us g4 g5
  = lines_text (([py "# " ++ date ++ py " notes"; DIVIDER]
                 ++ user_lines us (sorted ALL_PLATFORMS)
                 ++ build_lines (py "gen4") g4 ++ build_lines (py "gen5") g5)
                ++ skeleton).
Proof.
  unfold header_block.
  set (l0 := py "# " ++ date ++ py " notes").
  assert (Hfold : fold_left
            (fun lines p =>
               match dict_get us p with
               | Some ((_ :: _) as u) => lines ++ [py "- [" ++ p ++ py "][" ++ u ++ py "]"]
               | _ => lines
               end) (sorted ALL_PLATFORMS) [l0; DIVIDER]
          = [l0; DIVIDER] ++ user_lines us (sorted ALL_PLATFORMS)).
  { unfold user_lines. rewrite <- fold_append.
    generalize (sorted ALL_PLATFORMS) as ps. generalize [l0; DIVIDER] as init.
    intros init ps. revert init. induction ps as [|p ps IH]; intros init; [reflexivity|].
    simpl. rewrite <- IH. f_equal.
    destruct (dict_get us p) as [[|c u]|]; try now rewrite app_nil_r.
    reflexivity. }
  cbv zeta. rewrite Hfold.
  set (L := [l0; DIVIDER] ++ user_lines us (sorted ALL_PLATFORMS)).
  assert (Hb : forall (g b : pystr) (X : list pystr),
             (if isdigit (strip b)
              then X ++ [py "- [" ++ g ++ py "][" ++ strip b ++ py "] --> build number"]
              else X) = X ++ build_lines g b).
  { intros g b X. unfold build_lines. destruct (isdigit (strip b)); [reflexivity|].
    now rewrite app_nil_r. }
  change (py "- [gen4][") with (py "- [" ++ py "gen4" ++ py "][").
  change (py "- [gen5][") with (py "- [" ++ py "gen5" ++ py "][").
  rewrite <- !app_assoc.
  rewrite (Hb (py "gen4") g4 L), (Hb (py "gen5") g5).
  set (H := (L ++ build_lines (py "gen4") g4) ++ build_lines (py "gen5") g5).
  change [[]; ISSUES_TITLE; DIVIDER; []; FOUND_TITLE; DIVIDER; [];
          REPORTS_TITLE; DIVIDER; []; BUGS_TITLE; DIVIDER; []]
    with (skeleton ++ [[]]).
  rewrite app_assoc.
  unfold join_lines. rewrite join_app by discriminate. simpl join. rewrite app_nil_r.
  rewrite lines_text_endswith; [|unfold H, L; discriminate].
  unfold H, L. now rewrite <- !app_assoc.
Qed.

End WithEnv.
End FreshFacts.

Import RemovalFacts GrowFacts.

Module RoundTripFacts.

Section WithEnv.
Context {E : PyEnv}.

(** The prefix pattern of an issue matches the text of the issue. *)
Lemma issue_pref_matches (ev : event) :
  matches (issue_pref ev) (issue_text ev) = true.
Proof.
  set (L := py "- [" ++ time ev ++ py "][" ++ platform ev ++ py "]").
  assert (Ht : issue_text ev = L ++ [32%N] ++ desc ev).
  { unfold issue_text, L. rewrite <- !app_assoc. reflexivity. }
  assert (Hp : path (issue_pref ev) (start_state (issue_text ev))
                 (mkState (adv (adv None L) [32%N]) (desc ev) [])).
  { unfold issue_pref. fold L. rewrite Ht.
    change (cats [Bol false; lit L; Plus ws])
      with (Cat (Bol false) (Cat (lit L) (Plus ws))).
    eapply path_cat; [apply path_bol; reflexivity|].
    eapply path_cat.
    - unfold lit. rewrite <- (map_map N.eqb Chr).
      apply path_chars_intro.
      clear Ht. induction L as [|c L IH]; simpl; constructor.
      + apply N.eqb_refl.
      + exact IH.
    - apply (path_plus_chr_intro is_space [32%N] (desc ev)); [discriminate|reflexivity]. }
  unfold matches, re_match.
  destruct (run_complete _ _ _ Some _ Hp eq_refl) as [m ->]. reflexivity.
Qed.

Lemma delete_at_insert_at (A : Type) (e : nat) (x : A) (ls : list A) :
  e <= length ls -> delete_at e (insert_at e [x] ls) = ls.
Proof.
  intros He. unfold delete_at, insert_at.
  rewrite firstn_app, firstn_firstn, Nat.min_id, length_firstn, Nat.min_l by lia.
  rewrite Nat.sub_diag. cbn [firstn]. rewrite app_nil_r.
  rewrite skipn_app, length_firstn, Nat.min_l by lia.
  rewrite (skipn_all2 (firstn e ls)) by (rewrite length_firstn; lia).
  replace (S e - e) with 1 by lia. cbn [app skipn].
  apply firstn_skipn.
Qed.

Lemma chomp_blank_end (W : list pystr) :
  chomp (W ++ [[]]) = W ++ [[]] -> W = [].
Proof.
  intros H. destruct W as [|w W]; [reflexivity|].
  unfold chomp in H. rewrite drop_final_blank_snoc in H.
  apply (f_equal (@length pystr)) in H. rewrite length_app in H. simpl in H. lia.
Qed.

End WithEnv.
End RoundTripFacts.

Module TimeFacts.

Section WithEnv.
Context {E : PyEnv}.

Lemma uint_digits (u : Decimal.uint) :
  forallb is_digit_ascii (py (NilEmpty.string_of_uint u)) = true.
Proof.
  induction u; cbn [NilEmpty.string_of_uint]; try reflexivity;
    unfold py in *; cbn [list_ascii_of_string map forallb];
    rewrite IHu; reflexivity.
Qed.

Lemma dec_digits (n : N) :
  forallb is_digit_ascii (dec n) = true /\ dec n <> [].
Proof.
  unfold dec, NilZero.string_of_uint.
  destruct (N.to_uint n) eqn:Hu;
    try (split; [apply uint_digits|discriminate]).
  split; [reflexivity|discriminate].
Qed.

Lemma fmt_02d_digits (n : N) :
  forallb is_digit_ascii (fmt_02d n) = true /\ 2 <= length (fmt_02d n).
Proof.
  destruct (dec_digits n) as [Hd Hne]. unfold fmt_02d. cbv zeta.
  destruct (Nat.ltb_spec (length (dec n)) 2) as [Hlt|Hge].
  - split; [cbn [py app forallb map list_ascii_of_string]; now rewrite Hd|].
    destruct (dec n); [congruence|]. rewrite length_app. simpl. lia.
  - now split.
Qed.

Lemma time_re_shape :
  TIME_RE
  = Cat (Star ws)
      (Cat (Group 1 (Cat digit (Opt digit)))
        (Cat (Chr (N.eqb 58))
          (Cat (Group 2 (Cat digit digit))
            (Cat (Star ws)
              (Cat (Opt (Group 3 (Cat (Chr (fun c => mem c (py "AaPp")))
                                      (Chr (fun c => mem c (py "Mm"))))))
                   (Star ws)))))).
Proof. reflexivity. Qed.

(** What a match of the time pattern reads. *)
Lemma time_inv (s : pystr) (st' : state) :
  path TIME_RE (start_state s) st' ->
  exists w0 h mm w1 ap w2,
    s = w0 ++ h ++ py ":" ++ mm ++ w1 ++ ap ++ w2 ++ rest st'
    /\ forallb is_space w0 = true /\ forallb is_space w1 = true
    /\ forallb is_space w2 = true
    /\ 1 <= length h <= 2 /\ forallb uni_decimal h = true
    /\ length mm = 2 /\ forallb uni_decimal mm = true
    /\ ((ap = [] /\ caps st' = [(2, mm); (1, h)])
        \/ (exists a b, ap = [a; b] /\ mem a (py "AaPp") = true
                        /\ mem b (py "Mm") = true
                        /\ caps st' = [(3, ap); (2, mm); (1, h)])).
Proof.
  rewrite time_re_shape. intros H.
  destruct (path_cat_inv _ _ _ _ H) as [m1 [Hs0 H1]].
  destruct (path_star_chr_inv _ _ _ Hs0) as [w0 [Hr0 [Hw0 Hc0]]].
  simpl rest in Hr0. simpl caps in Hc0.
  destruct (path_cat_inv _ _ _ _ H1) as [m2 [Hg1 H2]].
  destruct (path_group_inv _ _ _ _ Hg1) as [x1 [Hh ->]].
  destruct (path_cat_inv _ _ _ _ Hh) as [x0 [Hd1 Hd2]].
  destruct (path_chr_inv _ _ _ Hd1) as [c1 [Hrc1 [Hpc1 Hcc1]]].
  assert (Hhh : exists h, rest m1 = h ++ rest x1 /\ 1 <= length h <= 2
                          /\ forallb uni_decimal h = true /\ caps x1 = caps m1).
  { destruct (path_alt_inv _ _ _ _ Hd2) as [Ha|Ha].
    - destruct (path_chr_inv _ _ _ Ha) as [c2 [Hrc2 [Hpc2 Hcc2]]].
      exists [c1; c2]. rewrite Hrc1, Hrc2. cbn [forallb length app].
      rewrite Hpc1, Hpc2. repeat split; try lia. congruence.
    - inversion Ha; subst. exists [c1]. rewrite Hrc1. cbn [forallb length app].
      rewrite Hpc1. repeat split; try lia. congruence. }
  destruct Hhh as [h [Hrh [Hlh [Hfh Hch]]]].
  rewrite (set_cap_reads 1 m1 x1 h Hrh) in H2.
  destruct (path_cat_inv _ _ _ _ H2) as [m3 [Hcol H3]].
  destruct (path_chr_inv _ _ _ Hcol) as [c [Hrc [Hpc Hcc]]].
  apply N.eqb_eq in Hpc. subst c. simpl rest in Hrc. simpl caps in Hcc.
  destruct (path_cat_inv _ _ _ _ H3) as [m4 [Hg2 H4]].
  destruct (path_group_inv _ _ _ _ Hg2) as [y1 [Hm ->]].
  destruct (path_cat_inv _ _ _ _ Hm) as [y0 [He1 He2]].
  destruct (path_chr_inv _ _ _ He1) as [d1 [Hrd1 [Hpd1 Hcd1]]].
  destruct (path_chr_inv _ _ _ He2) as [d2 [Hrd2 [Hpd2 Hcd2]]].
  assert (Hrm : rest m3 = [d1; d2] ++ rest y1) by (rewrite Hrd1, Hrd2; reflexivity).
  rewrite (set_cap_reads 2 m3 y1 [d1; d2] Hrm) in H4.
  destruct (path_cat_inv _ _ _ _ H4) as [m5 [Hs1 H5]].
  destruct (path_star_chr_inv _ _ _ Hs1) as [w1 [Hr1 [Hw1 Hc1]]].
  simpl rest in Hr1. simpl caps in Hc1.
  destruct (path_cat_inv _ _ _ _ H5) as [m6 [Hopt Hs2]].
  destruct (path_star_chr_inv _ _ _ Hs2) as [w2 [Hr2 [Hw2 Hc2]]].
  assert (Hcaps : caps m5 = [(2, [d1; d2]); (1, h)]).
  { rewrite Hc1, Hcd2, Hcd1, Hcc. cbn [caps]. now rewrite Hch, Hc0. }
  assert (Hap : exists ap, rest m5 = ap ++ rest m6
             /\ ((ap = [] /\ caps m6 = caps m5)
                 \/ exists a b, ap = [a; b] /\ mem a (py "AaPp") = true
                                /\ mem b (py "Mm") = true
                                /\ caps m6 = (3, ap) :: caps m5)).
  { destruct (path_alt_inv _ _ _ _ Hopt) as [Ha|Ha].
    - destruct (path_group_inv _ _ _ _ Ha) as [z1 [Hz ->]].
      destruct (path_cat_inv _ _ _ _ Hz) as [z0 [Hz1 Hz2]].
      destruct (path_chr_inv _ _ _ Hz1) as [a [Hra [Hpa Hca]]].
      destruct (path_chr_inv _ _ _ Hz2) as [b [Hrb [Hpb Hcb]]].
      assert (Hrz : rest m5 = [a; b] ++ rest z1) by (rewrite Hra, Hrb; reflexivity).
      rewrite (set_cap_reads 3 m5 z1 [a; b] Hrz). cbn [rest caps].
      exists [a; b]. split; [exact Hrz|]. right. exists a, b.
      repeat split; try assumption. f_equal. congruence.
    - inversion Ha; subst. exists []. split; [reflexivity|]. now left. }
  destruct Hap as [ap [Hrap Hapc]].
  exists w0, h, [d1; d2], w1, ap, w2.
  split.
  { rewrite Hr0, Hrh, Hrc, Hrm, Hr1, Hrap, Hr2. reflexivity. }
  split; [exact Hw0|]. split; [exact Hw1|]. split; [exact Hw2|].
  split; [exact Hlh|]. split; [exact Hfh|]. split; [reflexivity|].
  split; [cbn [forallb]; now rewrite Hpd1, Hpd2|].
  destruct Hapc as [[-> Hc6]|[a [b [-> [Ha [Hb Hc6]]]]]].
  - left. split; [reflexivity|]. now rewrite Hc2, Hc6.
  - right. exists a, b. repeat split; try assumption.
    now rewrite Hc2, Hc6, Hcaps.
Qed.

Lemma meridiem_upper (a b : char) :
  mem a (py "AaPp") = true -> mem b (py "Mm") = true ->
  map upper_ascii [a; b] = py "AM" \/ map upper_ascii [a; b] = py "PM".
Proof.
  unfold mem. cbn [py existsb map list_ascii_of_string].
  rewrite !orb_true_iff, !N.eqb_eq.
  intros [->|[->|[->|[->|H]]]]; try discriminate;
    intros [->|[->|H']]; try discriminate; cbn; auto.
Qed.

(** The normaliser on a recognised time. *)
Lemma normalize_time_12h_matched (t : pystr) (m : state) :
  strip t <> [] -> re_fullmatch TIME_RE (strip t) = Some m ->
  exists w0 h mm w1 ap w2,
    strip t = w0 ++ h ++ py ":" ++ mm ++ w1 ++ ap ++ w2
    /\ forallb is_space w0 = true /\ forallb is_space w1 = true
    /\ forallb is_space w2 = true
    /\ 1 <= length h <= 2 /\ forallb uni_decimal h = true
    /\ length mm = 2 /\ forallb uni_decimal mm = true
    /\ (ap = [] \/ exists a b, ap = [a; b] /\ mem a (py "AaPp") = true
                               /\ mem b (py "Mm") = true)
    /\ normalize_time_12h t
       = fmt_02d (int_of h) ++ py ":" ++ mm
         ++ match ap with
            | [] => []
            | _ :: _ => py " " ++ map upper_ascii ap
            end.
Proof.
  intros Hne Hm. unfold normalize_time_12h. cbv zeta.
  destruct (strip t) as [|c0 s0] eqn:Hst; [congruence|].
  rewrite Hm. unfold re_fullmatch in Hm.
  destruct (run_sound _ _ _ _ Hm) as [st' [Hp Hk]].
  destruct (rest st') as [|x r] eqn:Hrest; [|discriminate].
  injection Hk as ->.
  destruct (time_inv _ _ Hp)
    as [w0 [h [mm [w1 [ap [w2 [Hs [H0 [H1 [H2 [Hlh [Hfh [Hlm [Hfm Hap]]]]]]]]]]]]]].
  rewrite Hrest, app_nil_r in Hs.
  exists w0, h, mm, w1, ap, w2.
  split; [exact Hs|]. split; [exact H0|]. split; [exact H1|]. split; [exact H2|].
  split; [exact Hlh|]. split; [exact Hfh|]. split; [exact Hlm|]. split; [exact Hfm|].
  destruct Hap as [[-> Hc]|[a [b [-> [Ha [Hb Hc]]]]]].
  - split; [now left|]. unfold grp. rewrite Hc. cbn [group Nat.eqb].
    now rewrite app_nil_r.
  - split; [right; now exists a, b|]. unfold grp. rewrite Hc. cbn [group Nat.eqb].
    reflexivity.
Qed.

Lemma normalize_time_12h_cases (t : pystr) :
  normalize_time_12h t = now_12h
  \/ exists w0 h mm w1 ap w2,
       strip t = w0 ++ h ++ py ":" ++ mm ++ w1 ++ ap ++ w2
       /\ forallb is_space w0 = true /\ forallb is_space w1 = true
       /\ forallb is_space w2 = true
       /\ 1 <= length h <= 2 /\ forallb uni_decimal h = true
       /\ length mm = 2 /\ forallb uni_decimal mm = true
       /\ (ap = [] \/ exists a b, ap = [a; b] /\ mem a (py "AaPp") = true
                                  /\ mem b (py "Mm") = true)
       /\ normalize_time_12h t
          = fmt_02d (int_of h) ++ py ":" ++ mm
            ++ match ap with
               | [] => []
               | _ :: _ => py " " ++ map upper_ascii ap
               end.
Proof.
  destruct (strip t) as [|c0 s0] eqn:Hst.
  - left. unfold normalize_time_12h. now rewrite Hst.
  - destruct (re_fullmatch TIME_RE (strip t)) as [m|] eqn:Hm.
    + right. rewrite <- Hst. apply (normalize_time_12h_matched t m); [|exact Hm].
      rewrite Hst. discriminate.
    + left. unfold normalize_time_12h. rewrite Hst in *. now rewrite Hm.
Qed.

Section Normal.

Hypothesis Hdec : forall c, uni_decimal c = true ->
  is_space c = false /\ (uni_digit_value c < 10)%N.
Hypothesis Hasc : forall c, is_digit_ascii c = true ->
  uni_decimal c = true /\ uni_digit_value c = (c - 48)%N.

Lemma int_of_small (h : pystr) :
  1 <= length h <= 2 -> forallb uni_decimal h = true -> (int_of h < 100)%N.
Proof.
  intros Hl Hf. destruct h as [|x [|y [|z h]]]; simpl in Hl; try lia.
  - cbn [forallb] in Hf. rewrite andb_true_r in Hf.
    destruct (Hdec x Hf) as [_ Hx]. unfold int_of. cbn [fold_left]. lia.
  - cbn [forallb] in Hf. rewrite andb_true_r in Hf.
    apply andb_true_iff in Hf. destruct Hf as [Hx Hy].
    destruct (Hdec x Hx) as [_ Hx']. destruct (Hdec y Hy) as [_ Hy'].
    unfold int_of. cbn [fold_left]. lia.
Qed.

Lemma fmt_02d_small (n : N) :
  (n < 100)%N ->
  exists a b, fmt_02d n = [a; b] /\ is_digit_ascii a = true
              /\ is_digit_ascii b = true /\ (10 * (a - 48) + (b - 48))%N = n.
Proof.
  intros Hn.
  assert (Hall : forallb (fun k =>
                   match fmt_02d k with
                   | [a; b] => is_digit_ascii a && is_digit_ascii b
                               && N.eqb (10 * (a - 48) + (b - 48)) k
                   | _ => false
                   end) (map N.of_nat (seq 0 100)) = true)
    by (vm_compute; reflexivity).
  rewrite forallb_forall in Hall.
  specialize (Hall n). 
  assert (Hin : In n (map N.of_nat (seq 0 100))).
  { apply in_map_iff. exists (N.to_nat n). split; [lia|]. apply in_seq. lia. }
  specialize (Hall Hin).
  destruct (fmt_02d n) as [|a [|b [|c l]]]; try discriminate.
  rewrite !andb_true_iff in Hall. destruct Hall as [[Ha Hb] He].
  apply N.eqb_eq in He. exists a, b. auto.
Qed.

Lemma int_of_two (a b : char) :
  is_digit_ascii a = true -> is_digit_ascii b = true ->
  int_of [a; b] = (10 * (a - 48) + (b - 48))%N.
Proof.
  intros Ha Hb. destruct (Hasc a Ha) as [_ Ha']. destruct (Hasc b Hb) as [_ Hb'].
  unfold int_of. cbn [fold_left]. rewrite Ha', Hb'. lia.
Qed.

Lemma digit_not_colon (b : char) : is_digit_ascii b = true -> b <> 58%N.
Proof. intros H ->. discriminate. Qed.

(** A time in normal form is left as it is. *)
Lemma normalize_normal (a b d1 d2 : char) (suf : pystr) :
  is_digit_ascii a = true -> is_digit_ascii b = true ->
  uni_decimal d1 = true -> uni_decimal d2 = true ->
  suf = [] \/ suf = py " AM" \/ suf = py " PM" ->
  normalize_time_12h ([a; b] ++ py ":" ++ [d1; d2] ++ suf)
  = [a; b] ++ py ":" ++ [d1; d2] ++ suf.
Proof.
  intros Ha Hb Hd1 Hd2 Hsuf.
  set (S := [a; b] ++ py ":" ++ [d1; d2] ++ suf).
  destruct (Hasc a Ha) as [Hda _]. destruct (Hasc b Hb) as [Hdb _].
  destruct (Hdec a Hda) as [Hsa _]. destruct (Hdec d2 Hd2) as [Hsd2 _].
  assert (Hstrip : strip S = S).
  { unfold S. destruct Hsuf as [-> | [-> | ->]].
    - change ([a; b] ++ py ":" ++ [d1; d2] ++ []) with (a :: [b; 58%N; d1] ++ [d2]).
      now apply strip_keep.
    - change ([a; b] ++ py ":" ++ [d1; d2] ++ py " AM")
        with (a :: [b; 58%N; d1; d2; 32%N; 65%N] ++ [77%N]).
      now apply strip_keep.
    - change ([a; b] ++ py ":" ++ [d1; d2] ++ py " PM")
        with (a :: [b; 58%N; d1; d2; 32%N; 80%N] ++ [77%N]).
      now apply strip_keep. }
  assert (Hpath : exists st', path TIME_RE (start_state S) st' /\ rest st' = []).
  { rewrite time_re_shape. unfold S, start_state.
    destruct Hsuf as [-> | [-> | ->]]; eexists; split.
    - (* no meridiem *)
      eapply path_cat; [apply path_star_nil|].
      eapply path_cat.
      { apply path_group. eapply path_cat.
        - eapply path_chr; [reflexivity|exact Hda].
        - apply path_alt_l. eapply path_chr; [reflexivity|exact Hdb]. }
      eapply path_cat; [eapply path_chr; [reflexivity|reflexivity]|].
      eapply path_cat.
      { apply path_group. eapply path_cat.
        - eapply path_chr; [reflexivity|exact Hd1].
        - eapply path_chr; [reflexivity|exact Hd2]. }
      eapply path_cat; [apply path_star_nil|].
      eapply path_cat; [apply path_alt_r; apply path_eps|].
      apply path_star_nil.
    - reflexivity.
    - (* AM *)
      eapply path_cat; [apply path_star_nil|].
      eapply path_cat.
      { apply path_group. eapply path_cat.
        - eapply path_chr; [reflexivity|exact Hda].
        - apply path_alt_l. eapply path_chr; [reflexivity|exact Hdb]. }
      eapply path_cat; [eapply path_chr; [reflexivity|reflexivity]|].
      eapply path_cat.
      { apply path_group. eapply path_cat.
        - eapply path_chr; [reflexivity|exact Hd1].
        - eapply path_chr; [reflexivity|exact Hd2]. }
      eapply path_cat.
      { eapply path_star_cons;
          [eapply path_chr; [reflexivity|reflexivity]| |apply path_star_nil].
        simpl. lia. }
      eapply path_cat.
      { apply path_alt_l. apply path_group. eapply path_cat.
        - eapply path_chr; [reflexivity|reflexivity].
        - eapply path_chr; [reflexivity|reflexivity]. }
      apply path_star_nil.
    - reflexivity.
    - (* PM *)
      eapply path_cat; [apply path_star_nil|].
      eapply path_cat.
      { apply path_group. eapply path_cat.
        - eapply path_chr; [reflexivity|exact Hda].
        - apply path_alt_l. eapply path_chr; [reflexivity|exact Hdb]. }
      eapply path_cat; [eapply path_chr; [reflexivity|reflexivity]|].
      eapply path_cat.
      { apply path_group. eapply path_cat.
        - eapply path_chr; [reflexivity|exact Hd1].
        - eapply path_chr; [reflexivity|exact Hd2]. }
      eapply path_cat.
      { eapply path_star_cons;
          [eapply path_chr; [reflexivity|reflexivity]| |apply path_star_nil].
        simpl. lia. }
      eapply path_cat.
      { apply path_alt_l. apply path_group. eapply path_cat.
        - eapply path_chr; [reflexivity|reflexivity].
        - eapply path_chr; [reflexivity|reflexivity]. }
      apply path_star_nil.
    - reflexivity. }
  destruct Hpath as [st' [Hp Hr]].
  assert (Hk : (fun st : state => match rest st with [] => Some st | _ :: _ => None end) st'
               = Some st') by (cbv beta; now rewrite Hr).
  destruct (run_complete _ _ _ _ _ Hp Hk) as [m Hm].
  fold (re_fullmatch TIME_RE S) in Hm.
  assert (Hne : strip S <> []) by (rewrite Hstrip; discriminate).
  rewrite <- Hstrip in Hm.
  destruct (normalize_time_12h_matched S m Hne Hm)
    as [w0 [h [mm [w1 [ap [w2 [Hs [H0 [H1 [H2 [Hlh [Hfh [Hlm [Hfm [Hap Hn]]]]]]]]]]]]]]].
  rewrite Hn. rewrite Hstrip in Hs. unfold S in Hs.
  cbn [app py map list_ascii_of_string] in Hs.
  change (N_of_ascii ":") with 58%N in Hs.
  destruct w0 as [|x w0].
  2:{ injection Hs as <- _. cbn [forallb] in H0. rewrite Hsa in H0. discriminate. }
  destruct h as [|x [|y [|z h]]]; simpl in Hlh; try lia.
  - cbn [app] in Hs. injection Hs as _ Hb58 _.
    exfalso. now apply (digit_not_colon b Hb).
  - cbn [app] in Hs. injection Hs as <- <- Hs.
    destruct mm as [|u [|v [|z mm]]]; simpl in Hlm; try lia.
    cbn [app] in Hs. injection Hs as <- <- Hs.
    destruct (fmt_02d_small (10 * (a - 48) + (b - 48))) as [a' [b' [Hf [Ha' [Hb' He]]]]].
    { unfold is_digit_ascii in Ha, Hb. apply andb_true_iff in Ha, Hb.
      destruct Ha as [A1 A2], Hb as [B1 B2]. apply N.leb_le in A1, A2, B1, B2. lia. }
    assert (Hab : a' = a /\ b' = b).
    { unfold is_digit_ascii in Ha, Hb, Ha', Hb'.
      apply andb_true_iff in Ha, Hb, Ha', Hb'.
      destruct Ha as [A1 A2], Hb as [B1 B2], Ha' as [A1' A2'], Hb' as [B1' B2'].
      apply N.leb_le in A1, A2, B1, B2, A1', A2', B1', B2'. lia. }
    destruct Hab as [-> ->].
    rewrite (int_of_two a b Ha Hb), Hf.
    cbn [app py map list_ascii_of_string]. change (N_of_ascii ":") with 58%N.
    do 5 f_equal.
    assert (Hws : forall l, forallb is_space l = true -> ~ In 65%N l /\ ~ In 80%N l
                            /\ ~ In 77%N l).
    { intros l Hl. rewrite forallb_forall in Hl.
      repeat split; intros Hin; specialize (Hl _ Hin); discriminate. }
    destruct Hsuf as [-> | [-> | ->]].
    + symmetry in Hs. apply app_eq_nil in Hs. destruct Hs as [_ Hs].
      apply app_eq_nil in Hs. destruct Hs as [-> _]. reflexivity.
    + destruct Hap as [-> | [p [q [-> [Hp' Hq']]]]].
      * exfalso. cbn [app] in Hs.
        assert (Hin : In 65%N (w1 ++ w2)) by (rewrite <- Hs; cbn; auto).
        apply in_app_or in Hin. destruct Hin as [Hin|Hin].
        -- destruct (Hws w1 H1) as [HA [HP _]]; tauto.
        -- destruct (Hws w2 H2) as [HA [HP _]]; tauto.
      * destruct w1 as [|x [|y w1]].
        -- cbn [app] in Hs. injection Hs as <- _. discriminate.
        -- cbn [app] in Hs. injection Hs as _ <- <- _. reflexivity.
        -- cbn [app] in Hs. injection Hs as _ <- _.
           cbn [forallb] in H1. rewrite !andb_true_iff in H1.
           destruct H1 as [_ [H1 _]]. discriminate.
    + destruct Hap as [-> | [p [q [-> [Hp' Hq']]]]].
      * exfalso. cbn [app] in Hs.
        assert (Hin : In 80%N (w1 ++ w2)) by (rewrite <- Hs; cbn; auto).
        apply in_app_or in Hin. destruct Hin as [Hin|Hin].
        -- destruct (Hws w1 H1) as [HA [HP _]]; tauto.
        -- destruct (Hws w2 H2) as [HA [HP _]]; tauto.
      * destruct w1 as [|x [|y w1]].
        -- cbn [app] in Hs. injection Hs as <- _. discriminate.
        -- cbn [app] in Hs. injection Hs as _ <- <- _. reflexivity.
        -- cbn [app] in Hs. injection Hs as _ <- _.
           cbn [forallb] in H1. rewrite !andb_true_iff in H1.
           destruct H1 as [_ [H1 _]]. discriminate.
Qed.

End Normal.

End WithEnv.
End TimeFacts.

Module ScanFacts.

(** Every element of [finditer] is the result of a search at some position
    of the text. *)
Lemma finditer_sound (r : regex) (s : pystr) :
  forall skip pv m,
    In m (finditer_aux r skip pv s) ->
    exists pv' s', run r (mkState pv' s' []) Some = Some m.
Proof.
  induction s as [|c s IH]; intros skip pv m Hin.
  - destruct skip as [|n]; [|destruct Hin].
    cbn [finditer_aux] in Hin.
    destruct (run r (mkState pv [] []) Some) as [m0|] eqn:Hr; [|destruct Hin].
    destruct Hin as [<-|[]]. eauto.
  - destruct skip as [|n]; cbn [finditer_aux] in Hin.
    + destruct (run r (mkState pv (c :: s) []) Some) as [m0|] eqn:Hr.
      * destruct Hin as [<-|Hin]; [eauto|]. now apply IH in Hin.
      * now apply IH in Hin.
    + now apply IH in Hin.
Qed.

End ScanFacts.

Module FreshCodec.

Import Header FreshFacts EngineMore.

Section DashLedBlank.
Variable r' : regex.
Local Notation R := (Cat (Bol true) (Cat (lit_i (py "- [")) r')).

(** A line the pattern matches from its start to its end, followed by an
    empty line. *)
Lemma finditer_match_line_blank (body t' : pystr) (c : char) (pv : option char)
    (C : list (nat * pystr)) :
  line_start (adv pv body) = false -> body <> [] -> is_space c = false ->
  (exists st', path R (mkState pv (body ++ LF :: LF :: c :: t') []) st') ->
  (forall st', path R (mkState pv (body ++ LF :: LF :: c :: t') []) st' ->
               caps st' = C
               /\ exists w, w ++ rest st' = LF :: LF :: c :: t'
                            /\ forallb is_space w = true
                            /\ at_eol true st' = true) ->
  exists m, caps m = C
            /\ finditer_aux R 0 pv (body ++ LF :: LF :: c :: t')
               = m :: finditer_aux R 0 (Some LF) (LF :: c :: t').
Proof.
  intros Hlast Hne Hc [st0 Hex] Hall.
  destruct (run_complete _ _ _ Some st0 Hex eq_refl) as [m Hm].
  destruct (run_sound _ _ _ _ Hm) as [st' [Hp Hst']]. injection Hst' as ->.
  destruct (Hall _ Hp) as [HC [w [Hw [Hws Heol]]]].
  exists m. split; [exact HC|].
  destruct w as [|x w].
  - simpl in Hw. rewrite <- Hw in *.
    rewrite finditer_match by assumption. f_equal.
    rewrite Hw. rewrite finditer_step; [reflexivity|].
    now apply no_match_inside.
  - injection Hw as -> Hw. destruct w as [|y w].
    + simpl in Hw.
      replace (body ++ LF :: LF :: c :: t') with ((body ++ [LF]) ++ rest m) in *
        by (rewrite <- app_assoc, Hw; reflexivity).
      rewrite finditer_match; [|now destruct body|exact Hm].
      rewrite adv_snoc, Hw. reflexivity.
    + exfalso. injection Hw as -> Hw. destruct w as [|z w].
      * simpl in Hw. unfold at_eol in Heol. rewrite Hw in Heol.
        apply andb_true_iff in Heol. destruct Heol as [Heol _].
        apply N.eqb_eq in Heol. subst c. discriminate.
      * injection Hw as -> _. cbn [forallb] in Hws.
        rewrite !andb_true_iff in Hws. destruct Hws as [_ [_ [Hws _]]]. congruence.
Qed.

End DashLedBlank.

Section WithEnv.
Context {E : PyEnv}.

Lemma scan_user_line_U_blank (pv : option char) (p u t : pystr) :
  line_start pv = true -> p <> [] -> forallb alnum_i p = true ->
  u <> [] -> ~ In 93%N u -> tail_blank t ->
  exists m, caps m = [(2, u); (1, p)]
            /\ finditer_aux USERNAME_RE 0 pv (user_line p u ++ LF :: t)
               = m :: finditer_aux USERNAME_RE 0 (Some LF) t.
Proof.
  intros Hl Hp Hpa Hu Hurb [Ht|[c [t' [-> Hc]]]].
  - now apply scan_user_line_U.
  - rewrite username_re_shape. apply finditer_match_line_blank.
    + unfold user_line. change (py "]") with [93%N].
      rewrite !app_assoc, adv_snoc. reflexivity.
    + discriminate.
    + exact Hc.
    + rewrite <- username_re_shape, user_line_assoc.
      now apply username_line_path.
    + intros st' H. rewrite <- username_re_shape, user_line_assoc in H.
      apply (username_line_unique pv p u (LF :: LF :: c :: t') st'); [|exact Hurb|exact H].
      now apply alnum_not_rb.
Qed.

Lemma tail_blank_dash (t : pystr) : tail_blank (45%N :: t).
Proof. left. apply tail_ok_dash. Qed.

Lemma tail_blank_user_lines (pairs : list (pystr * pystr)) (t : pystr) :
  tail_blank t ->
  tail_blank (lines_text (map (fun pu => user_line (fst pu) (snd pu)) pairs) ++ t).
Proof.
  intros Ht. destruct pairs as [|[p u] pairs]; [exact Ht|].
  cbn [map]. rewrite lines_text_cons. apply tail_blank_dash.
Qed.

Lemma scan_users_U_blank (pairs : list (pystr * pystr)) (t : pystr) :
  Forall pair_ok pairs -> tail_blank t ->
  exists ms,
    Forall2 (fun m pu => caps m = [(2, snd pu); (1, fst pu)]) ms pairs
    /\ finditer_aux USERNAME_RE 0 (Some LF)
         (lines_text (map (fun pu => user_line (fst pu) (snd pu)) pairs) ++ t)
       = ms ++ finditer_aux USERNAME_RE 0 (Some LF) t.
Proof.
  intros Hok Ht. induction Hok as [|[p u] pairs [Hp [Hu Hrb]] _ IH].
  - exists []. split; [constructor|reflexivity].
  - destruct IH as [ms [Hms Heq]].
    destruct (platform_facts p Hp) as [Hpne [Hpa _]].
    cbn [map fst snd]. rewrite lines_text_cons, <- app_assoc.
    change ((LF :: lines_text (map (fun pu => user_line (fst pu) (snd pu)) pairs)) ++ t)
      with (LF :: (lines_text (map (fun pu => user_line (fst pu) (snd pu)) pairs) ++ t)).
    destruct (scan_user_line_U_blank (Some LF) p u
                (lines_text (map (fun pu => user_line (fst pu) (snd pu)) pairs) ++ t)
                eq_refl Hpne Hpa Hu Hrb (tail_blank_user_lines pairs t Ht))
      as [m [Hm Hscan]].
    exists (m :: ms). split; [now constructor|].
    rewrite Hscan, Heq. reflexivity.
Qed.

Context {A : AsciiSound}.

Lemma scan_build_line_B_blank (pv : option char) (g b t : pystr) :
  line_start pv = true -> g = py "gen4" \/ g = py "gen5" ->
  b <> [] -> digits b -> tail_blank t ->
  exists m, caps m = [(2, b); (1, g)]
            /\ finditer_aux BUILD_RE 0 pv (build_line g b ++ LF :: t)
               = m :: finditer_aux BUILD_RE 0 (Some LF) t.
Proof.
  intros Hl Hg Hne Hb [Ht|[c [t' [-> Hc]]]].
  - now apply scan_build_line_B.
  - destruct (digits_facts b Hb) as [Hdec [_ [Hbrb _]]].
    destruct (is_gen g Hg) as [Hgl [Hgrb _]].
    rewrite build_re_shape. apply finditer_match_line_blank.
    + unfold build_line.
      change (py "] --> build number") with (py "] --> build numbe" ++ [114%N]).
      rewrite !app_assoc, adv_snoc. reflexivity.
    + discriminate.
    + exact Hc.
    + rewrite build_line_assoc.
      change (py " --> build number" ++ LF :: LF :: c :: t')
        with (py " " ++ py "-->" ++ py " " ++ py "build number" ++ LF :: LF :: c :: t').
      eexists.
      eapply path_cat; [apply path_bol; now rewrite at_bol_line_start|].
      eapply path_cat; [apply path_lit_i_intro|].
      eapply path_cat; [apply path_group_gen; exact Hg|].
      eapply path_cat; [apply path_lit_i_intro|].
      eapply path_cat; [apply path_group_chars_intro; assumption|].
      eapply path_cat; [apply path_lit_i_intro|].
      eapply path_cat; [apply path_star_chr_intro; reflexivity|].
      eapply path_cat; [apply path_lit_i_intro|].
      eapply path_cat; [apply path_star_chr_intro; reflexivity|].
      eapply path_cat; [apply path_lit_i_intro|].
      eapply path_cat; [apply path_star_nil|].
      apply path_eol. reflexivity.
    + intros st' H. rewrite <- build_re_shape, build_line_assoc in H.
      destruct (build_inv _ _ _ H)
        as [g' [d [w1 [w2 [bn [w3 [Hs [Hg' [_ [Hd [H1 [H2 [Hbn [H3 [Heol Hcp]]]]]]]]]]]]]]].
      apply app_inv_head in Hs.
      change (py "][" ++ b ++ py "]" ++ py " --> build number" ++ LF :: LF :: c :: t')
        with (93%N :: 91%N :: b ++ 93%N :: py " --> build number" ++ LF :: LF :: c :: t')
        in Hs.
      change (py "][" ++ d ++ py "]" ++ w1 ++ py "-->" ++ w2 ++ bn ++ w3 ++ rest st')
        with (93%N :: 91%N :: d ++ 93%N :: w1 ++ py "-->" ++ w2 ++ bn ++ w3 ++ rest st')
        in Hs.
      destruct (first_rb_split _ _ _ _ Hs Hgrb (gen_like_no_rb _ Hg')) as [<- Hs'].
      injection Hs' as Hs'.
      destruct (first_rb_split _ _ _ _ Hs' Hbrb (decimal_no_rb _ Hd)) as [<- Hx].
      split; [exact Hcp|]. exists w3. split; [|split; assumption].
      symmetry in Hx. exact (build_tail_unique _ _ _ _ _ _ H1 H2 Hbn Hx).
Qed.

End WithEnv.
End FreshCodec.

Module FreshRound.

Import Header FreshFacts EngineMore FreshCodec.

Section WithEnv.
Context {E : PyEnv} {A : AsciiSound}.

Lemma skeleton_tail : tail_blank (lines_text skeleton).
Proof.
  right. eexists. eexists. split; [reflexivity|reflexivity].
Qed.

Lemma scan_skeleton_U :
  finditer_aux USERNAME_RE 0 (Some LF) (lines_text skeleton) = [].
Proof. vm_compute. reflexivity. Qed.

Lemma scan_skeleton_B :
  finditer_aux BUILD_RE 0 (Some LF) (lines_text skeleton) = [].
Proof. vm_compute. reflexivity. Qed.

Lemma scan_builds_U_tail (g4 g5 t : pystr) :
  digits g4 -> digits g5 ->
  finditer_aux USERNAME_RE 0 (Some LF)
    (lines_text (build_lines (py "gen4") g4 ++ build_lines (py "gen5") g5) ++ t)
  = finditer_aux USERNAME_RE 0 (Some LF) t.
Proof.
  intros H4 H5. rewrite !build_lines_digits by assumption.
  destruct (digits_facts g4 H4) as [_ [_ [H4rb [H4l _]]]].
  destruct (digits_facts g5 H5) as [_ [_ [H5rb [H5l _]]]].
  destruct (is_gen (py "gen4") (or_introl eq_refl)) as [_ [Hg4 Hg4l]].
  destruct (is_gen (py "gen5") (or_intror eq_refl)) as [_ [Hg5 Hg5l]].
  assert (Hone : forall g b x,
             ~ In 93%N g -> ~ In LF g -> ~ In 93%N b -> ~ In LF b ->
             finditer_aux USERNAME_RE 0 (Some LF) (lines_text [build_line g b] ++ x)
             = finditer_aux USERNAME_RE 0 (Some LF) x).
  { intros g b x Hg Hgl Hb Hbl. rewrite lines_text_cons, <- app_assoc.
    change ((LF :: lines_text []) ++ x) with (LF :: x).
    now apply scan_build_line_U. }
  destruct g4 as [|c4 g4], g5 as [|c5 g5]; cbn [app].
  - reflexivity.
  - now apply Hone.
  - now apply Hone.
  - change [build_line (py "gen4") (c4 :: g4); build_line (py "gen5") (c5 :: g5)]
      with ([build_line (py "gen4") (c4 :: g4)] ++ [build_line (py "gen5") (c5 :: g5)]).
    rewrite lines_text_app, <- app_assoc.
    rewrite Hone by assumption. now apply Hone.
Qed.

(** The matches of the user name pattern in a new document are the user
    name lines of its header. *)
Lemma finditer_usernames_fresh (date : pystr) (us : dict) (g4 g5 : pystr) :
  break_free date -> usernames_ok us -> digits g4 -> digits g5 ->
  exists ms,
    Forall2 (fun m pu => caps m = [(2, snd pu); (1, fst pu)]) ms
            (bound us ALL_PLATFORMS)
    /\ finditer USERNAME_RE (header_block date us g4 g5) = ms.
Proof.
  intros Hd Hus H4 H5. rewrite header_block_text, all_platforms_sorted.
  rewrite user_lines_bound.
  assert (Hok : Forall pair_ok (bound us ALL_PLATFORMS)).
  { apply Forall_forall. intros [p u] Hin.
    destruct (bound_in _ _ _ _ Hin) as [Hp [Hg Hne]].
    destruct (Hus p u Hg) as [_ [_ [_ Hrb]]].
    repeat split; assumption. }
  set (B := lines_text (build_lines (py "gen4") g4 ++ build_lines (py "gen5") g5)).
  destruct (scan_users_U_blank (bound us ALL_PLATFORMS) (B ++ lines_text skeleton) Hok)
    as [ms [Hms Heq]].
  { unfold B. rewrite lines_text_app, <- app_assoc.
    rewrite !build_lines_digits by assumption.
    destruct g4 as [|c4 g4]; [|rewrite lines_text_cons; apply tail_blank_dash].
    destruct g5 as [|c5 g5]; [|rewrite lines_text_cons; apply tail_blank_dash].
    apply skeleton_tail. }
  exists ms. split; [exact Hms|].
  unfold finditer.
  rewrite (lines_text_app _ skeleton).
  rewrite (lines_text_app [py "# " ++ date ++ py " notes"; DIVIDER]).
  rewrite (lines_text_app (map _ (bound us ALL_PLATFORMS))).
  fold B. rewrite <- !app_assoc.
  rewrite username_re_shape, scan_head by exact Hd.
  rewrite <- username_re_shape, Heq.
  unfold B. rewrite scan_builds_U_tail by assumption.
  rewrite scan_skeleton_U. apply app_nil_r.
Qed.

Lemma parse_usernames_of_fresh (date : pystr) (us : dict) (g4 g5 : pystr) :
  break_free date -> usernames_ok us -> digits g4 -> digits g5 ->
  forall q, dict_get (parse_usernames (header_block date us g4 g5)) q
            = dict_get us q.
Proof.
  intros Hd Hus H4 H5 q.
  destruct (finditer_usernames_fresh date us g4 g5 Hd Hus H4 H5) as [ms [Hms Hfi]].
  unfold parse_usernames. rewrite Hfi. cbv zeta.
  rewrite (parse_usernames_fold ms (bound us ALL_PLATFORMS) [] Hms).
  - rewrite dict_get_bound. cbn [dict_get].
    destruct (dict_get us q) as [u|] eqn:Hg.
    + destruct (Hus q u Hg) as [Hq [Hne _]].
      rewrite (str_in_platform q Hq). destruct u; [congruence|reflexivity].
    + destruct (str_in q ALL_PLATFORMS); reflexivity.
  - apply Forall_forall. intros [p u] Hin.
    destruct (bound_in _ _ _ _ Hin) as [Hp [Hg _]].
    destruct (Hus p u Hg) as [_ [_ [Hs _]]]. split; assumption.
Qed.

Lemma parse_builds_of_fresh (date : pystr) (us : dict) (g4 g5 : pystr) :
  break_free date -> usernames_ok us -> digits g4 -> digits g5 ->
  parse_builds (header_block date us g4 g5) = (g4, g5).
Proof.
  intros Hd Hus H4 H5. rewrite header_block_text, all_platforms_sorted.
  rewrite user_lines_bound.
  assert (Hok : Forall pair_ok (bound us ALL_PLATFORMS)).
  { apply Forall_forall. intros [p u] Hin.
    destruct (bound_in _ _ _ _ Hin) as [Hp [Hg Hne]].
    destruct (Hus p u Hg) as [_ [_ [_ Hrb]]].
    repeat split; assumption. }
  unfold parse_builds, finditer.
  rewrite (lines_text_app _ skeleton).
  rewrite (lines_text_app [py "# " ++ date ++ py " notes"; DIVIDER]).
  rewrite (lines_text_app (map _ (bound us ALL_PLATFORMS))).
  rewrite <- !app_assoc.
  rewrite build_re_shape, scan_head by exact Hd.
  rewrite <- build_re_shape, scan_users_B by exact Hok.
  rewrite !build_lines_digits by assumption.
  assert (Hl4 : str_lower (py "gen4") = py "gen4") by (apply lower_fixes; reflexivity).
  assert (Hl5 : str_lower (py "gen5") = py "gen5") by (apply lower_fixes; reflexivity).
  pose proof scan_skeleton_B as Hend.
  destruct g4 as [|c4 g4], g5 as [|c5 g5]; cbn [app].
  - unfold lines_text at 1. cbn [map concat app]. now rewrite Hend.
  - rewrite lines_text_cons, <- app_assoc.
    change ((LF :: lines_text []) ++ lines_text skeleton)
      with (LF :: lines_text skeleton).
    destruct (scan_build_line_B_blank (Some LF) (py "gen5") (c5 :: g5)
                (lines_text skeleton)
                eq_refl (or_intror eq_refl) ltac:(discriminate) H5 skeleton_tail)
      as [m [Hm ->]].
    rewrite Hend. cbn [fold_left].
    destruct (grp_caps m _ _ Hm) as [-> ->]. rewrite Hl5. reflexivity.
  - rewrite lines_text_cons, <- app_assoc.
    change ((LF :: lines_text []) ++ lines_text skeleton)
      with (LF :: lines_text skeleton).
    destruct (scan_build_line_B_blank (Some LF) (py "gen4") (c4 :: g4)
                (lines_text skeleton)
                eq_refl (or_introl eq_refl) ltac:(discriminate) H4 skeleton_tail)
      as [m [Hm ->]].
    rewrite Hend. cbn [fold_left].
    destruct (grp_caps m _ _ Hm) as [-> ->]. rewrite Hl4. reflexivity.
  - rewrite lines_text_cons, <- app_assoc.
    change ((LF :: lines_text [build_line (py "gen5") (c5 :: g5)]) ++ lines_text skeleton)
      with (LF :: (lines_text [build_line (py "gen5") (c5 :: g5)] ++ lines_text skeleton)).
    destruct (scan_build_line_B_blank (Some LF) (py "gen4") (c4 :: g4)
                (lines_text [build_line (py "gen5") (c5 :: g5)] ++ lines_text skeleton)
                eq_refl (or_introl eq_refl) ltac:(discriminate) H4)
      as [m4 [Hm4 ->]].
    { rewrite lines_text_cons. apply tail_blank_dash. }
    rewrite lines_text_cons, <- app_assoc.
    change ((LF :: lines_text []) ++ lines_text skeleton)
      with (LF :: lines_text skeleton).
    destruct (scan_build_line_B_blank (Some LF) (py "gen5") (c5 :: g5)
                (lines_text skeleton)
                eq_refl (or_intror eq_refl) ltac:(discriminate) H5 skeleton_tail)
      as [m5 [Hm5 ->]].
    rewrite Hend. cbn [fold_left].
    destruct (grp_caps m4 _ _ Hm4) as [-> ->]. rewrite Hl4, str_eqb_refl.
    cbv beta iota.
    destruct (grp_caps m5 _ _ Hm5) as [-> ->]. rewrite Hl5. reflexivity.
Qed.

End WithEnv.
End FreshRound.

Module ReheadFacts.

Import Header FreshFacts EngineMore.

Section WithEnv.
Context {E : PyEnv}.

Lemma In_lstrip_inv (c : char) (l : pystr) : In c (lstrip l) -> In c l.
Proof.
  induction l as [|x l IH]; simpl; [tauto|].
  destruct (is_space x); [intros H; right; now apply IH|tauto].
Qed.

Lemma In_strip_inv (c : char) (l : pystr) : In c (strip l) -> In c l.
Proof.
  unfold strip, rstrip. intros H. apply in_rev in H.
  apply In_lstrip_inv in H. apply in_rev in H. now apply In_lstrip_inv.
Qed.

Lemma digits_break_free (b : pystr) : digits b -> break_free (strip b).
Proof.
  unfold digits. intros H c Hc. apply In_strip_inv in Hc.
  rewrite forallb_forall in H. specialize (H c Hc).
  unfold is_digit_ascii in H. apply andb_true_iff in H. destruct H as [H1 H2].
  apply N.leb_le in H1, H2.
  destruct (is_linebreak c) eqn:Hl; [|reflexivity].
  unfold is_linebreak, mem in Hl. apply existsb_exists in Hl.
  destruct Hl as [x [Hin Hx]]. apply N.eqb_eq in Hx. subst x.
  cbn [In] in Hin. exfalso. intuition lia.
Qed.

Lemma user_lines_entries (us : dict) (ps : list pystr) :
  Forall break_free ps ->
  (forall p u, dict_get us p = Some u -> break_free u) ->
  Forall entry_line (user_lines us ps).
Proof.
  intros Hps Hus. unfold user_lines. induction Hps as [|p ps Hp _ IH]; [constructor|].
  cbn [flat_map]. apply Forall_app. split; [|exact IH].
  destruct (dict_get us p) as [[|c u]|] eqn:Hg; constructor; [|constructor].
  split; [|eexists; reflexivity].
  unfold user_line. rewrite !break_free_app.
  repeat split; try (apply break_freeb_ok; reflexivity); [exact Hp|].
  now apply (Hus p).
Qed.

Lemma build_lines_entries (g b : pystr) :
  break_free g -> digits b -> Forall entry_line (build_lines g b).
Proof.
  intros Hg Hb. unfold build_lines. destruct (isdigit (strip b)); constructor; [|constructor].
  split; [|eexists; reflexivity].
  unfold build_line. rewrite !break_free_app.
  repeat split; try (apply break_freeb_ok; reflexivity); [exact Hg|].
  now apply digits_break_free.
Qed.

Lemma entry_not_blank (l : pystr) : entry_line l -> is_blank l = false.
Proof.
  intros [_ [t ->]]. unfold is_blank.
  destruct (strip_cons_nonspace 45%N t eq_refl) as [t' ->]. reflexivity.
Qed.

Lemma count_nonblank_entries (M X : list pystr) :
  Forall entry_line M -> count_nonblank (M ++ [] :: X) = length M.
Proof.
  induction 1 as [|l M Hl _ IH]; [reflexivity|].
  cbn [app count_nonblank length]. rewrite (entry_not_blank l Hl). now rewrite IH.
Qed.

Lemma header_end_entries (l0 : pystr) (M X : list pystr) :
  Forall entry_line M ->
  header_end (l0 :: DIVIDER :: M ++ [] :: X) = 3 + length M.
Proof.
  intros HM. unfold header_end.
  assert (Hd : is_divider (l0 :: DIVIDER :: M ++ [] :: X) 1 = true) by reflexivity.
  cbv zeta. rewrite Hd.
  change (skipn (1 + 1) (l0 :: DIVIDER :: M ++ [] :: X)) with (M ++ [] :: X).
  rewrite (count_nonblank_entries M X HM).
  change (nth (1 + 1 + length M) (l0 :: DIVIDER :: M ++ [] :: X) [])
    with (nth (length M) (M ++ [] :: X) []).
  rewrite app_nth2, Nat.sub_diag by lia. cbn [nth].
  replace (1 + 1 + length M <? length (l0 :: DIVIDER :: M ++ [] :: X)) with true.
  - cbn. lia.
  - symmetry. apply Nat.ltb_lt. cbn [length]. rewrite length_app. cbn [length]. lia.
Qed.

(** The lines of a new document. *)
Lemma header_block_lines (date : pystr) (us : dict) (g4 g5 : pystr) :
  break_free date ->
  (forall p u, dict_get us p = Some u -> break_free u) ->
  digits g4 -> digits g5 ->
  exists M,
    Forall entry_line M
    /\ splitlines (header_block date us g4 g5)
       = (py "# " ++ date ++ py " notes") :: DIVIDER :: M ++ skeleton.
Proof.
  intros Hd Hus H4 H5.
  exists (user_lines us (sorted ALL_PLATFORMS)
          ++ build_lines (py "gen4") g4 ++ build_lines (py "gen5") g5).
  assert (HM : Forall entry_line
                 (user_lines us (sorted ALL_PLATFORMS)
                  ++ build_lines (py "gen4") g4 ++ build_lines (py "gen5") g5)).
  { apply Forall_app. split; [|apply Forall_app; split].
    - apply user_lines_entries; [|exact Hus].
      repeat constructor; apply break_freeb_ok; reflexivity.
    - apply build_lines_entries; [apply break_freeb_ok; reflexivity|exact H4].
    - apply build_lines_entries; [apply break_freeb_ok; reflexivity|exact H5]. }
  split; [exact HM|].
  rewrite header_block_text. rewrite <- !app_assoc. cbn [app].
  apply splitlines_lines_text.
  constructor.
  { rewrite !break_free_app. repeat split; try (apply break_freeb_ok; reflexivity).
    exact Hd. }
  constructor; [apply break_freeb_ok; reflexivity|].
  rewrite !app_assoc. apply Forall_app. split.
  - rewrite <- app_assoc. eapply Forall_impl; [|exact HM]. intros l Hl. apply Hl.
  - repeat constructor; apply break_freeb_ok; reflexivity.
Qed.

End WithEnv.
End ReheadFacts.

Module IssueScan.

Import EngineMore Header.

Lemma path_plain (Q : char -> bool) (r : regex) (st st' : state) :
  path r st st' -> plain Q r ->
  exists w, rest st = w ++ rest st' /\ forallb Q w = true /\ caps st' = caps st.
Proof.
  induction 1 as [st|p st c s Hr Hp|a b st1 st2 st3 _ IH1 _ IH2
                  |a b st st' _ IH|a b st st' _ IH|a st
                  |a st1 st2 st3 _ IH1 _ _ IH2|n a st st' _ _|m st _|m st _];
    intros HQ.
  - exists []. auto.
  - exists [c]. cbn [plain] in HQ. cbn [rest caps forallb app].
    rewrite (HQ c Hp). auto.
  - destruct HQ as [Ha Hb].
    destruct (IH1 Ha) as [w1 [Hw1 [Hf1 Hc1]]].
    destruct (IH2 Hb) as [w2 [Hw2 [Hf2 Hc2]]].
    exists (w1 ++ w2). rewrite Hw1, Hw2, forallb_app, Hf1, Hf2, <- app_assoc.
    repeat split. congruence.
  - destruct HQ as [Ha _]. now apply IH.
  - destruct HQ as [_ Hb]. now apply IH.
  - exists []. auto.
  - cbn [plain] in HQ.
    destruct (IH1 HQ) as [w1 [Hw1 [Hf1 Hc1]]].
    destruct (IH2 HQ) as [w2 [Hw2 [Hf2 Hc2]]].
    exists (w1 ++ w2). rewrite Hw1, Hw2, forallb_app, Hf1, Hf2, <- app_assoc.
    repeat split. congruence.
  - destruct HQ.
  - exists []. auto.
  - exists []. auto.
Qed.

Lemma path_lit_inv (s : pystr) (st st' : state) :
  path (lit s) st st' -> rest st = s ++ rest st' /\ caps st' = caps st.
Proof.
  unfold lit. intros H. rewrite <- (map_map N.eqb Chr) in H.
  destruct (path_chars_inv _ _ _ H) as [w [Hw [Hf Hc]]].
  assert (w = s).
  { clear - Hf. revert w Hf. induction s as [|c s IH]; intros w Hf;
      inversion Hf as [|p x ps xs Hpx Hrest]; subst; [reflexivity|].
    apply N.eqb_eq in Hpx. subst x. f_equal. now apply IH. }
  subst w. auto.
Qed.

Lemma path_lit_intro (s t : pystr) (pv : option char) (cs : list (nat * pystr)) :
  path (lit s) (mkState pv (s ++ t) cs) (mkState (adv pv s) t cs).
Proof.
  unfold lit. rewrite <- (map_map N.eqb Chr).
  apply path_chars_intro. induction s as [|c s IH]; simpl; constructor.
  - apply N.eqb_refl.
  - exact IH.
Qed.

Lemma first_split (c : char) (a b x y : pystr) :
  a ++ c :: x = b ++ c :: y -> ~ In c a -> ~ In c b -> a = b /\ x = y.
Proof.
  revert b. induction a as [|d a IH]; intros [|e b] H Ha Hb.
  - injection H as ->. auto.
  - injection H as <- _. exfalso. apply Hb. now left.
  - injection H as -> _. exfalso. apply Ha. now left.
  - injection H as -> H.
    destruct (IH b H) as [-> ->].
    + intros Hin. apply Ha. now right.
    + intros Hin. apply Hb. now right.
    + auto.
Qed.

Section WithEnv.
Context {E : PyEnv}.

Lemma issue_re_shape :
  ISSUE_RE
  = Cat (Bol true) (Cat (lit (py "- ["))
      (Cat (Group 1 CLOCK) (Cat (lit (py "]["))
        (Cat (Group 2 (Plus (Chr alnum))) (Cat (lit (py "]"))
          (Cat (Plus ws) (Cat (Group 3 (Star dot)) (Eol true)))))))).
Proof. reflexivity. Qed.

Lemma clock_plain : plain clock_char CLOCK.
Proof.
  unfold CLOCK, clock_char. cbn [cats plain Opt lit map py list_ascii_of_string digit ws].
  change (N_of_ascii ":") with 58%N.
  repeat split; try exact I; intros c Hc; rewrite ?Hc, ?orb_true_r; try reflexivity.
Qed.

(** What a match of the issue pattern reads. *)
Lemma issue_inv (pv : option char) (s : pystr) (st' : state) :
  path ISSUE_RE (mkState pv s []) st' ->
  line_start pv = true
  /\ exists w1 w2 w3 w4,
       s = py "- [" ++ w1 ++ py "][" ++ w2 ++ py "]" ++ w3 ++ w4 ++ rest st'
       /\ forallb clock_char w1 = true
       /\ w2 <> [] /\ forallb alnum w2 = true
       /\ w3 <> [] /\ forallb is_space w3 = true
       /\ ~ In LF w4
       /\ at_eol true st' = true
       /\ caps st' = [(3, w4); (2, w2); (1, w1)].
Proof.
  rewrite issue_re_shape. intros H.
  destruct (path_cat_inv _ _ _ _ H) as [m0 [Hb H0]].
  destruct (path_bol_inv _ _ _ Hb) as [-> Hbol].
  rewrite at_bol_line_start in Hbol. split; [exact Hbol|].
  destruct (path_cat_inv _ _ _ _ H0) as [m1 [Hl1 H1]].
  destruct (path_lit_inv _ _ _ Hl1) as [Hr1 Hc1].
  simpl rest in Hr1. simpl caps in Hc1.
  destruct (path_cat_inv _ _ _ _ H1) as [m2 [Hg1 H2]].
  destruct (path_group_inv _ _ _ _ Hg1) as [x1 [Hck ->]].
  destruct (path_plain clock_char _ _ _ Hck clock_plain) as [w1 [Hrw1 [Hf1 Hcw1]]].
  rewrite (set_cap_reads 1 m1 x1 w1 Hrw1) in H2.
  destruct (path_cat_inv _ _ _ _ H2) as [m3 [Hl2 H3]].
  destruct (path_lit_inv _ _ _ Hl2) as [Hr2 Hc2].
  simpl rest in Hr2. simpl caps in Hc2.
  destruct (path_cat_inv _ _ _ _ H3) as [m4 [Hg2 H4]].
  destruct (path_group_chars_inv _ _ _ _ Hg2) as [w2 [Hne2 [Hr3 [Hf2 Hc3]]]].
  destruct (path_cat_inv _ _ _ _ H4) as [m5 [Hl3 H5]].
  destruct (path_lit_inv _ _ _ Hl3) as [Hr4 Hc4].
  destruct (path_cat_inv _ _ _ _ H5) as [m6 [Hp H6]].
  destruct (path_plus_chr_inv _ _ _ Hp) as [w3 [Hne3 [Hr5 [Hf3 Hc5]]]].
  destruct (path_cat_inv _ _ _ _ H6) as [m7 [Hg3 H7]].
  destruct (path_group_inv _ _ _ _ Hg3) as [x3 [Hd ->]].
  destruct (path_star_chr_inv _ _ _ Hd) as [w4 [Hr6 [Hf4 Hc6]]].
  rewrite (set_cap_reads 3 m6 x3 w4 Hr6) in H7.
  destruct (path_eol_inv _ _ _ H7) as [-> Heol].
  cbn [rest caps] in *.
  exists w1, w2, w3, w4.
  split; [rewrite Hr1, Hrw1, Hr2, Hr3, Hr4, Hr5, Hr6; reflexivity|].
  split; [exact Hf1|]. split; [exact Hne2|]. split; [exact Hf2|].
  split; [exact Hne3|]. split; [exact Hf3|].
  split.
  { intros Hin. rewrite forallb_forall in Hf4. specialize (Hf4 _ Hin).
    unfold LF in Hf4. discriminate. }
  split; [exact Heol|].
  rewrite Hc6, Hc5, Hc4, Hc3, Hc2, Hcw1, Hc1. reflexivity.
Qed.

Lemma no_issue_inside (pv : option char) (s : pystr) :
  line_start pv = false -> run ISSUE_RE (mkState pv s []) Some = None.
Proof.
  intros Hl. destruct (run ISSUE_RE (mkState pv s []) Some) as [m|] eqn:Hr; [|reflexivity].
  destruct (run_sound _ _ _ _ Hr) as [st' [Hp _]].
  destruct (issue_inv _ _ _ Hp) as [Hb _]. congruence.
Qed.

Lemma no_issue_other (pv : option char) (s : pystr) :
  startswith s (py "- [") = false -> run ISSUE_RE (mkState pv s []) Some = None.
Proof.
  intros Hs. destruct (run ISSUE_RE (mkState pv s []) Some) as [m|] eqn:Hr; [|reflexivity].
  destruct (run_sound _ _ _ _ Hr) as [st' [Hp _]].
  destruct (issue_inv _ _ _ Hp) as [_ [w1 [w2 [w3 [w4 [Heq _]]]]]].
  rewrite Heq, startswith_app in Hs. discriminate.
Qed.

End WithEnv.

Section WithAscii.
Context {E : PyEnv} {A : AsciiSound}.

Lemma clock_char_no_rb (w : pystr) : forallb clock_char w = true -> ~ In 93%N w.
Proof.
  intros H. apply (forallb_not_in clock_char w); [exact H|].
  unfold clock_char. rewrite decimal_ascii by lia. reflexivity.
Qed.

Lemma alnum_no_rb (w : pystr) : forallb alnum w = true -> ~ In 93%N w.
Proof. intros H. apply (forallb_not_in alnum w); [exact H|reflexivity]. Qed.

Lemma digit_decimal (c : char) : is_digit_ascii c = true -> uni_decimal c = true.
Proof.
  intros H. rewrite decimal_ascii; [exact H|].
  unfold is_digit_ascii in H. apply andb_true_iff in H. destruct H as [_ H].
  apply N.leb_le in H. lia.
Qed.

(** The clock pattern reads a normal time. *)
Lemma clock_normal_path (t x : pystr) (pv : option char) (cs : list (nat * pystr)) :
  clock_normal t ->
  exists st', path CLOCK (mkState pv (t ++ x) cs) st'
              /\ rest st' = x /\ caps st' = cs /\ ~ In 93%N t.
Proof.
  intros [a [b [d1 [d2 [suf [-> [Hd Hsuf]]]]]]].
  cbn [forallb] in Hd. rewrite !andb_true_iff in Hd.
  destruct Hd as [Ha [Hb [Hd1 [Hd2 _]]]].
  pose proof (digit_decimal a Ha) as Ha'. pose proof (digit_decimal b Hb) as Hb'.
  pose proof (digit_decimal d1 Hd1) as Hd1'. pose proof (digit_decimal d2 Hd2) as Hd2'.
  assert (Hnrb : forall c, is_digit_ascii c = true -> c <> 93%N).
  { intros c Hc ->. discriminate. }
  assert (Hin : ~ In 93%N ([a; b] ++ py ":" ++ [d1; d2] ++ suf)).
  { cbn [app py map list_ascii_of_string In].
    intros H.
    destruct H as [H|[H|[H|[H|[H|H]]]]];
      [exact (Hnrb _ Ha H)|exact (Hnrb _ Hb H)|discriminate
      |exact (Hnrb _ Hd1 H)|exact (Hnrb _ Hd2 H)|].
    destruct Hsuf as [-> | [-> | ->]]; cbn in H;
      repeat destruct H as [H|H]; try contradiction; discriminate. }
  unfold CLOCK.
  change (cats [digit; Opt digit; lit (py ":"); digit; digit;
                Opt (cats [Opt ws; Chr (fun c => mem c (py "AaPp"));
                           Chr (fun c => mem c (py "Mm"))])])
    with (Cat digit (Cat (Opt digit) (Cat (Chr (N.eqb 58)) (Cat digit (Cat digit
            (Opt (Cat (Opt ws) (Cat (Chr (fun c => mem c (py "AaPp")))
                                    (Chr (fun c => mem c (py "Mm"))))))))))).
  destruct Hsuf as [-> | [-> | ->]]; eexists; split.
  - eapply path_cat; [eapply path_chr; [reflexivity|exact Ha']|].
    eapply path_cat; [apply path_alt_l; eapply path_chr; [reflexivity|exact Hb']|].
    eapply path_cat; [eapply path_chr; [reflexivity|reflexivity]|].
    eapply path_cat; [eapply path_chr; [reflexivity|exact Hd1']|].
    eapply path_cat; [eapply path_chr; [reflexivity|exact Hd2']|].
    apply path_alt_r. apply path_eps.
  - repeat split. exact Hin.
  - eapply path_cat; [eapply path_chr; [reflexivity|exact Ha']|].
    eapply path_cat; [apply path_alt_l; eapply path_chr; [reflexivity|exact Hb']|].
    eapply path_cat; [eapply path_chr; [reflexivity|reflexivity]|].
    eapply path_cat; [eapply path_chr; [reflexivity|exact Hd1']|].
    eapply path_cat; [eapply path_chr; [reflexivity|exact Hd2']|].
    apply path_alt_l.
    eapply path_cat; [apply path_alt_l; eapply path_chr; [reflexivity|reflexivity]|].
    eapply path_cat; [eapply path_chr; [reflexivity|reflexivity]|].
    eapply path_chr; [reflexivity|reflexivity].
  - repeat split. exact Hin.
  - eapply path_cat; [eapply path_chr; [reflexivity|exact Ha']|].
    eapply path_cat; [apply path_alt_l; eapply path_chr; [reflexivity|exact Hb']|].
    eapply path_cat; [eapply path_chr; [reflexivity|reflexivity]|].
    eapply path_cat; [eapply path_chr; [reflexivity|exact Hd1']|].
    eapply path_cat; [eapply path_chr; [reflexivity|exact Hd2']|].
    apply path_alt_l.
    eapply path_cat; [apply path_alt_l; eapply path_chr; [reflexivity|reflexivity]|].
    eapply path_cat; [eapply path_chr; [reflexivity|reflexivity]|].
    eapply path_chr; [reflexivity|reflexivity].
  - repeat split. exact Hin.
Qed.

Lemma issue_text_assoc (ev : event) (t : pystr) :
  issue_text ev ++ t
  = py "- [" ++ time ev ++ py "][" ++ platform ev ++ py "]" ++ py " " ++ desc ev ++ t.
Proof. unfold issue_text. rewrite <- !app_assoc. reflexivity. Qed.

(** Where a well-formed issue line begins, the search finds it, with the
    three fields as groups, up to the end of the line. *)
Lemma issue_line_match (pv : option char) (ev : event) (t : pystr) :
  line_start pv = true -> issue_ok ev -> ~ In LF (desc ev) ->
  (t = [] \/ exists t', t = LF :: t') ->
  exists m, run ISSUE_RE (mkState pv (issue_text ev ++ t) []) Some = Some m
            /\ caps m = [(3, desc ev); (2, platform ev); (1, time ev)]
            /\ rest m = t.
Proof.
  intros Hl [Hck [Hpne [Hpa [Hdne Hds]]]] Hdl Ht.
  assert (Hex : exists st', path ISSUE_RE (mkState pv (issue_text ev ++ t) []) st').
  { rewrite issue_text_assoc, issue_re_shape.
    destruct (clock_normal_path (time ev)
                (py "][" ++ platform ev ++ py "]" ++ py " " ++ desc ev ++ t)
                (adv pv (py "- [")) [] Hck) as [c1 [Hc1 [Hr1 [Hcc1 _]]]].
    eexists.
    eapply path_cat; [apply path_bol; now rewrite at_bol_line_start|].
    eapply path_cat; [apply path_lit_intro|].
    eapply path_cat; [apply path_group; exact Hc1|].
    rewrite (set_cap_reads 1 _ c1 (time ev)) by (cbn [rest]; now rewrite Hr1).
    rewrite Hr1, Hcc1.
    eapply path_cat; [apply path_lit_intro|].
    eapply path_cat; [apply path_group_chars_intro; assumption|].
    eapply path_cat; [apply path_lit_intro|].
    eapply path_cat;
      [apply (path_plus_chr_intro is_space (py " ")); [discriminate|reflexivity]|].
    eapply path_cat.
    { apply path_group. apply (path_star_chr_intro _ (desc ev) t).
      apply forallb_forall. intros c Hc. apply negb_true_iff, N.eqb_neq.
      intros ->. now apply Hdl. }
    apply path_eol. cbn [rest set_cap].
    destruct Ht as [-> | [t' ->]]; reflexivity. }
  destruct Hex as [st0 Hst0].
  destruct (run_complete _ _ _ Some st0 Hst0 eq_refl) as [m Hm].
  exists m. split; [exact Hm|].
  destruct (run_sound _ _ _ _ Hm) as [st' [Hp Hst']]. injection Hst' as ->.
  destruct (issue_inv _ _ _ Hp)
    as [_ [w1 [w2 [w3 [w4 [Hs [Hf1 [Hne2 [Hf2 [Hne3 [Hf3 [Hl4 [Heol Hc]]]]]]]]]]]]].
  rewrite issue_text_assoc in Hs. apply app_inv_head in Hs.
  destruct (clock_normal_path (time ev) [] None [] Hck) as [_ [_ [_ [_ Htrb]]]].
  change (py "][" ++ platform ev ++ py "]" ++ py " " ++ desc ev ++ t)
    with (93%N :: 91%N :: platform ev ++ 93%N :: 32%N :: desc ev ++ t) in Hs.
  change (py "][" ++ w2 ++ py "]" ++ w3 ++ w4 ++ rest m)
    with (93%N :: 91%N :: w2 ++ 93%N :: w3 ++ w4 ++ rest m) in Hs.
  destruct (first_rb_split _ _ _ _ Hs Htrb (clock_char_no_rb _ Hf1)) as [<- Hs1].
  injection Hs1 as Hs1.
  destruct (first_rb_split _ _ _ _ Hs1 (alnum_no_rb _ Hpa) (alnum_no_rb _ Hf2))
    as [<- Hs2].
  destruct (strip_fixed_hd (desc ev) Hds Hdne) as [d0 [D' [HD Hd0]]].
  destruct w3 as [|x w3]; [congruence|].
  cbn [app] in Hs2. injection Hs2 as <- Hs2.
  assert (Hw3 : w3 = []).
  { destruct w3 as [|y w3]; [reflexivity|].
    rewrite HD in Hs2. cbn [app] in Hs2. injection Hs2 as <- _.
    cbn [forallb] in Hf3. rewrite !andb_true_iff in Hf3.
    destruct Hf3 as [_ [Hf3 _]]. congruence. }
  subst w3. cbn [app] in Hs2.
  assert (Hend : desc ev = w4 /\ t = rest m).
  { unfold at_eol in Heol.
    destruct (rest m) as [|c r] eqn:Hrm.
    - rewrite app_nil_r in Hs2. destruct Ht as [-> | [t' ->]].
      + rewrite app_nil_r in Hs2. now split.
      + exfalso. apply Hl4. rewrite <- Hs2. apply in_or_app. right. now left.
    - apply andb_true_iff in Heol. destruct Heol as [Hc' _].
      apply N.eqb_eq in Hc'. subst c.
      destruct Ht as [-> | [t' ->]].
      + exfalso. apply Hdl. rewrite app_nil_r in Hs2. rewrite Hs2.
        apply in_or_app. right. now left.
      + destruct (first_split LF _ _ _ _ Hs2 Hdl Hl4) as [-> ->]. now split. }
  destruct Hend as [<- <-]. split; [exact Hc|reflexivity].
Qed.

Lemma scan_issue_lfs (k : nat) (pv : option char) (s : pystr) :
  finditer_aux ISSUE_RE 0 pv (repeat LF k ++ s)
  = finditer_aux ISSUE_RE 0 (match k with O => pv | S _ => Some LF end) s.
Proof.
  revert pv. induction k as [|k IH]; intros pv; [reflexivity|].
  cbn [repeat app]. rewrite finditer_step by (now apply no_issue_other).
  rewrite IH. now destruct k.
Qed.

Lemma scan_issue_end (pv : option char) : finditer_aux ISSUE_RE 0 pv [] = [].
Proof. apply finditer_nil. now apply no_issue_other. Qed.

(** The matches of the issue pattern in a run of issue lines are these
    lines, one for one. *)
Lemma scan_issues (evs : list event) (pv : option char) :
  line_start pv = true -> evs <> [] ->
  Forall (fun ev => issue_ok ev /\ ~ In LF (desc ev)) evs ->
  exists ms,
    Forall2 (fun m ev => caps m = [(3, desc ev); (2, platform ev); (1, time ev)])
            ms evs
    /\ finditer_aux ISSUE_RE 0 pv (join [LF] (map issue_text evs)) = ms.
Proof.
  intros Hl Hne Hall. revert pv Hl.
  induction Hall as [|ev evs [Hok Hdl] Hall IH]; [congruence|]. intros pv Hl.
  destruct evs as [|ev2 evs].
  - cbn [map join].
    destruct (issue_line_match pv ev [] Hl Hok Hdl (or_introl eq_refl))
      as [m [Hm [Hc Hr]]].
    exists [m]. split; [repeat constructor; exact Hc|].
    rewrite <- (app_nil_r (issue_text ev)). rewrite <- Hr in *.
    rewrite finditer_match; [|discriminate|exact Hm].
    rewrite Hr. now rewrite scan_issue_end.
  - destruct (IH ltac:(discriminate) (Some LF) eq_refl) as [ms [Hms Heq]].
    change (map issue_text (ev :: ev2 :: evs))
      with (issue_text ev :: map issue_text (ev2 :: evs)).
    rewrite join_cons by discriminate.
    set (tl_ := join [LF] (map issue_text (ev2 :: evs))) in *.
    destruct (issue_line_match pv ev (LF :: tl_) Hl Hok Hdl
                (or_intror (ex_intro _ tl_ eq_refl)))
      as [m [Hm [Hc Hr]]].
    exists (m :: ms). split; [now constructor|].
    rewrite <- Hr in *.
    rewrite finditer_match; [|discriminate|exact Hm].
    rewrite Hr. rewrite finditer_step by (now apply no_issue_other).
    now rewrite Heq.
Qed.

Lemma join_blank_lines (k : nat) (X : list pystr) :
  X <> [] -> join [LF] (repeat [] k ++ X) = repeat LF k ++ join [LF] X.
Proof.
  intros HX. induction k as [|k IH]; [reflexivity|].
  cbn [repeat app]. rewrite join_cons.
  - rewrite IH. reflexivity.
  - destruct k; [exact HX|discriminate].
Qed.

Lemma join_blank_only (k : nat) : join [LF] (repeat [] k) = repeat LF (pred k).
Proof.
  induction k as [|k IH]; [reflexivity|].
  destruct k as [|k]; [reflexivity|].
  change (repeat [] (S (S k))) with ([] :: repeat (@nil char) (S k)).
  rewrite join_cons by discriminate. rewrite IH. reflexivity.
Qed.

Lemma clock_normal_strip (t : pystr) : clock_normal t -> strip t = t.
Proof.
  intros [a [b [d1 [d2 [suf [-> [Hd Hsuf]]]]]]].
  cbn [forallb] in Hd. rewrite !andb_true_iff in Hd.
  destruct Hd as [Ha [_ [_ [Hd2 _]]]].
  assert (Hns : forall c, is_digit_ascii c = true -> is_space c = false).
  { intros c Hc. unfold is_digit_ascii in Hc. apply andb_true_iff in Hc.
    destruct Hc as [H1 H2]. apply N.leb_le in H1, H2.
    destruct (is_space c) eqn:Hs; [|reflexivity].
    unfold is_space, mem in Hs. apply existsb_exists in Hs.
    destruct Hs as [x [Hin Hx]]. apply N.eqb_eq in Hx. subst x.
    cbn [In] in Hin. exfalso. intuition lia. }
  destruct Hsuf as [-> | [-> | ->]].
  - change ([a; b] ++ py ":" ++ [d1; d2] ++ []) with (a :: [b; 58%N; d1] ++ [d2]).
    apply strip_keep; auto.
  - change ([a; b] ++ py ":" ++ [d1; d2] ++ py " AM")
      with (a :: [b; 58%N; d1; d2; 32%N; 65%N] ++ [77%N]).
    apply strip_keep; auto.
  - change ([a; b] ++ py ":" ++ [d1; d2] ++ py " PM")
      with (a :: [b; 58%N; d1; d2; 32%N; 80%N] ++ [77%N]).
    apply strip_keep; auto.
Qed.

Lemma In_slice (X : Type) (x : X) (s e : nat) (l : list X) :
  In x (skipn s (firstn e l)) -> In x l.
Proof.
  intros H. rewrite <- (firstn_skipn e l). apply in_or_app. left.
  rewrite <- (firstn_skipn s (firstn e l)). apply in_or_app. now right.
Qed.

(** The list read from a region of issue lines. *)
Lemma issues_of_region (k : nat) (evs : list event) :
  Forall (fun ev => issue_ok ev /\ ~ In LF (desc ev)) evs ->
  map (fun m => mkEvent (strip (grp 1 m)) (str_lower (grp 2 m)) (strip (grp 3 m)))
      (finditer ISSUE_RE (join [LF] (repeat [] k ++ map issue_text evs)))
  = evs.
Proof.
  intros Hall. unfold finditer. destruct evs as [|ev evs].
  - cbn [map]. rewrite app_nil_r, join_blank_only.
    rewrite <- (app_nil_r (repeat LF (pred k))), scan_issue_lfs, scan_issue_end.
    reflexivity.
  - rewrite join_blank_lines by discriminate. rewrite scan_issue_lfs.
    destruct (scan_issues (ev :: evs) (match k with O => None | S _ => Some LF end))
      as [ms [Hms ->]]; [now destruct k|discriminate|exact Hall|].
    clear - Hms Hall A. revert Hms Hall. generalize (ev :: evs) as l0.
    intros l0 Hms.
    induction Hms as [|m e ms l1 Hm _ IH]; intros Hall; [reflexivity|].
    inversion Hall as [|? ? [[Hck [_ [Hpa [_ Hds]]]] _] Hall']; subst.
    cbn [map]. rewrite (IH Hall'). f_equal.
    unfold grp. rewrite Hm. cbn [group Nat.eqb].
    rewrite (clock_normal_strip _ Hck), (lower_fixes _ Hpa), Hds.
    now destruct e.
Qed.

(** The list read from a document whose Issues Found section holds issue
    lines. *)
Lemma issues_list_of_section (text : pystr) (k : nat) (evs : list event) :
  section_lines ISSUES_HEADERS (splitlines text)
  = repeat [] k ++ map issue_text evs ->
  Forall issue_ok evs ->
  issues_list text = evs.
Proof.
  intros Hsec Hok.
  assert (Hall : Forall (fun ev => issue_ok ev /\ ~ In LF (desc ev)) evs).
  { apply Forall_forall. intros ev Hin.
    rewrite Forall_forall in Hok. split; [now apply Hok|].
    assert (Hl : In (issue_text ev) (splitlines text)).
    { assert (H : In (issue_text ev)
                     (section_lines ISSUES_HEADERS (splitlines text))).
      { rewrite Hsec. apply in_or_app. right. now apply in_map. }
      unfold section_lines in H.
      destruct (_section_bounds (splitlines text) ISSUES_HEADERS) as [[s e]|];
        [|destruct H].
      now apply In_slice in H. }
    pose proof (splitlines_break_free text) as Hbf.
    rewrite Forall_forall in Hbf. specialize (Hbf _ Hl).
    intros Hd. assert (Hlb : is_linebreak LF = false).
    { apply Hbf. unfold issue_text. rewrite !in_app_iff. auto 10. }
    discriminate. }
  unfold issues_list, extract_issues_region. cbv zeta.
  unfold section_lines in Hsec.
  destruct (_section_bounds (splitlines text) ISSUES_HEADERS) as [[s e]|].
  - rewrite Hsec. now apply issues_of_region.
  - destruct k; [|discriminate]. destruct evs; [|discriminate]. reflexivity.
Qed.

End WithAscii.

End IssueScan.

(** ** The properties *)

Import LedgerFacts StepsFacts DictFacts FreshFacts RoundTripFacts TimeFacts.
Import ScanFacts FreshCodec FreshRound ReheadFacts IssueScan.

(** X1.  The identifier of an issue, when it can be computed, is twelve
    characters long, each a digit or a letter from [a] to [f]. *)
Theorem event_id_format (ev : event) (ev_id : pystr) :
  generate_event_id ev = Ok ev_id ->
  length ev_id = 12
  /\ forallb (fun c => is_digit_ascii c || ((97 <=? c)%N && (c <=? 102)%N)) ev_id
     = true.
Proof.
  unfold generate_event_id.
  destruct (Sha1.encode_utf8 _) as [raw|x]; cbn [bind]; [|discriminate].
  intros H. assert (Hid : ev_id = firstn 12 (Sha1.hexdigest raw)) by congruence.
  clear H. subst ev_id. destruct (hexdigest_spec raw) as [Hlen Hhex]. split.
  - rewrite length_firstn, Hlen. reflexivity.
  - rewrite <- (firstn_skipn 12 (Sha1.hexdigest raw)), forallb_app in Hhex.
    apply andb_true_iff in Hhex. apply Hhex.
Qed.

Lemma event_id_format_witness :
  generate_event_id Samples.crash = Ok (py "afa3ad5f3a96")
  /\ length (py "afa3ad5f3a96") = 12.
Proof.
  assert (H : generate_event_id Samples.crash = Ok (py "afa3ad5f3a96"))
    by (vm_compute; reflexivity).
  split; [exact H|]. exact (proj1 (event_id_format Samples.crash _ H)).
Defined.

(** X2.  Computing the identifier fails only on text that UTF-8 cannot
    encode: for fields made of Unicode code points, it raises
    [UnicodeEncodeError] when a field holds a surrogate (U+D800 to U+DFFF),
    and gives an identifier otherwise. *)
Theorem event_id_errors (ev : event) :
  Forall (fun c => (c < 0x110000)%N) (time ev ++ platform ev ++ desc ev) ->
  if existsb (fun c => (0xD800 <=? c)%N && (c <=? 0xDFFF)%N)
       (time ev ++ platform ev ++ desc ev)
  then generate_event_id ev = Raise UnicodeEncodeError
  else exists ev_id, generate_event_id ev = Ok ev_id.
Proof.
  intros Hall.
  assert (Hall' : Forall (fun c => (c < 0x110000)%N)
                    (time ev ++ py "|" ++ platform ev ++ py "|" ++ desc ev)).
  { rewrite !Forall_app in *. destruct Hall as [H1 [H2 H3]].
    repeat split; try assumption; repeat constructor. }
  pose proof (encode_utf8_spec _ Hall') as H.
  unfold generate_event_id.
  change (py "|") with [124%N] in *.
  rewrite !existsb_app in *. cbn [existsb] in H.
  replace ((0xD800 <=? 124)%N && (124 <=? 0xDFFF)%N) with false in H by reflexivity.
  cbn [orb] in H.
  destruct (existsb _ (time ev) || (existsb _ (platform ev) || existsb _ (desc ev))).
  - now rewrite H.
  - destruct H as [bs ->]. cbn [bind]. eexists. reflexivity.
Qed.

Lemma event_id_errors_witness :
  generate_event_id (mkEvent (py "09:05 PM") (py "ps5") [0xD800%N])
  = Raise UnicodeEncodeError.
Proof.
  apply (event_id_errors (mkEvent (py "09:05 PM") (py "ps5") [0xD800%N])).
  repeat constructor.
Defined.

(** X3.  The identifier does not keep the fields apart: the issue with time
    [t|x] and platform [p] and the issue with time [t] and platform [x|p]
    have the same identifier, so that once the first is promoted, promoting
    the second gives the document back as it is. *)
Theorem colliding_issue_not_promoted {E : PyEnv} (text t x p d : pystr)
    (sp sm : pystr) (pl : list pystr) (ob ex : pystr)
    (sp' sm' : pystr) (pl' : list pystr) (ob' ex' ev_id : pystr) :
  generate_event_id (mkEvent (t ++ py "|" ++ x) p d) = Ok ev_id ->
  generate_event_id (mkEvent t (x ++ py "|" ++ p) d) = Ok ev_id
  /\ exists out,
       append_bug_and_move_issue text (mkEvent (t ++ py "|" ++ x) p d)
         sp sm pl ob ex = Ok out
       /\ append_bug_and_move_issue out (mkEvent t (x ++ py "|" ++ p) d)
            sp' sm' pl' ob' ex' = Ok out.
Proof.
  intros Hid.
  assert (Hid' : generate_event_id (mkEvent t (x ++ py "|" ++ p) d) = Ok ev_id).
  { rewrite <- Hid. unfold generate_event_id. cbn [time platform desc].
    now rewrite <- !app_assoc. }
  split; [exact Hid'|].
  destruct (promotion_marks text _ sp sm pl ob ex ev_id Hid) as [out [H1 [Hc Hm]]].
  exists out. split; [exact H1|].
  apply (promotion_short_circuit out _ sp' sm' pl' ob' ex' ev_id Hid'); [|exact Hm].
  now apply scaffolder_fixpoint.
Qed.

Lemma colliding_issue_not_promoted_witness :
  exists ev_id out,
    generate_event_id (mkEvent (py "09:05 PM") (py "a|ps5") (py "Crash")) = Ok ev_id
    /\ @append_bug_and_move_issue Samples.env Samples.notes
         (mkEvent (py "09:05 PM|a") (py "ps5") (py "Crash"))
         [] (py "custom") [] [] [] = Ok out
    /\ @append_bug_and_move_issue Samples.env out
         (mkEvent (py "09:05 PM") (py "a|ps5") (py "Crash"))
         [] (py "custom") [] [] [] = Ok out.
Proof.
  destruct (generate_event_id (mkEvent (py "09:05 PM|a") (py "ps5") (py "Crash")))
    as [ev_id|e] eqn:Hid; [|vm_compute in Hid; discriminate].
  exists ev_id.
  destruct (@colliding_issue_not_promoted Samples.env Samples.notes
              (py "09:05 PM") (py "a") (py "ps5") (py "Crash")
              [] (py "custom") [] [] [] [] (py "custom") [] [] [] ev_id Hid)
    as [H1 [out [H2 H3]]].
  exists out. split; [exact H1|]. split; [exact H2|exact H3].
Defined.

(** X4.  The operations of the ledger do not fail: adding, deleting and
    triaging an issue return a document for every input, and a promotion
    returns a document unless the identifier of the issue cannot be
    computed, in which case it raises that error. *)
Theorem ledger_operations_total {E : PyEnv} :
  (forall text t p d, exists out, add_issue_line text t p d = Ok out)
  /\ (forall text ev, exists out, delete_issue_line text ev = Ok out)
  /\ (forall text ev bugnum, exists out, move_issue_to_found text ev bugnum = Ok out)
  /\ (forall text ev sp sm pl ob ex,
        match generate_event_id ev with
        | Ok _ => exists out, append_bug_and_move_issue text ev sp sm pl ob ex = Ok out
        | Raise e => append_bug_and_move_issue text ev sp sm pl ob ex = Raise e
        end).
Proof.
  split; [|split; [|split]].
  - intros text t p d.
    destruct (add_issue_line_complete text t p d) as [out [H _]]. now exists out.
  - intros text ev. unfold delete_issue_line.
    destruct (_section_bounds (splitlines text) ISSUES_HEADERS) as [[s e]|] eqn:Hb.
    + destruct (section_bounds_range _ _ _ _ Hb) as [idx [_ [_ [Hse Hel]]]].
      destruct (remove_issue_spec (splitlines text) ev s e Hse Hel)
        as [[Hr _]|[k [Hr _]]]; rewrite Hr; cbn [bind]; eexists; reflexivity.
    + eexists. reflexivity.
  - intros text ev bugnum.
    destruct (move_issue_to_found_complete text ev bugnum) as [out [H _]].
    now exists out.
  - intros text ev sp sm pl ob ex.
    destruct (generate_event_id ev) as [ev_id|e] eqn:Hid.
    + destruct (promotion_marks text ev sp sm pl ob ex ev_id Hid) as [out [H _]].
      now exists out.
    + destruct (append_bug_and_move_issue_eq text ev sp sm pl ob ex)
        as [s [e0 [bs [be [_ [_ Heq]]]]]].
      rewrite Heq, Hid. reflexivity.
Qed.

(** X5.  Adding, triaging and promoting an issue return a document that
    holds the four canonical sections: scaffolding it again changes
    nothing. *)
Theorem ledger_results_scaffolded {E : PyEnv} :
  (forall text t p d out,
      add_issue_line text t p d = Ok out -> find_or_create_sections out = out)
  /\ (forall text ev bugnum out,
        move_issue_to_found text ev bugnum = Ok out ->
        find_or_create_sections out = out)
  /\ (forall text ev sp sm pl ob ex out,
        append_bug_and_move_issue text ev sp sm pl ob ex = Ok out ->
        find_or_create_sections out = out).
Proof.
  split; [|split].
  - intros text t p d out H.
    destruct (add_issue_line_complete text t p d) as [out' [H' Hc]].
    rewrite H in H'. injection H' as <-. now apply scaffolder_fixpoint.
  - intros text ev bugnum out H.
    destruct (move_issue_to_found_complete text ev bugnum) as [out' [H' Hc]].
    rewrite H in H'. injection H' as <-. now apply scaffolder_fixpoint.
  - intros text ev sp sm pl ob ex out H.
    destruct (generate_event_id ev) as [ev_id|e] eqn:Hid.
    + destruct (promotion_marks text ev sp sm pl ob ex ev_id Hid) as [out' [H' [Hc _]]].
      rewrite H in H'. injection H' as <-. now apply scaffolder_fixpoint.
    + destruct (append_bug_and_move_issue_eq text ev sp sm pl ob ex)
        as [s [e0 [bs [be [_ [_ Heq]]]]]].
      rewrite Heq, Hid in H. discriminate.
Qed.

(** X6.  Deleting an issue removes one line of Issues Found: the first whose
    stripped text is the issue text or, when there is none, the first that
    matches the time and platform prefix.  The other lines are kept in
    their order, joined by line feeds and closed by one. *)
Theorem delete_issue_line_removes_first (text : pystr) (ev : event)
    (istart iend k : nat) :
  let ls := splitlines text in
  _section_bounds ls ISSUES_HEADERS = Some (istart, iend) ->
  istart <= k < iend ->
  (str_eqb (strip (nth k ls [])) (issue_text ev) = true
   /\ forall j, istart <= j < k ->
                str_eqb (strip (nth j ls [])) (issue_text ev) = false)
  \/ ((forall j, istart <= j < iend ->
                 str_eqb (strip (nth j ls [])) (issue_text ev) = false)
      /\ matches (issue_pref ev) (nth k ls []) = true
      /\ forall j, istart <= j < k -> matches (issue_pref ev) (nth j ls []) = false) ->
  delete_issue_line text ev = Ok (join_lines (firstn k ls ++ skipn (S k) ls)).
Proof.
  intros ls Hb Hk Hfirst.
  destruct (section_bounds_range _ _ _ _ Hb) as [_ [_ [_ [_ Hel]]]].
  unfold delete_issue_line. fold ls. rewrite Hb.
  rewrite (remove_issue_first ls ev istart iend k Hk Hel Hfirst). reflexivity.
Qed.

Lemma delete_issue_line_removes_first_witness :
  delete_issue_line Samples.notes Samples.crash
  = Ok (join_lines (firstn 7 (splitlines Samples.notes)
                    ++ skipn 8 (splitlines Samples.notes))).
Proof.
  apply (delete_issue_line_removes_first Samples.notes Samples.crash 7 8 7).
  - vm_compute. reflexivity.
  - lia.
  - left. split; [vm_compute; reflexivity|]. intros j Hj. lia.
Defined.

(** X7.  The bounds of a section lie inside the document, after the first
    line that matches the section's header; no line from the start to the
    end opens a section, and the end is the end of the document or a line
    that does. *)
Theorem section_bounds_invariant (lines : list pystr) (K : list regex) (s e : nat) :
  _section_bounds lines K = Some (s, e) ->
  (exists idx, idx < s <= idx + 2
               /\ header_match K (nth idx lines []) = true
               /\ forall j, j < idx -> header_match K (nth j lines []) = false)
  /\ s <= e <= length lines
  /\ (forall j, s <= j < e -> is_heading (nth j lines []) = false)
  /\ (e < length lines -> is_heading (nth e lines []) = true).
Proof.
  intros Hb.
  destruct (section_bounds_elim _ _ _ _ Hb)
    as [idx [Hlt [Hm [Hfirst [Hs [Hse [Hbefore Hat]]]]]]].
  split; [|now repeat split].
  exists idx. split; [|now split].
  destruct (is_divider lines (idx + 1)); lia.
Qed.

Lemma section_bounds_invariant_witness :
  _section_bounds (splitlines Samples.notes) ISSUES_HEADERS = Some (7, 8)
  /\ is_heading (nth 7 (splitlines Samples.notes) []) = false
  /\ is_heading (nth 8 (splitlines Samples.notes) []) = true.
Proof.
  assert (Hb : _section_bounds (splitlines Samples.notes) ISSUES_HEADERS = Some (7, 8))
    by (vm_compute; reflexivity).
  destruct (section_bounds_invariant _ _ _ _ Hb) as [_ [_ [Hin Hend]]].
  split; [exact Hb|]. split.
  - apply Hin. lia.
  - apply Hend. vm_compute. lia.
Defined.

(** X8.  The steps block is its title, in default mode the two fixed steps,
    and then the given lines that are not blank, stripped and numbered one
    after the other (from 3 in default mode, from 1 otherwise); blank lines
    use up no number, and when no line is left a single empty step takes
    the first number. *)
Theorem build_steps_block_numbered_spec (template_key mode : pystr)
    (plain_lines : list pystr) :
  let kept := filter (fun l => negb (str_eqb l [])) (map strip plain_lines) in
  let numbered k :=
    map (fun il => dec (N.of_nat (fst il)) ++ py ". " ++ snd il)
        (combine (seq k (length kept)) kept) in
  build_steps_block_numbered template_key mode plain_lines
  = join [LF]
      (if str_eqb mode (py "default")
       then [py "Steps to Reproduce:";
             py "1. Launch the title > create or select build / save.";
             py "2. " ++ (if str_eqb template_key (py "gen5")
                          then py "Enter the City."
                          else py "Enter the Neighborhood.")]
            ++ match kept with [] => [py "3. "] | _ :: _ => numbered 3 end
       else [py "Steps to Reproduce:"]
            ++ match kept with [] => [py "1. "] | _ :: _ => numbered 1 end).
Proof.
  cbv zeta. unfold build_steps_block_numbered.
  change 3%N with (N.of_nat 3). change 1%N with (N.of_nat 1).
  rewrite !number_lines_spec.
  set (kept := filter (fun l => negb (str_eqb l [])) (map strip plain_lines)).
  destruct (str_eqb mode (py "default")).
  - destruct kept as [|x kept'].
    + reflexivity.
    + replace (N.of_nat (3 + length (x :: kept')) =? N.of_nat 3)%N with false.
      * reflexivity.
      * symmetry. apply N.eqb_neq. cbn [length]. lia.
  - destruct kept as [|x kept'].
    + reflexivity.
    + replace (N.of_nat (1 + length (x :: kept')) =? N.of_nat 1)%N with false.
      * reflexivity.
      * symmetry. apply N.eqb_neq. cbn [length]. lia.
Qed.

(** X9.  The user names read from a text are bound to platform names only:
    every key of the dictionary is one of [ALL_PLATFORMS], whatever the
    text holds.  The generation tags [gen4] and [gen5] are therefore never
    bound, with or without a numeric value. *)
Theorem parse_usernames_keys {E : PyEnv} (text k v : pystr) :
  dict_get (parse_usernames text) k = Some v ->
  In k ALL_PLATFORMS /\ k <> py "gen4" /\ k <> py "gen5".
Proof.
  intros Hget. apply dict_get_in in Hget.
  assert (Hall : Forall (fun kv => In (fst kv) ALL_PLATFORMS) (parse_usernames text)).
  { unfold parse_usernames.
    generalize (finditer USERNAME_RE text) as ms.
    assert (Hnil : Forall (fun kv : pystr * pystr => In (fst kv) ALL_PLATFORMS) [])
      by constructor.
    revert Hnil. generalize (@nil (pystr * pystr)) as d.
    intros d Hd ms. revert d Hd. induction ms as [|m ms IH]; intros d Hd; [exact Hd|].
    cbn [fold_left]. apply IH.
    destruct (str_in (str_lower (grp 1 m)) [py "gen4"; py "gen5"]
              && is_number (strip (grp 2 m))); [exact Hd|].
    destruct (str_in (str_lower (grp 1 m)) ALL_PLATFORMS) eqn:Hin; [|exact Hd].
    apply (dict_set_keys (fun k => In k ALL_PLATFORMS)); [|exact Hd].
    unfold str_in in Hin. apply existsb_exists in Hin.
    destruct Hin as [y [Hy Heq]]. apply str_eqb_eq in Heq. now subst. }
  rewrite Forall_forall in Hall. specialize (Hall _ Hget). cbn [fst] in Hall.
  split; [exact Hall|].
  split; intros ->; vm_compute in Hall; intuition discriminate.
Qed.

Lemma parse_usernames_keys_witness :
  In (py "ps5") ALL_PLATFORMS /\ py "ps5" <> py "gen4" /\ py "ps5" <> py "gen5".
Proof.
  apply (@parse_usernames_keys Samples.env Samples.notes (py "ps5") (py "alice")).
  vm_compute. reflexivity.
Defined.

(** X10.  A new document is the header followed by an empty line and the
    four empty sections in canonical order, and the scaffolder finds
    nothing to add to it: it returns the document as it is, whatever the
    date, the user names and the build numbers are. *)
Theorem header_block_scaffolded {E : PyEnv} (date : pystr) (us : dict)
    (g4 g5 : pystr) :
  header_block date us g4 g5
  = header_only_block date us g4 g5
    ++ lines_text [[]; ISSUES_TITLE; DIVIDER; []; FOUND_TITLE; DIVIDER; [];
                   REPORTS_TITLE; DIVIDER; []; BUGS_TITLE; DIVIDER]
  /\ find_or_create_sections (header_block date us g4 g5)
     = header_block date us g4 g5.
Proof.
  split.
  - rewrite header_block_text, HeaderText.header_only_block_text.
    now rewrite lines_text_app.
  - apply scaffolder_fixpoint. unfold header_block. cbv zeta.
    match goal with
    | |- complete (splitlines (join_lines (?X ++ ?S))) = true =>
        generalize X; intros X0
    end.
    assert (Hin : forall (K : list regex) (t : pystr),
               In t [ISSUES_TITLE; FOUND_TITLE; REPORTS_TITLE; BUGS_TITLE] ->
               header_match K t = true ->
               has_section K
                 (splitlines
                    (join_lines
                       (X0 ++ [[]; ISSUES_TITLE; DIVIDER; []; FOUND_TITLE; DIVIDER; [];
                               REPORTS_TITLE; DIVIDER; []; BUGS_TITLE; DIVIDER; []])))
               = true).
    { intros K t Ht Hm. apply has_section_in. exists t. split; [|exact Hm].
      apply line_survives.
      - apply in_or_app. right. cbn [In] in Ht |- *.
        destruct Ht as [<- | [<- | [<- | [<- | []]]]]; auto 20.
      - apply break_freeb_ok.
        cbn [In] in Ht. destruct Ht as [<- | [<- | [<- | [<- | []]]]]; reflexivity.
      - cbn [In] in Ht. destruct Ht as [<- | [<- | [<- | [<- | []]]]]; discriminate. }
    unfold complete. rewrite !andb_true_iff. repeat split.
    + apply (Hin _ ISSUES_TITLE); [cbn; auto|apply issues_title_ok].
    + apply (Hin _ FOUND_TITLE); [cbn; auto|apply found_title_ok].
    + apply (Hin _ REPORTS_TITLE); [cbn; auto|apply reports_title_ok].
    + apply (Hin _ BUGS_TITLE); [cbn; auto 10|apply bugs_title_ok].
Qed.

(** X11.  The scaffolder only adds lines: the lines of its result are the
    lines of the text, in their order and with none removed but an empty
    last line, between which only section titles, dividers and empty lines
    have been added. *)
Theorem scaffolder_only_adds (text : pystr) :
  grown scaffold_line (drop_final_blank (splitlines text))
        (splitlines (find_or_create_sections text)).
Proof.
  assert (HP : scaffold_line []) by (unfold scaffold_line; cbn; auto 10).
  rewrite find_or_create_sections_unfold.
  destruct (complete (splitlines text)).
  - now apply grown_drop_final_blank.
  - rewrite splitlines_join_lines
      by (apply scaffold_break_free, splitlines_break_free).
    apply grown_chomp; [exact HP|apply grown_scaffold].
Qed.

(** X12.  Adding an issue and deleting it again gives the document back.
    The document holds the four sections and is in the form the operations
    write (lines joined by line feeds, closed by one); the issue line is
    free of line breaks and Issues Found had no line matching it.  The
    issue deleted is the one the addition wrote: the time normalised, the
    platform in lower case, the description stripped. *)
Theorem add_then_delete_round_trip {E : PyEnv} (text t p d : pystr) :
  let ev := mkEvent (normalize_time_12h t) (str_lower p) (strip d) in
  complete (splitlines text) = true ->
  join_lines (splitlines text) = text ->
  break_free (issue_text ev) ->
  no_issue_match ev text ->
  exists out,
    add_issue_line text t p d = Ok out
    /\ In (issue_text ev) (splitlines out)
    /\ delete_issue_line out ev = Ok text.
Proof.
  intros ev Hc Hnorm Hbf Hno.
  set (ls := splitlines text) in *.
  set (nl := issue_text ev) in *.
  rewrite add_issue_line_eq. cbv zeta.
  rewrite (scaffolder_fixpoint text Hc). fold ls.
  change (py "- [" ++ normalize_time_12h t ++ py "][" ++ str_lower p ++ py "] "
            ++ strip d) with nl.
  destruct (complete_bounds ls Hc) as [[[s e] HI] _].
  rewrite (section_end_some _ _ _ HI). cbn [snd].
  destruct (section_bounds_range _ _ _ _ HI) as [idx [_ [Hidx [Hse Hel]]]].
  set (X := insert_at e [nl] ls).
  assert (HbfX : Forall break_free X).
  { apply Forall_insert_at; [now constructor|apply splitlines_break_free]. }
  assert (Hls : chomp ls = ls).
  { rewrite <- (splitlines_join_lines ls (splitlines_break_free text)).
    now rewrite Hnorm. }
  assert (Hnl : nl <> []) by discriminate.
  assert (HX : chomp X = X).
  { destruct (chomp_cases X) as [H|[H|[Y [HY [H _]]]]]; [exact H| |].
    - apply (f_equal (@length pystr)) in H. unfold X in H.
      rewrite length_insert_at in H. simpl in H. lia.
    - exfalso. unfold X, insert_at in H.
      destruct (exists_last (l := nl :: skipn e ls)) as [Z [z HZ]]; [discriminate|].
      change ([nl] ++ skipn e ls) with (nl :: skipn e ls) in H.
      rewrite HZ, app_assoc in H. apply app_inj_tail in H. destruct H as [_ ->].
      destruct Z as [|z0 Z].
      + injection HZ as Hz _. contradiction.
      + cbn [app] in HZ. injection HZ as _ Hsk.
        assert (Hl : ls = (firstn e ls ++ Z) ++ [[]]).
        { rewrite <- app_assoc, <- Hsk. symmetry. apply firstn_skipn. }
        rewrite Hl in Hls. apply chomp_blank_end in Hls.
        apply app_eq_nil in Hls. destruct Hls as [Hf _].
        apply (f_equal (@length pystr)) in Hf. rewrite length_firstn in Hf.
        simpl in Hf. lia. }
  assert (Hsplit : splitlines (join_lines X) = X).
  { now rewrite (splitlines_join_lines X HbfX). }
  assert (Hnth : forall j, j < e -> nth j X [] = nth j ls []).
  { intros j Hj. unfold X. rewrite nth_insert_at by lia.
    apply Nat.ltb_lt in Hj. now rewrite Hj. }
  assert (Hnle : nth e X [] = nl).
  { unfold X. rewrite nth_insert_at by lia. rewrite Nat.ltb_irrefl.
    replace (e <? e + length [nl]) with true
      by (symmetry; apply Nat.ltb_lt; simpl; lia).
    now rewrite Nat.sub_diag. }
  assert (Hlike : forall j, s <= j < e -> issue_like ev (nth j ls []) = false).
  { unfold no_issue_match in Hno. cbv zeta in Hno. fold ls in Hno.
    now rewrite HI in Hno. }
  eexists. split; [reflexivity|]. split.
  - rewrite Hsplit. rewrite <- Hnle. apply nth_In. unfold X.
    rewrite length_insert_at. simpl. lia.
  - unfold delete_issue_line. rewrite Hsplit.
    pose proof (dash_bracket_plain
                  (normalize_time_12h t ++ py "][" ++ str_lower p ++ py "] " ++ strip d))
      as Hp.
    change (plain_line nl) in Hp.
    pose proof (section_bounds_insert_end _ _ _ _ _ HI Hp) as HbX.
    fold X in HbX. rewrite HbX.
    assert (HlenX : e + 1 <= length X).
    { unfold X. rewrite length_insert_at. simpl. lia. }
    rewrite (remove_issue_first X ev s (e + 1) e ltac:(lia) HlenX).
    + cbn [bind]. unfold X. rewrite delete_at_insert_at by lia. now rewrite Hnorm.
    + destruct (str_eqb (strip nl) (issue_text ev)) eqn:Hex.
      * left. rewrite Hnle. split; [exact Hex|].
        intros j Hj. rewrite Hnth by lia.
        specialize (Hlike j ltac:(lia)). unfold issue_like in Hlike.
        now apply orb_false_iff in Hlike.
      * right. split; [|split].
        -- intros j Hj. destruct (Nat.eq_dec j e) as [->|Hne].
           ++ now rewrite Hnle.
           ++ rewrite Hnth by lia.
              specialize (Hlike j ltac:(lia)). unfold issue_like in Hlike.
              now apply orb_false_iff in Hlike.
        -- rewrite Hnle. apply issue_pref_matches.
        -- intros j Hj. rewrite Hnth by lia.
           specialize (Hlike j ltac:(lia)). unfold issue_like in Hlike.
           now apply orb_false_iff in Hlike.
Qed.

Lemma add_then_delete_round_trip_witness :
  exists out,
    @add_issue_line Samples.env Samples.notes (py "10:00 am") (py "PS5") (py " Freeze ")
    = Ok out
    /\ In (py "- [10:00 AM][ps5] Freeze") (splitlines out)
    /\ delete_issue_line out (mkEvent (py "10:00 AM") (py "ps5") (py "Freeze"))
       = Ok Samples.notes.
Proof.
  apply (@add_then_delete_round_trip Samples.env Samples.notes (py "10:00 am")
           (py "PS5") (py " Freeze ")).
  - vm_compute. reflexivity.
  - vm_compute. reflexivity.
  - apply break_freeb_ok. vm_compute. reflexivity.
  - unfold no_issue_match. cbv zeta.
    replace (_section_bounds (splitlines Samples.notes) ISSUES_HEADERS)
      with (Some (7, 8)) by (vm_compute; reflexivity).
    intros j Hj. assert (j = 7) as -> by lia. vm_compute. reflexivity.
Defined.

(** X13.  The time normaliser returns the clock, or re-renders a recognised
    time: the stripped input is an hour of one or two decimal digits, a
    colon, two minute digits and an optional meridiem, between optional
    white space; the result is the hour as a number on at least two ASCII
    digits, the colon, the minute digits as typed and, after one space,
    the meridiem in upper case ([AM] or [PM]) when there is one. *)
Theorem normalize_time_12h_shape {E : PyEnv} (t : pystr) :
  normalize_time_12h t = now_12h
  \/ exists w0 h mm w1 ap w2,
       strip t = w0 ++ h ++ py ":" ++ mm ++ w1 ++ ap ++ w2
       /\ forallb is_space (w0 ++ w1 ++ w2) = true
       /\ 1 <= length h <= 2 /\ forallb uni_decimal h = true
       /\ length mm = 2 /\ forallb uni_decimal mm = true
       /\ normalize_time_12h t
          = fmt_02d (int_of h) ++ py ":" ++ mm
            ++ match ap with
               | [] => []
               | _ :: _ => py " " ++ map upper_ascii ap
               end
       /\ 2 <= length (fmt_02d (int_of h))
       /\ forallb is_digit_ascii (fmt_02d (int_of h)) = true
       /\ (ap = [] \/ (length ap = 2
                       /\ (map upper_ascii ap = py "AM"
                           \/ map upper_ascii ap = py "PM"))).
Proof.
  destruct (normalize_time_12h_cases t)
    as [H|[w0 [h [mm [w1 [ap [w2 [Hs [H0 [H1 [H2 [Hlh [Hfh [Hlm [Hfm [Hap Hn]]]]]]]]]]]]]]]];
    [now left|right].
  exists w0, h, mm, w1, ap, w2.
  split; [exact Hs|].
  split; [rewrite !forallb_app, H0, H1, H2; reflexivity|].
  split; [exact Hlh|]. split; [exact Hfh|]. split; [exact Hlm|]. split; [exact Hfm|].
  split; [exact Hn|].
  destruct (fmt_02d_digits (int_of h)) as [Hd Hl].
  split; [exact Hl|]. split; [exact Hd|].
  destruct Hap as [->|[a [b [-> [Ha Hb]]]]]; [now left|right].
  split; [reflexivity|]. now apply meridiem_upper.
Qed.

(** X14.  Normalising a time twice is normalising it once.  The interpreter
    is taken to read decimal digits as Python does (no decimal digit is
    white space, each has a value below ten, and the digits 0 to 9 are
    decimal digits with their usual values), and the clock string is taken
    to be in normal form itself. *)
Theorem normalize_time_12h_idempotent {E : PyEnv} (t : pystr) :
  (forall c, uni_decimal c = true ->
             is_space c = false /\ (uni_digit_value c < 10)%N) ->
  (forall c, is_digit_ascii c = true ->
             uni_decimal c = true /\ uni_digit_value c = (c - 48)%N) ->
  normalize_time_12h now_12h = now_12h ->
  normalize_time_12h (normalize_time_12h t) = normalize_time_12h t.
Proof.
  intros Hdec Hasc Hnow.
  destruct (normalize_time_12h_cases t)
    as [H|[w0 [h [mm [w1 [ap [w2 [Hs [H0 [H1 [H2 [Hlh [Hfh [Hlm [Hfm [Hap Hn]]]]]]]]]]]]]]]].
  - now rewrite H.
  - rewrite Hn.
    destruct (fmt_02d_small (int_of h) (int_of_small Hdec h Hlh Hfh))
      as [a [b [Hf [Ha [Hb _]]]]].
    rewrite Hf.
    destruct mm as [|d1 [|d2 [|z mm]]]; simpl in Hlm; try lia.
    cbn [forallb] in Hfm. rewrite andb_true_r in Hfm.
    apply andb_true_iff in Hfm. destruct Hfm as [Hd1 Hd2].
    apply (normalize_normal Hdec Hasc a b d1 d2); try assumption.
    destruct Hap as [-> | [x [y [-> [Hx Hy]]]]]; [now left|right].
    destruct (meridiem_upper x y Hx Hy) as [-> | ->]; [now left|now right].
Qed.

Lemma normalize_time_12h_idempotent_witness :
  @normalize_time_12h Samples.env (@normalize_time_12h Samples.env (py " 9:05 pm"))
  = @normalize_time_12h Samples.env (py " 9:05 pm").
Proof.
  apply (@normalize_time_12h_idempotent Samples.env).
  - intros c Hc. cbn [uni_decimal uni_digit_value Samples.env ascii_env] in *.
    unfold is_digit_ascii in Hc. apply andb_true_iff in Hc. destruct Hc as [H1 H2].
    apply N.leb_le in H1, H2. split; [|lia].
    destruct (is_space c) eqn:Hs; [|reflexivity].
    unfold is_space, mem in Hs. apply existsb_exists in Hs.
    destruct Hs as [x [Hin Hx]]. apply N.eqb_eq in Hx. subst x.
    cbn [In] in Hin. exfalso. intuition lia.
  - intros c Hc. split; [exact Hc|reflexivity].
  - vm_compute. reflexivity.
Defined.

(** X15.  The build numbers read from a text are strings of decimal digits,
    or empty: whatever the text holds, nothing else is returned. *)
Theorem parse_builds_digits {E : PyEnv} (text : pystr) :
  forallb uni_decimal (fst (parse_builds text)) = true
  /\ forallb uni_decimal (snd (parse_builds text)) = true.
Proof.
  unfold parse_builds.
  assert (Hms : Forall (fun m => forallb uni_decimal (grp 2 m) = true)
                       (finditer BUILD_RE text)).
  { apply Forall_forall. intros m Hin. unfold finditer in Hin.
    destruct (finditer_sound _ _ _ _ _ Hin) as [pv' [s' Hr]].
    destruct (run_sound _ _ _ _ Hr) as [st' [Hp Hk]]. injection Hk as ->.
    destruct (build_inv _ _ _ Hp)
      as [g [d [w1 [w2 [bn [w3 [_ [_ [_ [Hd [_ [_ [_ [_ [_ Hc]]]]]]]]]]]]]]].
    unfold grp. rewrite Hc. exact Hd. }
  revert Hms. generalize (finditer BUILD_RE text) as ms.
  assert (H0 : forallb uni_decimal (fst (@nil char, @nil char)) = true
               /\ forallb uni_decimal (snd (@nil char, @nil char)) = true)
    by (split; reflexivity).
  revert H0. generalize (@nil char, @nil char) as acc.
  intros acc Hacc ms. revert acc Hacc.
  induction ms as [|m ms IH]; intros acc Hacc Hms; [exact Hacc|].
  inversion Hms as [|? ? Hm Hms']; subst.
  cbn [fold_left]. apply IH; [|exact Hms'].
  destruct acc as [g4 g5]. cbn [fst snd] in Hacc. destruct Hacc as [H4 H5].
  destruct (str_eqb (str_lower (grp 1 m)) (py "gen4")); cbn [fst snd]; auto.
Qed.

(** X16.  A new document reads back as it was written.  Under the
    conditions of the header round trip (a date token, user names of
    recognised platforms that are not empty, trimmed and free of the
    closing bracket, build numbers of the digits 0 to 9 or empty, an
    interpreter that agrees with ASCII), parsing the text of
    [header_block] gives back the date, the user names and the build
    numbers: the empty line and the sections after the header change
    nothing. *)
Theorem header_block_round_trip {E : PyEnv} {A : AsciiSound} (date : pystr)
    (us : dict) (g4 g5 : pystr) :
  date_token date -> usernames_ok us -> digits g4 -> digits g5 ->
  let text := header_block date us g4 g5 in
  fst (parse_date_and_header_end text) = date
  /\ (forall p, dict_get (parse_usernames text) p = dict_get us p)
  /\ parse_builds text = (g4, g5).
Proof.
  intros Hd Hus H4 H5 text.
  assert (Hbf : break_free date) by apply Hd.
  split; [|split].
  - unfold text. rewrite header_block_text. cbn [app].
    now apply parse_date_of_header.
  - now apply parse_usernames_of_fresh.
  - now apply parse_builds_of_fresh.
Qed.

Lemma header_block_round_trip_witness :
  let text := @header_block Samples.env (py "01-02-2025") Samples.users (py "77")
                (py "123") in
  fst (parse_date_and_header_end text) = py "01-02-2025"
  /\ (forall p, dict_get (@parse_usernames Samples.env text) p
                = dict_get Samples.users p)
  /\ @parse_builds Samples.env text = (py "77", py "123").
Proof.
  apply (@header_block_round_trip Samples.env (ascii_env_sound _)).
  - split; [discriminate|]. split; [reflexivity|].
    split; [apply break_freeb_ok; reflexivity|reflexivity].
  - intros p u H. unfold Samples.users in H. cbn [dict_get] in H.
    destruct (str_eqb (py "ps5") p) eqn:H1.
    + apply str_eqb_eq in H1. subst p. injection H as <-.
      split; [vm_compute; tauto|].
      split; [discriminate|]. split; [reflexivity|].
      cbn. intros H. repeat destruct H as [H|H]; try contradiction; discriminate.
    + destruct (str_eqb (py "pc") p) eqn:H2; [|discriminate].
      apply str_eqb_eq in H2. subst p. injection H as <-.
      split; [vm_compute; tauto|].
      split; [discriminate|]. split; [reflexivity|].
      cbn. intros H. repeat destruct H as [H|H]; try contradiction; discriminate.
  - reflexivity.
  - reflexivity.
Defined.

(** X17.  Replacing the header of a new document keeps the date and the
    sections and writes the new user names and build numbers; the result
    is the new header followed at once by the four sections: the empty
    line after the header and the final line feed of the document are
    gone.  The date is a token, the old user names are free of line
    breaks and the old build numbers are of the digits 0 to 9, or empty;
    the new values are arbitrary. *)
Theorem replace_header_fresh {E : PyEnv} (today date : pystr) (us us' : dict)
    (g4 g5 g4' g5' : pystr) :
  date_token date ->
  (forall p u, dict_get us p = Some u -> break_free u) ->
  digits g4 -> digits g5 ->
  replace_header today (header_block date us g4 g5) us' g4' g5'
  = header_only_block date us' g4' g5'
    ++ join [LF] [ISSUES_TITLE; DIVIDER; []; FOUND_TITLE; DIVIDER; [];
                  REPORTS_TITLE; DIVIDER; []; BUGS_TITLE; DIVIDER].
Proof.
  intros Hd Hus H4 H5.
  assert (Hbf : break_free date) by apply Hd.
  destruct (header_block_lines date us g4 g5 Hbf Hus H4 H5) as [M [HM Hls]].
  assert (Hdate : fst (parse_date_and_header_end (header_block date us g4 g5)) = date).
  { rewrite header_block_text. cbn [app]. now apply parse_date_of_header. }
  assert (Hend : snd (parse_date_and_header_end (header_block date us g4 g5))
                 = 3 + length M).
  { unfold parse_date_and_header_end. cbn [snd]. rewrite Hls.
    change (M ++ skeleton) with (M ++ [] :: tl skeleton).
    now apply header_end_entries. }
  unfold replace_header.
  destruct (parse_date_and_header_end (header_block date us g4 g5)) as [d e].
  cbn [fst snd] in Hdate, Hend. subst d e.
  assert (Hne : date <> []) by apply Hd.
  destruct date as [|c0 date0]; [congruence|].
  rewrite Hls.
  change (skipn (3 + length M) ((py "# " ++ (c0 :: date0) ++ py " notes")
                                  :: DIVIDER :: M ++ skeleton))
    with (skipn (S (length M)) (M ++ skeleton)).
  replace (skipn (S (length M)) (M ++ skeleton)) with (tl skeleton).
  2:{ rewrite skipn_app, skipn_all2 by lia.
      replace (S (length M) - length M) with 1 by lia. reflexivity. }
  apply scaffolder_fixpoint.
  rewrite header_only_block_text, splitlines_lines_text_app.
  assert (Hsk : splitlines (join [LF] (tl skeleton)) = tl skeleton)
    by (vm_compute; reflexivity).
  change [ISSUES_TITLE; DIVIDER; []; FOUND_TITLE; DIVIDER; [];
          REPORTS_TITLE; DIVIDER; []; BUGS_TITLE; DIVIDER] with (tl skeleton).
  rewrite Hsk. unfold complete, has_section. rewrite !existsb_app.
  assert (HI : existsb (header_match ISSUES_HEADERS) (tl skeleton) = true)
    by (vm_compute; reflexivity).
  assert (HF : existsb (header_match FOUND_HEADERS) (tl skeleton) = true)
    by (vm_compute; reflexivity).
  assert (HR : existsb (header_match REPORTS_HEADERS) (tl skeleton) = true)
    by (vm_compute; reflexivity).
  assert (HB : existsb (header_match BUGS_HEADERS) (tl skeleton) = true)
    by (vm_compute; reflexivity).
  rewrite HI, HF, HR, HB, !orb_true_r. reflexivity.
Qed.

Lemma replace_header_fresh_witness :
  @replace_header Samples.env (py "03-04-2025")
    (@header_block Samples.env (py "01-02-2025") Samples.users [] (py "123"))
    [(py "pc", py "carol")] (py "7") []
  = @header_only_block Samples.env (py "01-02-2025") [(py "pc", py "carol")] (py "7") []
    ++ join [LF] [ISSUES_TITLE; DIVIDER; []; FOUND_TITLE; DIVIDER; [];
                  REPORTS_TITLE; DIVIDER; []; BUGS_TITLE; DIVIDER].
Proof.
  apply (@replace_header_fresh Samples.env).
  - split; [discriminate|]. split; [reflexivity|].
    split; [apply break_freeb_ok; reflexivity|reflexivity].
  - intros p u H. unfold Samples.users in H. cbn [dict_get] in H.
    destruct (str_eqb (py "ps5") p).
    + injection H as <-. apply break_freeb_ok. reflexivity.
    + destruct (str_eqb (py "pc") p); [|discriminate].
      injection H as <-. apply break_freeb_ok. reflexivity.
  - reflexivity.
  - reflexivity.
Defined.

(** X18.  The issue list reads back the ledger.  When the lines of Issues
    Found are empty lines followed by the lines of well-formed issues (a
    time in normal form, a platform name of lower case letters and digits,
    a description that is not empty and trimmed), [issues_list] returns
    these issues, in order, one for one.  The interpreter agrees with
    ASCII. *)
Theorem issues_list_reads_issues {E : PyEnv} {A : AsciiSound} (text : pystr)
    (k : nat) (evs : list event) :
  section_lines ISSUES_HEADERS (splitlines text)
  = repeat [] k ++ map issue_text evs ->
  Forall issue_ok evs ->
  issues_list text = evs.
Proof. apply issues_list_of_section. Qed.

Lemma issues_list_reads_issues_witness :
  @issues_list Samples.env Samples.notes = [Samples.crash].
Proof.
  apply (@issues_list_reads_issues Samples.env (ascii_env_sound _) Samples.notes 0
           [Samples.crash]).
  - vm_compute. reflexivity.
  - constructor; [|constructor].
    split.
    + exists 48%N, 57%N, 48%N, 53%N, (py " PM").
      split; [reflexivity|]. split; [reflexivity|]. right. now right.
    + split; [discriminate|]. split; [reflexivity|].
      split; [discriminate|reflexivity].
Defined.

(** X19.  An issue that is added is listed.  On a document that holds the
    four sections and whose Issues Found section holds empty lines and
    the lines of well-formed issues, the issue list after [add_issue_line]
    is the list before it followed by the new issue: the time normalised,
    the platform in lower case, the description stripped.  The new issue
    is well formed and its description is free of line breaks. *)
Theorem added_issue_is_listed {E : PyEnv} {A : AsciiSound}
    (text t p d : pystr) (k : nat) (evs : list event) :
  let ev := mkEvent (normalize_time_12h t) (str_lower p) (strip d) in
  complete (splitlines text) = true ->
  section_lines ISSUES_HEADERS (splitlines text)
  = repeat [] k ++ map issue_text evs ->
  Forall issue_ok evs -> issue_ok ev -> break_free (strip d) ->
  issues_list text = evs
  /\ exists out, add_issue_line text t p d = Ok out
                 /\ issues_list out = evs ++ [ev].
Proof.
  intros ev Hc Hsec Hok Hev Hbd.
  split; [now apply (issues_list_of_section text k)|].
  set (ls := splitlines text) in *.
  set (nl := issue_text ev).
  rewrite add_issue_line_eq. cbv zeta.
  rewrite (scaffolder_fixpoint text Hc). fold ls.
  change (py "- [" ++ normalize_time_12h t ++ py "][" ++ str_lower p ++ py "] "
            ++ strip d) with nl.
  eexists. split; [reflexivity|].
  destruct (complete_bounds ls Hc) as [[[s e] HI] _].
  rewrite (section_end_some _ _ _ HI). cbn [snd].
  destruct (section_bounds_range _ _ _ _ HI) as [_ [_ [_ [Hse Hel]]]].
  assert (Hbf : break_free nl).
  { destruct Hev as [Hck [_ [Hpa _]]].
    unfold nl, issue_text. cbn [time platform desc ev].
    rewrite !break_free_app.
    repeat split; try (apply break_freeb_ok; reflexivity); [| |exact Hbd].
    - destruct Hck as [a [b [d1 [d2 [suf [Ht [Hd Hsuf]]]]]]].
      cbn [time ev] in Ht. rewrite Ht.
      cbn [forallb] in Hd. rewrite !andb_true_iff in Hd.
      destruct Hd as [Ha [Hb [Hd1 [Hd2 _]]]].
      assert (Hnb : forall c, is_digit_ascii c = true -> is_linebreak c = false).
      { intros c Hc'. unfold is_digit_ascii in Hc'. apply andb_true_iff in Hc'.
        destruct Hc' as [H1 H2]. apply N.leb_le in H1, H2.
        destruct (is_linebreak c) eqn:Hs; [|reflexivity].
        unfold is_linebreak, mem in Hs. apply existsb_exists in Hs.
        destruct Hs as [x [Hin Hx]]. apply N.eqb_eq in Hx. subst x.
        cbn [In] in Hin. exfalso. intuition lia. }
      intros c Hin. cbn [app py map list_ascii_of_string In] in Hin.
      destruct Hin as [<-|[<-|[<-|[<-|[<-|Hin]]]]]; auto.
      destruct Hsuf as [-> | [-> | ->]]; cbn in Hin;
        repeat destruct Hin as [<-|Hin]; try contradiction; reflexivity.
    - intros c Hin. cbn [platform ev] in Hpa.
      rewrite forallb_forall in Hpa. specialize (Hpa c Hin).
      unfold alnum, is_lower_ascii, is_digit_ascii in Hpa.
      destruct (is_linebreak c) eqn:Hs; [|reflexivity].
      unfold is_linebreak, mem in Hs. apply existsb_exists in Hs.
      destruct Hs as [x [Hin' Hx]]. apply N.eqb_eq in Hx. subst x.
      apply orb_true_iff in Hpa.
      destruct Hpa as [Hpa|Hpa]; apply andb_true_iff in Hpa;
        destruct Hpa as [H1 H2]; apply N.leb_le in H1, H2;
        cbn [In] in Hin'; exfalso; intuition lia. }
  assert (Hallbf : Forall break_free (insert_at e [nl] ls)).
  { apply Forall_insert_at; [now constructor|apply splitlines_break_free]. }
  apply (issues_list_of_section _ k).
  - rewrite (splitlines_join_lines _ Hallbf).
    pose proof (dash_bracket_plain
                  (normalize_time_12h t ++ py "][" ++ str_lower p ++ py "] " ++ strip d))
      as Hp.
    change (plain_line nl) in Hp.
    pose proof (section_bounds_insert_end _ _ _ _ _ HI Hp) as Hb'.
    assert (Hlast : e + 1 = length (insert_at e [nl] ls) ->
                    last (insert_at e [nl] ls) [] <> []).
    { rewrite length_insert_at. cbn [length]. intros He.
      assert (Heq : e = length ls) by lia.
      unfold insert_at. rewrite Heq, firstn_all, skipn_all.
      cbn [app]. rewrite last_last. discriminate. }
    destruct (section_chomp _ _ _ _ issues_hash_led Hb' Hlast) as [_ ->].
    rewrite (section_lines_insert_end _ _ _ _ _ HI Hp). fold ls.
    rewrite Hsec, map_app, <- app_assoc. reflexivity.
  - apply Forall_app. split; [exact Hok|]. now constructor.
Qed.

Lemma added_issue_is_listed_witness :
  @issues_list Samples.env Samples.notes = [Samples.crash]
  /\ exists out,
       @add_issue_line Samples.env Samples.notes (py "10:00 am") (py "PS5")
         (py " Freeze ") = Ok out
       /\ @issues_list Samples.env out
          = [Samples.crash; mkEvent (py "10:00 AM") (py "ps5") (py "Freeze")].
Proof.
  apply (@added_issue_is_listed Samples.env (ascii_env_sound _) Samples.notes
           (py "10:00 am") (py "PS5") (py " Freeze ") 0 [Samples.crash]).
  - vm_compute. reflexivity.
  - vm_compute. reflexivity.
  - constructor; [|constructor].
    split.
    + exists 48%N, 57%N, 48%N, 53%N, (py " PM").
      split; [reflexivity|]. split; [reflexivity|]. right. now right.
    + split; [discriminate|]. split; [reflexivity|].
      split; [discriminate|reflexivity].
  - split.
    + exists 49%N, 48%N, 48%N, 48%N, (py " AM").
      split; [vm_compute; reflexivity|]. split; [reflexivity|]. right. now left.
    + split; [discriminate|]. split; [reflexivity|].
      split; [discriminate|reflexivity].
  - apply break_freeb_ok. vm_compute. reflexivity.
Defined.
